(** * Practical optimization course: the notebooks and the functions they define

    The repository is a set of Jupyter notebooks.  This development has two
    parts.  The first part gives the definitions: a transcript of every code
    cell of every notebook (statements, the calls they make, the names they
    read and bind, the error outputs stored with the cell), what a run of a
    notebook from top to bottom does with its solver calls, and Rocq versions of the functions and classes the
    notebooks define themselves (the [Connection], [Doctor] and [Shift]
    classes, the [MyBounds] accept test, the nurse scheduling constraints, the
    risk constraint of the portfolio notebook and its sampling check), and of
    the optimization models they build: the constraints of the N-queens, tank,
    batch scheduling, doctors scheduling, nurse scheduling, facility location
    and urban zone fares models, with the variables as functions and the
    constraints as predicates on them.  The second part states and proves
    the properties. *)

From Stdlib Require Import ZArith QArith Reals Lra Lia List String Ascii Bool.
From stdpp Require Import gmap strings.
Import ListNotations.

Set Warnings "-register-all".

Local Open Scope string_scope.
Local Open Scope list_scope.

(** ** Notebooks as data *)

Module Notebook.

(** A call site.  [callee] is the dotted path of the called expression as it
    is written: names and attributes are kept ([model.solve]), a subscript is
    written [[]], an inner call [()], any other expression [_].  [keywords]
    are the keyword arguments; the value is kept when it is a name, an
    attribute path or a number, and is [_] otherwise.  [Lazy] marks a call
    that sits under a [lambda] or in the body of a generator expression
    (its first iterable apart): it is not evaluated when the statement
    itself runs. *)
Inductive call : Type :=
| Call (callee : string) (keywords : list (string * string))
| Lazy (callee : string) (keywords : list (string * string)).

(** The statements of a code cell, with the calls of their expressions in
    source order (a call before the calls of its arguments).  [SImport]
    lists the imported names ([module], [module.name], with [as alias]
    where the source has one), [SMagic] is an IPython magic line,
    [SInvalid] a line that is not Python, [SField] a field declaration
    [name: annotation] in a class body. *)
Inductive stmt : Type :=
| SImport (modules : list string)
| SMagic (line : string)
| SInvalid (line : string)
| SAssign (targets : list string) (calls : list call)
| SAugAssign (target : string) (calls : list call)
| SField (name annotation : string)
| SExpr (calls : list call)
| SReturn (calls : list call)
| SContinue
| SClassDef (name : string) (decorators bases : list string) (body : list stmt)
| SDef (name : string) (params : list string) (body : list stmt)
| SFor (target : string) (iter : list call) (body : list stmt)
| SWhile (test : list call) (body : list stmt)
| SIf (test : list call) (body orelse : list stmt)
| STry (body : list stmt) (handlers : list (list stmt)).

(** What a cell shows below its source after it ran. *)
Inductive output : Type :=
| OStream (name : string)
| OResult
| ODisplay
| OError (ename evalue : string).

(** A code cell: its place among the cells of the notebook (markdown
    cells are counted, from 0, but not transcribed), the execution count
    stored with it, its statements and its outputs. *)
Record code_cell : Type := {
  position : nat;
  execution_count : option nat;
  source : list stmt;
  outputs : list output
}.

(** A notebook: the source file it is in, its place in that file (a
    file may hold several notebooks one after the other), the heading of
    its first markdown cell, and its code cells in order. *)
Record notebook : Type := {
  file : string;
  index : nat;
  title : string;
  cells : list code_cell
}.

(** [Exercises/Jupyter notebooks/Batch scheduling.ipynb],
    notebook 0 of the file: Batch scheduling of a fermentation process *)
Definition batch_scheduling : notebook :=
  {| file := "Exercises/Jupyter notebooks/Batch scheduling.ipynb"; index := 0;
     title := "Batch scheduling of a fermentation process";
     cells := [
  {| position := 1; execution_count := Some 66;
     source := [
      SImport ["xpress as xp"]; SMagic "%env XPRESS=.."; SImport ["numpy as np"];
      SImport ["matplotlib.pyplot as plt"]; SImport ["math"];
      SAssign ["model"] [Call "xp.problem" []]; SAssign ["n"] [];
      SAssign ["nRange"] [Call "range" []]; SAssign ["t_m"] []; SAssign ["A_max"] [];
      SAssign ["Z_b"] []; SAssign ["t_min_fermentation"] []; SAssign ["t_max_fermentation"] [];
      SAssign ["t_min_purification"] []; SAssign ["t_max_purification"] []; SAssign ["C_m"] [];
      SAssign ["mu"] []; SAssign ["C_f"] []; SAssign ["phi"] []; SAssign ["C_p"] [];
      SAssign ["pi"] []; SAssign ["C_b"] []; SAssign ["beta"] []; SAssign ["C_w"] [];
      SAssign ["chi"] []; SAssign ["d"] [Call "np.array" []; Call "range" []];
      SAssign ["d"] [Call "np.append" []; Call "np.array" []; Call "range" []]];
     outputs := [] |};
  {| position := 2; execution_count := Some 67;
     source := [
      SAssign ["m"] []; SAssign ["M"] []; SAssign ["f"] []; SAssign ["F"] []; SAssign ["p"] [];
      SAssign ["P"] []; SAssign ["b"] []; SAssign ["B"] []; SAssign ["w"] []; SAssign ["W"] [];
      SExpr [Call "model.addVariable" []]];
     outputs := [] |};
  {| position := 4; execution_count := Some 68;
     source := [
      SInvalid "mixing_balance ="; SInvalid "fermentation_balance =";
      SInvalid "purification_balance ="; SInvalid "blending_balance =";
      SInvalid "warehousing_balance ="; SExpr [Call "model.addConstraint" []]];
     outputs := [] |}] |}.

(** [Exercises/Jupyter notebooks/Batch scheduling.part1.solution.ipynb],
    notebook 0 of the file: Batch scheduling of a fermentation process *)
Definition batch_scheduling_part1_solution : notebook :=
  {| file := "Exercises/Jupyter notebooks/Batch scheduling.part1.solution.ipynb"; index := 0;
     title := "Batch scheduling of a fermentation process";
     cells := [
  {| position := 1; execution_count := Some 66;
     source := [
      SImport ["xpress as xp"]; SMagic "%env XPRESS=.."; SImport ["numpy as np"];
      SImport ["matplotlib.pyplot as plt"]; SImport ["math"];
      SAssign ["model"] [Call "xp.problem" []]; SAssign ["n"] [];
      SAssign ["nRange"] [Call "range" []]; SAssign ["t_m"] []; SAssign ["A_max"] [];
      SAssign ["Z_b"] []; SAssign ["t_min_fermentation"] []; SAssign ["t_max_fermentation"] [];
      SAssign ["t_min_purification"] []; SAssign ["t_max_purification"] []; SAssign ["C_m"] [];
      SAssign ["mu"] []; SAssign ["C_f"] []; SAssign ["phi"] []; SAssign ["C_p"] [];
      SAssign ["pi"] []; SAssign ["C_b"] []; SAssign ["beta"] []; SAssign ["C_w"] [];
      SAssign ["chi"] []; SAssign ["d"] [Call "np.array" []; Call "range" []];
      SAssign ["d"] [Call "np.append" []; Call "np.array" []; Call "range" []]];
     outputs := [] |};
  {| position := 2; execution_count := Some 67;
     source := [
      SDef "get_variable_dictionary" ["name"] [
        SReturn [Call "xp.var" [("vartype", "xp.continuous"); ("lb", "0"); ("name", "_")]]];
      SAssign ["m"] [Call "get_variable_dictionary" []];
      SAssign ["M"] [Call "get_variable_dictionary" []];
      SAssign ["f"] [Call "get_variable_dictionary" []];
      SAssign ["F"] [Call "get_variable_dictionary" []];
      SAssign ["p"] [Call "get_variable_dictionary" []];
      SAssign ["P"] [Call "get_variable_dictionary" []];
      SAssign ["b"] [Call "get_variable_dictionary" []];
      SAssign ["B"] [Call "get_variable_dictionary" []];
      SAssign ["w"] [Call "get_variable_dictionary" []];
      SAssign ["W"] [Call "get_variable_dictionary" []]; SExpr [Call "model.addVariable" []]];
     outputs := [] |};
  {| position := 4; execution_count := Some 68;
     source := [
      SAssign ["mixing_balance"] [Lazy "xp.constraint" [("name", "_")]; Lazy "xp.Sum" []; Lazy "range" []];
      SAssign ["fermentation_balance"] [Lazy "xp.constraint" [("name", "_")]; Lazy "xp.Sum" []; Lazy "range" []];
      SAssign ["purification_balance"] [Lazy "xp.constraint" [("name", "_")]; Lazy "xp.Sum" []; Lazy "range" []];
      SAssign ["blending_balance"] [Lazy "xp.constraint" [("name", "_")]; Lazy "xp.Sum" []; Lazy "range" []];
      SAssign ["warehousing_balance"] [Lazy "xp.constraint" [("name", "_")]; Lazy "xp.Sum" []; Lazy "range" []];
      SExpr [Call "model.addConstraint" []]];
     outputs := [] |}] |}.

(** [Exercises/Jupyter notebooks/.ipynb_checkpoints/Batch scheduling.part2.solution-checkpoint.ipynb],
    notebook 0 of the file: Batch scheduling of a fermentation process *)
Definition batch_scheduling_part2_solution : notebook :=
  {| file := "Exercises/Jupyter notebooks/.ipynb_checkpoints/Batch scheduling.part2.solution-checkpoint.ipynb"; index := 0;
     title := "Batch scheduling of a fermentation process";
     cells := [
  {| position := 1; execution_count := Some 66;
     source := [
      SImport ["xpress as xp"]; SMagic "%env XPRESS=.."; SImport ["numpy as np"];
      SImport ["matplotlib.pyplot as plt"]; SImport ["math"];
      SAssign ["model"] [Call "xp.problem" []]; SAssign ["n"] [];
      SAssign ["nRange"] [Call "range" []]; SAssign ["t_m"] []; SAssign ["A_max"] [];
      SAssign ["Z_b"] []; SAssign ["t_min_fermentation"] []; SAssign ["t_max_fermentation"] [];
      SAssign ["t_min_purification"] []; SAssign ["t_max_purification"] []; SAssign ["C_m"] [];
      SAssign ["mu"] []; SAssign ["C_f"] []; SAssign ["phi"] []; SAssign ["C_p"] [];
      SAssign ["pi"] []; SAssign ["C_b"] []; SAssign ["beta"] []; SAssign ["C_w"] [];
      SAssign ["chi"] []; SAssign ["d"] [Call "np.array" []; Call "range" []];
      SAssign ["d"] [Call "np.append" []; Call "np.array" []; Call "range" []]];
     outputs := [] |};
  {| position := 2; execution_count := Some 67;
     source := [
      SDef "get_variable_dictionary" ["name"] [
        SReturn [Call "xp.var" [("vartype", "xp.continuous"); ("lb", "0"); ("name", "_")]]];
      SAssign ["m"] [Call "get_variable_dictionary" []];
      SAssign ["M"] [Call "get_variable_dictionary" []];
      SAssign ["f"] [Call "get_variable_dictionary" []];
      SAssign ["F"] [Call "get_variable_dictionary" []];
      SAssign ["p"] [Call "get_variable_dictionary" []];
      SAssign ["P"] [Call "get_variable_dictionary" []];
      SAssign ["b"] [Call "get_variable_dictionary" []];
      SAssign ["B"] [Call "get_variable_dictionary" []];
      SAssign ["w"] [Call "get_variable_dictionary" []];
      SAssign ["W"] [Call "get_variable_dictionary" []]; SExpr [Call "model.addVariable" []]];
     outputs := [] |};
  {| position := 4; execution_count := Some 68;
     source := [
      SAssign ["mixing_balance"] [Lazy "xp.constraint" [("name", "_")]; Lazy "xp.Sum" []; Lazy "range" []];
      SAssign ["fermentation_balance"] [Lazy "xp.constraint" [("name", "_")]; Lazy "xp.Sum" []; Lazy "range" []];
      SAssign ["purification_balance"] [Lazy "xp.constraint" [("name", "_")]; Lazy "xp.Sum" []; Lazy "range" []];
      SAssign ["blending_balance"] [Lazy "xp.constraint" [("name", "_")]; Lazy "xp.Sum" []; Lazy "range" []];
      SAssign ["warehousing_balance"] [Lazy "xp.constraint" [("name", "_")]; Lazy "xp.Sum" []; Lazy "range" []];
      SExpr [Call "model.addConstraint" []]];
     outputs := [] |};
  {| position := 6; execution_count := Some 69;
     source := [
      SAssign ["fixing_mixing_time"] [Lazy "xp.constraint" [("name", "_")]];
      SAssign ["fixing_mixing_time_time0"] [Call "range" []; Lazy "xp.constraint" [("name", "_")]]];
     outputs := [] |};
  {| position := 8; execution_count := Some 70;
     source := [
      SAssign ["minimum_time_fermentation"] [Lazy "xp.constraint" [("name", "_")]; Lazy "xp.Sum" []; Lazy "range" []; Lazy "min" []];
      SAssign ["maximum_time_fermentation"] [Lazy "xp.constraint" [("name", "_")]; Lazy "xp.Sum" []; Lazy "range" []; Lazy "min" []]];
     outputs := [] |};
  {| position := 10; execution_count := Some 71;
     source := [
      SAssign ["minimum_time_purification"] [Lazy "xp.constraint" [("name", "_")]; Lazy "xp.Sum" []; Lazy "range" []; Lazy "min" []];
      SAssign ["maximum_time_purification"] [Lazy "xp.constraint" [("name", "_")]; Lazy "xp.Sum" []; Lazy "range" []; Lazy "min" []]];
     outputs := [] |};
  {| position := 12; execution_count := Some 72;
     source := [
      SAssign ["fix_blending_time"] [Lazy "xp.constraint" [("name", "_")]];
      SAssign ["limit_capacity"] [Lazy "xp.constraint" [("name", "_")]];
      SAssign ["limit_capacity_throughout"] [Lazy "xp.constraint" [("name", "_")]]];
     outputs := [] |};
  {| position := 14; execution_count := Some 74;
     source := [
      SAssign ["warehouse_age_limit"] [Lazy "xp.constraint" [("name", "_")]; Lazy "xp.Sum" []; Lazy "range" []; Lazy "min" []];
      SExpr [Call "model.addConstraint" []]];
     outputs := [] |};
  {| position := 16; execution_count := Some 75;
     source := [
      SExpr [Call "model.setObjective" []; Call "xp.Sum" []]];
     outputs := [] |}] |}.

(** [Exercises/Jupyter notebooks/Doctors scheduling.part1.solution.ipynb],
    notebook 0 of the file: Scheduling the doctors for the paediatric units of Hamburg *)
Definition doctors_scheduling_part1_solution : notebook :=
  {| file := "Exercises/Jupyter notebooks/Doctors scheduling.part1.solution.ipynb"; index := 0;
     title := "Scheduling the doctors for the paediatric units of Hamburg";
     cells := [
  {| position := 1; execution_count := Some 1;
     source := [
      SImport ["xpress as xp"]; SMagic "%env XPRESS=.."; SImport ["pandas as pd"];
      SImport ["numpy as np"]; SImport ["dataclasses.dataclass"]; SImport ["datetime.datetime"];
      SImport ["datetime.timedelta"]; SImport ["datetime.time"];
      SAssign ["df"] [Call "pd.read_excel" [("sheet_name", "_")]];
      SAssign ["start_time"] [Call "datetime" []]; SAssign ["end_time"] [Call "datetime" []];
      SAssign ["day_limit"] []; SAssign ["total_work_time"] [];
      SClassDef "Doctor" [] [] [
        SDef "__init__" ["self"; "name"; "is_pregnant"; "allocation"; "work_locations"] [
          SAssign ["self.name"] []; SAssign ["self.is_pregnant"] []; SAssign ["self.allocation"] [];
          SAssign ["self.work_locations"] []]];
      SClassDef "Shift" [] [] [
        SDef "__init__" ["self"; "start_time"; "end_time"] [
          SAssign ["self.start_time"] []; SAssign ["self.end_time"] [];
          SAssign ["self.duration_in_hours"] [Call "_.total_seconds" []];
          SAssign ["self.is_nightshift"] [Call "start_time.time" []; Call "time" []; Call "start_time.time" []; Call "time" []];
          SAssign ["self.can_work_pregnant"] []]];
      SAssign ["hospitals"] [Call "df[][].tolist" []]; SAssign ["doctors"] [Call "list" []];
      SFor "index,row" [Call "df[].iterrows" []] [
        SAssign ["is_pregnant"] []; SAssign ["work_list"] [Call "list" []];
        SFor "hospital" [] [
          SIf [] [
            SExpr [Call "work_list.append" []]] []];
        SExpr [Call "doctors.append" []; Call "Doctor" []]];
      SAssign ["shifts"] [Call "list" []]; SAssign ["shift_days"] [Call "list" []];
      SAssign ["current"] []; SAssign ["weekday_times"] []; SAssign ["weekend_times"] [];
      SWhile [] [
        SExpr [Call "shift_days.append" []];
        SIf [Call "current.weekday" []] [
          SAugAssign "shifts" [Call "Shift" []; Call "timedelta" [("hours", "start")]; Call "timedelta" [("hours", "end")]]] [
          SAugAssign "shifts" [Call "Shift" []; Call "timedelta" [("hours", "start")]; Call "timedelta" [("hours", "end")]]];
        SAugAssign "current" [Call "timedelta" [("days", "1")]]];
      SClassDef "Placement" ["dataclass(frozen=True)"] [] [
        SField "doctor" "Doctor"; SField "shift" "Shift"; SField "hospital" "str"];
      SAssign ["placements"] [Call "Placement" []];
      SClassDef "Nightshift" ["dataclass(frozen=True)"] [] [
        SField "doctor" "Doctor"; SField "day" "datetime"];
      SAssign ["nightshifts"] [Call "Nightshift" []]];
     outputs := [] |};
  {| position := 3; execution_count := Some 2;
     source := [
      SAssign ["model"] [Call "xp.problem" []];
      SAssign ["x"] [Call "xp.var" [("vartype", "xp.binary"); ("name", "_")]];
      SAssign ["y"] [Call "xp.var" [("vartype", "xp.integer"); ("lb", "-1"); ("ub", "1"); ("name", "_")]];
      SAssign ["t"] [Call "xp.var" [("vartype", "xp.continuous"); ("lb", "0"); ("name", "_")]];
      SExpr [Call "model.addVariable" []]];
     outputs := [] |};
  {| position := 5; execution_count := Some 3;
     source := [
      SAssign ["force_shift_fulfillment"] [Lazy "xp.constraint" [("name", "_")]; Lazy "xp.Sum" []]];
     outputs := [] |};
  {| position := 7; execution_count := Some 4;
     source := [
      SAssign ["one_shift_limit"] [Lazy "xp.constraint" [("name", "_")]; Lazy "xp.Sum" []; Lazy "p.shift.start_time.date" []; Lazy "t.date" []]];
     outputs := [] |};
  {| position := 9; execution_count := Some 5;
     source := [
      SAssign ["max_time_working"] [Lazy "xp.constraint" [("name", "_")]; Lazy "xp.Sum" []; Lazy "range" []; Lazy "p.shift.start_time.date" []; Lazy "_.date" []; Lazy "timedelta" [("days", "j")]]];
     outputs := [] |};
  {| position := 11; execution_count := Some 6;
     source := [
      SAssign ["hospital_limit"] [Lazy "xp.constraint" []]];
     outputs := [] |};
  {| position := 13; execution_count := Some 7;
     source := [
      SAssign ["pregnancy_limit"] [Lazy "xp.constraint" []]];
     outputs := [] |};
  {| position := 15; execution_count := Some 8;
     source := [
      SAssign ["force_nightshift_work"] [Lazy "xp.constraint" []];
      SAssign ["force_rest"] [Lazy "xp.constraint" []]; SExpr [Call "model.addConstraint" []]];
     outputs := [OError "SystemError" "<method 'addConstraint' of 'xpress.problem' objects> returned a result with an error set"] |};
  {| position := 17; execution_count := None;
     source := [
      SExpr [Call "model.setObjective" []]];
     outputs := [] |};
  {| position := 19; execution_count := None;
     source := [
      SExpr [Call "model.solve" []]; SExpr [Call "print" []; Call "model.getProbStatusString" []]];
     outputs := [] |};
  {| position := 21; execution_count := None;
     source := [
      SFor "d" [] [
        SAssign ["work_time"] [Call "sum" []; Lazy "model.getSolution" []];
        SExpr [Call "print" []; Call "np.round" []]]];
     outputs := [] |}] |}.

(** [Exercises/Jupyter notebooks/Doctors scheduling.solution.ipynb],
    notebook 0 of the file: Scheduling the doctors for the paediatric units of Hamburg *)
Definition doctors_scheduling_solution : notebook :=
  {| file := "Exercises/Jupyter notebooks/Doctors scheduling.solution.ipynb"; index := 0;
     title := "Scheduling the doctors for the paediatric units of Hamburg";
     cells := [
  {| position := 1; execution_count := Some 2;
     source := [
      SImport ["xpress as xp"]; SMagic "%env XPRESS=.."; SImport ["pandas as pd"];
      SImport ["numpy as np"]; SImport ["dataclasses.dataclass"]; SImport ["datetime.datetime"];
      SImport ["datetime.timedelta"]; SImport ["datetime.time"];
      SAssign ["df"] [Call "pd.read_excel" [("sheet_name", "_")]];
      SAssign ["start_time"] [Call "datetime" []]; SAssign ["end_time"] [Call "datetime" []];
      SAssign ["day_limit"] []; SAssign ["total_work_time"] [];
      SClassDef "Doctor" [] [] [
        SDef "__init__" ["self"; "name"; "is_pregnant"; "allocation"; "work_locations"] [
          SAssign ["self.name"] []; SAssign ["self.is_pregnant"] []; SAssign ["self.allocation"] [];
          SAssign ["self.work_locations"] []]];
      SClassDef "Shift" [] [] [
        SDef "__init__" ["self"; "start_time"; "end_time"] [
          SAssign ["self.start_time"] []; SAssign ["self.end_time"] [];
          SAssign ["self.duration_in_hours"] [Call "_.total_seconds" []];
          SAssign ["self.is_nightshift"] [Call "start_time.time" []; Call "time" []; Call "start_time.time" []; Call "time" []];
          SAssign ["self.can_work_pregnant"] []]];
      SAssign ["hospitals"] [Call "df[][].tolist" []]; SAssign ["doctors"] [Call "list" []];
      SFor "index,row" [Call "df[].iterrows" []] [
        SAssign ["is_pregnant"] []; SAssign ["work_list"] [Call "list" []];
        SFor "hospital" [] [
          SIf [] [
            SExpr [Call "work_list.append" []]] []];
        SExpr [Call "doctors.append" []; Call "Doctor" []]];
      SAssign ["shifts"] [Call "list" []]; SAssign ["shift_days"] [Call "list" []];
      SAssign ["current"] []; SAssign ["weekday_times"] []; SAssign ["weekend_times"] [];
      SWhile [] [
        SExpr [Call "shift_days.append" []];
        SIf [Call "current.weekday" []] [
          SAugAssign "shifts" [Call "Shift" []; Call "timedelta" [("hours", "start")]; Call "timedelta" [("hours", "end")]]] [
          SAugAssign "shifts" [Call "Shift" []; Call "timedelta" [("hours", "start")]; Call "timedelta" [("hours", "end")]]];
        SAugAssign "current" [Call "timedelta" [("days", "1")]]];
      SClassDef "Placement" ["dataclass(frozen=True)"] [] [
        SField "doctor" "Doctor"; SField "shift" "Shift"; SField "hospital" "str"];
      SAssign ["placements"] [Call "Placement" []];
      SClassDef "Nightshift" ["dataclass(frozen=True)"] [] [
        SField "doctor" "Doctor"; SField "day" "datetime"];
      SAssign ["nightshifts"] [Call "Nightshift" []]];
     outputs := [] |};
  {| position := 3; execution_count := Some 3;
     source := [
      SAssign ["model"] [Call "xp.problem" []];
      SAssign ["x"] [Call "xp.var" [("vartype", "xp.binary"); ("name", "_")]];
      SAssign ["y"] [Call "xp.var" [("vartype", "xp.integer"); ("lb", "-1"); ("ub", "1"); ("name", "_")]];
      SAssign ["t"] [Call "xp.var" [("vartype", "xp.continuous"); ("lb", "0"); ("name", "_")]];
      SExpr [Call "model.addVariable" []]];
     outputs := [] |};
  {| position := 5; execution_count := Some 4;
     source := [
      SAssign ["force_shift_fulfillment"] [Lazy "xp.constraint" [("name", "_")]; Lazy "xp.Sum" []]];
     outputs := [] |};
  {| position := 7; execution_count := Some 5;
     source := [
      SAssign ["one_shift_limit"] [Lazy "xp.constraint" [("name", "_")]; Lazy "xp.Sum" []; Lazy "p.shift.start_time.date" []; Lazy "t.date" []]];
     outputs := [] |};
  {| position := 9; execution_count := Some 6;
     source := [
      SAssign ["max_time_working"] [Lazy "xp.constraint" [("name", "_")]; Lazy "xp.Sum" []; Lazy "range" []; Lazy "p.shift.start_time.date" []; Lazy "_.date" []; Lazy "timedelta" [("days", "j")]]];
     outputs := [] |};
  {| position := 11; execution_count := Some 7;
     source := [
      SAssign ["hospital_limit"] [Lazy "xp.constraint" [("name", "_")]; Lazy "xp.Sum" []]];
     outputs := [] |};
  {| position := 13; execution_count := Some 8;
     source := [
      SAssign ["pregnancy_limit"] [Lazy "xp.constraint" [("name", "_")]; Lazy "xp.Sum" []]];
     outputs := [] |};
  {| position := 15; execution_count := Some 9;
     source := [
      SAssign ["force_nightshift_work"] [Lazy "xp.constraint" [("name", "_")]; Lazy "xp.Sum" []; Lazy "range" []; Lazy "p.shift.start_time.date" []; Lazy "n.day.date" []; Lazy "timedelta" [("days", "k")]];
      SAssign ["force_rest"] [Lazy "xp.constraint" [("name", "_")]; Lazy "xp.Sum" []; Lazy "range" []; Lazy "p.shift.start_time.date" []; Lazy "n.day.date" []; Lazy "timedelta" [("days", "k")]];
      SExpr [Call "model.addConstraint" []]];
     outputs := [] |};
  {| position := 17; execution_count := Some 10;
     source := [
      SAssign ["aux_definition1"] [Lazy "xp.constraint" [("name", "_")]; Lazy "xp.Sum" []];
      SAssign ["aux_definition2"] [Lazy "xp.constraint" [("name", "_")]; Lazy "xp.Sum" []];
      SExpr [Call "model.addConstraint" []]; SExpr [Call "model.setObjective" []; Call "xp.Sum" []]];
     outputs := [] |};
  {| position := 19; execution_count := Some 11;
     source := [
      SExpr [Call "model.solve" []]; SExpr [Call "print" []; Call "model.getProbStatusString" []]];
     outputs := [OStream "stdout"] |};
  {| position := 21; execution_count := Some 12;
     source := [
      SFor "d" [] [
        SAssign ["work_time"] [Call "sum" []; Lazy "model.getSolution" []];
        SExpr [Call "print" []; Call "np.round" []]]];
     outputs := [OStream "stdout"] |}] |}.

(** [Exercises/Jupyter notebooks/.ipynb_checkpoints/Facility location problem.solution-checkpoint.ipynb],
    notebook 0 of the file: Facility location problem *)
Definition facility_location_solution : notebook :=
  {| file := "Exercises/Jupyter notebooks/.ipynb_checkpoints/Facility location problem.solution-checkpoint.ipynb"; index := 0;
     title := "Facility location problem";
     cells := [
  {| position := 1; execution_count := Some 124;
     source := [
      SImport ["xpress as xp"]; SMagic "%env XPRESS=.."; SImport ["matplotlib.pyplot as plt"];
      SImport ["networkx as nx"]; SImport ["numpy as np"]; SImport ["pandas as pd"];
      SImport ["math"]; SImport ["sys.stdout"]; SImport ["dataclasses.dataclass"];
      SAssign ["model"] [Call "xp.problem" []];
      SClassDef "Unit" ["dataclass(frozen=True)"] [] [
        SField "name" "str"; SField "coordinate" "tuple";
        SDef "get_distance" ["self"; "other_unit"] [
          SReturn [Call "np.sqrt" []; Call "np.sum" []; Call "np.square" []; Call "np.subtract" []]]];
      SClassDef "Facility" ["dataclass(frozen=True)"] ["Unit"] [
        SField "construction_cost" "float"];
      SClassDef "Client" ["dataclass(frozen=True)"] ["Unit"] [
        SField "demand" "float"];
      SClassDef "Connection" [] [] [
        SDef "__init__" ["self"; "origin"; "destination"] [
          SAssign ["self.origin"] []; SAssign ["self.destination"] [];
          SAssign ["self.distance"] [Call "origin.get_distance" []]]]];
     outputs := [] |};
  {| position := 3; execution_count := Some 125;
     source := [
      SAssign ["clients"] [Call "Client" []; Call "Client" []];
      SAssign ["construction_cost"] [Call "np.array" []];
      SAssign ["facilities"] [Call "Facility" []; Call "range" []; Call "range" []];
      SAssign ["connections"] [Call "Connection" []]; SAssign ["mileage_cost"] [];
      SAssign ["max_transport_from_facility"] []; SAssign ["n_factories"] []];
     outputs := [] |};
  {| position := 5; execution_count := Some 126;
     source := [
      SAssign ["f"] [Call "xp.var" [("vartype", "xp.continuous"); ("lb", "0"); ("ub", "max_transport_from_facility"); ("name", "_")]]];
     outputs := [] |};
  {| position := 7; execution_count := Some 127;
     source := [
      SAssign ["x"] [Call "xp.var" [("vartype", "xp.binary"); ("name", "_")]];
      SExpr [Call "model.addVariable" []]];
     outputs := [] |};
  {| position := 9; execution_count := Some 128;
     source := [
      SAssign ["maximum_capacity"] [Lazy "xp.constraint" [("name", "_")]; Lazy "xp.Sum" []]];
     outputs := [] |};
  {| position := 11; execution_count := Some 129;
     source := [
      SAssign ["flows_zero_if_not_selected"] [Lazy "xp.constraint" [("name", "_")]]];
     outputs := [] |};
  {| position := 13; execution_count := Some 130;
     source := [
      SAssign ["fix_number_of_factories"] [Call "xp.constraint" [("name", "_")]; Call "xp.Sum" []]];
     outputs := [] |};
  {| position := 15; execution_count := Some 131;
     source := [
      SAssign ["demand_satisfaction"] [Lazy "xp.constraint" [("name", "_")]; Lazy "xp.Sum" []];
      SExpr [Call "model.addConstraint" []]];
     outputs := [] |};
  {| position := 17; execution_count := Some 1;
     source := [
      SExpr [Call "model.setObjective" []; Call "xp.Sum" []; Lazy "xp.Sum" []]];
     outputs := [OError "NameError" "name 'model' is not defined"] |};
  {| position := 19; execution_count := Some 133;
     source := [
      SExpr [Call "model.solve" []]; SAssign ["fVal"] [Call "model.getSolution" []];
      SAssign ["xVal"] [Call "model.getSolution" []]];
     outputs := [] |};
  {| position := 21; execution_count := Some 142;
     source := [
      SAssign ["pos"] []; SAssign ["G"] [Call "nx.Graph" []]; SExpr [Call "G.add_edges_from" []];
      SAssign ["color_map"] [];
      SFor "node" [] [
        SIf [] [
          SExpr [Call "color_map.append" []]] [
          SExpr [Call "color_map.append" []]]];
      SExpr [Call "nx.draw_networkx" [("node_size", "500"); ("node_color", "color_map")]];
      SAssign ["H"] [Call "nx.Graph" []]; SExpr [Call "H.add_nodes_from" []];
      SExpr [Call "nx.draw_networkx_nodes" [("node_size", "500"); ("node_color", "_")]];
      SExpr [Call "nx.draw_networkx_labels" []]; SExpr [Call "plt.show" []]];
     outputs := [ODisplay] |}] |}.

(** [Exercises/Jupyter notebooks/Introduction to Python.ipynb],
    notebook 0 of the file: Introduction to Python *)
Definition introduction_to_python : notebook :=
  {| file := "Exercises/Jupyter notebooks/Introduction to Python.ipynb"; index := 0;
     title := "Introduction to Python";
     cells := [
  {| position := 1; execution_count := Some 1;
     source := [
      SDef "rectangle_area" ["width"; "length"] [
        SReturn []]];
     outputs := [] |};
  {| position := 3; execution_count := Some 2;
     source := [
      SClassDef "Rectangle" [] [] [
        SDef "__init__" ["self"; "width"; "length"] [
          SAssign ["self.width"] []; SAssign ["self.length"] []];
        SDef "area" ["self"] [
          SReturn []]]];
     outputs := [] |};
  {| position := 5; execution_count := Some 3;
     source := [
      SAssign ["width"] []; SAssign ["length"] [];
      SExpr [Call "print" []; Call "rectangle_area" []];
      SAssign ["the_rectangle"] [Call "Rectangle" []];
      SExpr [Call "print" []; Call "the_rectangle.area" []]];
     outputs := [OStream "stdout"] |};
  {| position := 8; execution_count := None;
     source := [
      SImport ["math"];
      SDef "triangle_area" ["p1"; "p2"; "p3"] [
        SAssign ["term1"] []; SAssign ["term2"] []; SAssign ["term3"] [];
        SReturn [Call "math.abs" []]]];
     outputs := [] |};
  {| position := 11; execution_count := None;
     source := [
      SImport ["math.*"]; SAssign ["x"] [Call "sqrt" []]; SAssign ["y"] [Call "abs" []]];
     outputs := [] |};
  {| position := 13; execution_count := None;
     source := [
      SImport ["math.*"]; SImport ["brakingsystems.*"]; SAssign ["x"] [Call "abs" []]];
     outputs := [] |};
  {| position := 15; execution_count := None;
     source := [
      SImport ["numpy as np"]; SImport ["scipy as sp"]; SImport ["pandas as pd"];
      SImport ["matplotlib.pyplot as plt"]];
     outputs := [] |};
  {| position := 18; execution_count := Some 18;
     source := [
      SAssign ["t"] []; SInvalid "  u = 5"];
     outputs := [OError "IndentationError" "unexpected indent (<ipython-input-18-85ecaaca66ef>, line 2)"] |};
  {| position := 21; execution_count := Some 23;
     source := [
      SAssign ["p"] []; SExpr []];
     outputs := [OError "IndexError" "list index out of range"] |};
  {| position := 23; execution_count := Some 11;
     source := [
      SAssign ["a"] []; SAssign ["b"] []; SAssign ["a"] []; SExpr [Call "print" []]];
     outputs := [OStream "stdout"] |};
  {| position := 25; execution_count := Some 12;
     source := [
      SAssign ["a"] []; SAssign ["b"] []; SExpr [Call "a.append" []]; SExpr [Call "print" []]];
     outputs := [OStream "stdout"] |};
  {| position := 27; execution_count := Some 13;
     source := [
      SAssign ["a"] []; SAssign ["b"] [Call "a.copy" []]; SExpr [Call "a.append" []];
      SExpr [Call "print" []]];
     outputs := [OStream "stdout"] |};
  {| position := 29; execution_count := Some 7;
     source := [
      SAssign ["people"] []; SAssign ["height"] [];
      SAssign ["heights"] [Call "range" []; Call "len" []]; SExpr []];
     outputs := [OResult] |};
  {| position := 31; execution_count := Some 6;
     source := [
      SAssign ["heights"] []; SAssign ["heights[]"] []; SAssign ["heights[]"] [];
      SAssign ["heights[]"] []; SAssign ["heights[]"] []; SExpr []];
     outputs := [OResult] |};
  {| position := 33; execution_count := Some 33;
     source := [
      SAssign ["city"] []; SAssign ["heights_by_city"] [Call "range" []; Call "len" []]; SExpr []];
     outputs := [OResult] |};
  {| position := 35; execution_count := Some 43;
     source := [
      SImport ["pandas as pd"]; SAssign ["weight"] [];
      SAssign ["heights_and_weights"] [Call "range" []; Call "len" []];
      SAssign ["df"] [Call "pd.DataFrame" [("data", "heights_and_weights"); ("index", "_")]]];
     outputs := [] |};
  {| position := 36; execution_count := Some 44;
     source := [
      SExpr []];
     outputs := [OResult] |};
  {| position := 37; execution_count := Some 45;
     source := [
      SExpr []];
     outputs := [OResult] |};
  {| position := 38; execution_count := Some 46;
     source := [
      SExpr []];
     outputs := [OResult] |};
  {| position := 40; execution_count := Some 3;
     source := [
      SImport ["dataclasses.dataclass"];
      SClassDef "Rectangle" ["dataclass"] [] [
        SField "width" "float"; SField "length" "float";
        SDef "area" ["self"] [
          SReturn []]]];
     outputs := [] |};
  {| position := 42; execution_count := Some 6;
     source := [
      SClassDef "Rectangle" ["dataclass(frozen=True)"] [] [
        SField "width" "float"; SField "length" "float";
        SDef "area" ["self"] [
          SReturn []]]];
     outputs := [] |}] |}.

(** [Exercises/Jupyter notebooks/N-queens problem.ipynb],
    notebook 0 of the file: N-queens problem *)
Definition n_queens : notebook :=
  {| file := "Exercises/Jupyter notebooks/N-queens problem.ipynb"; index := 0;
     title := "N-queens problem";
     cells := [
  {| position := 1; execution_count := Some 1;
     source := [
      SImport ["xpress as xp"]; SImport ["numpy as np"]; SImport ["math"];
      SImport ["dataclasses.dataclass"]; SImport ["sys.stdout"];
      SAssign ["model"] [Call "xp.problem" []]; SAssign ["n"] [];
      SAssign ["nRange"] [Call "range" []];
      SClassDef "Position" ["dataclass(frozen=True)"] [] [
        SField "row" "int"; SField "column" "int"];
      SAssign ["positions"] [Call "Position" []];
      SDef "get_pos" ["positions"; "i"; "j"] [
        SReturn [Call "_.pop" []]];
      SAssign ["x"] [Call "xp.var" [("vartype", "xp.binary"); ("name", "_")]];
      SExpr [Call "model.addVariable" []]];
     outputs := [] |};
  {| position := 3; execution_count := Some 2;
     source := [
      SAssign ["one_queen_per_column"] [Lazy "xp.constraint" [("name", "_")]; Lazy "xp.Sum" []]];
     outputs := [] |};
  {| position := 5; execution_count := Some 4;
     source := [
      SAssign ["one_queen_per_row"] [Lazy "xp.constraint" [("name", "_")]; Lazy "xp.Sum" []]];
     outputs := [] |};
  {| position := 7; execution_count := Some 5;
     source := [
      SAssign ["one_queen_per_first_diagonal_rows"] [Lazy "xp.constraint" [("name", "_")]; Lazy "xp.Sum" []; Lazy "range" []; Lazy "get_pos" []];
      SAssign ["one_queen_per_first_diagonal_columns"] [Lazy "xp.constraint" [("name", "_")]; Lazy "xp.Sum" []; Lazy "range" []; Lazy "get_pos" []];
      SAssign ["one_queen_per_second_diagonal_columns"] [Lazy "xp.constraint" [("name", "_")]; Lazy "xp.Sum" []; Lazy "range" []; Lazy "get_pos" []];
      SAssign ["one_queen_per_second_diagonal_rows"] [Lazy "xp.constraint" [("name", "_")]; Lazy "xp.Sum" []; Lazy "range" []; Lazy "get_pos" []]];
     outputs := [] |};
  {| position := 9; execution_count := Some 7;
     source := [
      SAssign ["n_queens_on_board"] [Call "xp.constraint" [("name", "_")]; Call "xp.Sum" []]];
     outputs := [] |};
  {| position := 11; execution_count := Some 8;
     source := [
      SExpr [Call "model.addConstraint" []]; SExpr [Call "model.solve" []]];
     outputs := [] |};
  {| position := 12; execution_count := Some 9;
     source := [
      SAssign ["xVal"] [Call "model.getSolution" []]; SExpr [Call "stdout.write" []];
      SFor "i" [] [
        SIf [] [
          SExpr [Call "stdout.write" []]] [];
        SFor "j" [] [
          SExpr [Call "stdout.write" []]; SExpr [Call "stdout.write" []; Call "get_pos" []]]];
      SExpr [Call "stdout.write" []]];
     outputs := [OStream "stdout"] |};
  {| position := 13; execution_count := None;
     source := [
      SExpr []];
     outputs := [] |}] |}.

(** [Exercises/Jupyter notebooks/.ipynb_checkpoints/Portfolio optimization with basinhopping-checkpoint.ipynb],
    notebook 0 of the file: Do portfolio optimization with basinhopping *)
Definition portfolio_basinhopping : notebook :=
  {| file := "Exercises/Jupyter notebooks/.ipynb_checkpoints/Portfolio optimization with basinhopping-checkpoint.ipynb"; index := 0;
     title := "Do portfolio optimization with basinhopping";
     cells := [
  {| position := 1; execution_count := Some 2;
     source := [
      SImport ["scipy.optimize.basinhopping"]; SImport ["numpy as np"];
      SImport ["scipy.stats.norm"]; SAssign ["pbar"] []; SAssign ["sigma"] []; SAssign ["alpha"] [];
      SAssign ["beta"] []; SAssign ["N"] [Call "len" []]];
     outputs := [] |};
  {| position := 3; execution_count := Some 3;
     source := [
      SAssign ["func"] []; SAssign ["x0"] []];
     outputs := [] |};
  {| position := 5; execution_count := Some 11;
     source := [
      SAssign ["scaling"] [Call "norm.ppf" []]; SAssign ["cons"] []];
     outputs := [] |};
  {| position := 6; execution_count := Some 14;
     source := [
      SAssign ["minimizer_kwargs"] [];
      SAssign ["ret"] [Call "basinhopping" [("minimizer_kwargs", "minimizer_kwargs"); ("niter", "200")]];
      SExpr [Call "print" []]];
     outputs := [OStream "stdout"] |}] |}.

(** [Exercises/Jupyter notebooks/.ipynb_checkpoints/Portfolio optimization with basinhopping-checkpoint.ipynb],
    notebook 1 of the file: Model predictive control: the tank problem *)
Definition tank_mpc : notebook :=
  {| file := "Exercises/Jupyter notebooks/.ipynb_checkpoints/Portfolio optimization with basinhopping-checkpoint.ipynb"; index := 1;
     title := "Model predictive control: the tank problem";
     cells := [
  {| position := 1; execution_count := Some 41;
     source := [
      SImport ["xpress as xp"]; SMagic "%env XPRESS=.."; SImport ["matplotlib.pyplot as plt"];
      SAssign ["model"] [Call "xp.problem" []]; SAssign ["Nu"] []; SAssign ["xref"] [];
      SAssign ["x0"] []; SAssign ["Nx"] []];
     outputs := [] |};
  {| position := 3; execution_count := Some 42;
     source := [
      SAssign ["dynamics"] []];
     outputs := [] |};
  {| position := 5; execution_count := Some 43;
     source := [
      SExpr [Call "model.setObjective" []]];
     outputs := [] |};
  {| position := 7; execution_count := Some 44;
     source := [
      SAssign ["initial_condition"] [Call "xp.constraint" []]; SExpr [Call "model.addConstraint" []]];
     outputs := [] |};
  {| position := 9; execution_count := Some 45;
     source := [
      SExpr [Call "model.solve" []]];
     outputs := [] |};
  {| position := 10; execution_count := Some 47;
     source := [
      SAssign ["uVal"] [Call "model.getSolution" []; Call "range" []];
      SAssign ["xVal"] [Call "model.getSolution" []; Call "range" []];
      SExpr [Call "plt.plot" [("label", "_")]; Call "range" []];
      SExpr [Call "plt.plot" [("label", "_")]; Call "range" []];
      SExpr [Call "plt.legend" [("bbox_to_anchor", "_")]]; SExpr [Call "plt.xlabel" []];
      SExpr [Call "plt.ylabel" []]];
     outputs := [ODisplay] |}] |}.

(** [Exercises/Jupyter notebooks/.ipynb_checkpoints/Portfolio optimization2-checkpoint.ipynb],
    notebook 0 of the file: Making money with portfolio optimization *)
Definition portfolio_optimization2 : notebook :=
  {| file := "Exercises/Jupyter notebooks/.ipynb_checkpoints/Portfolio optimization2-checkpoint.ipynb"; index := 0;
     title := "Making money with portfolio optimization";
     cells := [
  {| position := 1; execution_count := Some 155;
     source := [
      SImport ["pandas_datareader.data as web"]; SImport ["numpy as np"]; SImport ["pandas as pd"];
      SImport ["xpress as xp"]; SImport ["scipy.stats.norm"]; SImport ["matplotlib as plt"];
      SImport ["dataclasses.dataclass"]; SAssign ["stocks"] [];
      SAssign ["data"] [Call "web.DataReader" [("data_source", "_"); ("start", "_")]];
      SExpr [Call "data.sort_index" [("inplace", "True")]];
      SAssign ["returns"] [Call "data.pct_change" []]; SAssign ["means"] [Call "returns.mean" []];
      SAssign ["cov_matrix"] [Call "returns.cov" []];
      SAssign ["sigma"] [Call "pd.Series" [("index", "cov_matrix.index")]; Call "np.diag" []];
      SAssign ["beta"] [];
      SClassDef "Investment" ["dataclass(frozen=True)"] [] [
        SField "name" "str"; SField "mean" "float"; SField "sigma" "float"];
      SAssign ["investments"] [Call "list" []];
      SFor "s" [] [
        SExpr [Call "investments.append" []; Call "Investment" []]]];
     outputs := [] |};
  {| position := 3; execution_count := Some 156;
     source := [
      SAssign ["model"] [Call "xp.problem" []];
      SAssign ["x"] [Call "xp.var" [("vartype", "xp.continuous"); ("lb", "0"); ("ub", "1"); ("name", "_")]];
      SExpr [Call "model.addVariable" []]];
     outputs := [] |};
  {| position := 5; execution_count := Some 157;
     source := [
      SExpr [Call "model.setObjective" []; Call "xp.Sum" []]];
     outputs := [] |};
  {| position := 7; execution_count := Some 158;
     source := [
      SAssign ["enforcing_investment_amount"] [Call "xp.constraint" [("name", "_")]; Call "xp.Sum" []]];
     outputs := [] |};
  {| position := 9; execution_count := Some 159;
     source := [];
     outputs := [] |};
  {| position := 11; execution_count := Some 160;
     source := [
      SAssign ["x_all"] [Call "xp.var" [("vartype", "xp.continuous"); ("lb", "_"); ("ub", "_"); ("name", "_")]; Call "min" []; Call "max" []];
      SExpr [Call "model.addVariable" []];
      SAssign ["link_x_all"] [Call "xp.constraint" [("name", "_")]; Call "xp.Sum" []];
      SAssign ["enforce_risk_limit"] [Call "xp.constraint" []; Call "norm.ppf" []; Call "xp.Sum" []];
      SExpr [Call "model.addConstraint" []]];
     outputs := [] |};
  {| position := 13; execution_count := Some 161;
     source := [
      SExpr [Call "model.solve" []]; SExpr [Call "print" []; Call "model.getProbStatusString" []]];
     outputs := [OStream "stdout"] |};
  {| position := 15; execution_count := Some 162;
     source := [
      SAssign ["n"] []; SAssign ["samples"] [Call "np.random.normal" []]; SAssign ["satisfied"] [];
      SFor "k" [Call "range" []] [
        SIf [Call "np.sum" []; Call "model.getSolution" []] [
          SAugAssign "satisfied" []] []];
      SExpr [Call "print" []]];
     outputs := [OStream "stdout"] |}] |}.

(** [Exercises/Jupyter notebooks/.ipynb_checkpoints/Tank problem-checkpoint.ipynb],
    notebook 0 of the file: The tank problem *)
Definition tank_problem : notebook :=
  {| file := "Exercises/Jupyter notebooks/.ipynb_checkpoints/Tank problem-checkpoint.ipynb"; index := 0;
     title := "The tank problem";
     cells := [
  {| position := 1; execution_count := Some 1;
     source := [
      SImport ["docplex.mp.model.Model"]; SImport ["matplotlib.pyplot as plt"];
      SImport ["matplotlib.ticker.MaxNLocator"]; SAssign ["mdl"] [Call "Model" [("name", "_")]];
      SAssign ["N"] []; SAssign ["xref"] []; SAssign ["x0"] [];
      SAssign ["x"] [Call "mdl.continuous_var_list" [("lb", "0"); ("ub", "7"); ("name", "_")]];
      SAssign ["u"] [Call "mdl.continuous_var_list" [("lb", "0"); ("ub", "1"); ("name", "_")]]];
     outputs := [] |};
  {| position := 3; execution_count := Some 2;
     source := [
      SExpr [Call "mdl.add_constraints" []; Call "range" []]];
     outputs := [] |};
  {| position := 5; execution_count := Some 3;
     source := [
      SExpr [Call "mdl.minimize" []; Call "mdl.sum" []; Call "range" []]];
     outputs := [] |};
  {| position := 7; execution_count := Some 4;
     source := [
      SExpr [Call "mdl.add_constraint" []]];
     outputs := [] |};
  {| position := 9; execution_count := Some 5;
     source := [
      SExpr [Call "mdl.solve" []]];
     outputs := [] |};
  {| position := 10; execution_count := Some 6;
     source := [
      SAssign ["ax"] [Call "plt.figure().gca" []; Call "plt.figure" []];
      SExpr [Call "plt.plot" [("label", "_")]; Call "range" []; Call "mdl.solution.get_values" []];
      SExpr [Call "plt.plot" [("label", "_")]; Call "range" []; Call "mdl.solution.get_values" []];
      SExpr [Call "plt.legend" [("bbox_to_anchor", "_")]]; SExpr [Call "plt.xlabel" []];
      SExpr [Call "plt.ylabel" []];
      SExpr [Call "ax.xaxis.set_major_locator" []; Call "MaxNLocator" [("integer", "True")]]];
     outputs := [ODisplay] |};
  {| position := 11; execution_count := None;
     source := [];
     outputs := [] |}] |}.

(** [Exercises/Jupyter notebooks/.ipynb_checkpoints/Tank problem-checkpoint.ipynb],
    notebook 1 of the file: N-queens problem *)
Definition n_queens_checkpoint : notebook :=
  {| file := "Exercises/Jupyter notebooks/.ipynb_checkpoints/Tank problem-checkpoint.ipynb"; index := 1;
     title := "N-queens problem";
     cells := [
  {| position := 1; execution_count := Some 1;
     source := [
      SImport ["xpress as xp"]; SImport ["numpy as np"]; SImport ["math"];
      SImport ["dataclasses.dataclass"]; SImport ["sys.stdout"];
      SAssign ["model"] [Call "xp.problem" []]; SAssign ["n"] [];
      SAssign ["nRange"] [Call "range" []];
      SClassDef "Position" ["dataclass(frozen=True)"] [] [
        SField "row" "int"; SField "column" "int"];
      SAssign ["positions"] [Call "Position" []];
      SDef "get_pos" ["positions"; "i"; "j"] [
        SReturn [Call "_.pop" []]];
      SAssign ["x"] [Call "xp.var" [("vartype", "xp.binary"); ("name", "_")]];
      SExpr [Call "model.addVariable" []]];
     outputs := [OStream "stdout"; OError "RuntimeError" "Xpress licensing error 4: The maximum number of simultaneous uses has been reached. Check that no other copies of FICO Xpress are running, or contact support@fico.com if you would like to add more users to your license."] |};
  {| position := 3; execution_count := Some 46;
     source := [
      SAssign ["one_queen_per_column"] [Lazy "xp.constraint" [("name", "_")]; Lazy "xp.Sum" []]];
     outputs := [] |};
  {| position := 5; execution_count := Some 47;
     source := [
      SAssign ["one_queen_per_row"] [Lazy "xp.constraint" [("name", "_")]; Lazy "xp.Sum" []]];
     outputs := [] |};
  {| position := 7; execution_count := Some 48;
     source := [
      SAssign ["one_queen_per_first_diagonal_rows"] [Lazy "xp.constraint" [("name", "_")]; Lazy "xp.Sum" []; Lazy "range" []; Lazy "get_pos" []];
      SAssign ["one_queen_per_first_diagonal_columns"] [Lazy "xp.constraint" [("name", "_")]; Lazy "xp.Sum" []; Lazy "range" []; Lazy "get_pos" []];
      SAssign ["one_queen_per_second_diagonal_columns"] [Lazy "xp.constraint" [("name", "_")]; Lazy "xp.Sum" []; Lazy "range" []; Lazy "get_pos" []];
      SAssign ["one_queen_per_second_diagonal_rows"] [Lazy "xp.constraint" [("name", "_")]; Lazy "xp.Sum" []; Lazy "range" []; Lazy "get_pos" []]];
     outputs := [] |};
  {| position := 9; execution_count := Some 49;
     source := [
      SAssign ["n_queens_on_board"] [Call "xp.constraint" [("name", "_")]; Call "xp.Sum" []]];
     outputs := [] |};
  {| position := 11; execution_count := Some 50;
     source := [
      SExpr [Call "model.addConstraint" []]; SExpr [Call "model.solve" []]];
     outputs := [] |};
  {| position := 12; execution_count := Some 51;
     source := [
      SAssign ["xVal"] [Call "model.getSolution" []]; SExpr [Call "stdout.write" []];
      SFor "i" [] [
        SIf [] [
          SExpr [Call "stdout.write" []]] [];
        SFor "j" [] [
          SExpr [Call "stdout.write" []]; SExpr [Call "stdout.write" []; Call "get_pos" []]]];
      SExpr [Call "stdout.write" []]];
     outputs := [OStream "stdout"] |}] |}.

(** [Exercises/Jupyter notebooks/.ipynb_checkpoints/Two tanks.solution-checkpoint.ipynb],
    notebook 0 of the file: Two tank problem *)
Definition two_tanks_solution : notebook :=
  {| file := "Exercises/Jupyter notebooks/.ipynb_checkpoints/Two tanks.solution-checkpoint.ipynb"; index := 0;
     title := "Two tank problem";
     cells := [
  {| position := 1; execution_count := Some 20;
     source := [
      SImport ["xpress as xp"]; SImport ["matplotlib.pyplot as plt"];
      SImport ["matplotlib.ticker.MaxNLocator"]; SAssign ["model"] [Call "xp.problem" []];
      SAssign ["N"] []; SAssign ["NxRange"] [Call "range" []];
      SAssign ["NuRange"] [Call "range" []]; SAssign ["xref"] []; SAssign ["x0"] [];
      SAssign ["uB0"] []];
     outputs := [] |};
  {| position := 3; execution_count := Some 21;
     source := [
      SAssign ["xA"] [Call "xp.var" [("vartype", "xp.continuous"); ("lb", "0"); ("ub", "7"); ("name", "_")]];
      SAssign ["xB"] [Call "xp.var" [("vartype", "xp.continuous"); ("lb", "0"); ("ub", "7"); ("name", "_")]];
      SAssign ["uA"] [Call "xp.var" [("vartype", "xp.continuous"); ("lb", "0"); ("ub", "1"); ("name", "_")]; Call "range" []];
      SAssign ["uB"] [Call "xp.var" [("vartype", "xp.continuous"); ("lb", "0"); ("ub", "1"); ("name", "_")]; Call "range" []];
      SExpr [Call "model.addVariable" []]];
     outputs := [] |};
  {| position := 5; execution_count := Some 22;
     source := [
      SAssign ["dynamics_tank_A"] [Call "range" []; Lazy "xp.constraint" [("name", "_")]];
      SAssign ["dynamics_tank_B"] [Call "range" []; Lazy "xp.constraint" [("name", "_")]]];
     outputs := [] |};
  {| position := 7; execution_count := Some 23;
     source := [
      SAssign ["inflow_limit_A"] [Lazy "xp.constraint" [("name", "_")]];
      SAssign ["inflow_limit_B"] [Lazy "xp.constraint" [("name", "_")]]];
     outputs := [] |};
  {| position := 9; execution_count := Some 24;
     source := [
      SAssign ["min_residence_time"] [Lazy "xp.constraint" [("name", "_")]];
      SExpr [Call "model.addConstraint" []]];
     outputs := [] |};
  {| position := 11; execution_count := Some 25;
     source := [
      SExpr [Call "model.setObjective" []; Call "xp.Sum" []]];
     outputs := [] |};
  {| position := 13; execution_count := Some 26;
     source := [
      SAssign ["initial_A"] [Call "xp.constraint" [("name", "_")]];
      SAssign ["initial_B"] [Call "xp.constraint" [("name", "_")]];
      SExpr [Call "model.addConstraint" []]];
     outputs := [] |};
  {| position := 15; execution_count := Some 30;
     source := [
      SExpr [Call "model.solve" []];
      SAssign ["ax"] [Call "plt.figure().gca" []; Call "plt.figure" []];
      SExpr [Call "plt.plot" [("label", "_")]; Call "range" []; Call "model.getSolution" []; Call "range" []];
      SExpr [Call "plt.plot" [("label", "_")]; Call "range" []; Call "model.getSolution" []; Call "range" []];
      SExpr [Call "plt.plot" [("label", "_")]; Call "range" []; Call "model.getSolution" []; Call "range" []];
      SExpr [Call "plt.plot" [("label", "_")]; Call "range" []; Call "model.getSolution" []; Call "range" []];
      SExpr [Call "plt.legend" [("bbox_to_anchor", "_")]]; SExpr [Call "plt.xlabel" []];
      SExpr [Call "plt.ylabel" []];
      SExpr [Call "ax.xaxis.set_major_locator" []; Call "MaxNLocator" [("integer", "True")]]];
     outputs := [ODisplay] |}] |}.

(** [Exercises/Jupyter notebooks/Untitled.ipynb],
    notebook 0 of the file: An introduction to classes *)
Definition introduction_to_classes : notebook :=
  {| file := "Exercises/Jupyter notebooks/Untitled.ipynb"; index := 0;
     title := "An introduction to classes";
     cells := [
  {| position := 1; execution_count := Some 1;
     source := [
      SAssign ["doctor_name"] []; SAssign ["doctor_allocation"] [];
      SAssign ["doctor_is_pregnant"] []];
     outputs := [] |};
  {| position := 2; execution_count := Some 3;
     source := [
      SAssign ["current"] []; SAssign ["index"] [];
      SFor "doctor" [] [
        SIf [] [
          SAssign ["index"] []] [];
        SAssign ["current"] []]];
     outputs := [] |};
  {| position := 3; execution_count := Some 6;
     source := [
      SAssign ["doctor_dict"] []; SAssign ["doctor_pregnant_dict"] []];
     outputs := [] |};
  {| position := 4; execution_count := Some 8;
     source := [
      SExpr []];
     outputs := [OResult] |};
  {| position := 7; execution_count := Some 28;
     source := [
      SDef "get_total_working_time" ["allocation"; "total_available_time"] [
        SReturn []]];
     outputs := [] |};
  {| position := 8; execution_count := None;
     source := [
      SInvalid "Container:"; SInvalid "|- Field 1 -> | -Subfield 1";
      SInvalid "              | -Subfield 2"; SInvalid "|- Field 2"; SInvalid "|- Field 3";
      SInvalid "|- Field 4"; SInvalid "|"; SInvalid "|- Function 1"; SInvalid "|- Function 2"];
     outputs := [] |};
  {| position := 9; execution_count := Some 50;
     source := [
      SClassDef "Doctor" [] [] [
        SDef "__init__" ["self"; "name"; "allocation"; "is_pregnant"] [
          SAssign ["self.name"] []; SAssign ["self.allocation"] []; SAssign ["self.is_pregnant"] []];
        SDef "to_string" ["self"] [
          SReturn []];
        SDef "get_total_work_time" ["self"; "total_available_time"] [
          SReturn []]]];
     outputs := [] |};
  {| position := 10; execution_count := Some 51;
     source := [
      SAssign ["doctor_list"] [Call "Doctor" []; Call "Doctor" []; Call "Doctor" []]];
     outputs := [] |};
  {| position := 11; execution_count := Some 52;
     source := [
      SFor "doctor" [] [
        SExpr [Call "print" []; Call "doctor.to_string" []]]];
     outputs := [OStream "stdout"] |};
  {| position := 12; execution_count := Some 49;
     source := [
      SExpr [Call "print" []; Call "range" []]];
     outputs := [OStream "stdout"] |};
  {| position := 13; execution_count := Some 58;
     source := [
      SExpr [Call "dir" []]];
     outputs := [OResult] |};
  {| position := 14; execution_count := Some 26;
     source := [
      SAssign ["U"] [Call "Unit" []]];
     outputs := [] |};
  {| position := 15; execution_count := Some 27;
     source := [
      SAssign ["U.name"] []];
     outputs := [OError "FrozenInstanceError" "cannot assign to field 'name'"] |};
  {| position := 16; execution_count := Some 29;
     source := [
      SExpr [Call "get_total_working_time" []]];
     outputs := [OResult] |};
  {| position := 17; execution_count := Some 35;
     source := [
      SExpr [Call "G.get_total_work_time" []]];
     outputs := [OResult] |};
  {| position := 18; execution_count := None;
     source := [];
     outputs := [] |}] |}.

(** [Exercises/Jupyter notebooks/Urban zone fares.ipynb],
    notebook 0 of the file: Urban zone fares *)
Definition urban_zone_fares : notebook :=
  {| file := "Exercises/Jupyter notebooks/Urban zone fares.ipynb"; index := 0;
     title := "Urban zone fares";
     cells := [
  {| position := 1; execution_count := Some 1;
     source := [
      SImport ["xpress as xp"]; SImport ["matplotlib.pyplot as plt"]; SImport ["numpy as np"];
      SImport ["pandas as pd"]; SAssign ["f0"] []; SAssign ["fmin"] []; SAssign ["fmax"] [];
      SAssign ["cdiffmin"] []; SAssign ["cdiffmax"] [];
      SClassDef "Connection" [] [] [
        SDef "__init__" ["self"; "origin"; "destination"; "distance"; "elasticity"; "base_rideship"] [
          SAssign ["self.origin"] []; SAssign ["self.destination"] []; SAssign ["self.distance"] [];
          SAssign ["self.elasticity"] []; SAssign ["self.base_ridership"] []];
        SDef "__str__" ["self"] [
          SReturn []]];
      SAssign ["connections"] [Call "Connection" []; Call "Connection" []; Call "Connection" []; Call "Connection" []; Call "Connection" []; Call "Connection" []; Call "Connection" []; Call "Connection" []; Call "Connection" []; Call "Connection" []; Call "Connection" []; Call "Connection" []; Call "Connection" []; Call "Connection" []; Call "Connection" []]];
     outputs := [] |};
  {| position := 3; execution_count := Some 7;
     source := [
      SAssign ["model"] [Call "xp.problem" []]; SAssign ["f"] []; SInvalid "cfix =";
      SInvalid "cmile ="; SAssign ["P"] []; SExpr [Call "model.addVariable" []]];
     outputs := [] |};
  {| position := 5; execution_count := Some 8;
     source := [
      SAssign ["fare_relation"] []; SAssign ["rideship_relation"] []];
     outputs := [] |};
  {| position := 7; execution_count := Some 9;
     source := [
      SInvalid "cdiffbound ="; SExpr [Call "model.addConstraint" []]];
     outputs := [] |};
  {| position := 9; execution_count := Some 10;
     source := [
      SExpr [Call "model.setObjective" []]];
     outputs := [] |};
  {| position := 11; execution_count := Some 11;
     source := [
      SExpr [Call "model.solve" []]; SExpr [Call "print" []; Call "model.getProbStatusString" []]];
     outputs := [OStream "stdout"] |}] |}.

(** [Exercises/Jupyter notebooks/Urban zone fares.solution.ipynb],
    notebook 0 of the file: Urban zone fares *)
Definition urban_zone_fares_solution : notebook :=
  {| file := "Exercises/Jupyter notebooks/Urban zone fares.solution.ipynb"; index := 0;
     title := "Urban zone fares";
     cells := [
  {| position := 1; execution_count := Some 1;
     source := [
      SImport ["xpress as xp"]; SImport ["matplotlib.pyplot as plt"]; SImport ["numpy as np"];
      SImport ["pandas as pd"]; SAssign ["f0"] []; SAssign ["fmin"] []; SAssign ["fmax"] [];
      SAssign ["cdiffmin"] []; SAssign ["cdiffmax"] [];
      SClassDef "Connection" [] [] [
        SDef "__init__" ["self"; "origin"; "destination"; "distance"; "elasticity"; "base_rideship"] [
          SAssign ["self.origin"] []; SAssign ["self.destination"] []; SAssign ["self.distance"] [];
          SAssign ["self.elasticity"] []; SAssign ["self.base_ridership"] []];
        SDef "__str__" ["self"] [
          SReturn []]];
      SAssign ["connections"] [Call "Connection" []; Call "Connection" []; Call "Connection" []; Call "Connection" []; Call "Connection" []; Call "Connection" []; Call "Connection" []; Call "Connection" []; Call "Connection" []; Call "Connection" []; Call "Connection" []; Call "Connection" []; Call "Connection" []; Call "Connection" []; Call "Connection" []]];
     outputs := [] |};
  {| position := 3; execution_count := Some 7;
     source := [
      SAssign ["model"] [Call "xp.problem" []];
      SAssign ["f"] [Call "xp.var" [("vartype", "xp.continuous"); ("lb", "fmin"); ("ub", "fmax"); ("name", "_")]];
      SAssign ["cfix"] [Call "xp.var" [("vartype", "xp.continuous"); ("lb", "0"); ("name", "_")]];
      SAssign ["cmile"] [Call "xp.var" [("vartype", "xp.continuous"); ("lb", "0"); ("name", "_")]];
      SAssign ["P"] [Call "xp.var" [("vartype", "xp.continuous"); ("lb", "0"); ("name", "_")]];
      SExpr [Call "model.addVariable" []]];
     outputs := [] |};
  {| position := 5; execution_count := Some 8;
     source := [
      SAssign ["fare_relation"] [Lazy "xp.constraint" [("name", "_")]];
      SAssign ["rideship_relation"] [Lazy "xp.constraint" [("name", "_")]]];
     outputs := [] |};
  {| position := 7; execution_count := Some 9;
     source := [
      SAssign ["cdiffbound"] [Call "xp.constraint" [("name", "_")]];
      SExpr [Call "model.addConstraint" []]];
     outputs := [] |};
  {| position := 9; execution_count := Some 10;
     source := [
      SExpr [Call "model.setObjective" [("sense", "xp.maximize")]; Call "xp.Sum" []]];
     outputs := [] |};
  {| position := 11; execution_count := Some 11;
     source := [
      SExpr [Call "model.solve" []]; SExpr [Call "print" []; Call "model.getProbStatusString" []]];
     outputs := [OStream "stdout"] |};
  {| position := 13; execution_count := Some 22;
     source := [
      SExpr [Call "print" []; Call "np.round" []; Call "model.getObjVal" []];
      SExpr [Call "print" []; Call "np.round" []; Call "sum" []]];
     outputs := [OStream "stdout"] |};
  {| position := 15; execution_count := Some 24;
     source := [
      SFor "c" [] [
        SExpr [Call "print" []; Call "np.round" []; Call "model.getSolution" []; Call "model.getSolution" []]]];
     outputs := [OStream "stdout"] |};
  {| position := 17; execution_count := Some 27;
     source := [
      SFor "c" [] [
        SExpr [Call "print" []; Call "np.round" []; Call "model.getSolution" []]]];
     outputs := [OStream "stdout"] |}] |}.

(** [unnamed/part_001],
    notebook 0 of the file: Basin-hopping algorithm in scipy *)
Definition basin_hopping : notebook :=
  {| file := "unnamed/part_001"; index := 0;
     title := "Basin-hopping algorithm in scipy";
     cells := [
  {| position := 1; execution_count := Some 9;
     source := [
      SImport ["scipy.optimize"]; SImport ["scipy.optimize.basinhopping"]; SImport ["numpy as np"];
      SAssign ["func"] [Lazy "np.cos" []]; SAssign ["x0"] []; SAssign ["minimizer_kwargs"] [];
      SAssign ["ret"] [Call "basinhopping" [("minimizer_kwargs", "minimizer_kwargs"); ("niter", "200")]];
      SExpr [Call "print" []]];
     outputs := [OStream "stdout"] |};
  {| position := 3; execution_count := Some 10;
     source := [
      SClassDef "MyBounds" [] ["object"] [
        SDef "__init__" ["self"; "xmax"; "xmin"] [
          SAssign ["self.xmax"] [Call "np.array" []]; SAssign ["self.xmin"] [Call "np.array" []]];
        SDef "__call__" ["self"; "**kwargs"] [
          SAssign ["x"] []; SAssign ["tmax"] [Call "bool" []; Call "np.all" []];
          SAssign ["tmin"] [Call "bool" []; Call "np.all" []]; SReturn []]]];
     outputs := [] |};
  {| position := 5; execution_count := Some 11;
     source := [
      SAssign ["mybounds"] [Call "MyBounds" []];
      SAssign ["ret"] [Call "basinhopping" [("minimizer_kwargs", "minimizer_kwargs"); ("niter", "10"); ("accept_test", "mybounds")]];
      SExpr [Call "print" []]];
     outputs := [OStream "stdout"] |};
  {| position := 7; execution_count := Some 12;
     source := [
      SClassDef "MyBounds2" [] ["object"] [
        SDef "__init__" ["self"; "xmax"; "xmin"] [
          SAssign ["self.xmax"] [Call "np.array" []]; SAssign ["self.xmin"] [Call "np.array" []]];
        SDef "__call__" ["self"; "**kwargs"] [
          SAssign ["x"] []; SAssign ["tmax"] [Call "bool" []; Call "np.all" []];
          SAssign ["tmin"] [Call "bool" []; Call "np.all" []]; SReturn []]]];
     outputs := [] |};
  {| position := 8; execution_count := Some 13;
     source := [
      SAssign ["mybounds2"] [Call "MyBounds2" []];
      SAssign ["ret"] [Call "basinhopping" [("minimizer_kwargs", "minimizer_kwargs"); ("niter", "10"); ("accept_test", "mybounds2")]];
      SExpr [Call "print" []]];
     outputs := [OStream "stdout"] |};
  {| position := 10; execution_count := Some 14;
     source := [
      SExpr []];
     outputs := [OResult] |};
  {| position := 13; execution_count := Some 15;
     source := [
      SAssign ["xmax"] []; SAssign ["xmin"] []; SAssign ["cons"] []];
     outputs := [] |};
  {| position := 15; execution_count := Some 16;
     source := [
      SAssign ["minimizer_kwargs"] [];
      SAssign ["ret"] [Call "basinhopping" [("minimizer_kwargs", "minimizer_kwargs"); ("niter", "10")]];
      SExpr [Call "print" []]];
     outputs := [OStream "stdout"] |}] |}.

(** [unnamed/part_002],
    notebook 0 of the file: Nurse scheduling *)
Definition nurse_scheduling : notebook :=
  {| file := "unnamed/part_002"; index := 0;
     title := "Nurse scheduling";
     cells := [
  {| position := 1; execution_count := Some 1;
     source := [
      SImport ["docplex.mp.model.Model"]; SImport ["numpy as np"]; SImport ["math"];
      SImport ["sys.stdout"]; SAssign ["mdl"] [Call "Model" []]; SAssign ["nDays"] [];
      SAssign ["nShifts"] []; SAssign ["nNurses"] []; SAssign ["DRange"] [Call "range" []];
      SAssign ["SRange"] [Call "range" []]; SAssign ["NRange"] [Call "range" []];
      SAssign ["x"] [Call "mdl.binary_var_cube" [("name", "_")]]];
     outputs := [] |};
  {| position := 3; execution_count := Some 2;
     source := [
      SExpr [Call "mdl.add_constraints" []; Lazy "mdl.sum" []];
      SExpr [Call "mdl.add_constraints" []; Lazy "mdl.sum" []]];
     outputs := [] |};
  {| position := 5; execution_count := Some 3;
     source := [
      SExpr [Call "mdl.add_constraints" []; Lazy "mdl.sum" []];
      SExpr [Call "mdl.add_constraints" []; Lazy "mdl.sum" []]];
     outputs := [] |};
  {| position := 7; execution_count := Some 4;
     source := [
      SExpr [Call "mdl.add_constraints" []; Lazy "mdl.sum" []; Lazy "mdl.sum" []]];
     outputs := [] |};
  {| position := 9; execution_count := Some 5;
     source := [
      SFor "s" [] [
        SIf [] [
          SContinue] [];
        SFor "n" [] [
          SFor "d" [] [
            SIf [] [
              SExpr [Call "mdl.add_if_then" []]] [
              SIf [] [
                SExpr [Call "mdl.add_if_then" []; Call "mdl.logical_or" []]] [
                SExpr [Call "mdl.add_if_then" []]]]]]]];
     outputs := [] |};
  {| position := 11; execution_count := Some 6;
     source := [
      SExpr [Call "mdl.solve" []]; SAssign ["xVal"] [Call "mdl.solution.get_value_dict" []];
      SAssign ["_all_shifts"] []; SExpr [];
      SFor "s" [] [
        SIf [] [
          SExpr [Call "stdout.write" []]] [];
        SExpr [Call "stdout.write" []];
        SFor "d" [] [
          SExpr [Call "stdout.write" []];
          SFor "n" [] [
            SIf [] [
              SExpr [Call "stdout.write" []; Call "str" []]] []]]];
      SExpr [Call "stdout.write" []]];
     outputs := [OStream "stdout"] |};
  {| position := 13; execution_count := Some 7;
     source := [
      SAssign ["mdl"] [Call "Model" []]; SAssign ["Nurses"] []; SAssign ["nDays"] [];
      SAssign ["nShifts"] []; SAssign ["nNurses"] [Call "len" []];
      SAssign ["DRange"] [Call "range" []]; SAssign ["SRange"] [Call "range" []];
      SAssign ["NRange"] [Call "range" []];
      SAssign ["x"] [Call "mdl.binary_var_cube" [("name", "_")]];
      SExpr [Call "mdl.add_constraints" []; Lazy "mdl.sum" []];
      SExpr [Call "mdl.add_constraints" []; Lazy "mdl.sum" []];
      SExpr [Call "mdl.add_constraints" []; Lazy "mdl.sum" []];
      SExpr [Call "mdl.add_constraints" []; Lazy "mdl.sum" []];
      SExpr [Call "mdl.add_constraints" []; Lazy "mdl.sum" []; Lazy "mdl.sum" []];
      SFor "s" [] [
        SIf [] [
          SContinue] [];
        SFor "n" [] [
          SFor "d" [] [
            SIf [] [
              SExpr [Call "mdl.add_constraint" []; Call "mdl.if_then" []]] [
              SIf [] [
                SExpr [Call "mdl.add_constraint" []; Call "mdl.if_then" []; Call "mdl.logical_or" []]] [
                SExpr [Call "mdl.add_constraint" []; Call "mdl.if_then" []]]]]]]];
     outputs := [] |};
  {| position := 15; execution_count := Some 8;
     source := [
      SAssign ["y"] [Call "mdl.integer_var_list" [("name", "_"); ("lb", "0"); ("ub", "_")]];
      SFor "n" [] [
        SExpr [Call "mdl.add_constraint" []; Call "mdl.if_then" []; Call "mdl.sum" []; Call "mdl.sum" []]]];
     outputs := [] |};
  {| position := 17; execution_count := Some 9;
     source := [
      SExpr [Call "mdl.minimize" []; Call "mdl.sum" []; Lazy "mdl.sum" []]];
     outputs := [] |};
  {| position := 19; execution_count := Some 10;
     source := [
      SExpr [Call "mdl.solve" []]; SAssign ["xVal"] [Call "mdl.solution.get_value_dict" []];
      SAssign ["_all_shifts"] []; SExpr [];
      SFor "s" [] [
        SIf [] [
          SExpr [Call "stdout.write" []]] [];
        SExpr [Call "stdout.write" []];
        SFor "d" [] [
          SExpr [Call "stdout.write" []];
          SFor "n" [] [
            SIf [] [
              SExpr [Call "stdout.write" []]] []]]];
      SExpr [Call "stdout.write" []]];
     outputs := [OStream "stdout"] |};
  {| position := 21; execution_count := Some 47;
     source := [
      SAssign ["yVal"] [Call "mdl.solution.get_values" []]; SExpr [Call "stdout.write" []];
      SFor "n" [] [
        SExpr [Call "stdout.write" []]]];
     outputs := [OStream "stdout"] |};
  {| position := 23; execution_count := Some 127;
     source := [
      SAssign ["mdl"] [Call "Model" []]; SAssign ["Nurses"] []; SAssign ["nDays"] [];
      SAssign ["nShifts"] []; SAssign ["nNurses"] [Call "len" []];
      SAssign ["DRange"] [Call "range" []]; SAssign ["SRange"] [Call "range" []];
      SAssign ["NRange"] [Call "range" []];
      SAssign ["x"] [Call "mdl.binary_var_cube" [("name", "_")]];
      SExpr [Call "mdl.add_constraints" []; Lazy "mdl.sum" []];
      SExpr [Call "mdl.add_constraints" []; Lazy "mdl.sum" []];
      SExpr [Call "mdl.add_constraints" []; Lazy "mdl.sum" []];
      SExpr [Call "mdl.add_constraints" []; Lazy "mdl.sum" []];
      SExpr [Call "mdl.add_constraints" []; Lazy "mdl.sum" []; Lazy "mdl.sum" []];
      SFor "s" [] [
        SIf [] [
          SContinue] [];
        SFor "n" [] [
          SFor "d" [] [
            SIf [] [
              SExpr [Call "mdl.add_if_then" []]] [
              SIf [] [
                SExpr [Call "mdl.add_if_then" []; Call "mdl.logical_or" []]] [
                SExpr [Call "mdl.add_if_then" []]]]]]];
      SAssign ["y"] [Call "mdl.integer_var_list" [("name", "_"); ("lb", "0"); ("ub", "_")]];
      SFor "n" [] [
        SExpr [Call "mdl.add_constraint" []; Call "mdl.if_then" []; Call "mdl.sum" []; Call "mdl.sum" []]];
      SExpr [Call "mdl.minimize" []; Call "mdl.sum" []; Lazy "mdl.sum" []]];
     outputs := [] |};
  {| position := 25; execution_count := Some 128;
     source := [
      SFor "n" [] [
        SIf [Call "len" []] [
          SContinue] [];
        SAssign ["incomp"] [Call "Nurses[][].split" []];
        SFor "k" [] [
          SFor "n2" [] [
            SIf [] [
              SExpr [Call "print" []]; SExpr [Call "mdl.add_constraints" []]] []]]]];
     outputs := [OStream "stdout"] |};
  {| position := 26; execution_count := Some 129;
     source := [
      SExpr [Call "mdl.solve" []]; SAssign ["xVal"] [Call "mdl.solution.get_value_dict" []];
      SAssign ["_all_shifts"] []; SExpr [];
      SFor "s" [] [
        SIf [] [
          SExpr [Call "stdout.write" []]] [];
        SExpr [Call "stdout.write" []];
        SFor "d" [] [
          SExpr [Call "stdout.write" []];
          SFor "n" [] [
            SIf [] [
              SExpr [Call "stdout.write" []]] []]]];
      SExpr [Call "stdout.write" []]];
     outputs := [OStream "stdout"] |};
  {| position := 27; execution_count := None;
     source := [];
     outputs := [] |};
  {| position := 28; execution_count := None;
     source := [];
     outputs := [] |}] |}.

(** [unnamed/part_003],
    notebook 0 of the file: Solving Sudokus using mathematical programming *)
Definition sudoku : notebook :=
  {| file := "unnamed/part_003"; index := 0;
     title := "Solving Sudokus using mathematical programming";
     cells := [
  {| position := 1; execution_count := Some 139;
     source := [
      SImport ["xpress as xp"]; SMagic "%env XPRESS=.."; SImport ["numpy as np"];
      SImport ["dataclasses.dataclass"]; SImport ["sys.stdout"]; SAssign ["sudoku"] [];
      SClassDef "Value" ["dataclass(frozen=True)"] [] [
        SField "row" "int"; SField "column" "int"; SField "value" "int"];
      SAssign ["model"] [Call "xp.problem" []]; SAssign ["n"] [];
      SAssign ["nRange"] [Call "range" []]; SAssign ["s"] [Call "int" []; Call "np.sqrt" []];
      SAssign ["sRange"] [Call "range" []]; SAssign ["values"] [Call "Value" []]];
     outputs := [] |};
  {| position := 3; execution_count := Some 140;
     source := [];
     outputs := [] |};
  {| position := 5; execution_count := Some 141;
     source := [];
     outputs := [] |};
  {| position := 7; execution_count := Some 142;
     source := [];
     outputs := [] |};
  {| position := 9; execution_count := Some 143;
     source := [];
     outputs := [] |};
  {| position := 11; execution_count := Some 144;
     source := [];
     outputs := [] |};
  {| position := 13; execution_count := Some 145;
     source := [];
     outputs := [] |};
  {| position := 15; execution_count := Some 146;
     source := [
      SExpr [Call "model.solve" []]];
     outputs := [] |};
  {| position := 16; execution_count := Some 147;
     source := [
      SAssign ["xVal"] [Call "model.getSolution" []]; SExpr [];
      SFor "i" [] [
        SIf [] [
          SExpr [Call "stdout.write" []]] [];
        SIf [] [
          SExpr [Call "stdout.write" []]] [];
        SFor "j" [] [
          SExpr [Call "stdout.write" []];
          SFor "v" [] [
            SIf [Call "get_val" []] [
              SExpr [Call "stdout.write" []; Call "str" []]] []]]];
      SExpr [Call "stdout.write" []]];
     outputs := [OStream "stdout"] |}] |}.

(** [unnamed/part_003],
    notebook 1 of the file: Making money with portfolio optimization *)
Definition portfolio_optimization : notebook :=
  {| file := "unnamed/part_003"; index := 1;
     title := "Making money with portfolio optimization";
     cells := [
  {| position := 1; execution_count := Some 1;
     source := [
      SImport ["pandas_datareader.data as web"]; SImport ["numpy as np"]; SImport ["pandas as pd"];
      SImport ["xpress as xp"]; SMagic "%env XPRESS=.."; SImport ["scipy.stats.norm"];
      SImport ["matplotlib as plt"]; SImport ["dataclasses.dataclass"]; SAssign ["stocks"] [];
      SAssign ["data"] [Call "web.DataReader" [("data_source", "_"); ("start", "_")]];
      SExpr [Call "data.sort_index" [("inplace", "True")]];
      SAssign ["returns"] [Call "data.pct_change" []]; SAssign ["means"] [Call "returns.mean" []];
      SAssign ["cov_matrix"] [Call "returns.cov" []];
      SAssign ["sigma"] [Call "pd.Series" [("index", "cov_matrix.index")]; Call "np.diag" []];
      SAssign ["beta"] [];
      SClassDef "Investment" ["dataclass(frozen=True)"] [] [
        SField "name" "str"; SField "mean" "float"; SField "sigma" "float"];
      SAssign ["investments"] [Call "list" []];
      SFor "s" [] [
        SExpr [Call "investments.append" []; Call "Investment" []]]];
     outputs := [OStream "stdout"] |};
  {| position := 3; execution_count := Some 156;
     source := [];
     outputs := [] |};
  {| position := 5; execution_count := Some 157;
     source := [];
     outputs := [] |};
  {| position := 7; execution_count := Some 158;
     source := [];
     outputs := [] |};
  {| position := 9; execution_count := Some 159;
     source := [];
     outputs := [] |};
  {| position := 11; execution_count := Some 160;
     source := [
      SExpr [Call "norm.ppf" []]];
     outputs := [] |};
  {| position := 13; execution_count := Some 161;
     source := [
      SExpr [Call "model.solve" []]; SExpr [Call "print" []; Call "model.getProbStatusString" []]];
     outputs := [OStream "stdout"] |};
  {| position := 15; execution_count := Some 162;
     source := [
      SAssign ["n"] []; SAssign ["samples"] [Call "np.random.normal" []]; SAssign ["satisfied"] [];
      SFor "k" [Call "range" []] [
        SIf [Call "np.sum" []; Call "model.getSolution" []] [
          SAugAssign "satisfied" []] []];
      SExpr [Call "print" []]];
     outputs := [OStream "stdout"] |};
  {| position := 16; execution_count := Some 15;
     source := [
      SAssign ["means.name"] []; SAssign ["sigma.name"] [];
      SAssign ["df"] [Call "pd.concat" [("axis", "1")]]; SExpr [Call "df.to_csv" []]];
     outputs := [] |}] |}.

(** [unnamed/part_004],
    notebook 0 of the file: Deviation estimation *)
Definition deviation_estimation : notebook :=
  {| file := "unnamed/part_004"; index := 0;
     title := "Deviation estimation";
     cells := [
  {| position := 1; execution_count := Some 4;
     source := [
      SImport ["numpy as np"]; SImport ["matplotlib.pyplot as plt"]; SImport ["xpress as xp"];
      SMagic "%env XPRESS=.."; SImport ["math"]; SAssign ["n"] [];
      SAssign ["nRange"] [Call "range" []]; SAssign ["coord"] [Call "np.random.rand" []];
      SDef "plotting" ["coord"; "a"; "b"] [
        SExpr [Call "plt.plot" []];
        SIf [] [
          SAssign ["x"] [Call "np.linspace" []]; SExpr [Call "plt.plot" []]] [];
        SExpr [Call "plt.xlabel" []]; SExpr [Call "plt.ylabel" []]; SExpr [Call "plt.show" []]];
      SExpr [Call "plotting" []]];
     outputs := [ODisplay] |}] |}.

(** [unnamed/part_004],
    notebook 1 of the file: Scheduling the doctors for the paediatric units of Hamburg *)
Definition doctors_scheduling : notebook :=
  {| file := "unnamed/part_004"; index := 1;
     title := "Scheduling the doctors for the paediatric units of Hamburg";
     cells := [
  {| position := 1; execution_count := Some 174;
     source := [
      SImport ["xpress as xp"]; SMagic "%env XPRESS=.."; SImport ["pandas as pd"];
      SImport ["numpy as np"]; SImport ["dataclasses.dataclass"]; SImport ["datetime.datetime"];
      SImport ["datetime.timedelta"]; SImport ["datetime.time"];
      SAssign ["df"] [Call "pd.read_excel" [("sheet_name", "_")]];
      SAssign ["start_time"] [Call "datetime" []]; SAssign ["end_time"] [Call "datetime" []];
      SAssign ["day_limit"] []; SAssign ["total_work_time"] [];
      SClassDef "Doctor" [] [] [
        SDef "__init__" ["self"; "name"; "is_pregnant"; "allocation"; "work_locations"] [
          SAssign ["self.name"] []; SAssign ["self.is_pregnant"] []; SAssign ["self.allocation"] [];
          SAssign ["self.work_locations"] []]];
      SClassDef "Shift" [] [] [
        SDef "__init__" ["self"; "start_time"; "end_time"] [
          SAssign ["self.start_time"] []; SAssign ["self.end_time"] [];
          SAssign ["self.duration_in_hours"] [Call "_.total_seconds" []];
          SAssign ["self.is_nightshift"] [Call "start_time.time" []; Call "time" []; Call "start_time.time" []; Call "time" []];
          SAssign ["self.can_work_pregnant"] []]];
      SAssign ["hospitals"] [Call "df[][].tolist" []]; SAssign ["doctors"] [Call "list" []];
      SFor "index,row" [Call "df[].iterrows" []] [
        SAssign ["is_pregnant"] []; SAssign ["work_list"] [Call "list" []];
        SFor "hospital" [] [
          SIf [] [
            SExpr [Call "work_list.append" []]] []];
        SExpr [Call "doctors.append" []; Call "Doctor" []]];
      SAssign ["shifts"] [Call "list" []]; SAssign ["shift_days"] [Call "list" []];
      SAssign ["current"] []; SAssign ["weekday_times"] []; SAssign ["weekend_times"] [];
      SWhile [] [
        SExpr [Call "shift_days.append" []];
        SIf [Call "current.weekday" []] [
          SAugAssign "shifts" [Call "Shift" []; Call "timedelta" [("hours", "start")]; Call "timedelta" [("hours", "end")]]] [
          SAugAssign "shifts" [Call "Shift" []; Call "timedelta" [("hours", "start")]; Call "timedelta" [("hours", "end")]]];
        SAugAssign "current" [Call "timedelta" [("days", "1")]]];
      SClassDef "Placement" ["dataclass(frozen=True)"] [] [
        SField "doctor" "Doctor"; SField "shift" "Shift"; SField "hospital" "str"];
      SAssign ["placements"] [Call "Placement" []];
      SClassDef "Nightshift" ["dataclass(frozen=True)"] [] [
        SField "doctor" "Doctor"; SField "day" "datetime"];
      SAssign ["nightshifts"] [Call "Nightshift" []]];
     outputs := [] |};
  {| position := 4; execution_count := Some 178;
     source := [];
     outputs := [] |};
  {| position := 6; execution_count := Some 179;
     source := [];
     outputs := [] |};
  {| position := 8; execution_count := Some 180;
     source := [];
     outputs := [] |};
  {| position := 10; execution_count := None;
     source := [];
     outputs := [] |};
  {| position := 12; execution_count := None;
     source := [];
     outputs := [] |};
  {| position := 14; execution_count := Some 183;
     source := [
      SExpr [Call "model.solve" []]; SExpr [Call "print" []; Call "model.getProbStatusString" []]];
     outputs := [OStream "stdout"] |}] |}.

Definition notebooks : list notebook :=
  [batch_scheduling;
   batch_scheduling_part1_solution;
   batch_scheduling_part2_solution;
   doctors_scheduling_part1_solution;
   doctors_scheduling_solution;
   facility_location_solution;
   introduction_to_python;
   n_queens;
   portfolio_basinhopping;
   tank_mpc;
   portfolio_optimization2;
   tank_problem;
   n_queens_checkpoint;
   two_tanks_solution;
   introduction_to_classes;
   urban_zone_fares;
   urban_zone_fares_solution;
   basin_hopping;
   nurse_scheduling;
   sudoku;
   portfolio_optimization;
   deviation_estimation;
   doctors_scheduling].


(** *** Reading the transcript *)

Definition callee_of (c : call) : string :=
  match c with Call f _ | Lazy f _ => f end.


Definition is_lazy (c : call) : bool :=
  match c with Call _ _ => false | Lazy _ _ => true end.

(** Every call written in a statement, nested statements included. *)
Fixpoint stmt_calls (s : stmt) : list call :=
  match s with
  | SImport _ | SMagic _ | SInvalid _ | SField _ _ | SContinue => []
  | SAssign _ cs | SAugAssign _ cs | SExpr cs | SReturn cs => cs
  | SClassDef _ _ _ b | SDef _ _ b => flat_map stmt_calls b
  | SFor _ cs b | SWhile cs b => cs ++ flat_map stmt_calls b
  | SIf cs b e => cs ++ flat_map stmt_calls b ++ flat_map stmt_calls e
  | STry b hs => flat_map stmt_calls b ++ flat_map (flat_map stmt_calls) hs
  end.

(** The calls a statement at the top level of a cell evaluates exactly
    once when it runs: those of a simple statement that are not lazy. *)
Definition stmt_direct_calls (s : stmt) : list call :=
  match s with
  | SAssign _ cs | SAugAssign _ cs | SExpr cs => List.filter (fun c => negb (is_lazy c)) cs
  | _ => []
  end.

(** A cell with a line that is not Python raises a [SyntaxError] before
    any of it runs. *)
Definition cell_parses (c : code_cell) : bool :=
  forallb (fun s => match s with SInvalid _ => false | _ => true end) (source c).

Definition cell_calls (c : code_cell) : list call := flat_map stmt_calls (source c).

(** The calls a complete run of the cell evaluates exactly once. *)
Definition cell_direct_calls (c : code_cell) : list call :=
  if cell_parses c then flat_map stmt_direct_calls (source c) else [].
Definition notebook_calls (nb : notebook) : list call := flat_map cell_calls (cells nb).
Definition notebook_direct_calls (nb : notebook) : list call := flat_map cell_direct_calls (cells nb).

(** [try] statements, at any depth. *)
Fixpoint stmt_handlers (s : stmt) : nat :=
  match s with
  | SClassDef _ _ _ b | SDef _ _ b | SFor _ _ b | SWhile _ b =>
      list_sum (map stmt_handlers b)
  | SIf _ b e => list_sum (map stmt_handlers b) + list_sum (map stmt_handlers e)
  | STry b hs =>
      1 + list_sum (map stmt_handlers b)
        + list_sum (map (fun h => list_sum (map stmt_handlers h)) hs)
  | _ => 0
  end.

Definition notebook_handlers (nb : notebook) : nat :=
  list_sum (map (fun c => list_sum (map stmt_handlers (source c))) (cells nb)).

(** The uncaught exceptions stored in the outputs of a notebook, as
    (cell position, exception name, message). *)
Definition cell_errors (c : code_cell) : list (nat * string * string) :=
  flat_map (fun o => match o with
                     | OError n v => [(position c, n, v)]
                     | _ => []
                     end) (outputs c).

Definition notebook_errors (nb : notebook) : list (nat * string * string) :=
  flat_map cell_errors (cells nb).

(** *** Solver calls, data inputs, accept tests *)

(** The solve routines of the three solver interfaces the notebooks use:
    Xpress ([model.solve]), CPLEX ([mdl.solve]) and scipy
    ([basinhopping]). *)
Definition solver_routines : list string := ["model.solve"; "mdl.solve"; "basinhopping"].

Definition is_solver_call (c : call) : bool :=
  existsb (String.eqb (callee_of c)) solver_routines.

(** The solver calls written as top-level statements of the cells that
    parse (what a run makes of them is [calls_made] below), and every
    solver call written anywhere in the notebook. *)
Definition solver_calls (nb : notebook) : nat :=
  length (List.filter is_solver_call (notebook_direct_calls nb)).

Definition solver_call_sites (nb : notebook) : list call :=
  List.filter is_solver_call (notebook_calls nb).



(** The classes a notebook defines at the top level of its cells. *)
Definition defined_classes (nb : notebook) : list string :=
  flat_map (fun c => flat_map (fun s => match s with
                                        | SClassDef n _ _ _ => [n]
                                        | _ => []
                                        end) (source c)) (cells nb).

(** The bodies of the definitions of class [name] at the top level of
    the cells of [nb], in source order. *)
Definition class_bodies (nb : notebook) (name : string) : list (list stmt) :=
  flat_map (fun c => flat_map (fun s => match s with
                                        | SClassDef n _ _ b =>
                                            if String.eqb n name then [b] else []
                                        | _ => []
                                        end) (source c)) (cells nb).

(** The fields a dataclass body declares. *)
Definition declared_fields (body : list stmt) : list string :=
  flat_map (fun s => match s with SField n _ => [n] | _ => [] end) body.

(** The targets assigned in the [__init__] of a class body. *)
Definition init_targets (body : list stmt) : list string :=
  flat_map (fun s => match s with
                     | SDef "__init__" _ b =>
                         flat_map (fun s' => match s' with
                                             | SAssign ts _ => ts
                                             | _ => []
                                             end) b
                     | _ => []
                     end) body.

(** Routines that bring in data the code does not spell out: pandas
    readers, the pandas_datareader download, numpy's random generator. *)
Definition is_data_input (f : string) : bool :=
  String.prefix "pd.read_" f || String.prefix "web." f || String.prefix "np.random." f.

Definition data_inputs (nb : notebook) : list string :=
  List.filter is_data_input (map callee_of (notebook_calls nb)).

Definition reads_spreadsheet (nb : notebook) : bool :=
  existsb (String.eqb "pd.read_excel") (map callee_of (notebook_calls nb)).

(** *** Error outputs *)

(** An error output, when a cell has one, is the last output of the
    cell: nothing is printed after the exception. *)
Fixpoint error_is_last (os : list output) : bool :=
  match os with
  | [] => true
  | OError _ _ :: rest => match rest with [] => true | _ => false end
  | _ :: rest => error_is_last rest
  end.

(** The error outputs stored in the notebooks. *)
Definition stored_errors : list (nat * string * string) :=
  flat_map notebook_errors notebooks.

Definition contains (needle hay : string) : bool :=
  match String.index 0 needle hay with Some _ => true | None => false end.

Definition is_licensing_error (e : nat * string * string) : bool :=
  String.prefix "Xpress licensing error" (snd e).
Definition is_infeasibility_error (e : nat * string * string) : bool :=
  contains "nfeasib" (snd e).

(** *** Names read and bound *)

(** The name a dotted path starts with: [model] for [model.solve],
    [df] for [df[].iterrows]. *)
Fixpoint root (path : string) : string :=
  match path with
  | EmptyString => EmptyString
  | String c rest =>
      if existsb (Ascii.eqb c) ["."; "["; "("; ","]%char then EmptyString
      else String c (root rest)
  end.

(** A path that is a single name; [_] stands for an expression. *)
Definition is_name (path : string) : bool :=
  String.eqb (root path) path && negb (String.eqb path "_").

(** What a top-level statement of a cell does with the names of the
    kernel's namespace.  [reads] are the names the statement reads
    whenever it runs, before it binds anything: those of the expressions
    of a simple statement, of the iterable of a [for], of the test of an
    [if] or [while], of the annotations of a function, and of the
    decorators, bases and body of a class.
    Left out is what is evaluated only under a condition or later: the
    body of a loop, branch, function or lambda, the elements and
    conditions of a comprehension and its iterables but the first, the
    operands of [and] and [or] but the first, the branches of a
    conditional expression, and the names a comprehension or class body
    binds itself.  [binds] are the global names the statement can bind,
    at any depth of it: targets of assignments and loops, imported names,
    names of functions and classes.  No cell deletes a name, declares one
    [global] or calls [exec] or [eval].  A cell that does not parse has
    no statements. *)
Record name_use : Type := Uses { reads : list string; binds : list string }.

Definition batch_scheduling_uses : list (nat * list name_use) :=
  [(1, [
      Uses [] ["xp"]; Uses [] []; Uses [] ["np"]; Uses [] ["plt"]; Uses [] ["math"];
      Uses ["xp"] ["model"]; Uses [] ["n"]; Uses ["range"; "n"] ["nRange"]; Uses [] ["t_m"];
      Uses [] ["A_max"]; Uses [] ["Z_b"]; Uses [] ["t_min_fermentation"];
      Uses [] ["t_max_fermentation"]; Uses [] ["t_min_purification"];
      Uses [] ["t_max_purification"]; Uses [] ["C_m"]; Uses [] ["mu"]; Uses [] ["C_f"];
      Uses [] ["phi"]; Uses [] ["C_p"]; Uses [] ["pi"]; Uses [] ["C_b"]; Uses [] ["beta"];
      Uses [] ["C_w"]; Uses [] ["chi"]; Uses ["np"; "range"] ["d"];
      Uses ["np"; "d"; "range"; "n"] ["d"]]);
   (2, [
      Uses [] ["m"]; Uses [] ["M"]; Uses [] ["f"]; Uses [] ["F"]; Uses [] ["p"]; Uses [] ["P"];
      Uses [] ["b"]; Uses [] ["B"]; Uses [] ["w"]; Uses [] ["W"];
      Uses ["model"; "m"; "M"; "f"; "F"; "p"; "P"; "b"; "B"; "w"; "W"] []]);
   (4, [])].

Definition batch_scheduling_part1_solution_uses : list (nat * list name_use) :=
  [(1, [
      Uses [] ["xp"]; Uses [] []; Uses [] ["np"]; Uses [] ["plt"]; Uses [] ["math"];
      Uses ["xp"] ["model"]; Uses [] ["n"]; Uses ["range"; "n"] ["nRange"]; Uses [] ["t_m"];
      Uses [] ["A_max"]; Uses [] ["Z_b"]; Uses [] ["t_min_fermentation"];
      Uses [] ["t_max_fermentation"]; Uses [] ["t_min_purification"];
      Uses [] ["t_max_purification"]; Uses [] ["C_m"]; Uses [] ["mu"]; Uses [] ["C_f"];
      Uses [] ["phi"]; Uses [] ["C_p"]; Uses [] ["pi"]; Uses [] ["C_b"]; Uses [] ["beta"];
      Uses [] ["C_w"]; Uses [] ["chi"]; Uses ["np"; "range"] ["d"];
      Uses ["np"; "d"; "range"; "n"] ["d"]]);
   (2, [
      Uses ["str"] ["get_variable_dictionary"]; Uses ["get_variable_dictionary"] ["m"];
      Uses ["get_variable_dictionary"] ["M"]; Uses ["get_variable_dictionary"] ["f"];
      Uses ["get_variable_dictionary"] ["F"]; Uses ["get_variable_dictionary"] ["p"];
      Uses ["get_variable_dictionary"] ["P"]; Uses ["get_variable_dictionary"] ["b"];
      Uses ["get_variable_dictionary"] ["B"]; Uses ["get_variable_dictionary"] ["w"];
      Uses ["get_variable_dictionary"] ["W"];
      Uses ["model"; "m"; "M"; "f"; "F"; "p"; "P"; "b"; "B"; "w"; "W"] []]);
   (4, [
      Uses ["nRange"] ["mixing_balance"]; Uses ["nRange"] ["fermentation_balance"];
      Uses ["nRange"] ["purification_balance"]; Uses ["nRange"] ["blending_balance"];
      Uses ["nRange"] ["warehousing_balance"];
      Uses ["model"; "mixing_balance"; "fermentation_balance"; "purification_balance";
            "blending_balance"; "warehousing_balance"]
           []])].

Definition batch_scheduling_part2_solution_uses : list (nat * list name_use) :=
  [(1, [
      Uses [] ["xp"]; Uses [] []; Uses [] ["np"]; Uses [] ["plt"]; Uses [] ["math"];
      Uses ["xp"] ["model"]; Uses [] ["n"]; Uses ["range"; "n"] ["nRange"]; Uses [] ["t_m"];
      Uses [] ["A_max"]; Uses [] ["Z_b"]; Uses [] ["t_min_fermentation"];
      Uses [] ["t_max_fermentation"]; Uses [] ["t_min_purification"];
      Uses [] ["t_max_purification"]; Uses [] ["C_m"]; Uses [] ["mu"]; Uses [] ["C_f"];
      Uses [] ["phi"]; Uses [] ["C_p"]; Uses [] ["pi"]; Uses [] ["C_b"]; Uses [] ["beta"];
      Uses [] ["C_w"]; Uses [] ["chi"]; Uses ["np"; "range"] ["d"];
      Uses ["np"; "d"; "range"; "n"] ["d"]]);
   (2, [
      Uses ["str"] ["get_variable_dictionary"]; Uses ["get_variable_dictionary"] ["m"];
      Uses ["get_variable_dictionary"] ["M"]; Uses ["get_variable_dictionary"] ["f"];
      Uses ["get_variable_dictionary"] ["F"]; Uses ["get_variable_dictionary"] ["p"];
      Uses ["get_variable_dictionary"] ["P"]; Uses ["get_variable_dictionary"] ["b"];
      Uses ["get_variable_dictionary"] ["B"]; Uses ["get_variable_dictionary"] ["w"];
      Uses ["get_variable_dictionary"] ["W"];
      Uses ["model"; "m"; "M"; "f"; "F"; "p"; "P"; "b"; "B"; "w"; "W"] []]);
   (4, [
      Uses ["nRange"] ["mixing_balance"]; Uses ["nRange"] ["fermentation_balance"];
      Uses ["nRange"] ["purification_balance"]; Uses ["nRange"] ["blending_balance"];
      Uses ["nRange"] ["warehousing_balance"];
      Uses ["model"; "mixing_balance"; "fermentation_balance"; "purification_balance";
            "blending_balance"; "warehousing_balance"]
           []]);
   (6, [
      Uses ["nRange"] ["fixing_mixing_time"]; Uses ["range"; "t_m"] ["fixing_mixing_time_time0"]]);
   (8, [
      Uses ["nRange"] ["minimum_time_fermentation"]; Uses ["nRange"] ["maximum_time_fermentation"]]);
   (10, [
      Uses ["nRange"] ["minimum_time_purification"]; Uses ["nRange"] ["maximum_time_purification"]]);
   (12, [
      Uses ["nRange"] ["fix_blending_time"]; Uses ["nRange"] ["limit_capacity"];
      Uses ["nRange"] ["limit_capacity_throughout"]]);
   (14, [
      Uses ["nRange"] ["warehouse_age_limit"];
      Uses ["model"; "fixing_mixing_time"; "minimum_time_fermentation";
            "maximum_time_fermentation"; "minimum_time_purification";
            "maximum_time_purification"; "fix_blending_time"; "limit_capacity";
            "fixing_mixing_time_time0"; "limit_capacity_throughout"]
           []]);
   (16, [
      Uses ["model"; "xp"; "nRange"] []])].

Definition doctors_scheduling_part1_solution_uses : list (nat * list name_use) :=
  [(1, [
      Uses [] ["xp"]; Uses [] []; Uses [] ["pd"]; Uses [] ["np"]; Uses [] ["dataclass"];
      Uses [] ["datetime"]; Uses [] ["timedelta"]; Uses [] ["time"]; Uses ["pd"] ["df"];
      Uses ["datetime"] ["start_time"]; Uses ["datetime"] ["end_time"]; Uses [] ["day_limit"];
      Uses ["end_time"; "start_time"] ["total_work_time"]; Uses [] ["Doctor"]; Uses [] ["Shift"];
      Uses ["df"] ["hospitals"]; Uses ["list"] ["doctors"];
      Uses ["df"] ["index"; "row"; "is_pregnant"; "work_list"; "hospital"];
      Uses ["list"] ["shifts"]; Uses ["list"] ["shift_days"]; Uses ["start_time"] ["current"];
      Uses [] ["weekday_times"]; Uses [] ["weekend_times"];
      Uses ["current"; "end_time"] ["shifts"; "current"];
      Uses ["dataclass"; "Doctor"; "Shift"; "str"] ["Placement"]; Uses ["doctors"] ["placements"];
      Uses ["dataclass"; "Doctor"; "datetime"] ["Nightshift"]; Uses ["doctors"] ["nightshifts"]]);
   (3, [
      Uses ["xp"] ["model"]; Uses ["placements"] ["x"]; Uses ["nightshifts"] ["y"];
      Uses ["doctors"] ["t"]; Uses ["model"; "x"; "y"; "t"] []]);
   (5, [
      Uses ["shifts"] ["force_shift_fulfillment"]]);
   (7, [
      Uses ["doctors"] ["one_shift_limit"]]);
   (9, [
      Uses ["doctors"] ["max_time_working"]]);
   (11, [
      Uses ["doctors"] ["hospital_limit"]]);
   (13, [
      Uses ["doctors"] ["pregnancy_limit"]]);
   (15, [
      Uses ["nightshifts"] ["force_nightshift_work"]; Uses ["nightshifts"] ["force_rest"];
      Uses ["model"; "force_shift_fulfillment"; "one_shift_limit"; "max_time_working";
            "hospital_limit"; "pregnancy_limit"; "force_nightshift_work"; "force_rest"]
           []]);
   (17, [
      Uses ["model"] []]);
   (19, [
      Uses ["model"] []; Uses ["print"; "model"] []]);
   (21, [
      Uses ["doctors"] ["d"; "work_time"]])].

Definition doctors_scheduling_solution_uses : list (nat * list name_use) :=
  [(1, [
      Uses [] ["xp"]; Uses [] []; Uses [] ["pd"]; Uses [] ["np"]; Uses [] ["dataclass"];
      Uses [] ["datetime"]; Uses [] ["timedelta"]; Uses [] ["time"]; Uses ["pd"] ["df"];
      Uses ["datetime"] ["start_time"]; Uses ["datetime"] ["end_time"]; Uses [] ["day_limit"];
      Uses ["end_time"; "start_time"] ["total_work_time"]; Uses [] ["Doctor"]; Uses [] ["Shift"];
      Uses ["df"] ["hospitals"]; Uses ["list"] ["doctors"];
      Uses ["df"] ["index"; "row"; "is_pregnant"; "work_list"; "hospital"];
      Uses ["list"] ["shifts"]; Uses ["list"] ["shift_days"]; Uses ["start_time"] ["current"];
      Uses [] ["weekday_times"]; Uses [] ["weekend_times"];
      Uses ["current"; "end_time"] ["shifts"; "current"];
      Uses ["dataclass"; "Doctor"; "Shift"; "str"] ["Placement"]; Uses ["doctors"] ["placements"];
      Uses ["dataclass"; "Doctor"; "datetime"] ["Nightshift"]; Uses ["doctors"] ["nightshifts"]]);
   (3, [
      Uses ["xp"] ["model"]; Uses ["placements"] ["x"]; Uses ["nightshifts"] ["y"];
      Uses ["doctors"] ["t"]; Uses ["model"; "x"; "y"; "t"] []]);
   (5, [
      Uses ["shifts"] ["force_shift_fulfillment"]]);
   (7, [
      Uses ["doctors"] ["one_shift_limit"]]);
   (9, [
      Uses ["doctors"] ["max_time_working"]]);
   (11, [
      Uses ["doctors"] ["hospital_limit"]]);
   (13, [
      Uses ["doctors"] ["pregnancy_limit"]]);
   (15, [
      Uses ["nightshifts"] ["force_nightshift_work"]; Uses ["nightshifts"] ["force_rest"];
      Uses ["model"; "force_shift_fulfillment"; "one_shift_limit"; "max_time_working";
            "hospital_limit"; "pregnancy_limit"; "force_nightshift_work"; "force_rest"]
           []]);
   (17, [
      Uses ["doctors"] ["aux_definition1"]; Uses ["doctors"] ["aux_definition2"];
      Uses ["model"; "aux_definition1"; "aux_definition2"] []; Uses ["model"; "xp"; "doctors"] []]);
   (19, [
      Uses ["model"] []; Uses ["print"; "model"] []]);
   (21, [
      Uses ["doctors"] ["d"; "work_time"]])].

Definition facility_location_solution_uses : list (nat * list name_use) :=
  [(1, [
      Uses [] ["xp"]; Uses [] []; Uses [] ["plt"]; Uses [] ["nx"]; Uses [] ["np"]; Uses [] ["pd"];
      Uses [] ["math"]; Uses [] ["stdout"]; Uses [] ["dataclass"]; Uses ["xp"] ["model"];
      Uses ["dataclass"; "str"; "tuple"] ["Unit"]; Uses ["dataclass"; "Unit"; "float"] ["Facility"];
      Uses ["dataclass"; "Unit"; "float"] ["Client"]; Uses ["Facility"; "Client"] ["Connection"]]);
   (3, [
      Uses ["Client"] ["clients"]; Uses ["np"] ["construction_cost"]; Uses ["range"] ["facilities"];
      Uses ["facilities"] ["connections"]; Uses [] ["mileage_cost"];
      Uses [] ["max_transport_from_facility"]; Uses [] ["n_factories"]]);
   (5, [
      Uses ["connections"] ["f"]]);
   (7, [
      Uses ["facilities"] ["x"]; Uses ["model"; "f"; "x"] []]);
   (9, [
      Uses ["facilities"] ["maximum_capacity"]]);
   (11, [
      Uses ["connections"] ["flows_zero_if_not_selected"]]);
   (13, [
      Uses ["xp"; "facilities"; "n_factories"] ["fix_number_of_factories"]]);
   (15, [
      Uses ["clients"] ["demand_satisfaction"];
      Uses ["model"; "maximum_capacity"; "flows_zero_if_not_selected";
            "fix_number_of_factories"; "demand_satisfaction"]
           []]);
   (17, [
      Uses ["model"; "xp"; "facilities"] []]);
   (19, [
      Uses ["model"] []; Uses ["connections"] ["fVal"]; Uses ["facilities"] ["xVal"]]);
   (21, [
      Uses ["facilities"; "clients"] ["pos"]; Uses ["nx"] ["G"]; Uses ["G"; "connections"] [];
      Uses [] ["color_map"]; Uses ["G"] ["node"]; Uses ["nx"; "G"; "pos"; "color_map"] [];
      Uses ["nx"] ["H"]; Uses ["H"; "facilities"] []; Uses ["nx"; "H"; "pos"] [];
      Uses ["nx"; "H"; "pos"] []; Uses ["plt"] []])].

Definition introduction_to_python_uses : list (nat * list name_use) :=
  [(1, [
      Uses [] ["rectangle_area"]]);
   (3, [
      Uses [] ["Rectangle"]]);
   (5, [
      Uses [] ["width"]; Uses [] ["length"]; Uses ["print"; "rectangle_area"; "width"; "length"] [];
      Uses ["Rectangle"; "width"; "length"] ["the_rectangle"]; Uses ["print"; "the_rectangle"] []]);
   (8, [
      Uses [] ["math"]; Uses [] ["triangle_area"]]);
   (11, [
      Uses [] ["*"]; Uses ["sqrt"] ["x"]; Uses ["abs"] ["y"]]);
   (13, [
      Uses [] ["*"]; Uses [] ["*"]; Uses ["abs"] ["x"]]);
   (15, [
      Uses [] ["np"]; Uses [] ["sp"]; Uses [] ["pd"]; Uses [] ["plt"]]);
   (18, []);
   (21, [
      Uses [] ["p"]; Uses ["p"] []]);
   (23, [
      Uses [] ["a"]; Uses ["a"] ["b"]; Uses [] ["a"]; Uses ["print"; "b"] []]);
   (25, [
      Uses [] ["a"]; Uses ["a"] ["b"]; Uses ["a"] []; Uses ["print"; "b"] []]);
   (27, [
      Uses [] ["a"]; Uses ["a"] ["b"]; Uses ["a"] []; Uses ["print"; "b"] []]);
   (29, [
      Uses [] ["people"]; Uses [] ["height"]; Uses ["range"; "len"; "people"] ["heights"];
      Uses ["heights"] []]);
   (31, [
      Uses [] ["heights"]; Uses ["heights"] []; Uses ["heights"] []; Uses ["heights"] [];
      Uses ["heights"] []; Uses ["heights"] []]);
   (33, [
      Uses [] ["city"]; Uses ["range"; "len"; "people"] ["heights_by_city"];
      Uses ["heights_by_city"] []]);
   (35, [
      Uses [] ["pd"]; Uses [] ["weight"]; Uses ["range"; "len"; "people"] ["heights_and_weights"];
      Uses ["pd"; "heights_and_weights"] ["df"]]);
   (36, [
      Uses ["df"] []]);
   (37, [
      Uses ["df"] []]);
   (38, [
      Uses ["df"] []]);
   (40, [
      Uses [] ["dataclass"]; Uses ["dataclass"; "float"] ["Rectangle"]]);
   (42, [
      Uses ["dataclass"; "float"] ["Rectangle"]])].

Definition n_queens_uses : list (nat * list name_use) :=
  [(1, [
      Uses [] ["xp"]; Uses [] ["np"]; Uses [] ["math"]; Uses [] ["dataclass"]; Uses [] ["stdout"];
      Uses ["xp"] ["model"]; Uses [] ["n"]; Uses ["range"; "n"] ["nRange"];
      Uses ["dataclass"; "int"] ["Position"]; Uses ["nRange"] ["positions"];
      Uses ["list"; "int"] ["get_pos"]; Uses ["positions"] ["x"]; Uses ["model"; "x"] []]);
   (3, [
      Uses ["nRange"] ["one_queen_per_column"]]);
   (5, [
      Uses ["nRange"] ["one_queen_per_row"]]);
   (7, [
      Uses ["nRange"] ["one_queen_per_first_diagonal_rows"];
      Uses ["nRange"] ["one_queen_per_first_diagonal_columns"];
      Uses ["nRange"] ["one_queen_per_second_diagonal_columns"];
      Uses ["nRange"] ["one_queen_per_second_diagonal_rows"]]);
   (9, [
      Uses ["xp"; "positions"; "n"] ["n_queens_on_board"]]);
   (11, [
      Uses ["model"; "one_queen_per_column"; "one_queen_per_row";
            "one_queen_per_first_diagonal_rows"; "one_queen_per_first_diagonal_columns";
            "one_queen_per_second_diagonal_columns";
            "one_queen_per_second_diagonal_rows"; "n_queens_on_board"]
           [];
      Uses ["model"] []]);
   (12, [
      Uses ["positions"] ["xVal"]; Uses ["stdout"] []; Uses ["nRange"] ["i"; "j"];
      Uses ["stdout"] []]);
   (13, [
      Uses ["model"] []])].

Definition portfolio_basinhopping_uses : list (nat * list name_use) :=
  [(1, [
      Uses [] ["basinhopping"]; Uses [] ["np"]; Uses [] ["norm"]; Uses [] ["pbar"];
      Uses [] ["sigma"]; Uses [] ["alpha"]; Uses [] ["beta"]; Uses ["len"; "pbar"] ["N"]]);
   (3, [
      Uses [] ["func"]; Uses [] ["x0"]]);
   (5, [
      Uses ["norm"; "beta"] ["scaling"]; Uses [] ["cons"]]);
   (6, [
      Uses ["cons"] ["minimizer_kwargs"];
      Uses ["basinhopping"; "func"; "x0"; "minimizer_kwargs"] ["ret"]; Uses ["print"; "ret"] []])].

Definition tank_mpc_uses : list (nat * list name_use) :=
  [(1, [
      Uses [] ["xp"]; Uses [] []; Uses [] ["plt"]; Uses ["xp"] ["model"]; Uses [] ["Nu"];
      Uses [] ["xref"]; Uses [] ["x0"]; Uses [] ["Nx"]]);
   (3, [
      Uses [] ["dynamics"]]);
   (5, [
      Uses ["model"] []]);
   (7, [
      Uses ["xp"] ["initial_condition"]; Uses ["model"; "dynamics"; "initial_condition"] []]);
   (9, [
      Uses ["model"] []]);
   (10, [
      Uses ["range"; "Nu"] ["uVal"]; Uses ["range"; "Nx"] ["xVal"];
      Uses ["plt"; "range"; "Nu"; "uVal"] []; Uses ["plt"; "range"; "Nx"; "xVal"] [];
      Uses ["plt"] []; Uses ["plt"] []; Uses ["plt"] []])].

Definition portfolio_optimization2_uses : list (nat * list name_use) :=
  [(1, [
      Uses [] ["web"]; Uses [] ["np"]; Uses [] ["pd"]; Uses [] ["xp"]; Uses [] ["norm"];
      Uses [] ["plt"]; Uses [] ["dataclass"]; Uses [] ["stocks"]; Uses ["web"; "stocks"] ["data"];
      Uses ["data"] []; Uses ["data"] ["returns"]; Uses ["returns"] ["means"];
      Uses ["returns"] ["cov_matrix"]; Uses ["pd"; "np"; "cov_matrix"] ["sigma"]; Uses [] ["beta"];
      Uses ["dataclass"; "str"; "float"] ["Investment"]; Uses ["list"] ["investments"];
      Uses ["stocks"] ["s"]]);
   (3, [
      Uses ["xp"] ["model"]; Uses ["investments"] ["x"]; Uses ["model"; "x"] []]);
   (5, [
      Uses ["model"; "xp"; "investments"] []]);
   (7, [
      Uses ["xp"; "investments"] ["enforcing_investment_amount"]]);
   (9, []);
   (11, [
      Uses ["xp"; "min"; "investments"; "max"] ["x_all"]; Uses ["model"; "x_all"] [];
      Uses ["xp"; "x_all"; "investments"] ["link_x_all"];
      Uses ["xp"; "norm"; "beta"; "investments"; "x_all"] ["enforce_risk_limit"];
      Uses ["model"; "enforcing_investment_amount"; "link_x_all"; "enforce_risk_limit"] []]);
   (13, [
      Uses ["model"] []; Uses ["print"; "model"] []]);
   (15, [
      Uses [] ["n"]; Uses ["investments"] ["samples"]; Uses [] ["satisfied"];
      Uses ["range"; "n"] ["k"; "satisfied"]; Uses ["print"; "satisfied"; "n"] []])].

Definition tank_problem_uses : list (nat * list name_use) :=
  [(1, [
      Uses [] ["Model"]; Uses [] ["plt"]; Uses [] ["MaxNLocator"]; Uses ["Model"] ["mdl"];
      Uses [] ["N"]; Uses [] ["xref"]; Uses [] ["x0"]; Uses ["mdl"; "N"] ["x"];
      Uses ["mdl"; "N"] ["u"]]);
   (3, [
      Uses ["mdl"; "range"; "N"] []]);
   (5, [
      Uses ["mdl"; "range"; "N"] []]);
   (7, [
      Uses ["mdl"; "x"; "x0"] []]);
   (9, [
      Uses ["mdl"] []]);
   (10, [
      Uses ["plt"] ["ax"]; Uses ["plt"; "range"; "N"; "mdl"; "u"] [];
      Uses ["plt"; "range"; "N"; "mdl"; "x"] []; Uses ["plt"] []; Uses ["plt"] []; Uses ["plt"] [];
      Uses ["ax"; "MaxNLocator"] []]);
   (11, [])].

Definition n_queens_checkpoint_uses : list (nat * list name_use) :=
  [(1, [
      Uses [] ["xp"]; Uses [] ["np"]; Uses [] ["math"]; Uses [] ["dataclass"]; Uses [] ["stdout"];
      Uses ["xp"] ["model"]; Uses [] ["n"]; Uses ["range"; "n"] ["nRange"];
      Uses ["dataclass"; "int"] ["Position"]; Uses ["nRange"] ["positions"];
      Uses ["list"; "int"] ["get_pos"]; Uses ["positions"] ["x"]; Uses ["model"; "x"] []]);
   (3, [
      Uses ["nRange"] ["one_queen_per_column"]]);
   (5, [
      Uses ["nRange"] ["one_queen_per_row"]]);
   (7, [
      Uses ["nRange"] ["one_queen_per_first_diagonal_rows"];
      Uses ["nRange"] ["one_queen_per_first_diagonal_columns"];
      Uses ["nRange"] ["one_queen_per_second_diagonal_columns"];
      Uses ["nRange"] ["one_queen_per_second_diagonal_rows"]]);
   (9, [
      Uses ["xp"; "positions"; "n"] ["n_queens_on_board"]]);
   (11, [
      Uses ["model"; "one_queen_per_column"; "one_queen_per_row";
            "one_queen_per_first_diagonal_rows"; "one_queen_per_first_diagonal_columns";
            "one_queen_per_second_diagonal_columns";
            "one_queen_per_second_diagonal_rows"; "n_queens_on_board"]
           [];
      Uses ["model"] []]);
   (12, [
      Uses ["positions"] ["xVal"]; Uses ["stdout"] []; Uses ["nRange"] ["i"; "j"];
      Uses ["stdout"] []])].

Definition two_tanks_solution_uses : list (nat * list name_use) :=
  [(1, [
      Uses [] ["xp"]; Uses [] ["plt"]; Uses [] ["MaxNLocator"]; Uses ["xp"] ["model"];
      Uses [] ["N"]; Uses ["range"; "N"] ["NxRange"]; Uses ["range"; "N"] ["NuRange"];
      Uses [] ["xref"]; Uses [] ["x0"]; Uses [] ["uB0"]]);
   (3, [
      Uses ["NxRange"] ["xA"]; Uses ["NxRange"] ["xB"]; Uses ["range"; "N"] ["uA"];
      Uses ["range"; "N"] ["uB"]; Uses ["model"; "xA"; "xB"; "uA"; "uB"] []]);
   (5, [
      Uses ["range"; "N"] ["dynamics_tank_A"]; Uses ["range"; "N"] ["dynamics_tank_B"]]);
   (7, [
      Uses ["NuRange"] ["inflow_limit_A"]; Uses ["NuRange"] ["inflow_limit_B"]]);
   (9, [
      Uses ["NuRange"] ["min_residence_time"];
      Uses ["model"; "dynamics_tank_A"; "dynamics_tank_A_at_0"; "dynamics_tank_B";
            "inflow_limit_A"; "inflow_limit_B"; "min_residence_time"]
           []]);
   (11, [
      Uses ["model"; "xp"; "NxRange"] []]);
   (13, [
      Uses ["xp"; "xA"; "x0"] ["initial_A"]; Uses ["xp"; "xB"; "x0"] ["initial_B"];
      Uses ["model"; "initial_A"; "initial_B"] []]);
   (15, [
      Uses ["model"] []; Uses ["plt"] ["ax"]; Uses ["plt"; "range"; "N"] [];
      Uses ["plt"; "range"; "N"] []; Uses ["plt"; "range"; "N"] []; Uses ["plt"; "range"; "N"] [];
      Uses ["plt"] []; Uses ["plt"] []; Uses ["plt"] []; Uses ["ax"; "MaxNLocator"] []])].

Definition introduction_to_classes_uses : list (nat * list name_use) :=
  [(1, [
      Uses [] ["doctor_name"]; Uses [] ["doctor_allocation"]; Uses [] ["doctor_is_pregnant"]]);
   (2, [
      Uses [] ["current"]; Uses [] ["index"]; Uses ["doctor_name"] ["doctor"; "index"; "current"]]);
   (3, [
      Uses [] ["doctor_dict"]; Uses [] ["doctor_pregnant_dict"]]);
   (4, [
      Uses ["doctor_dict"] []]);
   (7, [
      Uses [] ["get_total_working_time"]]);
   (8, []);
   (9, [
      Uses [] ["Doctor"]]);
   (10, [
      Uses ["Doctor"] ["doctor_list"]]);
   (11, [
      Uses ["doctor_list"] ["doctor"]]);
   (12, [
      Uses ["doctor_list"] []]);
   (13, [
      Uses ["dir"; "Doctor"] []]);
   (14, [
      Uses ["Unit"] ["U"]]);
   (15, [
      Uses ["U"] []]);
   (16, [
      Uses ["get_total_working_time"] []]);
   (17, [
      Uses ["G"] []]);
   (18, [])].

Definition urban_zone_fares_uses : list (nat * list name_use) :=
  [(1, [
      Uses [] ["xp"]; Uses [] ["plt"]; Uses [] ["np"]; Uses [] ["pd"]; Uses [] ["f0"];
      Uses [] ["fmin"]; Uses [] ["fmax"]; Uses [] ["cdiffmin"]; Uses [] ["cdiffmax"];
      Uses [] ["Connection"]; Uses ["Connection"] ["connections"]]);
   (3, []);
   (5, [
      Uses [] ["fare_relation"]; Uses [] ["rideship_relation"]]);
   (7, []);
   (9, [
      Uses ["model"] []]);
   (11, [
      Uses ["model"] []; Uses ["print"; "model"] []])].

Definition urban_zone_fares_solution_uses : list (nat * list name_use) :=
  [(1, [
      Uses [] ["xp"]; Uses [] ["plt"]; Uses [] ["np"]; Uses [] ["pd"]; Uses [] ["f0"];
      Uses [] ["fmin"]; Uses [] ["fmax"]; Uses [] ["cdiffmin"]; Uses [] ["cdiffmax"];
      Uses [] ["Connection"]; Uses ["Connection"] ["connections"]]);
   (3, [
      Uses ["xp"] ["model"]; Uses ["connections"] ["f"]; Uses ["xp"] ["cfix"];
      Uses ["xp"] ["cmile"]; Uses ["connections"] ["P"];
      Uses ["model"; "f"; "cfix"; "cmile"; "P"] []]);
   (5, [
      Uses ["connections"] ["fare_relation"]; Uses ["connections"] ["rideship_relation"]]);
   (7, [
      Uses ["xp"; "cdiffmin"; "cfix"; "cmile"] ["cdiffbound"];
      Uses ["model"; "fare_relation"; "rideship_relation"; "cdiffbound"] []]);
   (9, [
      Uses ["model"; "xp"; "connections"] []]);
   (11, [
      Uses ["model"] []; Uses ["print"; "model"] []]);
   (13, [
      Uses ["print"; "np"; "model"] []; Uses ["print"; "np"; "sum"; "connections"] []]);
   (15, [
      Uses ["connections"] ["c"]]);
   (17, [
      Uses ["connections"] ["c"]])].

Definition basin_hopping_uses : list (nat * list name_use) :=
  [(1, [
      Uses [] ["optimize"]; Uses [] ["basinhopping"]; Uses [] ["np"]; Uses [] ["func"];
      Uses [] ["x0"]; Uses [] ["minimizer_kwargs"];
      Uses ["basinhopping"; "func"; "x0"; "minimizer_kwargs"] ["ret"]; Uses ["print"; "ret"] []]);
   (3, [
      Uses ["object"] ["MyBounds"]]);
   (5, [
      Uses ["MyBounds"] ["mybounds"];
      Uses ["basinhopping"; "func"; "x0"; "minimizer_kwargs"; "mybounds"] ["ret"];
      Uses ["print"; "ret"] []]);
   (7, [
      Uses ["object"] ["MyBounds2"]]);
   (8, [
      Uses ["MyBounds2"] ["mybounds2"];
      Uses ["basinhopping"; "func"; "x0"; "minimizer_kwargs"; "mybounds2"] ["ret"];
      Uses ["print"; "ret"] []]);
   (10, [
      Uses ["ret"] []]);
   (13, [
      Uses [] ["xmax"]; Uses [] ["xmin"]; Uses [] ["cons"]]);
   (15, [
      Uses ["cons"] ["minimizer_kwargs"];
      Uses ["basinhopping"; "func"; "x0"; "minimizer_kwargs"] ["ret"]; Uses ["print"; "ret"] []])].

Definition nurse_scheduling_uses : list (nat * list name_use) :=
  [(1, [
      Uses [] ["Model"]; Uses [] ["np"]; Uses [] ["math"]; Uses [] ["stdout"];
      Uses ["Model"] ["mdl"]; Uses [] ["nDays"]; Uses [] ["nShifts"]; Uses [] ["nNurses"];
      Uses ["range"; "nDays"] ["DRange"]; Uses ["range"; "nShifts"] ["SRange"];
      Uses ["range"; "nNurses"] ["NRange"]; Uses ["mdl"; "nDays"; "nShifts"; "nNurses"] ["x"]]);
   (3, [
      Uses ["mdl"; "DRange"] []; Uses ["mdl"; "DRange"] []]);
   (5, [
      Uses ["mdl"; "NRange"] []; Uses ["mdl"; "NRange"] []]);
   (7, [
      Uses ["mdl"; "SRange"] []]);
   (9, [
      Uses ["SRange"] ["s"; "n"; "d"]]);
   (11, [
      Uses ["mdl"] []; Uses ["mdl"; "x"] ["xVal"]; Uses [] ["_all_shifts"]; Uses [] [];
      Uses ["SRange"] ["s"; "d"; "n"]; Uses ["stdout"] []]);
   (13, [
      Uses ["Model"] ["mdl"]; Uses [] ["Nurses"]; Uses [] ["nDays"]; Uses [] ["nShifts"];
      Uses ["len"; "Nurses"] ["nNurses"]; Uses ["range"; "nDays"] ["DRange"];
      Uses ["range"; "nShifts"] ["SRange"]; Uses ["range"; "nNurses"] ["NRange"];
      Uses ["mdl"; "nDays"; "nShifts"; "nNurses"] ["x"]; Uses ["mdl"; "DRange"] [];
      Uses ["mdl"; "DRange"] []; Uses ["mdl"; "NRange"] []; Uses ["mdl"; "NRange"] [];
      Uses ["mdl"; "SRange"] []; Uses ["SRange"] ["s"; "n"; "d"]]);
   (15, [
      Uses ["mdl"; "nNurses"; "nShifts"; "nDays"] ["y"]; Uses ["NRange"] ["n"]]);
   (17, [
      Uses ["mdl"; "NRange"] []]);
   (19, [
      Uses ["mdl"] []; Uses ["mdl"; "x"] ["xVal"]; Uses [] ["_all_shifts"]; Uses [] [];
      Uses ["SRange"] ["s"; "d"; "n"]; Uses ["stdout"] []]);
   (21, [
      Uses ["mdl"; "y"] ["yVal"]; Uses ["stdout"] []; Uses ["NRange"] ["n"]]);
   (23, [
      Uses ["Model"] ["mdl"]; Uses ["math"] ["Nurses"]; Uses [] ["nDays"]; Uses [] ["nShifts"];
      Uses ["len"; "Nurses"] ["nNurses"]; Uses ["range"; "nDays"] ["DRange"];
      Uses ["range"; "nShifts"] ["SRange"]; Uses ["range"; "nNurses"] ["NRange"];
      Uses ["mdl"; "nDays"; "nShifts"; "nNurses"] ["x"]; Uses ["mdl"; "DRange"] [];
      Uses ["mdl"; "DRange"] []; Uses ["mdl"; "NRange"] []; Uses ["mdl"; "NRange"] [];
      Uses ["mdl"; "SRange"] []; Uses ["SRange"] ["s"; "n"; "d"];
      Uses ["mdl"; "nNurses"; "nShifts"; "nDays"] ["y"]; Uses ["NRange"] ["n"];
      Uses ["mdl"; "NRange"] []]);
   (25, [
      Uses ["NRange"] ["n"; "incomp"; "k"; "n2"]]);
   (26, [
      Uses ["mdl"] []; Uses ["mdl"; "x"] ["xVal"]; Uses [] ["_all_shifts"]; Uses [] [];
      Uses ["SRange"] ["s"; "d"; "n"]; Uses ["stdout"] []]);
   (27, []);
   (28, [])].

Definition sudoku_uses : list (nat * list name_use) :=
  [(1, [
      Uses [] ["xp"]; Uses [] []; Uses [] ["np"]; Uses [] ["dataclass"]; Uses [] ["stdout"];
      Uses [] ["sudoku"]; Uses ["dataclass"; "int"] ["Value"]; Uses ["xp"] ["model"]; Uses [] ["n"];
      Uses ["range"] ["nRange"]; Uses ["int"; "np"; "n"] ["s"]; Uses ["range"; "s"] ["sRange"];
      Uses ["nRange"] ["values"]]);
   (3, []);
   (5, []);
   (7, []);
   (9, []);
   (11, []);
   (13, []);
   (15, [
      Uses ["model"] []]);
   (16, [
      Uses ["values"] ["xVal"]; Uses [] []; Uses ["nRange"] ["i"; "j"; "v"]; Uses ["stdout"] []])].

Definition portfolio_optimization_uses : list (nat * list name_use) :=
  [(1, [
      Uses [] ["web"]; Uses [] ["np"]; Uses [] ["pd"]; Uses [] ["xp"]; Uses [] []; Uses [] ["norm"];
      Uses [] ["plt"]; Uses [] ["dataclass"]; Uses [] ["stocks"]; Uses ["web"; "stocks"] ["data"];
      Uses ["data"] []; Uses ["data"] ["returns"]; Uses ["returns"] ["means"];
      Uses ["returns"] ["cov_matrix"]; Uses ["pd"; "np"; "cov_matrix"] ["sigma"]; Uses [] ["beta"];
      Uses ["dataclass"; "str"; "float"] ["Investment"]; Uses ["list"] ["investments"];
      Uses ["stocks"] ["s"]]);
   (3, []);
   (5, []);
   (7, []);
   (9, []);
   (11, [
      Uses ["norm"; "beta"] []]);
   (13, [
      Uses ["model"] []; Uses ["print"; "model"] []]);
   (15, [
      Uses [] ["n"]; Uses ["investments"] ["samples"]; Uses [] ["satisfied"];
      Uses ["range"; "n"] ["k"; "satisfied"]; Uses ["print"; "satisfied"; "n"] []]);
   (16, [
      Uses ["means"] []; Uses ["sigma"] []; Uses ["pd"; "means"; "sigma"] ["df"]; Uses ["df"] []])].

Definition deviation_estimation_uses : list (nat * list name_use) :=
  [(1, [
      Uses [] ["np"]; Uses [] ["plt"]; Uses [] ["xp"]; Uses [] []; Uses [] ["math"]; Uses [] ["n"];
      Uses ["range"; "n"] ["nRange"]; Uses ["np"; "n"] ["coord"]; Uses [] ["plotting"];
      Uses ["plotting"; "coord"] []])].

Definition doctors_scheduling_uses : list (nat * list name_use) :=
  [(1, [
      Uses [] ["xp"]; Uses [] []; Uses [] ["pd"]; Uses [] ["np"]; Uses [] ["dataclass"];
      Uses [] ["datetime"]; Uses [] ["timedelta"]; Uses [] ["time"]; Uses ["pd"] ["df"];
      Uses ["datetime"] ["start_time"]; Uses ["datetime"] ["end_time"]; Uses [] ["day_limit"];
      Uses ["end_time"; "start_time"] ["total_work_time"]; Uses [] ["Doctor"]; Uses [] ["Shift"];
      Uses ["df"] ["hospitals"]; Uses ["list"] ["doctors"];
      Uses ["df"] ["index"; "row"; "is_pregnant"; "work_list"; "hospital"];
      Uses ["list"] ["shifts"]; Uses ["list"] ["shift_days"]; Uses ["start_time"] ["current"];
      Uses [] ["weekday_times"]; Uses [] ["weekend_times"];
      Uses ["current"; "end_time"] ["shifts"; "current"];
      Uses ["dataclass"; "Doctor"; "Shift"; "str"] ["Placement"]; Uses ["doctors"] ["placements"];
      Uses ["dataclass"; "Doctor"; "datetime"] ["Nightshift"]; Uses ["doctors"] ["nightshifts"]]);
   (4, []);
   (6, []);
   (8, []);
   (10, []);
   (12, []);
   (14, [
      Uses ["model"] []; Uses ["print"; "model"] []])].

Definition uses_table : list (notebook * list (nat * list name_use)) :=
  [(batch_scheduling, batch_scheduling_uses);
   (batch_scheduling_part1_solution, batch_scheduling_part1_solution_uses);
   (batch_scheduling_part2_solution, batch_scheduling_part2_solution_uses);
   (doctors_scheduling_part1_solution, doctors_scheduling_part1_solution_uses);
   (doctors_scheduling_solution, doctors_scheduling_solution_uses);
   (facility_location_solution, facility_location_solution_uses);
   (introduction_to_python, introduction_to_python_uses);
   (n_queens, n_queens_uses);
   (portfolio_basinhopping, portfolio_basinhopping_uses);
   (tank_mpc, tank_mpc_uses);
   (portfolio_optimization2, portfolio_optimization2_uses);
   (tank_problem, tank_problem_uses);
   (n_queens_checkpoint, n_queens_checkpoint_uses);
   (two_tanks_solution, two_tanks_solution_uses);
   (introduction_to_classes, introduction_to_classes_uses);
   (urban_zone_fares, urban_zone_fares_uses);
   (urban_zone_fares_solution, urban_zone_fares_solution_uses);
   (basin_hopping, basin_hopping_uses);
   (nurse_scheduling, nurse_scheduling_uses);
   (sudoku, sudoku_uses);
   (portfolio_optimization, portfolio_optimization_uses);
   (deviation_estimation, deviation_estimation_uses);
   (doctors_scheduling, doctors_scheduling_uses)].

(** The name uses of the statements of a cell, in the order of [source]. *)
Definition uses_of (nb : notebook) : list (nat * list name_use) :=
  match find (fun e => String.eqb (file (fst e)) (file nb)
                       && Nat.eqb (index (fst e)) (index nb)) uses_table with
  | Some e => snd e
  | None => []
  end.

Definition cell_uses (nb : notebook) (c : code_cell) : list name_use :=
  match find (fun e => Nat.eqb (fst e) (position c)) (uses_of nb) with
  | Some e => snd e
  | None => []
  end.

(** Python's built-in functions, bound before any cell runs. *)
Definition builtins : list string :=
  ["abs"; "all"; "any"; "ascii"; "bin"; "bool"; "breakpoint"; "bytearray"; "bytes";
   "callable"; "chr"; "classmethod"; "compile"; "complex"; "delattr"; "dict"; "dir";
   "divmod"; "enumerate"; "eval"; "exec"; "filter"; "float"; "format"; "frozenset";
   "getattr"; "globals"; "hasattr"; "hash"; "help"; "hex"; "id"; "input"; "int";
   "isinstance"; "issubclass"; "iter"; "len"; "list"; "locals"; "map"; "max";
   "memoryview"; "min"; "next"; "object"; "oct"; "open"; "ord"; "pow"; "print";
   "property"; "range"; "repr"; "reversed"; "round"; "set"; "setattr"; "slice";
   "sorted"; "staticmethod"; "str"; "sum"; "super"; "tuple"; "type"; "vars"; "zip"].

Definition mem (x : string) (l : list string) : bool := existsb (String.eqb x) l.

(** [env] are the names bound so far; [*] stands for a star import,
    after which any name may be bound. *)
Definition is_bound (env : list string) (x : string) : bool :=
  mem x builtins || mem "*" env || mem x env.

(** *** A run of a notebook, top to bottom *)

(** What the libraries do when a statement runs is not in the notebook:
    a call may raise (no licence, no file, no network, a wrong
    argument).  A run is therefore taken relative to a verdict for every
    statement, given by the cell's position and the statement's place in
    the cell: the statement completes, or raises before its solver call
    is made, or raises in or after its solver call. *)
Inductive verdict : Type := Completes | RaisesBefore | RaisesAfter.

Definition libraries : Type := nat -> nat -> verdict.

Definition nothing_raises : libraries := fun _ _ => Completes.

(** Statement [i] of the cell at [pos] raises before any solver call of
    its own, and nothing else raises. *)
Definition raises_at (pos i : nat) : libraries :=
  fun p j => if (p =? pos)%nat && (j =? i)%nat then RaisesBefore else Completes.

(** The names bound so far and the solver calls made so far. *)
Record state : Type := { bound : list string; made : nat }.

Definition solver_calls_of (s : stmt) : nat :=
  length (List.filter is_solver_call (stmt_direct_calls s)).

(** One statement.  Reading a name that is not bound raises [NameError]
    before the statement binds or calls anything.  A statement that
    raises in a library may have bound some of its names already.  The
    second component tells whether the statement raised. *)
Definition run_stmt (v : verdict) (s : stmt) (u : name_use) (st : state) : state * bool :=
  if forallb (is_bound (bound st)) (reads u) then
    match v with
    | Completes =>
        ({| bound := binds u ++ bound st; made := made st + solver_calls_of s |}, false)
    | RaisesBefore =>
        ({| bound := binds u ++ bound st; made := made st |}, true)
    | RaisesAfter =>
        ({| bound := binds u ++ bound st; made := made st + solver_calls_of s |}, true)
    end
  else (st, true).

(** The statements of a cell run in order; the first that raises ends
    the cell. *)
Fixpoint run_stmts (lib : nat -> verdict) (i : nat) (l : list (stmt * name_use))
    (st : state) : state * bool :=
  match l with
  | [] => (st, false)
  | su :: l =>
      let r := run_stmt (lib i) (fst su) (snd su) st in
      if snd r then r else run_stmts lib (S i) l (fst r)
  end.

(** A cell that does not parse raises [SyntaxError] and runs nothing. *)
Definition run_cell (lib : libraries) (nb : notebook) (c : code_cell) (st : state)
  : state * bool :=
  if cell_parses c
  then run_stmts (lib (position c)) 0 (combine (source c) (cell_uses nb c)) st
  else (st, true).

(** The cells run in order.  With [stop] the run ends at the first cell
    that raises (Run All); without it the next cell runs all the same
    (cell after cell by hand). *)
Fixpoint run_cells (stop : bool) (lib : libraries) (nb : notebook)
    (cs : list code_cell) (st : state) : state :=
  match cs with
  | [] => st
  | c :: cs =>
      let r := run_cell lib nb c st in
      if snd r && stop then fst r else run_cells stop lib nb cs (fst r)
  end.

Definition run (stop : bool) (lib : libraries) (nb : notebook) : state :=
  run_cells stop lib nb (cells nb) {| bound := []; made := 0 |}.

(** The solver calls a run makes. *)
Definition calls_made (stop : bool) (lib : libraries) (nb : notebook) : nat :=
  made (run stop lib nb).

(** A statement that does not bind [x], and that reads [x] if it holds a
    solver call. *)
Definition keeps_unbound (x : string) (su : stmt * name_use) : bool :=
  negb (mem x (binds (snd su))) && negb (mem "*" (binds (snd su)))
  && ((solver_calls_of (fst su) =? 0)%nat || mem x (reads (snd su))).

(** No statement of [nb] binds [x], [x] is no built-in, and every
    statement with a solver call reads [x]. *)
Definition solver_needs_unbound (x : string) (nb : notebook) : bool :=
  negb (mem x builtins)
  && forallb (fun c => forallb (keeps_unbound x) (combine (source c) (cell_uses nb c)))
             (cells nb).

(** A state in which [x] is unbound and no solver call has been made. *)
Definition quiet (x : string) (st : state) : Prop :=
  made st = 0 /\ is_bound (bound st) x = false.

(** The table of name uses follows the transcript: it has the cells of
    the notebook, one entry per statement of a cell that parses, and
    the names the transcript shows as bound (targets that are names,
    functions, classes, loop variables) are among [binds]. *)
Definition stmt_binders (s : stmt) : list string :=
  match s with
  | SAssign ts _ => List.filter is_name ts
  | SDef n _ _ | SClassDef n _ _ _ => [n]
  | SFor t _ _ => List.filter is_name [t]
  | _ => []
  end.

Definition same_nats (a b : list nat) : bool :=
  Nat.eqb (length a) (length b)
  && forallb (fun p => Nat.eqb (fst p) (snd p)) (combine a b).

Definition uses_follow_transcript (nb : notebook) : bool :=
  same_nats (map position (cells nb)) (map fst (uses_of nb))
  && forallb (fun c =>
       if cell_parses c
       then Nat.eqb (length (cell_uses nb c)) (length (source c))
            && forallb (fun su => forallb (fun n => mem n (binds (snd su)))
                                          (stmt_binders (fst su)))
                       (combine (source c) (cell_uses nb c))
       else match cell_uses nb c with [] => true | _ => false end)
       (cells nb).

(** *** What the calls are for *)






(** *** Sampling over the solution *)

(** The statements of the cell at a position. *)
Definition cell_source (nb : notebook) (pos : nat) : list stmt :=
  flat_map (fun c => if (position c =? pos)%nat then source c else []) (cells nb).

(** The names some statement of a cell that parses, at or before
    position [pos], can have bound.  No run binds more than these when
    it reaches the cell. *)
Definition binders_upto (nb : notebook) (pos : nat) : list string :=
  flat_map (fun c => if cell_parses c && (position c <=? pos)%nat
                     then flat_map binds (cell_uses nb c) else [])
           (cells nb).





End Notebook.

(** ** Dates and times of Python's [datetime] module

    The doctors notebooks build their shifts from [datetime], [timedelta]
    and [time] values.  A date is kept as its proleptic Gregorian ordinal
    ([date.toordinal()]); the fields are integers, as in Python. *)

Module Datetime.
Local Open Scope Z_scope.

Record time : Type := mk_time { hour : Z; minute : Z; second : Z; microsecond : Z }.
Record datetime : Type := mk_datetime { ordinal : Z; clock : time }.
Record timedelta : Type := mk_timedelta { days : Z; seconds : Z; microseconds : Z }.

Definition is_leap (y : Z) : bool :=
  (y mod 4 =? 0) && (negb (y mod 100 =? 0) || (y mod 400 =? 0)).

Definition days_before_year (year : Z) : Z :=
  let y := year - 1 in y * 365 + y / 4 - y / 100 + y / 400.

Definition DAYS_BEFORE_MONTH : list Z :=
  [0; 31; 59; 90; 120; 151; 181; 212; 243; 273; 304; 334].

Definition days_before_month (year month : Z) : Z :=
  nth (Z.to_nat (month - 1)) DAYS_BEFORE_MONTH 0
  + (if (month >? 2) && is_leap year then 1 else 0).

Definition ymd2ord (year month day : Z) : Z :=
  days_before_year year + days_before_month year month + day.

(** [time(h, m)] and [datetime(y, m, d)]: the omitted fields are zero. *)
Definition time_hm (h m : Z) : time := mk_time h m 0 0.
Definition datetime_ymd (y m d : Z) : datetime :=
  mk_datetime (ymd2ord y m d) (mk_time 0 0 0 0).

(** [timedelta(days, seconds, microseconds)] carries microseconds into
    seconds and seconds into days ([divmod], floor division). *)
Definition timedelta_new (d s us : Z) : timedelta :=
  let s' := s + us / 1000000 in
  mk_timedelta (d + s' / 86400) (s' mod 86400) (us mod 1000000).

Definition timedelta_hours (h : Z) : timedelta := timedelta_new 0 (h * 3600) 0.
Definition timedelta_days (d : Z) : timedelta := timedelta_new d 0 0.

Definition clock_seconds (t : time) : Z :=
  second t + minute t * 60 + hour t * 3600.

(** [a - b] on two datetimes. *)
Definition datetime_sub (a b : datetime) : timedelta :=
  timedelta_new (ordinal a - ordinal b)
                (clock_seconds (clock a) - clock_seconds (clock b))
                (microsecond (clock a) - microsecond (clock b)).

Definition MAXORDINAL : Z := 3652059.

(** [a + td]; [None] is Python's [OverflowError]. *)
Definition datetime_add (a : datetime) (td : timedelta) : option datetime :=
  let delta :=
    timedelta_new (ordinal a + days td)
                  (clock_seconds (clock a) + seconds td)
                  (microsecond (clock a) + microseconds td) in
  let h := seconds delta / 3600 in
  let rem := seconds delta mod 3600 in
  if (0 <? days delta) && (days delta <=? MAXORDINAL)
  then Some (mk_datetime (days delta)
                         (mk_time h (rem / 60) (rem mod 60) (microseconds delta)))
  else None.

(** [td.total_seconds()], as the exact quotient. *)
Definition total_seconds (td : timedelta) : Q :=
  (inject_Z ((days td * 86400 + seconds td) * 1000000 + microseconds td)
   / inject_Z 1000000)%Q.

(** Comparison of two [time] values: the tuples (hour, minute, second,
    microsecond) are compared lexicographically. *)
Definition time_cmp (a b : time) : comparison :=
  match hour a ?= hour b with
  | Eq => match minute a ?= minute b with
          | Eq => match second a ?= second b with
                  | Eq => microsecond a ?= microsecond b
                  | c => c
                  end
          | c => c
          end
  | c => c
  end.

Definition time_ge (a b : time) : bool :=
  match time_cmp a b with Lt => false | _ => true end.
Definition time_le (a b : time) : bool :=
  match time_cmp a b with Gt => false | _ => true end.

(** [a <= b] on two datetimes: dates first, then times. *)
Definition datetime_le (a b : datetime) : bool :=
  match ordinal a ?= ordinal b with
  | Lt => true
  | Eq => time_le (clock a) (clock b)
  | Gt => false
  end.

(** [dt.weekday()]: Monday is 0. *)
Definition weekday (dt : datetime) : Z := (ordinal dt + 6) mod 7.

(** The fields of a [time] are in range. *)
Definition valid_time (t : time) : Prop :=
  0 <= hour t < 24 /\ 0 <= minute t < 60 /\ 0 <= second t < 60
  /\ 0 <= microsecond t < 1000000.

(** Microseconds since midnight. *)
Definition time_of_day (t : time) : Z :=
  clock_seconds t * 1000000 + microsecond t.

End Datetime.

(** ** Python values and instances

    An instance is its [__dict__]: a finite map from attribute names to
    values.  Floats are kept as exact rationals in lowest terms. *)

Module Py.

Inductive pyval : Type :=
| VNone
| VBool (b : bool)
| VInt (n : Z)
| VFloat (q : Q)
| VStr (s : string)
| VDatetime (d : Datetime.datetime)
| VTuple (l : list pyval)
| VList (l : list pyval)
| VObj (cls : string) (dict : gmap string pyval).

Definition py_float (q : Q) : pyval := VFloat (Qred q).

(** [self.name = v] *)
Definition setattr (name : string) (v : pyval) (self : gmap string pyval)
  : gmap string pyval := <[name := v]> self.

(** The number held by an [int] or a [float]. *)
Definition as_number (v : pyval) : option Q :=
  match v with
  | VInt n => Some (inject_Z n)
  | VFloat q => Some q
  | _ => None
  end.

End Py.

(** ** The classes the notebooks define *)

Module Records.
Import Py Datetime.

(** *** Doctors scheduling: [Doctor] and [Shift] *)

(** [Doctor.__init__(self, name, is_pregnant, allocation, work_locations)] *)
Definition Doctor__init__ (self : gmap string pyval)
    (name is_pregnant allocation work_locations : pyval) : gmap string pyval :=
  let self := setattr "name" name self in
  let self := setattr "is_pregnant" is_pregnant self in
  let self := setattr "allocation" allocation self in
  let self := setattr "work_locations" work_locations self in
  self.

(** The three derived values of [Shift.__init__]. *)
Definition duration_in_hours (start_time end_time : datetime) : Q :=
  (total_seconds (datetime_sub end_time start_time) / inject_Z 3600)%Q.

Definition is_nightshift (start_time : datetime) : bool :=
  time_ge (clock start_time) (time_hm 18 0) || time_le (clock start_time) (time_hm 2 0).

Definition float_lt (a b : Q) : bool :=
  match (a ?= b)%Q with Lt => true | _ => false end.

Definition can_work_pregnant (start_time end_time : datetime) : bool :=
  float_lt (duration_in_hours start_time end_time) (inject_Z 12)
  && negb (is_nightshift start_time).

(** [Shift.__init__(self, start_time, end_time)] *)
Definition Shift__init__ (self : gmap string pyval)
    (start_time end_time : datetime) : gmap string pyval :=
  let self := setattr "start_time" (VDatetime start_time) self in
  let self := setattr "end_time" (VDatetime end_time) self in
  let self := setattr "duration_in_hours"
                (py_float (duration_in_hours start_time end_time)) self in
  let self := setattr "is_nightshift" (VBool (is_nightshift start_time)) self in
  let self := setattr "can_work_pregnant"
                (VBool (can_work_pregnant start_time end_time)) self in
  self.

(** The shift hours of the notebook, as offsets from midnight. *)
Definition weekday_times : list (Z * Z) := [(6, 14); (14, 22); (22, 30)]%Z.
Definition weekend_times : list (Z * Z) := [(6, 18); (18, 30)]%Z.
Definition start_time : datetime := datetime_ymd 2019 7 1.

(** [Shift(current + timedelta(hours=start), current + timedelta(hours=end))] *)
Definition shift_at (current : datetime) (hours : Z * Z)
  : option (gmap string pyval) :=
  match datetime_add current (timedelta_hours (fst hours)),
        datetime_add current (timedelta_hours (snd hours)) with
  | Some s, Some e => Some (Shift__init__ ∅ s e)
  | _, _ => None
  end.

Definition end_time : datetime := datetime_ymd 2019 8 30.

(** The list comprehension over the shift hours of one day. *)
Fixpoint shifts_of_day (current : datetime) (times : list (Z * Z))
  : option (list (gmap string pyval)) :=
  match times with
  | [] => Some []
  | hours :: times =>
      match shift_at current hours, shifts_of_day current times with
      | Some s, Some rest => Some (s :: rest)
      | _, _ => None
      end
  end.

(** The loop [while current <= end_time] that fills [shifts] and
    [shift_days], one iteration per unit of fuel.  [None] is an
    [OverflowError] or fuel that ran out before the loop ended. *)
Fixpoint shift_loop (fuel : nat) (shifts : list (gmap string pyval))
    (shift_days : list datetime) (current : datetime)
  : option (list (gmap string pyval) * list datetime) :=
  if datetime_le current end_time then
    match fuel with
    | O => None
    | S fuel =>
        let shift_days := shift_days ++ [current] in
        let times := if (weekday current <? 5)%Z then weekday_times else weekend_times in
        match shifts_of_day current times,
              datetime_add current (timedelta_days 1) with
        | Some new, Some next => shift_loop fuel (shifts ++ new) shift_days next
        | _, _ => None
        end
    end
  else Some (shifts, shift_days).

(** A shift is open to pregnant doctors exactly when it starts on a
    weekday at 06:00 or 14:00. *)
Definition weekday_day_shift_rule (s : gmap string pyval) : bool :=
  match s !! "start_time", s !! "can_work_pregnant" with
  | Some (VDatetime start), Some (VBool b) =>
      Bool.eqb b ((weekday start <? 5)%Z
                  && ((hour (clock start) =? 6)%Z || (hour (clock start) =? 14)%Z))
  | _, _ => false
  end.

(** *** Urban zone fares: [Connection] *)

(** [Connection.__init__(self, origin, destination, distance, elasticity,
    base_rideship)]; the last argument is stored as [base_ridership]. *)
Definition Connection__init__ (self : gmap string pyval)
    (origin destination distance elasticity base_rideship : pyval)
  : gmap string pyval :=
  let self := setattr "origin" origin self in
  let self := setattr "destination" destination self in
  let self := setattr "distance" distance self in
  let self := setattr "elasticity" elasticity self in
  let self := setattr "base_ridership" base_rideship self in
  self.

Definition Connection (origin destination distance elasticity base_rideship : pyval)
  : gmap string pyval :=
  Connection__init__ ∅ origin destination distance elasticity base_rideship.

(** The [connections] list of the notebook. *)
Definition connection (o d : string) (dist e : Q) (p : Z) : gmap string pyval :=
  Connection (VStr o) (VStr d) (VFloat dist) (VFloat e) (VInt p).

Definition connections : list (gmap string pyval) :=
  [ connection "Norreport" "Kastrup" (79 # 10) (-6 # 10) 50;
    connection "Norreport" "Glostrup" (121 # 10) (-7 # 10) 3;
    connection "Norreport" "Klampenborg" (115 # 10) (-6 # 10) 9;
    connection "Norreport" "Herlev" (96 # 10) (-8 # 10) 15;
    connection "Norreport" "Christianshavn" (18 # 10) (-9 # 10) 80;
    connection "Kastrup" "Glostrup" (183 # 10) (-7 # 10) 8;
    connection "Kastrup" "Klampenborg" (191 # 10) (-5 # 10) 9;
    connection "Kastrup" "Herlev" (175 # 10) (-9 # 10) 5;
    connection "Kastrup" "Christianshavn" (62 # 10) (-9 # 10) 60;
    connection "Glostrup" "Klampenborg" (202 # 10) (-6 # 10) 16;
    connection "Glostrup" "Herlev" (75 # 10) (-8 # 10) 26;
    connection "Glostrup" "Christianshavn" (131 # 10) (-9 # 10) 34;
    connection "Klampenborg" "Herlev" (137 # 10) (-4 # 10) 35;
    connection "Klampenborg" "Christianshavn" (132 # 10) (-9 # 10) 12;
    connection "Herlev" "Christianshavn" (116 # 10) (-9 # 10) 19 ].

(** *** Classes generated by [@dataclass]

    The generated [__init__] takes one argument per declared field, base
    class fields first, and stores each under the field's name.  A wrong
    number of arguments is a [TypeError] ([None]). *)
Fixpoint dataclass__init__ (self : gmap string pyval)
    (fields : list string) (args : list pyval) : option (gmap string pyval) :=
  match fields, args with
  | [], [] => Some self
  | f :: fields, a :: args => dataclass__init__ (setattr f a self) fields args
  | _, _ => None
  end.

(** *** An introduction to classes, Introduction to Python *)

(** [Doctor.__init__(self, name, allocation, is_pregnant)] of the classes
    notebook. *)
Definition IntroDoctor__init__ (self : gmap string pyval)
    (name allocation is_pregnant : pyval) : gmap string pyval :=
  let self := setattr "name" name self in
  let self := setattr "allocation" allocation self in
  let self := setattr "is_pregnant" is_pregnant self in
  self.

(** [Rectangle.__init__(self, width, length)] *)
Definition Rectangle__init__ (self : gmap string pyval)
    (width length : pyval) : gmap string pyval :=
  let self := setattr "width" width self in
  let self := setattr "length" length self in
  self.

(** *** Facility location: [Unit.get_distance] and [Connection] *)

Section FacilityLocation.

(** [np.sqrt] on a float is numpy's; it is a parameter here. *)
Variable np_sqrt : Q -> Q.

(** [np.subtract] of two coordinate tuples of the same length. *)
Fixpoint np_subtract (a b : list pyval) : option (list Q) :=
  match a, b with
  | [], [] => Some []
  | x :: a, y :: b =>
      match as_number x, as_number y, np_subtract a b with
      | Some p, Some q, Some r => Some ((p - q)%Q :: r)
      | _, _, _ => None
      end
  | _, _ => None
  end.

Definition np_square (l : list Q) : list Q := map (fun q => (q * q)%Q) l.
Definition np_sum (l : list Q) : Q := fold_right Qplus 0%Q l.

(** [Unit.get_distance(self, other_unit)]:
    [np.sqrt(np.sum(np.square(np.subtract(self.coordinate,
    other_unit.coordinate))))].  [None] is an [AttributeError] or a
    coordinate that is not a tuple of numbers of the other's length. *)
Definition get_distance (self other_unit : pyval) : option Q :=
  match self, other_unit with
  | VObj _ d1, VObj _ d2 =>
      match d1 !! "coordinate", d2 !! "coordinate" with
      | Some (VTuple a), Some (VTuple b) =>
          match np_subtract a b with
          | Some diff => Some (np_sqrt (np_sum (np_square diff)))
          | None => None
          end
      | _, _ => None
      end
  | _, _ => None
  end.

(** [Connection.__init__(self, origin, destination)] of the facility
    location notebook. *)
Definition FacilityConnection__init__ (self : gmap string pyval)
    (origin destination : pyval) : option (gmap string pyval) :=
  let self := setattr "origin" origin self in
  let self := setattr "destination" destination self in
  match get_distance origin destination with
  | Some dist => Some (setattr "distance" (py_float dist) self)
  | None => None
  end.

(** The record classes of the notebooks. *)
Inductive record_class : Type :=
| Doctor | Shift | Placement | Nightshift          (* doctors scheduling *)
| FareConnection                                   (* urban zone fares *)
| Unit | Facility | Client | FacilityConnection    (* facility location *)
| Value                                            (* sudoku *)
| Position                                         (* n-queens *)
| Investment                                       (* portfolio optimization *)
| Rectangle | DataRectangle                        (* introduction to Python *)
| IntroDoctor.                                     (* introduction to classes *)

(** The attribute names a class declares: the fields of a dataclass, the
    attributes its [__init__] assigns from its parameters otherwise. *)
Definition field_names (c : record_class) : list string :=
  match c with
  | Doctor => ["name"; "is_pregnant"; "allocation"; "work_locations"]
  | Shift => ["start_time"; "end_time"]
  | Placement => ["doctor"; "shift"; "hospital"]
  | Nightshift => ["doctor"; "day"]
  | FareConnection => ["origin"; "destination"; "distance"; "elasticity"; "base_ridership"]
  | Unit => ["name"; "coordinate"]
  | Facility => ["name"; "coordinate"; "construction_cost"]
  | Client => ["name"; "coordinate"; "demand"]
  | FacilityConnection => ["origin"; "destination"]
  | Value => ["row"; "column"; "value"]
  | Position => ["row"; "column"]
  | Investment => ["name"; "mean"; "sigma"]
  | Rectangle | DataRectangle => ["width"; "length"]
  | IntroDoctor => ["name"; "allocation"; "is_pregnant"]
  end.

(** The attributes [__init__] computes instead of taking them from a
    parameter. *)
Definition derived_fields (c : record_class) : list string :=
  match c with
  | Shift => ["duration_in_hours"; "is_nightshift"; "can_work_pregnant"]
  | FacilityConnection => ["distance"]
  | _ => []
  end.

Definition record_classes : list record_class :=
  [Doctor; Shift; Placement; Nightshift; FareConnection; Unit; Facility; Client;
   FacilityConnection; Value; Position; Investment; Rectangle; DataRectangle;
   IntroDoctor].

(** The name of the class in its notebook. *)
Definition class_name (c : record_class) : string :=
  match c with
  | Doctor | IntroDoctor => "Doctor"
  | Shift => "Shift"
  | Placement => "Placement"
  | Nightshift => "Nightshift"
  | FareConnection | FacilityConnection => "Connection"
  | Unit => "Unit"
  | Facility => "Facility"
  | Client => "Client"
  | Value => "Value"
  | Position => "Position"
  | Investment => "Investment"
  | Rectangle | DataRectangle => "Rectangle"
  end.

(** Calling the class on [args]: the [__dict__] of the new instance, or [None] when the
    call raises. *)
Definition construct (c : record_class) (args : list pyval)
  : option (gmap string pyval) :=
  match c, args with
  | Doctor, [n; p; a; w] => Some (Doctor__init__ ∅ n p a w)
  | Shift, [VDatetime s; VDatetime e] => Some (Shift__init__ ∅ s e)
  | FareConnection, [o; d; dist; e; p] => Some (Connection__init__ ∅ o d dist e p)
  | FacilityConnection, [o; d] => FacilityConnection__init__ ∅ o d
  | Rectangle, [w; l] => Some (Rectangle__init__ ∅ w l)
  | IntroDoctor, [n; a; p] => Some (IntroDoctor__init__ ∅ n a p)
  | (Placement | Nightshift | Unit | Facility | Client | Value | Position
     | Investment | DataRectangle), _ => dataclass__init__ ∅ (field_names c) args
  | _, _ => None
  end.

End FacilityLocation.

End Records.

(** ** Basin-hopping notebook: the accept tests *)

Module BasinHopping.

(** One-dimensional numpy arrays of floats are lists of rationals. *)

(** An elementwise comparison of two arrays.  Arrays of the same length
    are compared position by position, an array of length one is
    broadcast against the other, and any other pair of lengths is numpy's
    [ValueError] ([None]). *)
Definition np_compare (f : Q -> Q -> bool) (a b : list Q) : option (list bool) :=
  if Nat.eqb (length a) (length b) then Some (map (fun p => f (fst p) (snd p)) (combine a b))
  else match a, b with
       | [x], _ => Some (map (fun y => f x y) b)
       | _, [y] => Some (map (fun x => f x y) a)
       | _, _ => None
       end.

Definition np_le : list Q -> list Q -> option (list bool) := np_compare Qle_bool.
Definition np_ge : list Q -> list Q -> option (list bool) :=
  np_compare (fun x y => Qle_bool y x).
Definition np_all (l : list bool) : bool := forallb (fun b => b) l.

Record MyBounds : Type := { xmax : list Q; xmin : list Q }.

(** [MyBounds.__init__(self, xmax=[1.1,1.1], xmin=[-1.1,-1.1])]; an
    argument that is not given is [None] here. *)
Definition MyBounds__init__ (xmax xmin : option (list Q)) : MyBounds :=
  {| xmax := default [11 # 10; 11 # 10] xmax;
     xmin := default [-11 # 10; -11 # 10] xmin |}.

(** [MyBounds2.__init__(self, xmax=[1.1,1.1], xmin=[0.5,0.5])] *)
Definition MyBounds2__init__ (xmax xmin : option (list Q)) : MyBounds :=
  {| xmax := default [11 # 10; 11 # 10] xmax;
     xmin := default [5 # 10; 5 # 10] xmin |}.

(** [__call__(self, **kwargs)], the same in both classes.  Only
    [kwargs["x_new"]] is read; [None] is the [KeyError] of a missing key
    or the [ValueError] of the comparison. *)
Definition MyBounds__call__ (self : MyBounds) (kwargs : gmap string (list Q))
  : option bool :=
  match kwargs !! "x_new" with
  | None => None
  | Some x =>
      match np_le x (xmax self) with
      | None => None
      | Some le_max =>
          let tmax := np_all le_max in
          match np_ge x (xmin self) with
          | None => None
          | Some ge_min =>
              let tmin := np_all ge_min in
              Some (tmax && tmin)
          end
      end
  end.

Definition mybounds : MyBounds := MyBounds__init__ None None.
Definition mybounds2 : MyBounds := MyBounds2__init__ None None.

(** The keyword arguments with which [basinhopping] calls an accept test. *)
Definition accept_kwargs (f_new : Q) (x_new : list Q) (f_old : Q) (x_old : list Q)
  : gmap string (list Q) :=
  <["f_new" := [f_new]]> (<["x_new" := x_new]>
    (<["f_old" := [f_old]]> (<["x_old" := x_old]> ∅))).

End BasinHopping.

(** ** Nurse scheduling: the constraints of the first model *)

Module Nurse.
Local Open Scope Z_scope.

Definition nDays : nat := 7.
Definition nShifts : nat := 4.   (* the first shift (0) is the day off *)
Definition nNurses : nat := 4.

Definition DRange : list nat := seq 0 nDays.
Definition SRange : list nat := seq 0 nShifts.
Definition NRange : list nat := seq 0 nNurses.

(** A value for every variable [x[d,s,n]] of [binary_var_cube]. *)
Definition assignment : Type := nat -> nat -> nat -> Z.

Definition binary_var (v : Z) : bool := (v =? 0) || (v =? 1).

Definition mdl_sum (l : list Z) : Z := fold_right Z.add 0 l.

(** [mdl.sum(x[d,s,n] for s in SRange) == 1] *)
Definition assign_day_nurse (x : assignment) (d n : nat) : bool :=
  mdl_sum (map (fun s => x d s n) SRange) =? 1.

(** [mdl.sum(x[d,s,n] for n in NRange) == 1] *)
Definition assign_day_shift (x : assignment) (d s : nat) : bool :=
  mdl_sum (map (fun n => x d s n) NRange) =? 1.

(** [mdl.sum(x[d,0,n] for d in DRange) >= 1] and [... <= 2] *)
Definition LB_day_off (x : assignment) (n : nat) : bool :=
  mdl_sum (map (fun d => x d 0%nat n) DRange) >=? 1.
Definition UB_day_off (x : assignment) (n : nat) : bool :=
  mdl_sum (map (fun d => x d 0%nat n) DRange) <=? 2.

(** [mdl.sum((mdl.sum(x[d,s,n] for d in DRange) >= 1) for n in NRange) <= 2],
    the inner comparison counting 1 when it holds. *)
Definition limit_nurses (x : assignment) (s : nat) : bool :=
  mdl_sum (map (fun n => if mdl_sum (map (fun d => x d s n) DRange) >=? 1
                         then 1 else 0) NRange) <=? 2.

(** The [add_if_then] constraints of shifts 2 and 3. *)
Definition same_shift_neighbour (x : assignment) (s n d : nat) : bool :=
  if Nat.eqb d 0 then
    implb (x d s n =? 1) (x (d + 1)%nat s n =? 1)
  else if Nat.ltb d (nDays - 1) then
    implb (x d s n =? 1) ((x (d - 1)%nat s n =? 1) || (x (d + 1)%nat s n =? 1))
  else
    implb (x d s n =? 1) (x (d - 1)%nat s n =? 1).

(** All constraints of the first model hold under [x]. *)
Definition feasible (x : assignment) : bool :=
  forallb (fun d => forallb (fun s => forallb (fun n => binary_var (x d s n)) NRange)
                      SRange) DRange
  && forallb (fun d => forallb (fun n => assign_day_nurse x d n) NRange) DRange
  && forallb (fun d => forallb (fun s => assign_day_shift x d s) SRange) DRange
  && forallb (fun n => LB_day_off x n) NRange
  && forallb (fun n => UB_day_off x n) NRange
  && forallb (fun s => limit_nurses x s) (List.filter (fun s => Nat.ltb 0 s) SRange)
  && forallb (fun s => if Nat.leb s 1 then true else
                forallb (fun n => forallb (fun d => same_shift_neighbour x s n d) DRange)
                        NRange) SRange.

(** Nurse [n] works on day [d]: one of the shifts 1..3 is hers. *)
Definition works (x : assignment) (n d : nat) : bool :=
  existsb (fun s => x d s n =? 1) (List.filter (fun s => Nat.ltb 0 s) SRange).

Definition days_worked (x : assignment) (n : nat) : nat :=
  length (List.filter (works x n) DRange).

(** The schedule printed below the first [mdl.solve()]: per shift and
    day, the number (from 1) of the nurse on it. *)
Definition printed_schedule : list (list nat) :=
  [ [3; 3; 1; 1; 4; 2; 2];
    [4; 4; 4; 4; 1; 4; 4];
    [2; 2; 2; 2; 2; 3; 3];
    [1; 1; 3; 3; 3; 1; 1] ]%nat.

Definition xVal : assignment := fun d s n =>
  if Nat.eqb (nth d (nth s printed_schedule []) 0%nat) (n + 1) then 1 else 0.

End Nurse.

(** ** Portfolio optimization: the risk constraint and the sampling check *)

Module Portfolio.
Local Open Scope R_scope.

Record Investment : Type := { name : string; mean : R; sigma : R }.

Definition xp_Sum (f : Investment -> R) (investments : list Investment) : R :=
  fold_right (fun inv acc => f inv + acc) 0 investments.

(** [x_all == xp.Sum(inv.mean*x[inv] for inv in investments)] *)
Definition link_x_all (investments : list Investment) (x : Investment -> R)
    (x_all : R) : Prop :=
  x_all = xp_Sum (fun inv => mean inv * x inv) investments.

(** [(norm.ppf(beta))**2*xp.Sum((inv.sigma*x[inv])**2 for inv in investments)
    <= x_all**2]; [ppf_beta] stands for scipy's [norm.ppf(beta)]. *)
Definition enforce_risk_limit (ppf_beta : R) (investments : list Investment)
    (x : Investment -> R) (x_all : R) : Prop :=
  ppf_beta ^ 2 * xp_Sum (fun inv => (sigma inv * x inv) ^ 2) investments <= x_all ^ 2.

(** The constraint the notebook keeps as a comment:
    [xp.Sum(inv.mean*x[inv] ...) + norm.ppf(beta)
     * xp.Sum((inv.sigma*x[inv])**2 ...)**(1/2) >= 0]. *)
Definition risk_limit (ppf_beta : R) (investments : list Investment)
    (x : Investment -> R) : Prop :=
  xp_Sum (fun inv => mean inv * x inv) investments
  + ppf_beta * sqrt (xp_Sum (fun inv => (sigma inv * x inv) ^ 2) investments) >= 0.

(** The bounds of the variables: [lb = 0, ub = 1] for every [x[inv]]. *)
Definition x_bounds (investments : list Investment) (x : Investment -> R) : Prop :=
  Forall (fun inv => 0 <= x inv <= 1) investments.

(** [min(inv.mean for inv in investments)] and the [max]; [None] is the
    [ValueError] of an empty sequence. *)
Definition min_mean (investments : list Investment) : option R :=
  match investments with
  | [] => None
  | inv :: rest => Some (fold_left Rmin (map mean rest) (mean inv))
  end.

Definition max_mean (investments : list Investment) : option R :=
  match investments with
  | [] => None
  | inv :: rest => Some (fold_left Rmax (map mean rest) (mean inv))
  end.

(** The bounds of [x_all]: [lb = min(...)], [ub = max(...)]. *)
Definition x_all_bounds (investments : list Investment) (x_all : R) : Prop :=
  match min_mean investments, max_mean investments with
  | Some lb, Some ub => lb <= x_all <= ub
  | _, _ => False
  end.

(** The sampling check of the last cell.  [samples inv k] is the [k]-th
    draw of [np.random.normal(inv.mean, inv.sigma, n)] and [solution inv]
    the value [model.getSolution(x[inv])]; the loop counts in
    [satisfied].  The numbers are numpy doubles: their product, the sum
    [np.sum] takes of a list of them and the test [>= 0] are taken as
    they are, without assuming that they agree with the arithmetic of
    the reals. *)
Section SamplingCheck.

Variable float : Type.
Variable mul : float -> float -> float.
Variable np_sum : list float -> float.
Variable ge_0 : float -> bool.

Definition sampled_return {K : Type} (investments : list K)
    (samples : K -> nat -> float) (solution : K -> float) (k : nat) : float :=
  np_sum (map (fun inv => mul (samples inv k) (solution inv)) investments).

Definition satisfied {K : Type} (investments : list K)
    (samples : K -> nat -> float) (solution : K -> float) (n : nat) : nat :=
  fold_left (fun satisfied k =>
               if ge_0 (sampled_return investments samples solution k)
               then (satisfied + 1)%nat else satisfied)
            (seq 0 n) 0%nat.

End SamplingCheck.

Arguments sampled_return {float} mul np_sum {K} investments samples solution k.
Arguments satisfied {float} mul np_sum ge_0 {K} investments samples solution n.

End Portfolio.

(** ** N-queens: positions, [get_pos] and the constraints *)

Module NQueens.
Local Open Scope Z_scope.

Record Position : Type := { row : Z; column : Z }.

(** [range(n)] for a Python integer: empty when [n] is not positive. *)
Definition range (n : Z) : list Z := map Z.of_nat (seq 0 (Z.to_nat n)).

(** The notebook's board size. *)
Definition n : Z := 8.

(** [positions = [Position(i,j) for i in nRange for j in nRange]] *)
Definition positions (n : Z) : list Position :=
  flat_map (fun i => map (fun j => {| row := i; column := j |}) (range n)) (range n).

(** [get_pos(positions, i, j)]: the comprehension of the matching
    positions, then [.pop()], which takes the last element and raises
    [IndexError] ([None]) on an empty list. *)
Definition get_pos (positions : list Position) (i j : Z) : option Position :=
  List.last
    (map Some (List.filter (fun pos => (row pos =? i) && (column pos =? j)) positions))
    None.

Definition xp_Sum (l : list Z) : Z := fold_right Z.add 0 l.

(** [xp.Sum(x[get_pos(...)] for k in ...)]: the sum of the values at the
    positions found, [None] as soon as one [get_pos] raises. *)
Fixpoint sum_at (x : Position -> Z) (ps : list (option Position)) : option Z :=
  match ps with
  | [] => Some 0
  | None :: _ => None
  | Some p :: ps =>
      match sum_at x ps with
      | Some s => Some (x p + s)
      | None => None
      end
  end.

Definition at_most_one (s : option Z) : option bool :=
  match s with Some s => Some (s <=? 1) | None => None end.

(** [xp.Sum(x[pos] for pos in positions if pos.column == j) <= 1] *)
Definition one_queen_per_column (n : Z) (x : Position -> Z) (j : Z) : bool :=
  xp_Sum (map x (List.filter (fun pos => column pos =? j) (positions n))) <=? 1.

(** [xp.Sum(x[pos] for pos in positions if pos.row == i) <= 1] *)
Definition one_queen_per_row (n : Z) (x : Position -> Z) (i : Z) : bool :=
  xp_Sum (map x (List.filter (fun pos => row pos =? i) (positions n))) <=? 1.

(** [xp.Sum(x[get_pos(positions, k+i, k)] for k in range(n - i)) <= 1] *)
Definition one_queen_per_first_diagonal_rows (n : Z) (x : Position -> Z) (i : Z)
  : option bool :=
  at_most_one (sum_at x (map (fun k => get_pos (positions n) (k + i) k) (range (n - i)))).

(** [xp.Sum(x[get_pos(positions, k, k+i)] for k in range(n - i)) <= 1] *)
Definition one_queen_per_first_diagonal_columns (n : Z) (x : Position -> Z) (i : Z)
  : option bool :=
  at_most_one (sum_at x (map (fun k => get_pos (positions n) k (k + i)) (range (n - i)))).

(** [xp.Sum(x[get_pos(positions, k, i-k)] for k in range(i+1)) <= 1] *)
Definition one_queen_per_second_diagonal_columns (n : Z) (x : Position -> Z) (i : Z)
  : option bool :=
  at_most_one (sum_at x (map (fun k => get_pos (positions n) k (i - k)) (range (i + 1)))).

(** [xp.Sum(x[get_pos(positions, n-k-1, n+k-i-1)] for k in range(i+1)) <= 1] *)
Definition one_queen_per_second_diagonal_rows (n : Z) (x : Position -> Z) (i : Z)
  : option bool :=
  at_most_one (sum_at x (map (fun k => get_pos (positions n) (n - k - 1) (n + k - i - 1))
                             (range (i + 1)))).

(** [xp.Sum(x[pos] for pos in positions) == n] *)
Definition n_queens_on_board (n : Z) (x : Position -> Z) : bool :=
  xp_Sum (map x (positions n)) =? n.

(** Every variable is binary. *)
Definition binary (n : Z) (x : Position -> Z) : bool :=
  forallb (fun pos => (x pos =? 0) || (x pos =? 1)) (positions n).

(** All constraints of a list hold; [None] when building one raised. *)
Fixpoint all_hold (cs : list (option bool)) : option bool :=
  match cs with
  | [] => Some true
  | None :: _ => None
  | Some b :: cs =>
      match all_hold cs with
      | Some r => Some (b && r)
      | None => None
      end
  end.

(** The model handed to the solver: the seven arguments of
    [model.addConstraint], over binary variables. *)
Definition constraints (n : Z) (x : Position -> Z) : list (option bool) :=
  map (fun j => Some (one_queen_per_column n x j)) (range n)
  ++ map (fun i => Some (one_queen_per_row n x i)) (range n)
  ++ map (one_queen_per_first_diagonal_rows n x) (range n)
  ++ map (one_queen_per_first_diagonal_columns n x) (range n)
  ++ map (one_queen_per_second_diagonal_columns n x) (range n)
  ++ map (one_queen_per_second_diagonal_rows n x) (range n)
  ++ [Some (n_queens_on_board n x)].

Definition feasible (n : Z) (x : Position -> Z) : option bool :=
  match all_hold (constraints n x) with
  | Some b => Some (binary n x && b)
  | None => None
  end.

(** Two positions on a common row, column or diagonal. *)
Definition attacks (p q : Position) : Prop :=
  row p = row q \/ column p = column q
  \/ row p - column p = row q - column q
  \/ row p + column p = row q + column q.

(** The board printed below the last cell: the column of the queen in
    each row. *)
Definition printed_queens : list Z := [1; 4; 6; 3; 0; 7; 5; 2].

Definition xVal (pos : Position) : Z :=
  if nth (Z.to_nat (row pos)) printed_queens (-1) =? column pos then 1 else 0.

End NQueens.

(** ** The tank problem: dynamics, bounds and cost *)

Module Tank.

Local Open Scope R_scope.

Definition N : nat := 20.
Definition xref : R := 5.
Definition x0 : R := 0.

(** [mdl.sum(f(k) for k in range(n))]. *)
Definition mdl_sum (f : nat -> R) (n : nat) : R :=
  fold_right Rplus 0 (map f (seq 0 n)).

(** [continuous_var_list(N+1, lb=0, ub=7)] and
    [continuous_var_list(N, lb=0, ub=1)]. *)
Definition x_bounds (x : nat -> R) : Prop :=
  forall k, (k < N + 1)%nat -> 0 <= x k <= 7.

Definition u_bounds (u : nat -> R) : Prop :=
  forall k, (k < N)%nat -> 0 <= u k <= 1.

(** [x[k+1] == x[k] + u[k] for k in range(N)]. *)
Definition dynamics (x u : nat -> R) : Prop :=
  forall k, (k < N)%nat -> x (k + 1)%nat = x k + u k.

(** [x[0] == x0]. *)
Definition initial_condition (x : nat -> R) : Prop := x 0%nat = x0.

Definition feasible (x u : nat -> R) : Prop :=
  x_bounds x /\ u_bounds u /\ dynamics x u /\ initial_condition x.

(** [mdl.sum((x[k] - xref)**2 for k in range(N+1))]. *)
Definition cost (x : nat -> R) : R :=
  mdl_sum (fun k => (x k - xref) ^ 2) (N + 1).

(** Filling at the full rate until the reference level is reached. *)
Definition u_fill (k : nat) : R := if (k <? 5)%nat then 1 else 0.
Definition x_fill (k : nat) : R := INR (Nat.min k 5).

End Tank.

(** ** The two-tank problem: dynamics and residence time *)

Module TwoTanks.

Local Open Scope R_scope.

Definition N : Z := 20.
Definition x0 : R := 0.

Definition range (n : Z) : list Z := map Z.of_nat (seq 0 (Z.to_nat n)).
Definition NuRange : list Z := range N.

Definition xp_Sum (l : list R) : R := fold_right Rplus 0 l.

(** The inflows are declared with [lb = 0, ub = 1] for the keys
    [range(-1, N)]. *)
Definition inflow_bounds (u : Z -> R) : Prop :=
  forall k, (-1 <= k < N)%Z -> 0 <= u k <= 1.

(** [xA[k+1] == xA[k] + uA[k] - uB[k] for k in range(N)]. *)
Definition dynamics_tank_A (xA uA uB : Z -> R) : Prop :=
  forall k, In k (range N) -> xA (k + 1)%Z = xA k + uA k - uB k.

(** [xB[k+1] == xB[k] + uB[k] for k in range(N)]. *)
Definition dynamics_tank_B (xB uB : Z -> R) : Prop :=
  forall k, In k (range N) -> xB (k + 1)%Z = xB k + uB k.

(** [uB[k] <= xA[k] for k in NuRange]. *)
Definition min_residence_time (xA uB : Z -> R) : Prop :=
  forall k, In k NuRange -> uB k <= xA k.

(** [xA[0] == x0] and [xB[0] == x0]. *)
Definition initial_A (xA : Z -> R) : Prop := xA 0%Z = x0.
Definition initial_B (xB : Z -> R) : Prop := xB 0%Z = x0.

(** A trajectory to try the constraints on: one unit flows into tank A
    in every step, and from step 1 on one unit flows on from A into B. *)
Definition uA_flow (k : Z) : R := 1.
Definition uB_flow (k : Z) : R := if (k <=? 0)%Z then 0 else 1.
Definition xA_flow (k : Z) : R := if (k <=? 0)%Z then 0 else 1.
Definition xB_flow (k : Z) : R := if (k <=? 1)%Z then 0 else IZR (k - 1).

End TwoTanks.

(** ** Batch scheduling of a fermentation process *)

Module Batch.

Local Open Scope R_scope.

Definition n : nat := 105.
Definition t_m : nat := 3.
Definition t_min_fermentation : nat := 10.
Definition t_max_fermentation : nat := 30.
Definition t_min_purification : nat := 2.
Definition t_max_purification : nat := 5.
Definition Z_b : R := 5.

Definition range (k : nat) : list nat := seq 0 k.
Definition nRange : list nat := range n.

Definition xp_Sum (f : nat -> R) (l : list nat) : R :=
  fold_right Rplus 0 (map f l).

(** [get_variable_dictionary]: one continuous variable with [lb = 0]
    for every day of [nRange]. *)
Definition variable (v : nat -> R) : Prop :=
  forall day, In day nRange -> 0 <= v day.

(** The balance of a stage: its volume on day [j] is what went in
    minus what went out, summed over [range(j+1)]. *)
Definition balance (V v_in v_out : nat -> R) : Prop :=
  forall j, In j nRange -> V j = xp_Sum (fun i => v_in i - v_out i) (range (j + 1)).

Definition mixing_balance (M m f : nat -> R) : Prop := balance M m f.
Definition fermentation_balance (F f p : nat -> R) : Prop := balance F f p.
Definition purification_balance (P p b : nat -> R) : Prop := balance P p b.
Definition blending_balance (B b w : nat -> R) : Prop := balance B b w.

(** [f[i] == m[i-t_m] for i in nRange if i >= t_m] and
    [f[i] == 0 for i in range(t_m)]. *)
Definition fixing_mixing_time (f m : nat -> R) : Prop :=
  forall i, In i nRange -> (t_m <= i)%nat -> f i = m (i - t_m)%nat.

Definition fixing_mixing_time_time0 (f : nat -> R) : Prop :=
  forall i, In i (range t_m) -> f i = 0.

(** The inflows of the last [t] days, [v[j-n] for n in range(min(j+1,t))].
    The bound [min(j+1,t)] keeps [j-n] a day of the horizon. *)
Definition window (v : nat -> R) (j t : nat) : R :=
  xp_Sum (fun k => v (j - k)%nat) (range (Nat.min (j + 1) t)).

Definition minimum_time_fermentation (F f : nat -> R) : Prop :=
  forall j, In j nRange -> F j >= window f j t_min_fermentation.

Definition maximum_time_fermentation (F f : nat -> R) : Prop :=
  forall j, In j nRange -> F j <= window f j t_max_fermentation.

Definition minimum_time_purification (P p : nat -> R) : Prop :=
  forall j, In j nRange -> P j >= window p j t_min_purification.

Definition maximum_time_purification (P p : nat -> R) : Prop :=
  forall j, In j nRange -> P j <= window p j t_max_purification.

(** [w[i] == b[i-1] for i in nRange if i >= 1]. *)
Definition fix_blending_time (w b : nat -> R) : Prop :=
  forall i, In i nRange -> (1 <= i)%nat -> w i = b (i - 1)%nat.

Definition limit_capacity (B : nat -> R) : Prop :=
  forall i, In i nRange -> B i <= Z_b.

Definition limit_capacity_throughout (b : nat -> R) : Prop :=
  forall i, In i nRange -> b i <= Z_b.

(** A schedule to try the constraints on, a plant in steady operation:
    one unit enters the mixing stage every day, moves on to fermentation
    after 3 days, to purification after 10 more, to blending after 2
    more and to the warehouse the day after.  Each stage holds what came
    in and has not left yet. *)
Definition started (first i : nat) : Z := if (first <=? i)%nat then 1%Z else 0%Z.
Definition m_steady (i : nat) : R := IZR (started 0 i).
Definition f_steady (i : nat) : R := IZR (started 3 i).
Definition p_steady (i : nat) : R := IZR (started 13 i).
Definition b_steady (i : nat) : R := IZR (started 15 i).
Definition w_steady (i : nat) : R := IZR (started 16 i).
Definition held (v_in v_out : nat -> R) (j : nat) : R :=
  xp_Sum (fun i => v_in i - v_out i) (range (j + 1)).
Definition M_steady : nat -> R := held m_steady f_steady.
Definition F_steady : nat -> R := held f_steady p_steady.
Definition P_steady : nat -> R := held p_steady b_steady.
Definition B_steady : nat -> R := held b_steady w_steady.

End Batch.

(** ** Doctors scheduling: the index classes and the constraints *)

Module Scheduling.
Import Datetime.

Local Open Scope Z_scope.

(** A row of the [Doctors] sheet, as [Doctor.__init__] stores it. *)
Record Doctor : Type := {
  name : string;
  is_pregnant : bool;
  allocation : Q;
  work_locations : list string
}.

(** A [Shift] with the three attributes its [__init__] derives. *)
Record Shift : Type := {
  start_time : datetime;
  end_time : datetime;
  duration_in_hours : Q;
  is_nightshift : bool;
  can_work_pregnant : bool
}.

Definition Shift__init__ (start_time end_time : datetime) : Shift :=
  {| start_time := start_time;
     end_time := end_time;
     duration_in_hours := Records.duration_in_hours start_time end_time;
     is_nightshift := Records.is_nightshift start_time;
     can_work_pregnant := Records.can_work_pregnant start_time end_time |}.

(** [Doctor] and [Shift] define no [__eq__]: [==] on two instances
    tells whether they are the same object.  An instance is kept
    together with its place in the list that holds it. *)
Definition instance (A : Type) : Type := (nat * A)%type.

Definition instances {A : Type} (l : list A) : list (instance A) :=
  combine (seq 0 (List.length l)) l.

Definition same {A : Type} (a b : instance A) : bool := Nat.eqb (fst a) (fst b).

Definition attributes {A : Type} (a : instance A) : A := snd a.

(** The loop that fills [shifts] and [shift_days]. *)
Definition shift_at (current : datetime) (hours : Z * Z) : option Shift :=
  match datetime_add current (timedelta_hours (fst hours)),
        datetime_add current (timedelta_hours (snd hours)) with
  | Some s, Some e => Some (Shift__init__ s e)
  | _, _ => None
  end.

Fixpoint shifts_of_day (current : datetime) (times : list (Z * Z))
  : option (list Shift) :=
  match times with
  | [] => Some []
  | hours :: times =>
      match shift_at current hours, shifts_of_day current times with
      | Some s, Some rest => Some (s :: rest)
      | _, _ => None
      end
  end.

(** The loop [while current <= end_time], one iteration per unit of
    fuel; [None] is an [OverflowError] or fuel that ran out. *)
Fixpoint shift_loop (fuel : nat) (shifts : list Shift)
    (shift_days : list datetime) (current end_time : datetime)
  : option (list Shift * list datetime) :=
  if datetime_le current end_time then
    match fuel with
    | O => None
    | S fuel =>
        let shift_days := shift_days ++ [current] in
        let times := if weekday current <? 5
                     then Records.weekday_times else Records.weekend_times in
        match shifts_of_day current times,
              datetime_add current (timedelta_days 1) with
        | Some new, Some next =>
            shift_loop fuel (shifts ++ new) shift_days next end_time
        | _, _ => None
        end
    end
  else Some (shifts, shift_days).

(** The two lists after the loop of the notebook, from 1 July to
    30 August 2019. *)
Definition calendar : list Shift * list datetime :=
  match shift_loop 61 [] [] Records.start_time Records.end_time with
  | Some c => c
  | None => ([], [])
  end.

Definition shifts : list (instance Shift) := instances (fst calendar).
Definition shift_days : list datetime := snd calendar.

Arguments calendar : simpl never.
Arguments shifts : simpl never.
Arguments shift_days : simpl never.

Definition day_limit : Z := 12.

(** [range(a, b)] *)
Definition range (a b : Z) : list Z :=
  map (fun i => a + Z.of_nat i) (seq 0 (Z.to_nat (b - a))).

(** [datetime(y, m, d)] as a function of the ordinal of the date, and
    the number of shifts the loop creates on a date. *)
Definition midnight (date : Z) : datetime := mk_datetime date (mk_time 0 0 0 0).

Definition shifts_on (date : Z) : Z :=
  if weekday (midnight date) <? 5
  then Z.of_nat (List.length Records.weekday_times)
  else Z.of_nat (List.length Records.weekend_times).

(** [t.date()], and [date + timedelta], which raises [OverflowError]
    outside the years 1 to 9999. *)
Definition date (t : datetime) : Z := ordinal t.

Definition date_add (d : Z) (td : timedelta) : option Z :=
  let o := d + days td in
  if (0 <? o) && (o <=? MAXORDINAL) then Some o else None.

Definition xp_Sum (l : list Z) : Z := fold_right Z.add 0 l.

(** [xp.Sum(x[a] for a in l if cond(a))] where evaluating the
    condition may raise: [None] as soon as it does. *)
Fixpoint xp_Sum_if {A : Type} (x : A -> Z) (cond : A -> option bool) (l : list A)
  : option Z :=
  match l with
  | [] => Some 0
  | a :: l =>
      match cond a with
      | Some c =>
          match xp_Sum_if x cond l with
          | Some s => Some ((if c then x a else 0) + s)
          | None => None
          end
      | None => None
      end
  end.

(** The index classes. *)
Record Placement : Type := {
  doctor : instance Doctor;
  shift : instance Shift;
  hospital : string
}.

Record Nightshift : Type := {
  night_doctor : instance Doctor;
  day : datetime
}.

(** [p.shift.start_time.date()] *)
Definition shift_date (p : Placement) : Z := date (start_time (attributes (shift p))).

Section Model.

(** The two sheets of [DoctorData.xlsx], after the parsing loop. *)
Variable Doctors_sheet : list Doctor.
Variable hospitals : list string.

Definition doctors : list (instance Doctor) := instances Doctors_sheet.

Definition placements : list Placement :=
  flat_map (fun doctor =>
    flat_map (fun shift =>
      map (fun hospital => {| doctor := doctor; shift := shift; hospital := hospital |})
          hospitals) shifts) doctors.

Definition nightshifts : list Nightshift :=
  flat_map (fun doctor =>
    map (fun shift_day => {| night_doctor := doctor; day := shift_day |}) shift_days)
    doctors.

(** The variables: [x] is binary, [y] an integer between -1 and 1. *)
Variable x : Placement -> Z.
Variable y : Nightshift -> Z.

Definition binary : bool :=
  forallb (fun p => (x p =? 0) || (x p =? 1)) placements.

Definition y_bounds : bool :=
  forallb (fun n => (-1 <=? y n) && (y n <=? 1)) nightshifts.

(** The shifts a doctor works on a date, over all hospitals. *)
Definition worked (d : instance Doctor) (on : Z) : Z :=
  xp_Sum (map x (List.filter (fun p => same (doctor p) d && (shift_date p =? on))
                             placements)).

Definition force_shift_fulfillment_at (s : instance Shift) (h : string) : bool :=
  xp_Sum (map x (List.filter (fun p => same (shift p) s && String.eqb (hospital p) h)
                             placements)) =? 1.

Definition force_shift_fulfillment : bool :=
  forallb (fun s => forallb (force_shift_fulfillment_at s) hospitals) shifts.

Definition one_shift_limit_at (d : instance Doctor) (t : datetime) : bool :=
  worked d (date t) <=? 1.

Definition one_shift_limit : bool :=
  forallb (fun d => forallb (one_shift_limit_at d) shift_days) doctors.

(** The summands run over [for p in placements for j in range(day_limit + 1)];
    [and] evaluates the date only for the placements of doctor [d]. *)
Definition max_time_working_at (d : instance Doctor) (t : datetime) : option bool :=
  match xp_Sum_if (fun pj => x (fst pj))
          (fun pj => if same (doctor (fst pj)) d
                     then match datetime_add t (timedelta_days (snd pj)) with
                          | Some t' => Some (shift_date (fst pj) =? date t')
                          | None => None
                          end
                     else Some false)
          (list_prod placements (range 0 (day_limit + 1))) with
  | Some s => Some (s <=? day_limit)
  | None => None
  end.

Definition hospital_limit_at (d : instance Doctor) : bool :=
  xp_Sum (map x (List.filter
                   (fun p => same (doctor p) d
                             && negb (existsb (String.eqb (hospital p))
                                              (work_locations (attributes d))))
                   placements)) =? 0.

Definition hospital_limit : bool := forallb hospital_limit_at doctors.

Definition pregnancy_limit_at (d : instance Doctor) : bool :=
  xp_Sum (map x (List.filter
                   (fun p => same (doctor p) d
                             && negb (can_work_pregnant (attributes (shift p))))
                   placements)) =? 0.

Definition pregnancy_limit : bool :=
  forallb pregnancy_limit_at
          (List.filter (fun d => is_pregnant (attributes d)) doctors).

(** The sum of the two night shift constraints, over [for p in
    placements for k in range(a, b)]. *)
Definition nights (n : Nightshift) (a b : Z) : option Z :=
  xp_Sum_if (fun pk => x (fst pk))
    (fun pk => if same (doctor (fst pk)) (night_doctor n)
               then match date_add (date (day n)) (timedelta_days (snd pk)) with
                    | Some on => Some (shift_date (fst pk) =? on)
                    | None => None
                    end
               else Some false)
    (list_prod placements (range a b)).

Definition force_nightshift_work_at (n : Nightshift) : option bool :=
  match nights n 0 3 with
  | Some s => Some (s >=? 3 * y n)
  | None => None
  end.

Definition force_rest_at (n : Nightshift) : option bool :=
  match nights n 3 6 with
  | Some s => Some (s <=? 3 * (1 - y n))
  | None => None
  end.

End Model.

(** Schedules to try the constraints on: three doctors of one hospital
    who take the shifts in turn, and a doctor who works the 06:00 shift
    of every day, or of every day but Sunday. *)
Definition Anne : Doctor :=
  {| name := "Anne"; is_pregnant := true; allocation := 1; work_locations := ["A"] |}.
Definition Berta : Doctor :=
  {| name := "Berta"; is_pregnant := false; allocation := 1; work_locations := ["A"] |}.
Definition Carla : Doctor :=
  {| name := "Carla"; is_pregnant := false; allocation := 1; work_locations := ["A"] |}.

Definition in_turn (p : Placement) : Z :=
  if Nat.eqb (fst (shift p) mod 3) (fst (doctor p)) then 1 else 0.

Definition starts_at_six (p : Placement) : bool :=
  hour (clock (start_time (attributes (shift p)))) =? 6.

Definition every_morning (p : Placement) : Z :=
  if starts_at_six p then 1 else 0.

Definition every_morning_but_Sunday (p : Placement) : Z :=
  if starts_at_six p && negb (weekday (start_time (attributes (shift p))) =? 6)
  then 1 else 0.


(** The calendar facts the constraints rely on, as checks on the
    lists the loop builds. *)

(** Every shift starts on one of the [shift_days]. *)
Definition shifts_start_on_shift_days : bool :=
  forallb (fun s => existsb (fun t => date (start_time (attributes s)) =? date t)
                            shift_days) shifts.

(** Adding up to [k] days to a shift day stays a date, and moves the
    date by as many days. *)
Definition days_can_be_added (k : Z) : bool :=
  forallb (fun t =>
    forallb (fun j =>
      match datetime_add t (timedelta_days j), date_add (date t) (timedelta_days j) with
      | Some t', Some on => (date t' =? date t + j) && (on =? date t + j)
      | _, _ => false
      end) (range 0 k)) shift_days.

(** A shift open to pregnant doctors starts on a weekday at 06:00 or
    at 14:00 and lasts eight hours. *)
Definition open_shifts_are_weekday_day_shifts : bool :=
  forallb (fun s =>
    implb (can_work_pregnant (attributes s))
          ((weekday (start_time (attributes s)) <? 5)
           && ((hour (clock (start_time (attributes s))) =? 6)
               || (hour (clock (start_time (attributes s))) =? 14))
           && Qeq_bool (duration_in_hours (attributes s)) (inject_Z 8))) shifts.

End Scheduling.

(** ** Nurse scheduling with data: overtime and the objective *)

Module NurseCosts.
Import Nurse.
Local Open Scope Z_scope.

(** [Nurses]: name, cost of a regular shift, number of regular shifts,
    cost of an overtime shift. *)
Definition Nurses : list (string * Z * Z * Z) :=
  [ ("Anne", 4000, 4, 8000);
    ("Martin", 3800, 6, 7000);
    ("Julie", 5500, 5, 10000);
    ("David", 6000, 5, 7000) ].

Definition Nurses_1 (n : nat) : Z := snd (fst (fst (nth n Nurses ("", 0, 0, 0)))).
Definition Nurses_2 (n : nat) : Z := snd (fst (nth n Nurses ("", 0, 0, 0))).
Definition Nurses_3 (n : nat) : Z := snd (nth n Nurses ("", 0, 0, 0)).

(** [integer_var_list(nNurses, lb=0, ub=(nShifts-1)*(nDays-1))] *)
Definition y_bounds (y : nat -> Z) : bool :=
  forallb (fun n => (0 <=? y n) && (y n <=? (Z.of_nat nShifts - 1) * (Z.of_nat nDays - 1)))
          NRange.

(** [mdl.sum(x[d,s,n] for d in DRange for s in SRange if s > 0)] *)
Definition worked_shifts (x : assignment) (n : nat) : Z :=
  mdl_sum (flat_map (fun d =>
             flat_map (fun s => if Nat.ltb 0 s then [x d s n] else []) SRange) DRange).

(** [if_then(worked >= Nurses[n][2], y[n] == worked - Nurses[n][2])] *)
Definition OvertimeDefinition (x : assignment) (y : nat -> Z) (n : nat) : bool :=
  implb (worked_shifts x n >=? Nurses_2 n) (y n =? worked_shifts x n - Nurses_2 n).

(** The module-level name [s] when the objective is built.  The cell
    that builds the model loops [for s in SRange], which leaves [s]
    bound to the last shift; the comprehensions in between bind their
    own [s]. *)
Definition s : nat := List.last SRange 0%nat.

(** [mdl.sum(x[d,s,n] for d in DRange for S in SRange if s > 0)]: the
    comprehension binds [S], its body and its condition read [s]. *)
Definition regular_shifts (x : assignment) (n : nat) : Z :=
  mdl_sum (flat_map (fun d =>
             flat_map (fun S : nat => if Nat.ltb 0 s then [x d s n] else []) SRange) DRange).

(** The expression handed to [mdl.minimize]. *)
Definition objective (x : assignment) (y : nat -> Z) : Z :=
  mdl_sum (map (fun n => Nurses_1 n * regular_shifts x n
                         + (Nurses_3 n - Nurses_1 n) * y n) NRange).

End NurseCosts.

(** ** Facility location: units, connections and the constraints *)

Module FacilityLocation.

(** [Unit], and [Facility] and [Client], which extend it by one field. *)
Record Unit : Type := { name : string; coordinate : Q * Q }.
Record Facility : Type := { Facility_Unit :> Unit; construction_cost : Z }.
Record Client : Type := { Client_Unit :> Unit; demand : Z }.

(** [==] on instances of a dataclass compares the fields. *)
Definition Unit_eq (a b : Unit) : bool :=
  String.eqb (name a) (name b)
  && Qeq_bool (fst (coordinate a)) (fst (coordinate b))
  && Qeq_bool (snd (coordinate a)) (snd (coordinate b)).

Definition Facility_eq (a b : Facility) : bool :=
  Unit_eq a b && (construction_cost a =? construction_cost b)%Z.

Definition Client_eq (a b : Client) : bool :=
  Unit_eq a b && (demand a =? demand b)%Z.

(** A [Connection] with its origin and destination.  Its third
    attribute, the distance, enters the objective only. *)
Record Connection : Type := { origin : Facility; destination : Client }.

Definition clients : list Client :=
  [ {| Client_Unit := {| name := "Client A"; coordinate := (0, 15 # 10)%Q |}; demand := 3 |};
    {| Client_Unit := {| name := "Client B"; coordinate := (25 # 10, 12 # 10)%Q |}; demand := 4 |} ].

Definition construction_cost_array : list (list Z) :=
  [[3; 2; 3]; [1; 3; 3]; [4; 3; 2]]%Z.

Definition digit (i : nat) : string :=
  String (ascii_of_nat (48 + i)) EmptyString.

(** [Facility(f'Facility ({i},{j})', (i,j), construction_cost[i,j])
    for i in range(3) for j in range(3)] *)
Definition facilities : list Facility :=
  flat_map (fun i =>
    map (fun j =>
      {| Facility_Unit :=
           {| name := "Facility (" ++ digit i ++ "," ++ digit j ++ ")";
              coordinate := (inject_Z (Z.of_nat i), inject_Z (Z.of_nat j)) |};
         construction_cost := nth j (nth i construction_cost_array []) 0%Z |})
      (seq 0 3)) (seq 0 3).

Definition connections : list Connection :=
  flat_map (fun origin =>
    map (fun destination => {| origin := origin; destination := destination |}) clients)
    facilities.

Definition max_transport_from_facility : R := 3.
Definition n_factories : Z := 3.

Local Open Scope R_scope.

Definition xp_Sum (l : list R) : R := fold_right Rplus 0 l.

Section Model.

(** The flows, one per connection, and the choice of facilities. *)
Variable f : Connection -> R.
Variable x : Facility -> Z.

Definition binary : Prop :=
  forall fac, In fac facilities -> x fac = 0%Z \/ x fac = 1%Z.

Definition maximum_capacity : Prop :=
  forall fac, In fac facilities ->
    xp_Sum (map f (List.filter (fun c => Facility_eq (origin c) fac) connections))
    <= max_transport_from_facility.

Definition flows_zero_if_not_selected : Prop :=
  forall c, In c connections ->
    f c <= max_transport_from_facility * IZR (x (origin c)).

Definition fix_number_of_factories : Prop :=
  fold_right Z.add 0%Z (map x facilities) = 3%Z.

Definition demand_satisfaction : Prop :=
  forall client, In client clients ->
    xp_Sum (map f (List.filter (fun c => Client_eq (destination c) client) connections))
    >= IZR (demand client).

End Model.

End FacilityLocation.

(** ** Basin hopping: the constraint dictionaries *)

Module BasinConstraints.
Import BasinHopping.

(** The lists [xmax] and [xmin] of the cell that defines [cons]. *)
Definition xmax : list Q := [11 # 10; 11 # 10].
Definition xmin : list Q := [5 # 10; 5 # 10].

(** [x[i]]; [None] is the [IndexError]. *)
Definition item (x : list Q) (i : nat) : option Q := nth_error x i.

Definition minus (a b : option Q) : option Q :=
  match a, b with
  | Some a, Some b => Some (a - b)%Q
  | _, _ => None
  end.

Definition plus (a b : option Q) : option Q :=
  match a, b with
  | Some a, Some b => Some (a + b)%Q
  | _, _ => None
  end.

Definition neg (a : option Q) : option Q :=
  match a with
  | Some a => Some (- a)%Q
  | None => None
  end.

(** The entries of [cons]: the type and the function of each. *)
Definition cons : list (string * (list Q -> option Q)) :=
  [ ("ineq", fun x => minus (item x 0) (item xmin 0));
    ("ineq", fun x => plus (neg (item x 0)) (item xmax 0));
    ("ineq", fun x => minus (item x 1) (item xmin 1));
    ("ineq", fun x => plus (neg (item x 1)) (item xmax 1)) ].

(** A constraint of type [ineq] asks its function to be non-negative,
    one of type [eq] asks it to be zero. *)
Definition holds (c : string * (list Q -> option Q)) (x : list Q) : option bool :=
  match snd c x with
  | Some v => Some (if String.eqb (fst c) "ineq" then Qle_bool 0 v else Qeq_bool v 0)
  | None => None
  end.

Fixpoint all_hold (cs : list (string * (list Q -> option Q))) (x : list Q)
  : option bool :=
  match cs with
  | [] => Some true
  | c :: cs =>
      match holds c x, all_hold cs x with
      | Some b, Some r => Some (b && r)
      | _, _ => None
      end
  end.

(** numpy's rule for comparing two one-dimensional arrays: the same
    length, or one of them of length one. *)
Definition broadcastable (a b : list Q) : bool :=
  Nat.eqb (List.length a) (List.length b)
  || Nat.eqb (List.length a) 1 || Nat.eqb (List.length b) 1.

End BasinConstraints.

(** ** Portfolio optimization: the budget constraint *)

Module PortfolioBudget.
Import Portfolio.
Local Open Scope R_scope.

(** [xp.Sum(x[inv] for inv in investments) == 1] *)
Definition enforcing_investment_amount (investments : list Investment)
    (x : Investment -> R) : Prop :=
  xp_Sum x investments = 1.

End PortfolioBudget.

(** ** The introductory notebooks: a search loop and a dictionary comprehension *)

Module Introduction.

(** The loop over [doctor_name] that looks for "Berta":
    [current] counts the names, [index] keeps the count at which the
    name was seen.  The result is the pair [(current, index)]. *)
Definition find_Berta (doctor_name : list string) : nat * nat :=
  fold_left (fun state doctor =>
               let '(current, index) := state in
               let index := if String.eqb doctor "Berta" then current else index in
               (current + 1, index))
            doctor_name (0, 0).

(** [{people[i] : height[i] for i in range(len(people))}], the
    indices taken in order; [None] is the [IndexError] of a [height]
    that is too short. *)
Fixpoint dict_comprehension (people : list string) (height : list Z)
    (indices : list nat) (d : gmap string Z) : option (gmap string Z) :=
  match indices with
  | [] => Some d
  | i :: indices =>
      match nth_error people i, nth_error height i with
      | Some k, Some v => dict_comprehension people height indices (<[k := v]> d)
      | _, _ => None
      end
  end.

Definition heights (people : list string) (height : list Z) : option (gmap string Z) :=
  dict_comprehension people height (seq 0 (List.length people)) ∅.

End Introduction.

(** ** Urban zone fares: the fare and ridership relations *)

Module Fares.
Import Py Records.

Local Open Scope R_scope.

Definition f0 : R := 15.
Definition fmin : R := 10.
Definition fmax : R := 40.

(** A numeric attribute of a connection, as a real number; [None] is
    the [AttributeError] of a missing attribute. *)
Definition attribute (c : gmap string pyval) (k : string) : option R :=
  match c !! k with
  | Some v => match as_number v with
              | Some q => Some (Q2R q)
              | None => None
              end
  | None => None
  end.

Section Model.

(** The fare and the ridership of every connection, the fixed cost
    and the cost per distance. *)
Variable f P : gmap string pyval -> R.
Variable cfix cmile : R.

(** The bounds the variables are declared with. *)
Definition bounds : Prop :=
  (forall c, In c connections -> fmin <= f c <= fmax /\ 0 <= P c)
  /\ 0 <= cfix /\ 0 <= cmile.

(** [f[c] == cfix + cmile*c.distance] *)
Definition fare_relation : Prop :=
  forall c, In c connections ->
    match attribute c "distance" with
    | Some distance => f c = cfix + cmile * distance
    | None => False
    end.

(** [P[c] == c.base_ridership * (1 + c.elasticity * ((f[c] - f0)/f0))] *)
Definition rideship_relation : Prop :=
  forall c, In c connections ->
    match attribute c "base_ridership", attribute c "elasticity" with
    | Some base_ridership, Some elasticity =>
        P c = base_ridership * (1 + elasticity * ((f c - f0) / f0))
    | _, _ => False
    end.

End Model.

(** Every connection of the notebook has a positive base ridership
    and a negative elasticity. *)
Definition ridership_data (c : gmap string pyval) : option (Q * Q) :=
  match c !! "base_ridership", c !! "elasticity" with
  | Some p, Some e =>
      match as_number p, as_number e with
      | Some p, Some e => Some (p, e)
      | _, _ => None
      end
  | _, _ => None
  end.

Definition ridership_falls_with_the_fare : bool :=
  forallb (fun c => match ridership_data c with
                    | Some (p, e) => negb (Qle_bool p 0) && negb (Qle_bool 0 e)
                    | None => false
                    end) connections.

End Fares.

(** * Properties *)

(** ** The notebooks: solver calls, errors, data *)

Section NotebookFacts.
Import Notebook.

(** Membership in [notebooks], by looking the notebook up. *)
Ltac in_notebooks := unfold notebooks; repeat (first [left; reflexivity | right]).

(** Every solver call of every notebook is a top-level statement of a
    cell: none sits in a loop, a branch, a function or a lazy expression. *)
Lemma solver_calls_are_direct :
  Forall (fun nb => length (solver_call_sites nb) = solver_calls nb) notebooks.
Proof. repeat (constructor; [vm_compute; reflexivity |]). constructor. Qed.

(** The table of name uses has the cells and statements of the
    transcript, and binds the names the transcript shows as bound. *)
Lemma uses_follow_the_transcript :
  Forall (fun nb => uses_follow_transcript nb = true) notebooks.
Proof. repeat (constructor; [vm_compute; reflexivity |]). constructor. Qed.

(** A statement with a solver call is the call itself, [model.solve()]
    or [res = basinhopping(...)]: the names it reads are read before the
    call is made. *)
Lemma solver_statements_are_the_call :
  Forall (fun nb =>
    forallb (fun c =>
      forallb (fun s => (solver_calls_of s =? 0)%nat
                        || match s with
                           | SExpr (k :: _) | SAssign [_] (k :: _) => is_solver_call k
                           | _ => false
                           end && (solver_calls_of s =? 1)%nat)
              (source c)) (cells nb) = true) notebooks.
Proof. repeat (constructor; [vm_compute; reflexivity |]). constructor. Qed.

Lemma run_stmt_made (v : verdict) (s : stmt) (u : name_use) (st : state) :
  made st <= made (fst (run_stmt v s u st)) <= made st + solver_calls_of s.
Proof.
  unfold run_stmt. destruct (forallb _ _); [destruct v |]; cbn [fst made]; lia.
Qed.

Lemma list_sum_cons (a : nat) (l : list nat) : list_sum (a :: l) = a + list_sum l.
Proof. reflexivity. Qed.

Lemma run_stmts_made (lib : nat -> verdict) (l : list (stmt * name_use)) :
  forall i st,
    made (fst (run_stmts lib i l st))
    <= made st + list_sum (map (fun su => solver_calls_of (fst su)) l).
Proof.
  induction l as [|su l IH]; intros i st; cbn [run_stmts map]; [cbn; lia |].
  cbv zeta. rewrite list_sum_cons.
  pose proof (run_stmt_made (lib i) (fst su) (snd su) st) as H.
  destruct (snd (run_stmt (lib i) (fst su) (snd su) st)).
  - lia.
  - specialize (IH (S i) (fst (run_stmt (lib i) (fst su) (snd su) st))). lia.
Qed.

Lemma list_sum_combine_le {A B : Type} (f : A -> nat) (l : list A) :
  forall l' : list B,
    list_sum (map (fun p => f (fst p)) (combine l l')) <= list_sum (map f l).
Proof.
  induction l as [|a l IH]; intros [|b l']; cbn [combine map fst];
    rewrite ?list_sum_cons; cbn [list_sum fold_right]; try lia.
  specialize (IH l'). lia.
Qed.

Lemma filter_flat_map_length {A B : Type} (p : B -> bool) (f : A -> list B) (l : list A) :
  length (List.filter p (flat_map f l))
  = list_sum (map (fun a => length (List.filter p (f a))) l).
Proof.
  induction l as [|a l IH]; cbn [flat_map map]; [reflexivity |].
  rewrite List.filter_app, length_app, list_sum_cons, IH. reflexivity.
Qed.

Lemma run_cell_made (lib : libraries) (nb : notebook) (c : code_cell) (st : state) :
  made (fst (run_cell lib nb c st))
  <= made st + length (List.filter is_solver_call (cell_direct_calls c)).
Proof.
  unfold run_cell, cell_direct_calls. destruct (cell_parses c); [| cbn; lia].
  etransitivity; [apply run_stmts_made |].
  rewrite filter_flat_map_length.
  pose proof (list_sum_combine_le solver_calls_of (source c) (cell_uses nb c)) as H.
  unfold solver_calls_of in *. lia.
Qed.

Lemma run_cells_made (stop : bool) (lib : libraries) (nb : notebook) (cs : list code_cell) :
  forall st,
    made (run_cells stop lib nb cs st)
    <= made st + length (List.filter is_solver_call (flat_map cell_direct_calls cs)).
Proof.
  induction cs as [|c cs IH]; intros st; cbn [run_cells flat_map]; [cbn; lia |].
  cbv zeta. rewrite List.filter_app, length_app.
  pose proof (run_cell_made lib nb c st) as H.
  destruct (snd (run_cell lib nb c st) && stop).
  - lia.
  - specialize (IH (fst (run_cell lib nb c st))). lia.
Qed.

(** Whatever the libraries do and whether or not the run stops at the
    first error, a run makes no more solver calls than the cells hold as
    top-level statements. *)
Lemma calls_made_le (stop : bool) (lib : libraries) (nb : notebook) :
  calls_made stop lib nb <= solver_calls nb.
Proof.
  unfold calls_made, run, solver_calls, notebook_direct_calls.
  etransitivity; [apply run_cells_made |]. cbn. lia.
Qed.

(** A name that no statement binds stays unbound. *)
Section Unbound.
Variable x : string.

Lemma mem_app (y : string) (l1 l2 : list string) :
  mem y (l1 ++ l2) = mem y l1 || mem y l2.
Proof. unfold mem. apply existsb_app. Qed.

Lemma is_bound_app (l env : list string) :
  mem x l = false -> mem "*" l = false -> is_bound env x = false ->
  is_bound (l ++ env) x = false.
Proof.
  unfold is_bound. intros H1 H2 H. rewrite !mem_app, H1, H2. exact H.
Qed.

Lemma forallb_is_bound_false (env l : list string) :
  is_bound env x = false -> mem x l = true -> forallb (is_bound env) l = false.
Proof.
  intros Hb Hm. unfold mem in Hm. rewrite existsb_exists in Hm.
  destruct Hm as (y & Hy & E). apply String.eqb_eq in E. subst y.
  destruct (forallb (is_bound env) l) eqn:F; [| reflexivity].
  rewrite forallb_forall in F. rewrite (F x Hy) in Hb. discriminate.
Qed.

Lemma run_stmt_quiet (v : verdict) (su : stmt * name_use) (st : state) :
  keeps_unbound x su = true -> quiet x st -> quiet x (fst (run_stmt v (fst su) (snd su) st)).
Proof.
  unfold keeps_unbound. intros K [Hm Hb].
  apply andb_prop in K as [K Hs]. apply andb_prop in K as [K1 K2].
  apply negb_true_iff in K1, K2.
  unfold run_stmt.
  destruct (forallb (is_bound (bound st)) (reads (snd su))) eqn:F;
    [| split; assumption].
  assert (Hz : solver_calls_of (fst su) = 0).
  { apply orb_prop in Hs as [Hs | Hs]; [apply Nat.eqb_eq, Hs |].
    rewrite (forallb_is_bound_false _ _ Hb Hs) in F. discriminate. }
  destruct v; split; cbn [fst made bound]; try lia; apply is_bound_app; assumption.
Qed.

Lemma run_stmts_quiet (lib : nat -> verdict) (l : list (stmt * name_use)) :
  forallb (keeps_unbound x) l = true ->
  forall i st, quiet x st -> quiet x (fst (run_stmts lib i l st)).
Proof.
  induction l as [|su l IH]; intros K i st Q; cbn [run_stmts]; [exact Q |].
  cbv zeta. cbn [forallb] in K. apply andb_prop in K as [K1 K2].
  pose proof (run_stmt_quiet (lib i) su st K1 Q) as Q'.
  destruct (snd (run_stmt (lib i) (fst su) (snd su) st)); [exact Q' |].
  apply IH; assumption.
Qed.

Lemma run_cells_quiet (stop : bool) (lib : libraries) (nb : notebook) (cs : list code_cell) :
  forallb (fun c => forallb (keeps_unbound x) (combine (source c) (cell_uses nb c))) cs
  = true ->
  forall st, quiet x st -> quiet x (run_cells stop lib nb cs st).
Proof.
  induction cs as [|c cs IH]; intros K st Q; cbn [run_cells]; [exact Q |].
  cbv zeta. cbn [forallb] in K. apply andb_prop in K as [K1 K2].
  assert (Q' : quiet x (fst (run_cell lib nb c st))).
  { unfold run_cell. destruct (cell_parses c); [| exact Q].
    apply run_stmts_quiet; assumption. }
  destruct (snd (run_cell lib nb c st) && stop); [exact Q' |].
  apply IH; assumption.
Qed.

End Unbound.

(** When every solver call of a notebook needs a name that nothing
    binds, no run makes a solver call. *)
Lemma unbound_receiver_no_calls (x : string) (nb : notebook) :
  solver_needs_unbound x nb = true ->
  forall stop lib, calls_made stop lib nb = 0.
Proof.
  unfold solver_needs_unbound. intros H stop lib.
  apply andb_prop in H as [Hx K]. apply negb_true_iff in Hx.
  unfold calls_made, run.
  apply (run_cells_quiet x stop lib nb (cells nb) K).
  split; [reflexivity |]. unfold is_bound. rewrite Hx. reflexivity.
Qed.



(** Claim C1, as stated: every notebook, run top to bottom, makes exactly
    one solver call.  It fails even in its weakest reading, that every
    notebook has a run, under some behaviour of the libraries, with
    exactly one solver call: the batch scheduling notebook has no solve
    call, so no run of it makes one.  (And nurse scheduling makes three
    calls when nothing raises, see the theorem below.) *)
Lemma not_one_solver_call_per_notebook :
  ~ Forall (fun nb => exists stop lib, calls_made stop lib nb = 1) notebooks.
Proof.
  intros H.
  assert (Hin : In batch_scheduling notebooks) by in_notebooks.
  apply (proj1 (List.Forall_forall _ _) H) in Hin.
  destruct Hin as (stop & lib & E).
  pose proof (calls_made_le stop lib batch_scheduling) as Hle.
  assert (E0 : solver_calls batch_scheduling = 0) by (vm_compute; reflexivity).
  lia.
Qed.

(** Claim C1, amended.  Every solve call is a top-level statement of a
    cell, so a run, whatever the libraries do and whether or not it
    stops at the first cell that raises, makes at most as many solver
    calls as the notebook has such statements: none in six notebooks,
    three in nurse scheduling, four in the basin-hopping notebook, one
    in each of the other fifteen.  The three exercise notebooks among
    these bind [model], which their one [model.solve()] reads, in no
    cell that parses: in every run they make no call.  When no library call raises, a run
    that goes on after a cell that raised makes three calls in nurse
    scheduling, four in the basin-hopping notebook and one in each of
    the other twelve; a run that stops at the first error makes the same
    calls, except that in the two tanks notebook it makes none: cell 9
    reads [dynamics_tank_A_at_0], which nothing binds, before the
    [model.solve()] of cell 15.  The first solution of the doctors
    scheduling problem is stored with an error of [addConstraint] in its
    cell 15: when that statement raises, a run that stops at the first
    error makes no call, and a run that goes on makes one. *)
Theorem solver_calls_per_notebook :
  Forall (fun nb => length (solver_call_sites nb) = solver_calls nb) notebooks
  /\ (forall stop lib nb, calls_made stop lib nb <= solver_calls nb)
  /\ Forall (fun nb => solver_calls nb = 0)
       [batch_scheduling; batch_scheduling_part1_solution;
        batch_scheduling_part2_solution; introduction_to_python;
        introduction_to_classes; deviation_estimation]
  /\ solver_calls nurse_scheduling = 3
  /\ solver_calls basin_hopping = 4
  /\ Forall (fun nb => solver_calls nb = 1)
       [doctors_scheduling_part1_solution; doctors_scheduling_solution;
        facility_location_solution; n_queens; portfolio_basinhopping; tank_mpc;
        portfolio_optimization2; tank_problem; n_queens_checkpoint;
        two_tanks_solution; urban_zone_fares_solution; sudoku;
        urban_zone_fares; portfolio_optimization; doctors_scheduling]
  /\ Forall (fun nb => solver_needs_unbound "model" nb = true)
       [urban_zone_fares; portfolio_optimization; doctors_scheduling]
  /\ (forall stop lib,
        Forall (fun nb => calls_made stop lib nb = 0)
          [urban_zone_fares; portfolio_optimization; doctors_scheduling])
  /\ calls_made false nothing_raises nurse_scheduling = 3
  /\ calls_made false nothing_raises basin_hopping = 4
  /\ Forall (fun nb => calls_made false nothing_raises nb = 1)
       [doctors_scheduling_part1_solution; doctors_scheduling_solution;
        facility_location_solution; n_queens; portfolio_basinhopping; tank_mpc;
        portfolio_optimization2; tank_problem; n_queens_checkpoint;
        two_tanks_solution; urban_zone_fares_solution; sudoku]
  /\ calls_made true nothing_raises nurse_scheduling = 3
  /\ calls_made true nothing_raises basin_hopping = 4
  /\ Forall (fun nb => calls_made true nothing_raises nb = 1)
       [doctors_scheduling_part1_solution; doctors_scheduling_solution;
        facility_location_solution; n_queens; portfolio_basinhopping; tank_mpc;
        portfolio_optimization2; tank_problem; n_queens_checkpoint;
        urban_zone_fares_solution; sudoku]
  /\ calls_made true nothing_raises two_tanks_solution = 0
  /\ existsb (fun c => (position c =? 9)%nat
                       && existsb (fun u => mem "dynamics_tank_A_at_0" (reads u))
                                  (cell_uses two_tanks_solution c))
             (cells two_tanks_solution) = true
  /\ is_bound (binders_upto two_tanks_solution 9) "dynamics_tank_A_at_0" = false
  /\ nth_error (cell_source two_tanks_solution 15) 0 = Some (SExpr [Call "model.solve" []])
  /\ map (fun e => fst (fst e)) (notebook_errors doctors_scheduling_part1_solution)
     = [15%nat]
  /\ nth_error (cell_source doctors_scheduling_part1_solution 15) 2
     = Some (SExpr [Call "model.addConstraint" []])
  /\ calls_made true (raises_at 15 2) doctors_scheduling_part1_solution = 0
  /\ calls_made false (raises_at 15 2) doctors_scheduling_part1_solution = 1.
Proof.
  split; [exact solver_calls_are_direct |].
  split; [exact calls_made_le |].
  split; [repeat (constructor; [vm_compute; reflexivity |]); constructor |].
  split; [vm_compute; reflexivity |].
  split; [vm_compute; reflexivity |].
  split; [repeat (constructor; [vm_compute; reflexivity |]); constructor |].
  split; [repeat (constructor; [vm_compute; reflexivity |]); constructor |].
  split.
  { intros stop lib.
    repeat (constructor;
            [apply (unbound_receiver_no_calls "model"); vm_compute; reflexivity |]).
    constructor. }
  split; [vm_compute; reflexivity |].
  split; [vm_compute; reflexivity |].
  split; [repeat (constructor; [vm_compute; reflexivity |]); constructor |].
  split; [vm_compute; reflexivity |].
  split; [vm_compute; reflexivity |].
  split; [repeat (constructor; [vm_compute; reflexivity |]); constructor |].
  repeat (split; [vm_compute; reflexivity |]).
  vm_compute; reflexivity.
Qed.

(** Claim C2, as stated: no handler anywhere, and every stored uncaught
    exception is a licensing or infeasibility error of the solver.  The
    facility location notebook stores a [NameError]. *)
Lemma not_only_solver_errors :
  ~ (Forall (fun nb => notebook_handlers nb = 0) notebooks
     /\ Forall (fun e => is_licensing_error e || is_infeasibility_error e = true)
          stored_errors).
Proof.
  intros [_ H].
  assert (Hin : In (17%nat, "NameError", "name 'model' is not defined") stored_errors).
  { vm_compute. right. left. reflexivity. }
  apply (proj1 (List.Forall_forall _ _) H) in Hin.
  vm_compute in Hin. discriminate.
Qed.

(** Claim C2, amended: no notebook contains a [try] statement, so an exception
    raised in a cell is never handled by notebook code; the uncaught
    exceptions stored in cell outputs are the six below, of which exactly
    one is a licensing error of the solver and none an infeasibility
    error.  Where a cell stores an error it is the last output of the
    cell. *)
Theorem no_handlers_and_stored_errors :
  Forall (fun nb => notebook_handlers nb = 0) notebooks
  /\ map (fun e => snd (fst e)) stored_errors
     = ["SystemError"; "NameError"; "IndentationError"; "IndexError";
        "RuntimeError"; "FrozenInstanceError"]
  /\ map (fun e => snd (fst e)) (List.filter is_licensing_error stored_errors)
     = ["RuntimeError"]
  /\ List.filter is_infeasibility_error stored_errors = []
  /\ flat_map notebook_errors [doctors_scheduling_part1_solution]
     = [(15%nat, "SystemError",
         "<method 'addConstraint' of 'xpress.problem' objects> returned a result with an error set")]
  /\ notebook_errors facility_location_solution
     = [(17%nat, "NameError", "name 'model' is not defined")]
  /\ Forall (fun nb => Forall (fun c => error_is_last (outputs c) = true) (cells nb))
       notebooks.
Proof.
  split; [repeat (constructor; [vm_compute; reflexivity |]); constructor |].
  do 5 (split; [vm_compute; reflexivity |]).
  repeat (constructor; [repeat (constructor; [reflexivity |]); constructor |]).
  constructor.
Qed.

(** Claim C5, as stated: exactly one notebook reads a spreadsheet and every
    other notebook takes its data from its own code.  The portfolio
    notebook reads no spreadsheet and downloads its price data. *)
Lemma not_all_data_embedded :
  ~ (length (List.filter reads_spreadsheet notebooks) = 1%nat
     /\ Forall (fun nb => reads_spreadsheet nb = false -> data_inputs nb = [])
          notebooks).
Proof.
  intros [_ H].
  assert (Hin : In portfolio_optimization2 notebooks) by in_notebooks.
  apply (proj1 (List.Forall_forall _ _) H) in Hin.
  assert (Hd : data_inputs portfolio_optimization2 = ["web.DataReader"; "np.random.normal"])
    by (vm_compute; reflexivity).
  rewrite Hd in Hin. discriminate Hin. vm_compute. reflexivity.
Qed.

(** Claim C5, amended: [pd.read_excel] is called by the three doctors
    scheduling notebooks (one problem, one spreadsheet) and by no other
    notebook; the two portfolio optimization notebooks download their data
    with [web.DataReader] and draw normal samples, deviation estimation
    draws its data points at random, and the other seventeen notebooks
    call no data input routine. *)
Theorem data_inputs_per_notebook :
  Forall (fun nb => data_inputs nb = ["pd.read_excel"] /\ reads_spreadsheet nb = true)
    [doctors_scheduling_part1_solution; doctors_scheduling_solution; doctors_scheduling]
  /\ Forall (fun nb => data_inputs nb = ["web.DataReader"; "np.random.normal"])
       [portfolio_optimization2; portfolio_optimization]
  /\ data_inputs deviation_estimation = ["np.random.rand"]
  /\ Forall (fun nb => data_inputs nb = [])
       [batch_scheduling; batch_scheduling_part1_solution;
        batch_scheduling_part2_solution; facility_location_solution;
        introduction_to_python; n_queens; portfolio_basinhopping; tank_mpc;
        tank_problem; n_queens_checkpoint; two_tanks_solution;
        introduction_to_classes; urban_zone_fares; urban_zone_fares_solution;
        basin_hopping; nurse_scheduling; sudoku]
  /\ Forall (fun nb => data_inputs nb = []
                       \/ data_inputs nb = ["pd.read_excel"]
                       \/ data_inputs nb = ["web.DataReader"; "np.random.normal"]
                       \/ data_inputs nb = ["np.random.rand"]) notebooks.
Proof.
  split; [repeat (constructor; [vm_compute; split; reflexivity |]); constructor |].
  split; [repeat (constructor; [vm_compute; reflexivity |]); constructor |].
  split; [vm_compute; reflexivity |].
  split; [repeat (constructor; [vm_compute; reflexivity |]); constructor |].
  repeat (constructor;
          [vm_compute; first [left; reflexivity
                             | right; left; reflexivity
                             | right; right; left; reflexivity
                             | right; right; right; reflexivity] |]).
  constructor.
Qed.

End NotebookFacts.

(** ** The record classes *)

Section RecordFacts.
Import Py Datetime Records.

Lemma dataclass__init___app (fields : list string) (args : list pyval)
    (self o : gmap string pyval) :
  dataclass__init__ self fields args = Some o ->
  length args = length fields
  /\ o = foldl (fun m fa => setattr (fst fa) (snd fa) m) self (zip fields args).
Proof.
  revert args self. induction fields as [|f fields IH]; intros [|a args] self H;
    simpl in H; try discriminate.
  - inversion H. split; reflexivity.
  - apply IH in H as [Hl Ho]. split; [simpl; congruence | exact Ho].
Qed.

Lemma Connection_dom (origin destination distance elasticity base_rideship : pyval) :
  dom (Connection origin destination distance elasticity base_rideship)
  = {[ "origin"; "destination"; "distance"; "elasticity"; "base_ridership" ]}.
Proof.
  unfold Connection, Connection__init__, setattr.
  rewrite !dom_insert_L. set_solver.
Qed.

(** Claim C3.  [Connection(origin, destination, distance, elasticity,
    base_rideship)] of the urban zone fares notebook has the five
    attributes [origin], [destination], [distance], [elasticity] and
    [base_ridership], holding the five arguments in that order, and no
    other attribute. *)
Theorem Connection_stores_its_arguments
    (origin destination distance elasticity base_rideship : pyval) :
  let c := Connection origin destination distance elasticity base_rideship in
  c !! "origin" = Some origin
  /\ c !! "destination" = Some destination
  /\ c !! "distance" = Some distance
  /\ c !! "elasticity" = Some elasticity
  /\ c !! "base_ridership" = Some base_rideship
  /\ dom c = {[ "origin"; "destination"; "distance"; "elasticity"; "base_ridership" ]}.
Proof.
  unfold Connection, Connection__init__, setattr. cbv zeta.
  repeat split; first [by simplify_map_eq | apply Connection_dom].
Qed.

(** The fifteen [connections] of the notebook are fifteen such calls. *)
Lemma connections_are_the_calls :
  length connections = 15%nat
  /\ length (List.filter (fun c => String.eqb (Notebook.callee_of c) "Connection")
               (Notebook.notebook_calls Notebook.urban_zone_fares_solution)) = 15%nat
  /\ Forall (fun c => dom c = {[ "origin"; "destination"; "distance";
                                 "elasticity"; "base_ridership" ]}) connections.
Proof.
  split; [reflexivity |]. split; [vm_compute; reflexivity |].
  unfold connections, connection.
  repeat (constructor; [apply Connection_dom |]). constructor.
Qed.

(** The record classes are the classes the notebooks define, the two
    accept tests of the basin-hopping notebook apart; their fields are the
    fields the dataclasses declare and the attributes the handwritten
    [__init__] methods assign. *)
Lemma record_classes_match_the_notebooks :
  let self_ := map (String.append "self.") in
  let fields nb n := map Notebook.declared_fields (Notebook.class_bodies nb n) in
  let assigned nb n := map Notebook.init_targets (Notebook.class_bodies nb n) in
  Forall (fun n => In n (map class_name record_classes ++ ["MyBounds"; "MyBounds2"]))
    (flat_map Notebook.defined_classes Notebook.notebooks)
  /\ Forall (fun nb =>
       assigned nb "Doctor" = [self_ (field_names Doctor)]
       /\ assigned nb "Shift" = [self_ (field_names Shift ++ derived_fields Shift)]
       /\ fields nb "Placement" = [field_names Placement]
       /\ fields nb "Nightshift" = [field_names Nightshift])
      [Notebook.doctors_scheduling; Notebook.doctors_scheduling_part1_solution;
       Notebook.doctors_scheduling_solution]
  /\ Forall (fun nb => assigned nb "Connection" = [self_ (field_names FareConnection)])
      [Notebook.urban_zone_fares; Notebook.urban_zone_fares_solution]
  /\ (let nb := Notebook.facility_location_solution in
      fields nb "Unit" = [field_names Unit]
      /\ map (app (field_names Unit)) (fields nb "Facility") = [field_names Facility]
      /\ map (app (field_names Unit)) (fields nb "Client") = [field_names Client]
      /\ assigned nb "Connection"
         = [self_ (field_names FacilityConnection ++ derived_fields FacilityConnection)])
  /\ fields Notebook.sudoku "Value" = [field_names Value]
  /\ Forall (fun nb => fields nb "Position" = [field_names Position])
      [Notebook.n_queens; Notebook.n_queens_checkpoint]
  /\ Forall (fun nb => fields nb "Investment" = [field_names Investment])
      [Notebook.portfolio_optimization2; Notebook.portfolio_optimization]
  /\ assigned Notebook.introduction_to_python "Rectangle"
     = [self_ (field_names Rectangle); []; []]
  /\ fields Notebook.introduction_to_python "Rectangle"
     = [[]; field_names DataRectangle; field_names DataRectangle]
  /\ assigned Notebook.introduction_to_classes "Doctor" = [self_ (field_names IntroDoctor)].
Proof.
  cbv zeta. split.
  { repeat (constructor;
            [cbv -[String.eqb]; repeat (first [left; reflexivity | right]) |]).
    constructor. }
  repeat split; repeat (constructor; [vm_compute; repeat split; reflexivity |]);
    first [constructor | vm_compute; reflexivity].
Qed.

(** The loop that builds the shifts ends after 61 iterations, one per day
    from 1 July to 30 August 2019, with 167 shifts, and the shifts open to
    pregnant doctors are the weekday shifts that start at 06:00 and
    14:00. *)
Lemma shift_loop_result :
  option_map (fun r => (length (fst r), length (snd r),
                        forallb weekday_day_shift_rule (fst r)))
             (shift_loop 61 [] [] start_time)
  = Some (167%nat, 61%nat, true).
Proof. vm_compute. reflexivity. Qed.

(** Claim C4, as stated: whatever class is constructed, every attribute
    of the instance is one of the constructor's arguments.  A [Shift]
    stores [can_work_pregnant], which is computed. *)
Lemma derived_fields_exist :
  ~ (forall (np_sqrt : Q -> Q) (c : record_class) (args : list pyval)
            (o : gmap string pyval),
        construct np_sqrt c args = Some o ->
        forall (a : string) (v : pyval), o !! a = Some v -> In v args).
Proof.
  intros H.
  specialize (H (fun q => q) Shift
                [VDatetime (mk_datetime 737241 (mk_time 6 0 0 0));
                 VDatetime (mk_datetime 737241 (mk_time 14 0 0 0))]
                _ eq_refl "can_work_pregnant" (VBool true)).
  destruct H as [H | [H | []]]; [vm_compute; reflexivity | discriminate H ..].
Qed.

Lemma Some_eq_inv {A : Type} (x y : A) : Some x = Some y -> x = y.
Proof. congruence. Qed.

(** Case analysis on whatever variable a stuck [match] in [H] waits for. *)
Ltac split_match H :=
  repeat first
    [ discriminate H
    | match type of H with
      | context [match ?v with _ => _ end] => is_var v; destruct v
      end ].

(** Claim C4, amended: an instance of a record class holds each
    constructor argument unchanged under the name of its field.  Thirteen
    of the fifteen classes store nothing else.  [Shift] also stores
    [duration_in_hours], [is_nightshift] and [can_work_pregnant], computed
    from its two arguments, and the [Connection] of the facility location
    notebook also stores [distance], computed by [origin.get_distance]. *)
Theorem record_classes_store_arguments (np_sqrt : Q -> Q) (c : record_class)
    (args : list pyval) (o : gmap string pyval) :
  construct np_sqrt c args = Some o ->
  length args = length (field_names c)
  /\ match c with
     | Shift =>
         exists s e, args = [VDatetime s; VDatetime e]
           /\ o = <["can_work_pregnant" := VBool (can_work_pregnant s e)]>
                    (<["is_nightshift" := VBool (is_nightshift s)]>
                       (<["duration_in_hours" := py_float (duration_in_hours s e)]>
                          (list_to_map (zip (field_names c) args))))
     | FacilityConnection =>
         exists origin destination dist,
           args = [origin; destination]
           /\ get_distance np_sqrt origin destination = Some dist
           /\ o = <["distance" := py_float dist]>
                    (list_to_map (zip (field_names c) args))
     | _ => o = list_to_map (zip (field_names c) args)
     end.
Proof.
  intros H. destruct c; unfold construct in H.
  all: try (apply dataclass__init___app in H as [Hl ->]; split; [exact Hl |];
            unfold field_names in Hl |- *;
            repeat (destruct args as [|? args]; simpl in Hl; try discriminate Hl);
            reflexivity).
  - (* Doctor *)
    split_match H. apply Some_eq_inv in H; subst o. split; reflexivity.
  - (* Shift *)
    split_match H. apply Some_eq_inv in H; subst o. split; [reflexivity |].
    eexists _, _. split; [reflexivity |].
    unfold Shift__init__, setattr.
    generalize (py_float (duration_in_hours d d0)), (is_nightshift d),
      (can_work_pregnant d d0).
    intros; reflexivity.
  - (* FareConnection *)
    split_match H. apply Some_eq_inv in H; subst o. split; reflexivity.
  - (* FacilityConnection *)
    split_match H. unfold FacilityConnection__init__ in H.
    destruct (get_distance np_sqrt p p0) as [dist|] eqn:Hd; [|discriminate H].
    apply Some_eq_inv in H; subst o. split; [reflexivity |].
    eexists _, _, dist. split; [reflexivity |]. split; [exact Hd |].
    unfold setattr. generalize (py_float dist). intros; reflexivity.
  - (* Rectangle *)
    split_match H. apply Some_eq_inv in H; subst o. split; reflexivity.
  - (* IntroDoctor *)
    split_match H. apply Some_eq_inv in H; subst o. split; reflexivity.
Qed.
End RecordFacts.

(** ** Shifts of the doctors scheduling notebooks *)

Section ShiftFacts.
Import Py Datetime Records.
Local Open Scope Z_scope.

(** On valid times Python's tuple comparison is the comparison of the
    time of day. *)
Lemma time_cmp_spec (a b : time) :
  valid_time a -> valid_time b ->
  match time_cmp a b with
  | Lt => time_of_day a < time_of_day b
  | Eq => time_of_day a = time_of_day b
  | Gt => time_of_day a > time_of_day b
  end.
Proof.
  intros (Hh & Hm & Hs & Hu) (Hh' & Hm' & Hs' & Hu').
  unfold time_cmp, time_of_day, clock_seconds.
  destruct a as [h m s u], b as [h' m' s' u']; simpl in *.
  destruct (Z.compare_spec h h'); [| lia | lia].
  destruct (Z.compare_spec m m'); [| lia | lia].
  destruct (Z.compare_spec s s'); [| lia | lia].
  destruct (Z.compare_spec u u'); lia.
Qed.

Lemma time_ge_spec (a b : time) :
  valid_time a -> valid_time b ->
  time_ge a b = true <-> time_of_day b <= time_of_day a.
Proof.
  intros Ha Hb. pose proof (time_cmp_spec a b Ha Hb) as H.
  unfold time_ge. destruct (time_cmp a b); split; intros; try lia; try reflexivity;
    discriminate.
Qed.

Lemma time_le_spec (a b : time) :
  valid_time a -> valid_time b ->
  time_le a b = true <-> time_of_day a <= time_of_day b.
Proof.
  intros Ha Hb. pose proof (time_cmp_spec a b Ha Hb) as H.
  unfold time_le. destruct (time_cmp a b); split; intros; try lia; try reflexivity;
    discriminate.
Qed.

Lemma valid_time_hm (h m : Z) : 0 <= h < 24 -> 0 <= m < 60 -> valid_time (time_hm h m).
Proof. unfold valid_time, time_hm; simpl; lia. Qed.

Lemma float_lt_spec (a b : Q) : float_lt a b = true <-> (a < b)%Q.
Proof.
  unfold float_lt. rewrite Qlt_alt.
  destruct (a ?= b)%Q; split; intros; congruence.
Qed.

(** [is_nightshift]: the shift starts at or after 18:00 or at or before
    02:00. *)
Lemma is_nightshift_spec (start_time : datetime) :
  valid_time (clock start_time) ->
  is_nightshift start_time = true
  <-> 18 * 3600 * 1000000 <= time_of_day (clock start_time)
      \/ time_of_day (clock start_time) <= 2 * 3600 * 1000000.
Proof.
  intros Hv. unfold is_nightshift. rewrite orb_true_iff.
  rewrite (time_ge_spec _ _ Hv (valid_time_hm 18 0 ltac:(lia) ltac:(lia))).
  rewrite (time_le_spec _ _ Hv (valid_time_hm 2 0 ltac:(lia) ltac:(lia))).
  reflexivity.
Qed.

(** Claim C8.  A [Shift] built from a start and an end time stores
    [can_work_pregnant], and that flag is true exactly when the stored
    [duration_in_hours] is below 12 and the stored [is_nightshift] is
    false; [is_nightshift] is true exactly when the time of day of the
    start is at or after 18:00 or at or before 02:00 (in microseconds
    since midnight). *)
Theorem Shift_can_work_pregnant (start_time end_time : datetime) :
  valid_time (clock start_time) ->
  let shift := Shift__init__ ∅ start_time end_time in
  exists (duration : Q) (night pregnant : bool),
    shift !! "duration_in_hours" = Some (VFloat duration)
    /\ shift !! "is_nightshift" = Some (VBool night)
    /\ shift !! "can_work_pregnant" = Some (VBool pregnant)
    /\ (pregnant = true <-> (duration < 12)%Q /\ night = false)
    /\ (night = true
        <-> 18 * 3600 * 1000000 <= time_of_day (clock start_time)
            \/ time_of_day (clock start_time) <= 2 * 3600 * 1000000).
Proof.
  intros Hv shift.
  exists (Qred (duration_in_hours start_time end_time)),
         (is_nightshift start_time), (can_work_pregnant start_time end_time).
  unfold shift, Shift__init__, setattr, py_float.
  split; [by simplify_map_eq |]. split; [by simplify_map_eq |].
  split; [by simplify_map_eq |]. split.
  - unfold can_work_pregnant. rewrite andb_true_iff, negb_true_iff, float_lt_spec.
    rewrite Qred_correct. reflexivity.
  - apply is_nightshift_spec, Hv.
Qed.

(** The quotient of the model, taken in exact arithmetic, is the
    elapsed time in hours: normalising the [timedelta] does not change
    it. *)
Lemma duration_in_hours_spec (start_time end_time : datetime) :
  (duration_in_hours start_time end_time
   == inject_Z ((ordinal end_time - ordinal start_time) * 86400 * 1000000
                + time_of_day (clock end_time) - time_of_day (clock start_time))
      / inject_Z (3600 * 1000000))%Q.
Proof.
  unfold duration_in_hours, total_seconds, datetime_sub, timedelta_new, time_of_day.
  cbn [days seconds microseconds].
  set (D := ordinal end_time - ordinal start_time).
  set (S := clock_seconds (clock end_time) - clock_seconds (clock start_time)).
  set (U := microsecond (clock end_time) - microsecond (clock start_time)).
  assert (E : (D + (S + U / 1000000) / 86400) * 86400 * 1000000
              + ((S + U / 1000000) mod 86400) * 1000000 + U mod 1000000
              = D * 86400 * 1000000 + S * 1000000 + U).
  { pose proof (Z.div_mod (S + U / 1000000) 86400 ltac:(lia)).
    pose proof (Z.div_mod U 1000000 ltac:(lia)). lia. }
  replace (((D + (S + U / 1000000) / 86400) * 86400 + (S + U / 1000000) mod 86400)
           * 1000000 + U mod 1000000)
    with (D * 86400 * 1000000 + S * 1000000 + U) by lia.
  replace (D * 86400 * 1000000
           + (clock_seconds (clock end_time) * 1000000 + microsecond (clock end_time))
           - (clock_seconds (clock start_time) * 1000000 + microsecond (clock start_time)))
    with (D * 86400 * 1000000 + S * 1000000 + U) by (unfold S, U; lia).
  rewrite (inject_Z_mult 3600 1000000).
  field; split; discriminate.
Qed.

(** For two datetimes a whole number of hours apart the stored duration
    is that number.  There the two divisions of the code, by [10**6] in
    [total_seconds] and by 3600, have whole quotients, which the doubles
    of Python hold exactly. *)
Theorem duration_in_hours_of_whole_hours (start_time end_time : datetime) (h : Z) :
  (ordinal end_time - ordinal start_time) * 86400 * 1000000
  + time_of_day (clock end_time) - time_of_day (clock start_time)
  = h * (3600 * 1000000) ->
  (duration_in_hours start_time end_time == inject_Z h)%Q.
Proof.
  intros H. rewrite duration_in_hours_spec, H, inject_Z_mult.
  field. discriminate.
Qed.

(** The five shifts of the notebook on its first day: only the two eight
    hour shifts that start at 06:00 and 14:00 are open to pregnant
    doctors. *)
Lemma notebook_shifts_can_work_pregnant :
  map (fun hours => match shift_at start_time hours with
                    | Some s => s !! "can_work_pregnant"
                    | None => None
                    end) (weekday_times ++ weekend_times)
  = [Some (VBool true); Some (VBool true); Some (VBool false);
     Some (VBool false); Some (VBool false)].
Proof. vm_compute. reflexivity. Qed.

End ShiftFacts.

(** ** Nurse scheduling *)

Section NurseFacts.
Import Nurse.
Local Open Scope Z_scope.

(** The schedule the notebook prints satisfies every constraint of the
    model as written here. *)
Lemma printed_schedule_feasible : feasible xVal = true.
Proof. vm_compute. reflexivity. Qed.

(** On a day with exactly one shift, the nurse is off or works. *)
Lemma off_or_works (x : assignment) (n d : nat) :
  (forall s, In s SRange -> binary_var (x d s n) = true) ->
  assign_day_nurse x d n = true ->
  x d 0%nat n + (if works x n d then 1 else 0) = 1.
Proof.
  intros Hbin Hd.
  assert (H0 := Hbin 0%nat ltac:(simpl; tauto)).
  assert (H1 := Hbin 1%nat ltac:(simpl; tauto)).
  assert (H2 := Hbin 2%nat ltac:(simpl; tauto)).
  assert (H3 := Hbin 3%nat ltac:(simpl; tauto)).
  unfold assign_day_nurse, SRange, nShifts, mdl_sum in Hd. simpl in Hd.
  unfold binary_var in H0, H1, H2, H3.
  unfold works, SRange, nShifts. simpl.
  destruct (x d 1%nat n =? 1) eqn:E1, (x d 2%nat n =? 1) eqn:E2,
           (x d 3%nat n =? 1) eqn:E3; simpl; lia.
Qed.

(** On any list of days, days off and days worked add up to the number of
    days, once every day has exactly one shift. *)
Lemma days_off_plus_days_worked (x : assignment) (n : nat) (days : list nat) :
  (forall d s, In d days -> In s SRange -> binary_var (x d s n) = true) ->
  (forall d, In d days -> assign_day_nurse x d n = true) ->
  mdl_sum (map (fun d => x d 0%nat n) days)
  + Z.of_nat (length (List.filter (works x n) days))
  = Z.of_nat (length days).
Proof.
  induction days as [|d days IH]; intros Hbin Hone; [reflexivity |].
  assert (IH' := IH (fun d' s Hd => Hbin d' s (or_intror Hd))
                    (fun d' Hd => Hone d' (or_intror Hd))).
  assert (Hd := off_or_works x n d (fun s => Hbin d s (or_introl eq_refl))
                  (Hone d (or_introl eq_refl))).
  cbn [map List.filter].
  change (mdl_sum (x d 0%nat n :: map (fun d0 => x d0 0%nat n) days))
    with (x d 0%nat n + mdl_sum (map (fun d0 => x d0 0%nat n) days)).
  destruct (works x n d); cbn [length]; lia.
Qed.

(** Claim C9.  For a 0/1 assignment in which nurse [n] has exactly one of
    the four shifts on each of the seven days, the day-off bounds
    [1 <= sum over d of x[d,0,n] <= 2] hold exactly when the nurse works
    on 5 or on 6 days. *)
Theorem day_off_bounds_iff_five_or_six_days (x : assignment) (n : nat) :
  (forall d s, In d DRange -> In s SRange -> binary_var (x d s n) = true) ->
  (forall d, In d DRange -> assign_day_nurse x d n = true) ->
  (LB_day_off x n = true /\ UB_day_off x n = true)
  <-> (days_worked x n = 5%nat \/ days_worked x n = 6%nat).
Proof.
  intros Hbin Hone.
  pose proof (days_off_plus_days_worked x n DRange Hbin Hone) as H.
  unfold LB_day_off, UB_day_off, days_worked.
  change (length DRange) with 7%nat in H.
  rewrite Z.geb_le, Z.leb_le. lia.
Qed.

End NurseFacts.

(** ** Portfolio optimization *)

Section PortfolioFacts.
Import Portfolio.
Local Open Scope R_scope.

Lemma sum_of_squares_nonneg (f : Investment -> R) (investments : list Investment) :
  0 <= xp_Sum (fun inv => f inv ^ 2) investments.
Proof.
  unfold xp_Sum. induction investments as [|inv l IH]; cbn [fold_right]; [lra |].
  pose proof (pow2_ge_0 (f inv)). lra.
Qed.

(** The squared constraint of the code does not hold exactly when the
    risk constraint does: one investment with mean -1 and sigma 1, held
    in full, with quantile -1, satisfies the squared constraint and
    violates the risk constraint. *)
Lemma squared_constraint_admits_losses :
  ~ (forall (ppf_beta : R) (investments : list Investment)
            (x : Investment -> R) (x_all : R),
        ppf_beta < 0 ->
        Forall (fun inv => 0 <= sigma inv) investments ->
        link_x_all investments x x_all ->
        (enforce_risk_limit ppf_beta investments x x_all
         <-> risk_limit ppf_beta investments x)).
Proof.
  intros H.
  specialize (H (-1) [ {| name := "A"; mean := -1; sigma := 1 |} ] (fun _ => 1) (-1)).
  unfold link_x_all, enforce_risk_limit, risk_limit, xp_Sum in H. simpl in H.
  destruct H as [H _]; [lra | repeat constructor; simpl; lra | lra |].
  assert (H' := H ltac:(lra)).
  assert (E : 1 * 1 * (1 * 1 * 1) + 0 = 1) by lra.
  rewrite E, sqrt_1 in H'. lra.
Qed.

(** What the squaring loses is the sign of [x_all]: with a negative
    quantile and [x_all] the expected return, the risk constraint holds
    exactly when the squared constraint holds and [x_all] is not
    negative.  The code states no constraint [x_all >= 0]. *)
Lemma risk_limit_iff_squared_and_nonnegative
    (ppf_beta : R) (investments : list Investment) (x : Investment -> R) (x_all : R) :
  ppf_beta < 0 ->
  Forall (fun inv => 0 <= sigma inv) investments ->
  link_x_all investments x x_all ->
  (risk_limit ppf_beta investments x
   <-> enforce_risk_limit ppf_beta investments x x_all /\ 0 <= x_all).
Proof.
  intros Hq _ Hlink. unfold risk_limit, enforce_risk_limit.
  unfold link_x_all in Hlink. rewrite <- Hlink.
  set (S := xp_Sum (fun inv => (sigma inv * x inv) ^ 2) investments).
  assert (HS : 0 <= S) by apply (sum_of_squares_nonneg (fun inv => sigma inv * x inv)).
  pose proof (sqrt_pos S) as Hs. pose proof (sqrt_sqrt S HS) as Hss.
  set (s := sqrt S) in *. rewrite <- Hss. split.
  - intros H.
    assert (H1 : 0 <= - ppf_beta * s) by nra.
    split; [| lra].
    pose proof (Rmult_le_pos (x_all - - ppf_beta * s) (x_all + - ppf_beta * s)
                  ltac:(lra) ltac:(lra)).
    simpl. lra.
  - intros [H Hx]. destruct (Rle_lt_dec (- ppf_beta * s) x_all) as [Hle | Hlt]; [lra |].
    exfalso.
    assert (H1 : 0 <= - ppf_beta * s) by nra.
    pose proof (Rmult_lt_0_compat (- ppf_beta * s - x_all) (- ppf_beta * s + x_all)
                  ltac:(lra)) as H2.
    simpl in H.
    destruct (Req_dec x_all 0) as [-> | Hne].
    + assert (0 < - ppf_beta * s) by lra. nra.
    + assert (0 < - ppf_beta * s + x_all) by lra. specialize (H2 ltac:(assumption)). lra.
Qed.


Lemma fold_left_Rmin_ge (l : list R) (a b : R) :
  b <= a -> Forall (fun m => b <= m) l -> b <= fold_left Rmin l a.
Proof.
  revert a. induction l as [|m l IH]; intros a Ha Hl; simpl; [exact Ha |].
  inversion Hl; subst. apply IH; [| assumption].
  unfold Rmin. destruct (Rle_dec a m); assumption.
Qed.

(** When no mean is negative the declared lower bound keeps [x_all] from
    being negative, and the two constraints agree. *)
Lemma x_all_nonnegative_when_means_are
    (investments : list Investment) (x_all : R) :
  Forall (fun inv => 0 <= mean inv) investments ->
  x_all_bounds investments x_all ->
  0 <= x_all.
Proof.
  intros Hm Hb. unfold x_all_bounds, min_mean, max_mean in Hb.
  destruct investments as [|inv rest]; [contradiction |].
  inversion Hm; subst.
  assert (0 <= fold_left Rmin (map mean rest) (mean inv)).
  { apply fold_left_Rmin_ge; [assumption |].
    apply List.Forall_map. assumption. }
  lra.
Qed.

(** The counting loop of the sampling check: [satisfied] is the number of
    sample indices whose sampled return passes the test [>= 0], whatever
    the arithmetic of the doubles. *)
Lemma satisfied_counts {float K : Type} (mul : float -> float -> float)
    (np_sum : list float -> float) (ge_0 : float -> bool) (investments : list K)
    (samples : K -> nat -> float) (solution : K -> float) (n : nat) :
  satisfied mul np_sum ge_0 investments samples solution n
  = length (List.filter
              (fun k => ge_0 (sampled_return mul np_sum investments samples solution k))
              (seq 0 n)).
Proof.
  unfold satisfied. generalize (seq 0 n) as ks.
  assert (G : forall ks acc,
             fold_left (fun satisfied k =>
                          if ge_0 (sampled_return mul np_sum investments samples solution k)
                          then (satisfied + 1)%nat else satisfied) ks acc
             = (acc + length (List.filter
                               (fun k => ge_0 (sampled_return mul np_sum investments
                                                 samples solution k)) ks))%nat).
  { induction ks as [|k ks IH]; intros acc; simpl; [lia |].
    rewrite IH. destruct (ge_0 _); simpl; lia. }
  intros ks. apply G.
Qed.

End PortfolioFacts.

(** ** Notebook code beyond model building: sampling check, accept tests *)

Section OwnLogicFacts.
Import Notebook BasinHopping.



(** The count depends on the draws: the same portfolio passes on one
    sample and fails on another. *)
Lemma satisfied_depends_on_samples :
  let np_sum := fold_right Qplus 0%Q in
  Portfolio.satisfied Qmult np_sum (Qle_bool 0) [tt] (fun _ _ => 1%Q) (fun _ => 1%Q) 2
  = 2%nat
  /\ Portfolio.satisfied Qmult np_sum (Qle_bool 0) [tt]
       (fun _ k => if Nat.eqb k 0 then (-1)%Q else 1%Q) (fun _ => 1%Q) 2 = 1%nat.
Proof. split; vm_compute; reflexivity. Qed.




(** With the default bounds a candidate outside [-1.1, 1.1] is rejected
    and one inside is accepted; the second test rejects the point the
    notebook reports as its result, (1.0926, -0.1). *)
Lemma accept_tests_decide :
  MyBounds__call__ mybounds (accept_kwargs 0 [2; 0]%Q 0 [1; 1]%Q) = Some false
  /\ MyBounds__call__ mybounds (accept_kwargs 0 [0; 0]%Q 0 [1; 1]%Q) = Some true
  /\ MyBounds__call__ mybounds2
       (accept_kwargs 0 [10926 # 10000; -1 # 10]%Q 0 [1; 1]%Q) = Some false.
Proof. repeat split; vm_compute; reflexivity. Qed.

End OwnLogicFacts.

(** ** Instances

    Each statement above that has hypotheses, taken at a concrete input. *)

Section Instances.
Import Py Datetime Records.

(** The day shift of Monday 1 July 2019, 06:00 to 14:00. *)
Lemma record_classes_store_arguments_at_day_shift :
  let s := mk_datetime 737241 (mk_time 6 0 0 0) in
  let e := mk_datetime 737241 (mk_time 14 0 0 0) in
  construct (fun q => q) Shift [VDatetime s; VDatetime e] = Some (Shift__init__ ∅ s e)
  /\ length [VDatetime s; VDatetime e] = length (field_names Shift)
  /\ exists s' e', [VDatetime s; VDatetime e] = [VDatetime s'; VDatetime e']
       /\ Shift__init__ ∅ s e
          = <["can_work_pregnant" := VBool (can_work_pregnant s' e')]>
              (<["is_nightshift" := VBool (is_nightshift s')]>
                 (<["duration_in_hours" := py_float (duration_in_hours s' e')]>
                    (list_to_map (zip (field_names Shift)
                                      [VDatetime s; VDatetime e])))).
Proof.
  intros s e. split; [reflexivity |].
  exact (record_classes_store_arguments (fun q => q) Shift
           [VDatetime s; VDatetime e] (Shift__init__ ∅ s e) eq_refl).
Defined.

Lemma Shift_can_work_pregnant_at_day_shift :
  let s := mk_datetime 737241 (mk_time 6 0 0 0) in
  let e := mk_datetime 737241 (mk_time 14 0 0 0) in
  valid_time (clock s)
  /\ exists (duration : Q) (night pregnant : bool),
       Shift__init__ ∅ s e !! "duration_in_hours" = Some (VFloat duration)
       /\ Shift__init__ ∅ s e !! "is_nightshift" = Some (VBool night)
       /\ Shift__init__ ∅ s e !! "can_work_pregnant" = Some (VBool pregnant)
       /\ (pregnant = true <-> (duration < 12)%Q /\ night = false)
       /\ (night = true
           <-> (18 * 3600 * 1000000 <= time_of_day (clock s))%Z
               \/ (time_of_day (clock s) <= 2 * 3600 * 1000000)%Z).
Proof.
  intros s e.
  assert (Hv : valid_time (clock s)) by (unfold valid_time; simpl; lia).
  split; [exact Hv |].
  exact (Shift_can_work_pregnant s e Hv).
Defined.

(** Nurse 1 (index 0) in the schedule the notebook prints. *)
Lemma day_off_bounds_at_printed_schedule :
  (forall d s, In d Nurse.DRange -> In s Nurse.SRange ->
               Nurse.binary_var (Nurse.xVal d s 0%nat) = true)
  /\ (forall d, In d Nurse.DRange -> Nurse.assign_day_nurse Nurse.xVal d 0%nat = true)
  /\ ((Nurse.LB_day_off Nurse.xVal 0%nat = true /\ Nurse.UB_day_off Nurse.xVal 0%nat = true)
      <-> (Nurse.days_worked Nurse.xVal 0%nat = 5%nat
           \/ Nurse.days_worked Nurse.xVal 0%nat = 6%nat)).
Proof.
  assert (Hbin : forall d s, In d Nurse.DRange -> In s Nurse.SRange ->
                             Nurse.binary_var (Nurse.xVal d s 0%nat) = true).
  { intros d s Hd Hs. simpl in Hd, Hs.
    repeat (destruct Hd as [<- | Hd]); try contradiction;
      repeat (destruct Hs as [<- | Hs]); try contradiction; reflexivity. }
  assert (Hone : forall d, In d Nurse.DRange ->
                           Nurse.assign_day_nurse Nurse.xVal d 0%nat = true).
  { intros d Hd. simpl in Hd.
    repeat (destruct Hd as [<- | Hd]); try contradiction; reflexivity. }
  split; [exact Hbin |]. split; [exact Hone |].
  exact (day_off_bounds_iff_five_or_six_days Nurse.xVal 0%nat Hbin Hone).
Defined.

(** One investment with mean 1 and sigma 1, held in full, quantile -1. *)
Lemma risk_limit_at_one_investment :
  let inv := {| Portfolio.name := "A"; Portfolio.mean := 1%R; Portfolio.sigma := 1%R |} in
  (-1 < 0)%R
  /\ Forall (fun i => (0 <= Portfolio.sigma i)%R) [inv]
  /\ Portfolio.link_x_all [inv] (fun _ => 1%R) 1%R
  /\ (Portfolio.risk_limit (-1) [inv] (fun _ => 1%R)
      <-> Portfolio.enforce_risk_limit (-1) [inv] (fun _ => 1%R) 1%R /\ (0 <= 1)%R).
Proof.
  intros inv.
  assert (Hq : (-1 < 0)%R) by lra.
  assert (Hs : Forall (fun i => (0 <= Portfolio.sigma i)%R) [inv])
    by (repeat constructor; simpl; lra).
  assert (Hl : Portfolio.link_x_all [inv] (fun _ => 1%R) 1%R)
    by (unfold Portfolio.link_x_all, Portfolio.xp_Sum; simpl; lra).
  split; [exact Hq |]. split; [exact Hs |]. split; [exact Hl |].
  exact (risk_limit_iff_squared_and_nonnegative (-1) [inv] (fun _ => 1%R) 1%R Hq Hs Hl).
Defined.


End Instances.

(** ** N-queens *)

Section NQueensFacts.
Import NQueens.
Local Open Scope Z_scope.

(** Case analysis on the integer comparisons of the goal. *)
Ltac zcases :=
  repeat match goal with
         | |- context [?a <=? ?b] => destruct (Z.leb_spec a b)
         | |- context [?a <? ?b] => destruct (Z.ltb_spec a b)
         | |- context [?a =? ?b] => destruct (Z.eqb_spec a b)
         end;
  cbn [andb orb negb]; subst; try reflexivity; try lia.

Lemma in_range (m k : Z) : In k (range m) <-> 0 <= k < m.
Proof.
  unfold range. rewrite in_map_iff. split.
  - intros (a & <- & Ha). apply in_seq in Ha. lia.
  - intros H. exists (Z.to_nat k). split; [lia |]. apply in_seq. lia.
Qed.

Lemma in_positions (m : Z) (p : Position) :
  In p (positions m) <-> 0 <= row p < m /\ 0 <= column p < m.
Proof.
  unfold positions. rewrite in_flat_map. split.
  - intros (i & Hi & Hp). apply in_map_iff in Hp as (j & <- & Hj).
    apply in_range in Hi, Hj. simpl. lia.
  - intros [Hr Hc]. exists (row p). split; [apply in_range, Hr |].
    apply in_map_iff. exists (column p). split; [destruct p; reflexivity |].
    apply in_range, Hc.
Qed.

Lemma filter_eq_seq (j : Z) (a m : nat) :
  List.filter (fun z => z =? j) (map Z.of_nat (seq a m))
  = if (Z.of_nat a <=? j) && (j <? Z.of_nat (a + m)) then [j] else [].
Proof.
  revert a. induction m as [|m IH]; intros a.
  - simpl. zcases.
  - cbn [seq map List.filter]. rewrite IH.
    replace (Z.of_nat (S a + m)) with (Z.of_nat (a + S m)) by lia.
    zcases.
Qed.

Lemma filter_eq_range (m j : Z) :
  List.filter (fun z => z =? j) (range m) = if (0 <=? j) && (j <? m) then [j] else [].
Proof.
  unfold range. rewrite filter_eq_seq. simpl. zcases.
Qed.

Lemma filter_flat_map_list {A B : Type} (P : B -> bool) (f : A -> list B) (l : list A) :
  List.filter P (flat_map f l) = flat_map (fun a => List.filter P (f a)) l.
Proof.
  induction l as [|a l IH]; [reflexivity |].
  simpl. rewrite List.filter_app, IH. reflexivity.
Qed.

Lemma flat_map_if {A B : Type} (P : A -> bool) (f : A -> list B) (l : list A) :
  flat_map (fun a => if P a then f a else []) l = flat_map f (List.filter P l).
Proof.
  induction l as [|a l IH]; [reflexivity |].
  simpl. destruct (P a); simpl; rewrite IH; reflexivity.
Qed.

Lemma filter_positions (m i j : Z) :
  List.filter (fun pos => (row pos =? i) && (column pos =? j)) (positions m)
  = if (0 <=? i) && (i <? m) && ((0 <=? j) && (j <? m))
    then [{| row := i; column := j |}] else [].
Proof.
  unfold positions. rewrite filter_flat_map_list.
  rewrite (flat_map_ext _ (fun i' => if i' =? i
                                     then map (fun j' => {| row := i; column := j' |})
                                              (List.filter (fun z => z =? j) (range m))
                                     else [])).
  - rewrite flat_map_if, !filter_eq_range.
    destruct ((0 <=? i) && (i <? m)); [| reflexivity].
    destruct ((0 <=? j) && (j <? m)); reflexivity.
  - intros i'. destruct (i' =? i) eqn:E.
    + apply Z.eqb_eq in E. subst i'.
      induction (range m) as [|a l IH]; [reflexivity |].
      simpl. rewrite Z.eqb_refl. simpl. destruct (a =? j); simpl; rewrite IH; reflexivity.
    + induction (range m) as [|a l IH]; [reflexivity |].
      simpl. rewrite E. simpl. exact IH.
Qed.

(** [get_pos] on the board: the position itself for indices on the
    board, an [IndexError] for any other pair. *)
Theorem get_pos_on_the_board (m i j : Z) :
  get_pos (positions m) i j
  = if (0 <=? i) && (i <? m) && ((0 <=? j) && (j <? m))
    then Some {| row := i; column := j |} else None.
Proof.
  unfold get_pos. rewrite filter_positions.
  destruct ((0 <=? i) && (i <? m) && ((0 <=? j) && (j <? m))); reflexivity.
Qed.

Lemma sum_at_found (x : Position -> Z) (g : Z -> Position) (m : Z) (l : list Z) :
  (forall k, In k l -> 0 <= row (g k) < m /\ 0 <= column (g k) < m) ->
  sum_at x (map (fun k => get_pos (positions m) (row (g k)) (column (g k))) l)
  = Some (xp_Sum (map (fun k => x (g k)) l)).
Proof.
  induction l as [|k l IH]; intros H; [reflexivity |].
  cbn [map sum_at]. unfold get_pos at 1. rewrite filter_positions.
  destruct (H k (or_introl eq_refl)) as [Hr Hc].
  replace ((0 <=? row (g k)) && (row (g k) <? m)
           && ((0 <=? column (g k)) && (column (g k) <? m))) with true by zcases.
  rewrite IH by (intros k' Hk'; apply H; right; exact Hk').
  destruct (g k); reflexivity.
Qed.

Lemma all_hold_in (cs : list (option bool)) :
  all_hold cs = Some true -> forall c, In c cs -> c = Some true.
Proof.
  induction cs as [|c cs IH]; intros H c' Hin; [contradiction |].
  simpl in H. destruct c as [b|]; [| discriminate H].
  destruct (all_hold cs) as [r|]; [| discriminate H].
  injection H as H. apply andb_true_iff in H as [-> ->].
  destruct Hin as [<- | Hin]; [reflexivity | apply IH; [reflexivity | exact Hin]].
Qed.

Lemma all_hold_some (cs : list (option bool)) :
  (forall c, In c cs -> c <> None) -> all_hold cs <> None.
Proof.
  induction cs as [|c cs IH]; intros H; [discriminate |].
  simpl. destruct c as [b|]; [| exfalso; apply (H None); [left; reflexivity | reflexivity]].
  destruct (all_hold cs) eqn:E; [discriminate |].
  exfalso. apply IH; [| reflexivity]. intros c Hc. apply H. right. exact Hc.
Qed.

(** The four diagonal sums, with every [get_pos] resolved. *)
Lemma first_diagonal_rows_sum (m : Z) (x : Position -> Z) (i : Z) :
  0 <= i < m ->
  one_queen_per_first_diagonal_rows m x i
  = Some (xp_Sum (map (fun k => x {| row := k + i; column := k |}) (range (m - i))) <=? 1).
Proof.
  intros Hi. unfold one_queen_per_first_diagonal_rows.
  rewrite (sum_at_found x (fun k => {| row := k + i; column := k |}) m);
    [reflexivity |].
  intros k Hk. apply in_range in Hk. simpl. lia.
Qed.

Lemma first_diagonal_columns_sum (m : Z) (x : Position -> Z) (i : Z) :
  0 <= i < m ->
  one_queen_per_first_diagonal_columns m x i
  = Some (xp_Sum (map (fun k => x {| row := k; column := k + i |}) (range (m - i))) <=? 1).
Proof.
  intros Hi. unfold one_queen_per_first_diagonal_columns.
  rewrite (sum_at_found x (fun k => {| row := k; column := k + i |}) m);
    [reflexivity |].
  intros k Hk. apply in_range in Hk. simpl. lia.
Qed.

Lemma second_diagonal_columns_sum (m : Z) (x : Position -> Z) (i : Z) :
  0 <= i < m ->
  one_queen_per_second_diagonal_columns m x i
  = Some (xp_Sum (map (fun k => x {| row := k; column := i - k |}) (range (i + 1))) <=? 1).
Proof.
  intros Hi. unfold one_queen_per_second_diagonal_columns.
  rewrite (sum_at_found x (fun k => {| row := k; column := i - k |}) m);
    [reflexivity |].
  intros k Hk. apply in_range in Hk. simpl. lia.
Qed.

Lemma second_diagonal_rows_sum (m : Z) (x : Position -> Z) (i : Z) :
  0 <= i < m ->
  one_queen_per_second_diagonal_rows m x i
  = Some (xp_Sum (map (fun k => x {| row := m - k - 1; column := m + k - i - 1 |})
                      (range (i + 1))) <=? 1).
Proof.
  intros Hi. unfold one_queen_per_second_diagonal_rows.
  rewrite (sum_at_found x (fun k => {| row := m - k - 1; column := m + k - i - 1 |}) m);
    [reflexivity |].
  intros k Hk. apply in_range in Hk. simpl. lia.
Qed.

(** Building the constraints never raises: every index handed to
    [get_pos] is on the board. *)
Theorem constraints_never_raise (m : Z) (x : Position -> Z) :
  feasible m x <> None.
Proof.
  unfold feasible.
  destruct (all_hold (constraints m x)) eqn:E; [discriminate |].
  exfalso. revert E. apply all_hold_some. intros c Hc.
  unfold constraints in Hc.
  repeat (apply in_app_or in Hc as [Hc | Hc]);
    try (apply in_map_iff in Hc as (i & <- & Hi); apply in_range in Hi).
  - discriminate.
  - discriminate.
  - rewrite first_diagonal_rows_sum by exact Hi. discriminate.
  - rewrite first_diagonal_columns_sum by exact Hi. discriminate.
  - rewrite second_diagonal_columns_sum by exact Hi. discriminate.
  - rewrite second_diagonal_rows_sum by exact Hi. discriminate.
  - destruct Hc as [<- | []]. discriminate.
Qed.

Lemma Position_eq_dec (p q : Position) : {p = q} + {p <> q}.
Proof.
  destruct p as [r c], q as [r' c'].
  destruct (Z.eq_dec r r') as [-> | Hr]; [| right; congruence].
  destruct (Z.eq_dec c c') as [-> | Hc]; [left; reflexivity | right; congruence].
Qed.

Lemma sum_ge_one (x : Position -> Z) (l : list Position) (p : Position) :
  (forall a, In a l -> 0 <= x a) -> In p l -> x p <= xp_Sum (map x l).
Proof.
  induction l as [|a l IH]; intros Hpos Hin; [contradiction |].
  simpl. assert (0 <= xp_Sum (map x l)).
  { clear IH Hin. induction l as [|b l IH]; simpl; [lia |].
    assert (0 <= x b) by (apply Hpos; right; left; reflexivity).
    assert (0 <= xp_Sum (map x l)); [| lia].
    apply IH. intros c [Hc | Hc]; apply Hpos; [left | right; right]; assumption. }
  destruct Hin as [-> | Hin].
  - lia.
  - assert (0 <= x a) by (apply Hpos; left; reflexivity).
    assert (x p <= xp_Sum (map x l)); [| lia].
    apply IH; [intros c Hc; apply Hpos; right; exact Hc | exact Hin].
Qed.

(** Two different positions of a list weigh at least their two values. *)
Lemma sum_ge_two (x : Position -> Z) (l : list Position) (p q : Position) :
  (forall a, In a l -> 0 <= x a) -> In p l -> In q l -> p <> q ->
  x p + x q <= xp_Sum (map x l).
Proof.
  induction l as [|a l IH]; intros Hpos Hp Hq Hne; [contradiction |].
  assert (Hl : forall c, In c l -> 0 <= x c) by (intros c Hc; apply Hpos; right; exact Hc).
  assert (Ha : 0 <= x a) by (apply Hpos; left; reflexivity).
  simpl. destruct Hp as [-> | Hp], Hq as [-> | Hq].
  - contradiction.
  - pose proof (sum_ge_one x l q Hl Hq). lia.
  - pose proof (sum_ge_one x l p Hl Hp). lia.
  - pose proof (IH Hl Hp Hq Hne). lia.
Qed.

Lemma binary_nonneg (m : Z) (x : Position -> Z) :
  binary m x = true -> forall a, In a (positions m) -> 0 <= x a <= 1.
Proof.
  intros H a Ha. unfold binary in H.
  apply (proj1 (List.forallb_forall _ _) H) in Ha.
  apply orb_true_iff in Ha as [Ha | Ha]; apply Z.eqb_eq in Ha; lia.
Qed.

Lemma feasible_parts (m : Z) (x : Position -> Z) :
  feasible m x = Some true ->
  binary m x = true
  /\ forall c, In c (constraints m x) -> c = Some true.
Proof.
  unfold feasible. intros H.
  destruct (all_hold (constraints m x)) as [b|] eqn:E; [| discriminate H].
  injection H as H. apply andb_true_iff in H as [Hb ->].
  split; [exact Hb | apply all_hold_in, E].
Qed.

(** A sum over positions of the board that is at most one holds at most
    one queen. *)
Lemma at_most_one_queen (m : Z) (x : Position -> Z) (l : list Position) (p q : Position) :
  binary m x = true ->
  (forall a, In a l -> In a (positions m)) ->
  (xp_Sum (map x l) <=? 1) = true ->
  In p l -> In q l -> x p = 1 -> x q = 1 -> p = q.
Proof.
  intros Hb Hl Hs Hp Hq Hxp Hxq.
  destruct (Position_eq_dec p q) as [E | Hne]; [exact E | exfalso].
  assert (Hpos : forall a, In a l -> 0 <= x a).
  { intros a Ha. apply (binary_nonneg m x Hb a), Hl, Ha. }
  pose proof (sum_ge_two x l p q Hpos Hp Hq Hne). apply Z.leb_le in Hs. lia.
Qed.

(** A feasible assignment puts no two queens on a common row, column or
    diagonal. *)
Theorem feasible_queens_do_not_attack (m : Z) (x : Position -> Z) (p q : Position) :
  feasible m x = Some true ->
  In p (positions m) -> In q (positions m) ->
  x p = 1 -> x q = 1 -> p <> q ->
  ~ attacks p q.
Proof.
  intros Hf Hp Hq Hxp Hxq Hne Hatt.
  destruct (feasible_parts m x Hf) as [Hb Hc].
  apply in_positions in Hp as Hp', Hq as Hq'.
  assert (Hin : forall i (c : Z -> option bool) (pre post : list (option bool)),
             constraints m x = pre ++ map c (range m) ++ post ->
             0 <= i < m -> c i = Some true).
  { intros i c pre post E Hi. apply Hc. rewrite E.
    apply in_or_app. right. apply in_or_app. left.
    apply in_map. apply in_range, Hi. }
  apply Hne.
  destruct Hatt as [Hr | [Hcol | [Hd | Hanti]]].
  - (* one row *)
    assert (C := Hin (row p) (fun i => Some (one_queen_per_row m x i))
                   (map (fun j => Some (one_queen_per_column m x j)) (range m)) _
                   eq_refl ltac:(lia)).
    injection C as C. unfold one_queen_per_row in C.
    eapply (at_most_one_queen m x _ p q Hb); [| exact C | | | exact Hxp | exact Hxq].
    + intros a Ha. apply filter_In in Ha. tauto.
    + apply filter_In. split; [exact Hp | apply Z.eqb_refl].
    + apply filter_In. split; [exact Hq | apply Z.eqb_eq; lia].
  - (* one column *)
    assert (C := Hin (column p) (fun j => Some (one_queen_per_column m x j)) [] _
                   eq_refl ltac:(lia)).
    injection C as C. unfold one_queen_per_column in C.
    eapply (at_most_one_queen m x _ p q Hb); [| exact C | | | exact Hxp | exact Hxq].
    + intros a Ha. apply filter_In in Ha. tauto.
    + apply filter_In. split; [exact Hp | apply Z.eqb_refl].
    + apply filter_In. split; [exact Hq | apply Z.eqb_eq; lia].
  - (* one diagonal, row - column constant *)
    destruct (Z_le_gt_dec 0 (row p - column p)) as [Hs | Hs].
    + set (i := row p - column p).
      assert (C := Hin i (one_queen_per_first_diagonal_rows m x)
                     (map (fun j => Some (one_queen_per_column m x j)) (range m)
                      ++ map (fun i => Some (one_queen_per_row m x i)) (range m)) _
                     ltac:(unfold constraints; rewrite <- !app_assoc; reflexivity)
                     ltac:(unfold i; lia)).
      rewrite first_diagonal_rows_sum in C by (unfold i; lia). injection C as C.
      change (fun k => x {| row := k + i; column := k |})
        with (fun k => x ((fun k => {| row := k + i; column := k |}) k)) in C.
      rewrite <- (map_map (fun k => {| row := k + i; column := k |}) x) in C.
      eapply (at_most_one_queen m x _ p q Hb); [| exact C | | | exact Hxp | exact Hxq].
      * intros a Ha. apply in_map_iff in Ha as (k & <- & Hk). apply in_range in Hk.
        apply in_positions. simpl. unfold i in *. lia.
      * apply in_map_iff. exists (column p). split;
          [destruct p; simpl in *; f_equal; unfold i; simpl; lia
          | apply in_range; unfold i; lia].
      * apply in_map_iff. exists (column q). split;
          [destruct q; simpl in *; f_equal; unfold i; simpl; lia
          | apply in_range; unfold i; lia].
    + set (i := column p - row p).
      assert (C := Hin i (one_queen_per_first_diagonal_columns m x)
                     (map (fun j => Some (one_queen_per_column m x j)) (range m)
                      ++ map (fun i => Some (one_queen_per_row m x i)) (range m)
                      ++ map (one_queen_per_first_diagonal_rows m x) (range m)) _
                     ltac:(unfold constraints; rewrite <- !app_assoc; reflexivity)
                     ltac:(unfold i; lia)).
      rewrite first_diagonal_columns_sum in C by (unfold i; lia). injection C as C.
      change (fun k => x {| row := k; column := k + i |})
        with (fun k => x ((fun k => {| row := k; column := k + i |}) k)) in C.
      rewrite <- (map_map (fun k => {| row := k; column := k + i |}) x) in C.
      eapply (at_most_one_queen m x _ p q Hb); [| exact C | | | exact Hxp | exact Hxq].
      * intros a Ha. apply in_map_iff in Ha as (k & <- & Hk). apply in_range in Hk.
        apply in_positions. simpl. unfold i in *. lia.
      * apply in_map_iff. exists (row p). split;
          [destruct p; simpl in *; f_equal; unfold i; simpl; lia
          | apply in_range; unfold i; lia].
      * apply in_map_iff. exists (row q). split;
          [destruct q; simpl in *; f_equal; unfold i; simpl; lia
          | apply in_range; unfold i; lia].
  - (* one diagonal, row + column constant *)
    destruct (Z_lt_ge_dec (row p + column p) m) as [Hs | Hs].
    + set (i := row p + column p).
      assert (C := Hin i (one_queen_per_second_diagonal_columns m x)
                     (map (fun j => Some (one_queen_per_column m x j)) (range m)
                      ++ map (fun i => Some (one_queen_per_row m x i)) (range m)
                      ++ map (one_queen_per_first_diagonal_rows m x) (range m)
                      ++ map (one_queen_per_first_diagonal_columns m x) (range m)) _
                     ltac:(unfold constraints; rewrite <- !app_assoc; reflexivity)
                     ltac:(unfold i; lia)).
      rewrite second_diagonal_columns_sum in C by (unfold i; lia). injection C as C.
      change (fun k => x {| row := k; column := i - k |})
        with (fun k => x ((fun k => {| row := k; column := i - k |}) k)) in C.
      rewrite <- (map_map (fun k => {| row := k; column := i - k |}) x) in C.
      eapply (at_most_one_queen m x _ p q Hb); [| exact C | | | exact Hxp | exact Hxq].
      * intros a Ha. apply in_map_iff in Ha as (k & <- & Hk). apply in_range in Hk.
        apply in_positions. simpl. unfold i in *. lia.
      * apply in_map_iff. exists (row p). split;
          [destruct p; simpl in *; f_equal; unfold i; simpl; lia
          | apply in_range; unfold i; lia].
      * apply in_map_iff. exists (row q). split;
          [destruct q; simpl in *; f_equal; unfold i; simpl; lia
          | apply in_range; unfold i; lia].
    + set (i := 2 * m - 2 - (row p + column p)).
      assert (C := Hin i (one_queen_per_second_diagonal_rows m x)
                     (map (fun j => Some (one_queen_per_column m x j)) (range m)
                      ++ map (fun i => Some (one_queen_per_row m x i)) (range m)
                      ++ map (one_queen_per_first_diagonal_rows m x) (range m)
                      ++ map (one_queen_per_first_diagonal_columns m x) (range m)
                      ++ map (one_queen_per_second_diagonal_columns m x) (range m)) _
                     ltac:(unfold constraints; rewrite <- !app_assoc; reflexivity)
                     ltac:(unfold i; lia)).
      rewrite second_diagonal_rows_sum in C by (unfold i; lia). injection C as C.
      change (fun k => x {| row := m - k - 1; column := m + k - i - 1 |})
        with (fun k => x ((fun k => {| row := m - k - 1; column := m + k - i - 1 |}) k))
        in C.
      rewrite <- (map_map (fun k => {| row := m - k - 1; column := m + k - i - 1 |}) x)
        in C.
      eapply (at_most_one_queen m x _ p q Hb); [| exact C | | | exact Hxp | exact Hxq].
      * intros a Ha. apply in_map_iff in Ha as (k & <- & Hk). apply in_range in Hk.
        apply in_positions. simpl. unfold i in *. lia.
      * apply in_map_iff. exists (m - 1 - row p). split;
          [destruct p; simpl in *; f_equal; unfold i; simpl; lia
          | apply in_range; unfold i; lia].
      * apply in_map_iff. exists (m - 1 - row q). split;
          [destruct q; simpl in *; f_equal; unfold i; simpl; lia
          | apply in_range; unfold i; lia].
Qed.

Lemma xp_Sum_plus {A : Type} (f g : A -> Z) (l : list A) :
  xp_Sum (map (fun a => f a + g a) l) = xp_Sum (map f l) + xp_Sum (map g l).
Proof. induction l as [|a l IH]; simpl; lia. Qed.

Lemma xp_Sum_indicator (k v : Z) (R : list Z) :
  List.NoDup R -> In k R -> xp_Sum (map (fun i => if k =? i then v else 0) R) = v.
Proof.
  induction R as [|r R IH]; intros Hnd Hin; [contradiction |].
  inversion Hnd as [| ? ? Hnotin Hnd']; subst. simpl.
  destruct Hin as [-> | Hin].
  - rewrite Z.eqb_refl.
    assert (E : xp_Sum (map (fun i => if k =? i then v else 0) R) = 0); [| lia].
    clear IH Hnd Hnd'. induction R as [|r R IH]; [reflexivity |].
    simpl. destruct (Z.eqb_spec k r) as [-> | Hne].
    + exfalso. apply Hnotin. left. reflexivity.
    + rewrite IH; [lia |]. intros H. apply Hnotin. right. exact H.
  - destruct (Z.eqb_spec k r) as [-> | Hne]; [contradiction |].
    rewrite IH by assumption. lia.
Qed.

(** A sum over a list is the sum, over the values of a key, of the sums
    over the elements with that key. *)
Lemma xp_Sum_by_key (key : Position -> Z) (x : Position -> Z)
    (L : list Position) (R : list Z) :
  List.NoDup R -> (forall p, In p L -> In (key p) R) ->
  xp_Sum (map x L)
  = xp_Sum (map (fun i => xp_Sum (map x (List.filter (fun p => key p =? i) L))) R).
Proof.
  intros Hnd. induction L as [|a L IH]; intros Hkey.
  - simpl. clear Hnd Hkey. induction R as [|r R IHR]; [reflexivity |].
    simpl. rewrite <- IHR. reflexivity.
  - rewrite (map_ext _ (fun i => (if key a =? i then x a else 0)
                                 + xp_Sum (map x (List.filter (fun p => key p =? i) L)))).
    + rewrite xp_Sum_plus, xp_Sum_indicator;
        [| exact Hnd | apply Hkey; left; reflexivity].
      simpl. rewrite IH; [reflexivity |]. intros p Hp. apply Hkey. right. exact Hp.
    + intros i. simpl. destruct (key a =? i); simpl; lia.
Qed.

Lemma xp_Sum_all_one (l : list Z) :
  (forall v, In v l -> v <= 1) -> xp_Sum l = Z.of_nat (length l) ->
  forall v, In v l -> v = 1.
Proof.
  induction l as [|a l IH]; intros Hle Hs v Hin; [contradiction |].
  assert (Hb : xp_Sum l <= Z.of_nat (length l)).
  { clear IH Hs Hin. induction l as [|b l IHl]; simpl; [lia |].
    assert (b <= 1) by (apply Hle; right; left; reflexivity).
    assert (xp_Sum l <= Z.of_nat (length l)); [| lia].
    apply IHl. intros w [Hw | Hw]; apply Hle; [left | right; right]; assumption. }
  assert (Ha : a <= 1) by (apply Hle; left; reflexivity).
  simpl in Hs. destruct Hin as [<- | Hin]; [lia |].
  apply IH; [intros w Hw; apply Hle; right; exact Hw | lia | exact Hin].
Qed.

Lemma NoDup_range (m : Z) : List.NoDup (range m).
Proof.
  unfold range. apply Finite.Injective_map_NoDup; [| apply seq_NoDup].
  intros a b H. lia.
Qed.

(** A feasible assignment has exactly one queen in every row and in
    every column of the board. *)
Theorem feasible_fills_rows_and_columns (m : Z) (x : Position -> Z) (i : Z) :
  feasible m x = Some true ->
  0 <= i < m ->
  xp_Sum (map x (List.filter (fun pos => row pos =? i) (positions m))) = 1
  /\ xp_Sum (map x (List.filter (fun pos => column pos =? i) (positions m))) = 1.
Proof.
  intros Hf Hi.
  destruct (feasible_parts m x Hf) as [Hb Hc].
  assert (Hn : xp_Sum (map x (positions m)) = m).
  { assert (C : Some (n_queens_on_board m x) = Some true).
    { apply Hc. unfold constraints. repeat (apply in_or_app; right). left. reflexivity. }
    injection C as C. apply Z.eqb_eq, C. }
  assert (Hlen : Z.of_nat (length (range m)) = m).
  { unfold range. rewrite length_map, length_seq. lia. }
  split.
  - apply (xp_Sum_all_one
             (map (fun i => xp_Sum (map x (List.filter (fun p => row p =? i) (positions m))))
                  (range m))).
    + intros v Hv. apply in_map_iff in Hv as (r & <- & Hr).
      assert (C : Some (one_queen_per_row m x r) = Some true).
      { apply Hc. unfold constraints. apply in_or_app. right. apply in_or_app. left.
        apply (in_map (fun i => Some (one_queen_per_row m x i))), Hr. }
      injection C as C. apply Z.leb_le, C.
    + rewrite <- (xp_Sum_by_key row x (positions m) (range m) (NoDup_range m)).
      * rewrite length_map. lia.
      * intros p Hp. apply in_positions in Hp. apply in_range. lia.
    + apply (in_map (fun i => xp_Sum (map x (List.filter (fun p => row p =? i)
                                                          (positions m))))).
      apply in_range, Hi.
  - apply (xp_Sum_all_one
             (map (fun i => xp_Sum (map x (List.filter (fun p => column p =? i)
                                                       (positions m))))
                  (range m))).
    + intros v Hv. apply in_map_iff in Hv as (r & <- & Hr).
      assert (C : Some (one_queen_per_column m x r) = Some true).
      { apply Hc. unfold constraints. apply in_or_app. left.
        apply (in_map (fun j => Some (one_queen_per_column m x j))), Hr. }
      injection C as C. apply Z.leb_le, C.
    + rewrite <- (xp_Sum_by_key column x (positions m) (range m) (NoDup_range m)).
      * rewrite length_map. lia.
      * intros p Hp. apply in_positions in Hp. apply in_range. lia.
    + apply (in_map (fun i => xp_Sum (map x (List.filter (fun p => column p =? i)
                                                          (positions m))))).
      apply in_range, Hi.
Qed.

(** The board the notebook prints is feasible. *)
Lemma printed_board_feasible : feasible n xVal = Some true.
Proof. vm_compute. reflexivity. Qed.

End NQueensFacts.

(** ** The tank problem *)

Section TankFacts.

Import Tank.
Local Open Scope R_scope.

Lemma tank_level_le (x u : nat -> R) :
  feasible x u -> forall k, (k <= N)%nat -> x k <= INR k.
Proof.
  intros (_ & Hu & Hd & H0) k.
  induction k as [|k IH]; intros Hk.
  - rewrite H0. unfold x0. simpl. lra.
  - replace (S k) with (k + 1)%nat by lia.
    rewrite Hd by lia. rewrite plus_INR. simpl.
    assert (x k <= INR k) by (apply IH; lia).
    assert (0 <= u k <= 1) by (apply Hu; lia). lra.
Qed.

(** The volume never decreases and grows by at most one unit per
    step, so after [k] steps it is at most [k]. *)
Theorem tank_level_bounded_by_time (x u : nat -> R) (k : nat) :
  feasible x u -> (k < N)%nat ->
  x k <= x (k + 1)%nat <= x k + 1 /\ x (k + 1)%nat <= INR (k + 1).
Proof.
  intros Hf Hk.
  pose proof (tank_level_le x u Hf (k + 1)%nat ltac:(lia)) as Hle.
  destruct Hf as (_ & Hu & Hd & _).
  rewrite Hd in * by exact Hk.
  pose proof (Hu k Hk). repeat split; lra.
Qed.

Lemma fill_feasible : feasible x_fill u_fill.
Proof.
  unfold feasible, x_bounds, u_bounds, dynamics, initial_condition.
  repeat split.
  - apply pos_INR.
  - unfold x_fill. apply Rle_trans with (INR 5); [apply le_INR; lia | simpl; lra].
  - unfold u_fill. destruct (k <? 5)%nat; lra.
  - unfold u_fill. destruct (k <? 5)%nat; lra.
  - intros k Hk. unfold x_fill, u_fill.
    destruct (Nat.ltb_spec k 5) as [Hlt | Hge].
    + rewrite !Nat.min_l by lia. rewrite plus_INR. simpl. lra.
    + rewrite !Nat.min_r by lia. lra.
Qed.

Lemma fill_cost : cost x_fill = 55.
Proof. unfold cost, mdl_sum, x_fill, xref. simpl. lra. Qed.

Lemma square_below (a c : R) : a <= c -> c <= 5 -> (5 - c) ^ 2 <= (a - 5) ^ 2.
Proof. intros H1 H2. simpl. nra. Qed.

(** No feasible trajectory costs less than 55, and filling at the full
    rate for the first five steps costs exactly that: the optimum of
    the problem is 55. *)
Theorem tank_optimal_cost (x u : nat -> R) :
  feasible x u ->
  cost x_fill <= cost x /\ cost x_fill = 55 /\ feasible x_fill u_fill.
Proof.
  intros Hf. split; [| split; [exact fill_cost | exact fill_feasible]].
  rewrite fill_cost.
  pose proof (tank_level_le x u Hf) as Hle.
  destruct Hf as (_ & _ & _ & H0).
  pose proof (square_below (x 0%nat) 0 ltac:(rewrite H0; unfold x0; lra) ltac:(lra)) as B0.
  pose proof (square_below (x 1%nat) 1 (Hle 1%nat ltac:(unfold N; lia)) ltac:(lra)) as B1.
  pose proof (square_below (x 2%nat) 2 (Hle 2%nat ltac:(unfold N; lia)) ltac:(lra)) as B2.
  pose proof (square_below (x 3%nat) 3
                ltac:(generalize (Hle 3%nat ltac:(unfold N; lia)); simpl; lra)
                ltac:(lra)) as B3.
  pose proof (square_below (x 4%nat) 4
                ltac:(generalize (Hle 4%nat ltac:(unfold N; lia)); simpl; lra)
                ltac:(lra)) as B4.
  unfold cost, mdl_sum, xref. cbn [N Nat.add seq map fold_right].
  repeat match goal with
         | |- context [(x ?k - 5) ^ 2] =>
             lazymatch goal with
             | _ : 0 <= (x k - 5) ^ 2 |- _ => fail
             | _ => pose proof (pow2_ge_0 (x k - 5))
             end
         end.
  lra.
Qed.

End TankFacts.

(** ** The two-tank problem *)

Section TwoTanksFacts.

Import TwoTanks.
Local Open Scope R_scope.

Lemma in_range_tanks (m k : Z) : In k (range m) <-> (0 <= k < m)%Z.
Proof.
  unfold range. rewrite in_map_iff. split.
  - intros (i & <- & Hi). apply in_seq in Hi. lia.
  - intros Hk. exists (Z.to_nat k). split; [lia |]. apply in_seq. lia.
Qed.

Lemma range_succ (k : Z) : (0 <= k)%Z -> range (k + 1) = range k ++ [k].
Proof.
  intros Hk. unfold range.
  replace (Z.to_nat (k + 1)) with (Z.to_nat k + 1)%nat by lia.
  rewrite seq_app, map_app. simpl. rewrite Z2Nat.id by exact Hk. reflexivity.
Qed.

Lemma xp_Sum_app_tanks (l1 l2 : list R) : xp_Sum (l1 ++ l2) = xp_Sum l1 + xp_Sum l2.
Proof. induction l1 as [|a l1 IH]; simpl; [lra | rewrite IH; lra]. Qed.

(** Whatever flows from tank A into tank B stays in the system: after
    [k] steps the two volumes together are the initial volumes plus
    the inflows into A so far. *)
Theorem two_tanks_mass_balance (xA xB uA uB : Z -> R) (k : Z) :
  dynamics_tank_A xA uA uB -> dynamics_tank_B xB uB ->
  (0 <= k <= N)%Z ->
  xA k + xB k = xA 0%Z + xB 0%Z + xp_Sum (map uA (range k)).
Proof.
  intros HA HB [Hk0 HkN]. revert HkN.
  pattern k. apply natlike_ind; [| | exact Hk0].
  - intros _. simpl. lra.
  - clear k Hk0. intros k Hk0 IH HkN.
    unfold Z.succ. rewrite range_succ, map_app, xp_Sum_app_tanks by exact Hk0.
    rewrite HA, HB by (apply in_range_tanks; lia).
    simpl. rewrite <- Z.add_1_r in HkN.
    assert (E := IH ltac:(lia)). lra.
Qed.

(** Tank A starts empty and tank B can take nothing that is not yet
    in A, so nothing flows into B in the first step and B is still
    empty after it. *)
Theorem tank_B_starts_one_step_late (xA xB uB : Z -> R) :
  inflow_bounds uB -> min_residence_time xA uB -> dynamics_tank_B xB uB ->
  initial_A xA -> initial_B xB ->
  uB 0%Z = 0 /\ xB 1%Z = 0.
Proof.
  intros Hb Hres HB HA0 HB0.
  assert (H0 : In 0%Z (range N)) by (apply in_range_tanks; unfold N; lia).
  pose proof (Hb 0%Z ltac:(unfold N; lia)) as Hb0.
  pose proof (Hres 0%Z H0) as Hr0.
  pose proof (HB 0%Z H0) as Hd0.
  unfold initial_A, initial_B, x0 in *.
  change (0 + 1)%Z with 1%Z in Hd0.
  split; lra.
Qed.

End TwoTanksFacts.

(** ** Batch scheduling *)

Section BatchFacts.

Import Batch.
Local Open Scope R_scope.

Lemma in_nRange (j : nat) : In j nRange <-> (j < n)%nat.
Proof. unfold nRange, range. rewrite in_seq. lia. Qed.

Lemma xp_Sum_range_S (f : nat -> R) (k : nat) :
  xp_Sum f (range (S k)) = xp_Sum f (range k) + f k.
Proof.
  unfold xp_Sum, range. rewrite seq_S, map_app, fold_right_app. simpl.
  generalize (map f (seq 0 k)) as l.
  induction l as [|a l IH]; simpl; [lra | rewrite IH; lra].
Qed.

Lemma idle_sum (f : nat -> R) (l : list nat) :
  (forall i, f i = 0) -> xp_Sum f l = 0.
Proof.
  intros H. unfold xp_Sum. induction l as [|a l IH]; cbn [map fold_right]; [reflexivity |].
  rewrite H, IH. lra.
Qed.

(** Every batch stays in the mixing stage for exactly [t_m = 3] days:
    the mixing volume of a day is what went in on that day and the
    two days before. *)
Theorem mixing_volume_is_last_three_inflows (M m f : nat -> R) (j : nat) :
  mixing_balance M m f -> fixing_mixing_time f m -> fixing_mixing_time_time0 f ->
  In j nRange ->
  M j = window m j t_m.
Proof.
  intros Hbal Hfix Hfix0 Hj.
  rewrite (Hbal j Hj). apply in_nRange in Hj.
  assert (F0 : forall i, (i < 3)%nat -> f i = 0).
  { intros i Hi. apply Hfix0. unfold range, t_m. apply in_seq. lia. }
  assert (F3 : forall i, (3 <= i < n)%nat -> f i = m (i - 3)%nat).
  { intros i Hi. apply (Hfix i); [apply in_nRange; lia | unfold t_m; lia]. }
  assert (G : forall k, (2 <= k < n)%nat ->
                 xp_Sum (fun i => m i - f i) (range (k + 1))
                 = m k + m (k - 1)%nat + m (k - 2)%nat).
  { induction k as [|k IH]; intros Hk; [lia |].
    destruct (Nat.eq_dec k 1%nat) as [-> | Hne].
    - unfold xp_Sum, range. simpl. rewrite !F0 by lia. lra.
    - replace (S k + 1)%nat with (S (k + 1)) by lia.
      rewrite xp_Sum_range_S, IH by lia.
      replace (k + 1)%nat with (S k) by lia.
      rewrite (F3 (S k)) by lia.
      replace (S k - 3)%nat with (k - 2)%nat by lia.
      replace (S k - 1)%nat with k by lia.
      replace (S k - 2)%nat with (k - 1)%nat by lia. lra. }
  destruct (Nat.lt_ge_cases j 2%nat) as [Hlt | Hge].
  - destruct j as [|[|j]]; [| | lia]; unfold window, xp_Sum, range; simpl;
      rewrite ?F0 by lia; lra.
  - rewrite G by lia. unfold window, t_m.
    rewrite Nat.min_r by lia. unfold xp_Sum, range. simpl.
    rewrite Nat.sub_0_r. lra.
Qed.

Lemma zero_of_sum (a b : R) : 0 <= a -> 0 <= b -> a + b <= 0 -> a = 0 /\ b = 0.
Proof. intros. split; lra. Qed.

(** Three days of mixing, ten of fermentation, two of purification
    and one of blending: nothing leaves fermentation before day 13,
    nothing enters blending before day 15, and nothing reaches the
    warehouse before day 16. *)
Theorem nothing_reaches_the_warehouse_before_day_16
    (f F p P b B w : nat -> R) (i : nat) :
  variable p -> variable b -> variable w -> variable B ->
  fermentation_balance F f p -> purification_balance P p b ->
  blending_balance B b w ->
  fixing_mixing_time_time0 f ->
  minimum_time_fermentation F f -> minimum_time_purification P p ->
  fix_blending_time w b ->
  ((i < 13)%nat -> p i = 0) /\ ((i < 15)%nat -> b i = 0) /\ ((i < 16)%nat -> w i = 0).
Proof.
  intros Vp Vb Vw VB HF HP HB Hf0 HminF HminP Hblend.
  assert (In12 : In 12%nat nRange) by (apply in_nRange; unfold n; lia).
  assert (In14 : In 14%nat nRange) by (apply in_nRange; unfold n; lia).
  assert (In0 : In 0%nat nRange) by (apply in_nRange; unfold n; lia).
  assert (F0 : forall k, (k < 3)%nat -> f k = 0).
  { intros k Hk. apply Hf0. unfold range, t_m. apply in_seq. lia. }
  assert (Pos : forall v, variable v -> forall k, (k < 105)%nat -> 0 <= v k).
  { intros v Hv k Hk. apply Hv, in_nRange. exact Hk. }
  pose proof (Pos p Vp) as Pp. pose proof (Pos b Vb) as Pb.
  pose proof (Pos w Vw) as Pw.
  (* fermentation on day 12 *)
  pose proof (HminF 12%nat In12) as H12. rewrite (HF 12%nat In12) in H12.
  unfold window, t_min_fermentation, xp_Sum, range in H12.
  cbn [Nat.add Nat.min Nat.sub seq map fold_right] in H12.
  rewrite !F0 in H12 by lia.
  assert (P0 : forall k, (k < 13)%nat -> p k = 0).
  { intros k Hk.
    pose proof (Pp 0%nat ltac:(lia)). pose proof (Pp 1%nat ltac:(lia)).
    pose proof (Pp 2%nat ltac:(lia)). pose proof (Pp 3%nat ltac:(lia)).
    pose proof (Pp 4%nat ltac:(lia)). pose proof (Pp 5%nat ltac:(lia)).
    pose proof (Pp 6%nat ltac:(lia)). pose proof (Pp 7%nat ltac:(lia)).
    pose proof (Pp 8%nat ltac:(lia)). pose proof (Pp 9%nat ltac:(lia)).
    pose proof (Pp 10%nat ltac:(lia)). pose proof (Pp 11%nat ltac:(lia)).
    pose proof (Pp 12%nat ltac:(lia)).
    do 13 (destruct k as [|k]; [lra |]). lia. }
  (* purification on day 14 *)
  pose proof (HminP 14%nat In14) as H14. rewrite (HP 14%nat In14) in H14.
  unfold window, t_min_purification, xp_Sum, range in H14.
  cbn [Nat.add Nat.min Nat.sub seq map fold_right] in H14.
  rewrite !P0 in H14 by lia.
  assert (B0 : forall k, (k < 15)%nat -> b k = 0).
  { intros k Hk.
    pose proof (Pb 0%nat ltac:(lia)). pose proof (Pb 1%nat ltac:(lia)).
    pose proof (Pb 2%nat ltac:(lia)). pose proof (Pb 3%nat ltac:(lia)).
    pose proof (Pb 4%nat ltac:(lia)). pose proof (Pb 5%nat ltac:(lia)).
    pose proof (Pb 6%nat ltac:(lia)). pose proof (Pb 7%nat ltac:(lia)).
    pose proof (Pb 8%nat ltac:(lia)). pose proof (Pb 9%nat ltac:(lia)).
    pose proof (Pb 10%nat ltac:(lia)). pose proof (Pb 11%nat ltac:(lia)).
    pose proof (Pb 12%nat ltac:(lia)). pose proof (Pb 13%nat ltac:(lia)).
    pose proof (Pb 14%nat ltac:(lia)).
    do 15 (destruct k as [|k]; [lra |]). lia. }
  split; [apply P0 | split; [apply B0 |]].
  intros Hi. destruct i as [|i].
  - (* day 0: the blending volume is [b 0 - w 0], and it is not negative *)
    pose proof (VB 0%nat In0) as HB0. rewrite (HB 0%nat In0) in HB0.
    unfold xp_Sum, range in HB0. simpl in HB0.
    rewrite (B0 0%nat) in HB0 by lia.
    pose proof (Pw 0%nat ltac:(lia)). lra.
  - rewrite (Hblend (S i)) by (try apply in_nRange; unfold n; lia).
    apply B0. lia.
Qed.

End BatchFacts.

(** ** The example trajectory and the example schedule satisfy the constraints *)

Section TwoTanksFlow.
Import TwoTanks.
Local Open Scope R_scope.

Lemma flow_inflow_bounds : inflow_bounds uB_flow.
Proof. intros k _. unfold uB_flow. destruct (k <=? 0)%Z; lra. Qed.

Lemma flow_dynamics_tank_A : dynamics_tank_A xA_flow uA_flow uB_flow.
Proof.
  intros k Hk. apply in_range_tanks in Hk.
  unfold xA_flow, uA_flow, uB_flow.
  destruct (Z.leb_spec (k + 1) 0); [lia |].
  destruct (Z.leb_spec k 0); lra.
Qed.

Lemma flow_dynamics_tank_B : dynamics_tank_B xB_flow uB_flow.
Proof.
  intros k Hk. apply in_range_tanks in Hk.
  unfold xB_flow, uB_flow.
  destruct (Z.leb_spec (k + 1) 1), (Z.leb_spec k 1), (Z.leb_spec k 0);
    try lia; try lra.
  - assert (E : (k + 1 - 1 = 1)%Z) by lia. rewrite E. lra.
  - rewrite !minus_IZR, plus_IZR. lra.
Qed.

Lemma flow_min_residence_time : min_residence_time xA_flow uB_flow.
Proof. intros k _. unfold xA_flow, uB_flow. destruct (k <=? 0)%Z; lra. Qed.

End TwoTanksFlow.

Section SteadyPlant.
Import Batch.
Local Open Scope R_scope.

Lemma xp_Sum_IZR (g : nat -> Z) (l : list nat) :
  xp_Sum (fun i => IZR (g i)) l = IZR (fold_right Z.add 0%Z (map g l)).
Proof.
  unfold xp_Sum. induction l as [|a l IH]; cbn [map fold_right]; [reflexivity |].
  rewrite IH, plus_IZR. reflexivity.
Qed.

Lemma held_IZR (a b : nat) (j : nat) :
  held (fun i => IZR (started a i)) (fun i => IZR (started b i)) j
  = IZR (fold_right Z.add 0%Z (map (fun i => started a i - started b i)%Z (range (j + 1)))).
Proof.
  unfold held. rewrite <- xp_Sum_IZR. unfold xp_Sum. f_equal.
  apply map_ext. intros i. rewrite minus_IZR. reflexivity.
Qed.

Lemma window_IZR (a : nat) (j t : nat) :
  window (fun i => IZR (started a i)) j t
  = IZR (fold_right Z.add 0%Z
           (map (fun k => started a (j - k)) (range (Nat.min (j + 1) t)))).
Proof. unfold window. apply (xp_Sum_IZR (fun k => started a (j - k))). Qed.

Lemma steady_variable (first : nat) : variable (fun i => IZR (started first i)).
Proof. intros i _. unfold started. destruct (first <=? i)%nat; lra. Qed.

Lemma steady_B_variable : variable B_steady.
Proof.
  intros j Hj. unfold B_steady, b_steady, w_steady. rewrite held_IZR.
  apply IZR_le.
  assert (C : forallb (fun j => (0 <=? fold_right Z.add 0
                                         (map (fun i => started 15 i - started 16 i)
                                              (range (j + 1))))%Z) nRange = true)
    by (vm_compute; reflexivity).
  rewrite forallb_forall in C. apply Z.leb_le, C, Hj.
Qed.

Lemma steady_balance (v_in v_out : nat -> R) : balance (held v_in v_out) v_in v_out.
Proof. intros j _. reflexivity. Qed.

Lemma steady_fixing_mixing_time : fixing_mixing_time f_steady m_steady.
Proof.
  intros i _ Hi. unfold f_steady, m_steady, started, t_m in *.
  destruct (Nat.leb_spec 3 i); [| lia]. reflexivity.
Qed.

Lemma steady_fixing_mixing_time_time0 : fixing_mixing_time_time0 f_steady.
Proof.
  intros i Hi. unfold range, t_m in Hi. apply in_seq in Hi.
  unfold f_steady, started. destruct (Nat.leb_spec 3 i); [lia |]. reflexivity.
Qed.

Lemma steady_minimum_time_fermentation : minimum_time_fermentation F_steady f_steady.
Proof.
  intros j Hj. unfold F_steady, f_steady, p_steady. rewrite held_IZR, window_IZR.
  apply IZR_ge.
  assert (C : forallb (fun j => (fold_right Z.add 0
                                   (map (fun k => started 3 (j - k))
                                        (range (Nat.min (j + 1) t_min_fermentation)))
                                 <=? fold_right Z.add 0
                                       (map (fun i => started 3 i - started 13 i)
                                            (range (j + 1))))%Z) nRange = true)
    by (vm_compute; reflexivity).
  rewrite forallb_forall in C. apply Z.le_ge, Z.leb_le, C, Hj.
Qed.

Lemma steady_minimum_time_purification : minimum_time_purification P_steady p_steady.
Proof.
  intros j Hj. unfold P_steady, p_steady, b_steady. rewrite held_IZR, window_IZR.
  apply IZR_ge.
  assert (C : forallb (fun j => (fold_right Z.add 0
                                   (map (fun k => started 13 (j - k))
                                        (range (Nat.min (j + 1) t_min_purification)))
                                 <=? fold_right Z.add 0
                                       (map (fun i => started 13 i - started 15 i)
                                            (range (j + 1))))%Z) nRange = true)
    by (vm_compute; reflexivity).
  rewrite forallb_forall in C. apply Z.le_ge, Z.leb_le, C, Hj.
Qed.

Lemma steady_fix_blending_time : fix_blending_time w_steady b_steady.
Proof.
  intros i _ Hi. unfold w_steady, b_steady, started.
  destruct (Nat.leb_spec 16 i), (Nat.leb_spec 15 (i - 1)); try lia; reflexivity.
Qed.

(** The days of the theorem are the first days a flow can start: in
    steady operation the flows into purification, blending and the
    warehouse start on days 13, 15 and 16. *)
Lemma steady_plant_starts_on_days_13_15_16 :
  p_steady 13 = 1 /\ b_steady 15 = 1 /\ w_steady 16 = 1.
Proof. repeat split. Qed.

End SteadyPlant.

(** ** Doctors scheduling: the calendar and the constraints *)

Section SchedulingFacts.

Import Datetime Scheduling.
Local Open Scope Z_scope.

(** *** The calendar *)

Lemma calendar_shifts_start_on_shift_days : shifts_start_on_shift_days = true.
Proof. vm_compute. reflexivity. Qed.

Lemma calendar_days_can_be_added : days_can_be_added (day_limit + 1) = true.
Proof. vm_compute. reflexivity. Qed.

Lemma calendar_open_shifts : open_shifts_are_weekday_day_shifts = true.
Proof. vm_compute. reflexivity. Qed.

(** *** The loop that builds the shifts *)

Lemma datetime_add_midnight (a D S : Z) :
  0 <= S < 86400 -> 0 < a + D <= MAXORDINAL ->
  datetime_add (midnight a) (mk_timedelta D S 0)
  = Some (mk_datetime (a + D) (mk_time (S / 3600) (S mod 3600 / 60) (S mod 3600 mod 60) 0)).
Proof.
  intros HS Ha. unfold datetime_add, timedelta_new, midnight, clock_seconds.
  cbn [ordinal clock days seconds microseconds hour minute second microsecond].
  change (0 + 0 * 60 + 0 * 3600 + S) with S.
  change ((0 + 0) / 1000000) with 0. change ((0 + 0) mod 1000000) with 0.
  rewrite Z.add_0_r, (Z.div_small S 86400), (Z.mod_small S 86400), Z.add_0_r by lia.
  destruct (Z.ltb_spec 0 (a + D)); [| lia].
  destruct (Z.leb_spec (a + D) MAXORDINAL); [| lia].
  reflexivity.
Qed.

Lemma next_day (a : Z) :
  0 < a + 1 <= MAXORDINAL ->
  datetime_add (midnight a) (timedelta_days 1) = Some (midnight (a + 1)).
Proof.
  intros Ha. change (timedelta_days 1) with (mk_timedelta 1 0 0).
  rewrite datetime_add_midnight by lia. reflexivity.
Qed.

Lemma shifts_of_a_day (a : Z) (times : list (Z * Z)) :
  0 < a -> a + 1 <= MAXORDINAL ->
  times = Records.weekday_times \/ times = Records.weekend_times ->
  exists new, shifts_of_day (midnight a) times = Some new
              /\ List.length new = List.length times.
Proof.
  intros Ha Hb [-> | ->]; unfold Records.weekday_times, Records.weekend_times;
    cbn [shifts_of_day]; unfold shift_at; cbn [fst snd].
  - change (timedelta_hours 6) with (mk_timedelta 0 21600 0).
    change (timedelta_hours 14) with (mk_timedelta 0 50400 0).
    change (timedelta_hours 22) with (mk_timedelta 0 79200 0).
    change (timedelta_hours 30) with (mk_timedelta 1 21600 0).
    rewrite !datetime_add_midnight by lia. eexists. split; reflexivity.
  - change (timedelta_hours 6) with (mk_timedelta 0 21600 0).
    change (timedelta_hours 18) with (mk_timedelta 0 64800 0).
    change (timedelta_hours 30) with (mk_timedelta 1 21600 0).
    rewrite !datetime_add_midnight by lia. eexists. split; reflexivity.
Qed.

Lemma range_first (a b : Z) : a < b -> range a b = a :: range (a + 1) b.
Proof.
  intros H. unfold range.
  replace (Z.to_nat (b - a)) with (S (Z.to_nat (b - (a + 1)))) by lia.
  cbn [seq map]. f_equal; [lia |].
  rewrite <- seq_shift, map_map. apply map_ext. intros i. lia.
Qed.

Lemma range_empty (a b : Z) : b <= a -> range a b = [].
Proof. intros H. unfold range. replace (Z.to_nat (b - a)) with 0%nat by lia. reflexivity. Qed.

Lemma datetime_le_midnight (a b : Z) :
  datetime_le (midnight a) (midnight b) = (a <=? b).
Proof.
  unfold datetime_le, midnight. cbn [ordinal clock].
  destruct (Z.compare_spec a b), (Z.leb_spec a b); try lia; reflexivity.
Qed.

(** The loop over the days from [start_time] to [end_time], for any
    two dates of the calendar: given one unit of fuel per day it
    ends, [shift_days] has gained the days from the first to the last
    in order, and [shifts] three shifts for every weekday and two for
    every day of a weekend. *)
Theorem shift_loop_ends (a b : Z) (fuel : nat)
    (shifts : list Shift) (shift_days : list datetime) :
  0 < a -> b < MAXORDINAL -> (Z.to_nat (b - a + 1) <= fuel)%nat ->
  exists new,
    shift_loop fuel shifts shift_days (midnight a) (midnight b)
    = Some (shifts ++ new, shift_days ++ map midnight (range a (b + 1)))
    /\ Z.of_nat (List.length new) = xp_Sum (map shifts_on (range a (b + 1))).
Proof.
  intros Ha Hb. remember (Z.to_nat (b - a + 1)) as n eqn:Hn.
  revert a Ha Hn fuel shifts shift_days.
  induction n as [|n IH]; intros a Ha Hn fuel shifts shift_days Hfuel.
  - exists []. rewrite range_empty by lia.
    destruct fuel; cbn [shift_loop]; rewrite datetime_le_midnight;
      (destruct (Z.leb_spec a b); [lia |]); rewrite !app_nil_r; split; reflexivity.
  - destruct fuel as [|fuel]; [lia |].
    cbn [shift_loop]. rewrite datetime_le_midnight.
    destruct (Z.leb_spec a b); [| lia].
    destruct (shifts_of_a_day a
                (if weekday (midnight a) <? 5
                 then Records.weekday_times else Records.weekend_times))
      as (today & -> & Hlen); [lia | lia | destruct (weekday (midnight a) <? 5); auto |].
    rewrite next_day by lia.
    destruct (IH (a + 1) ltac:(lia) ltac:(lia) fuel (shifts ++ today)
                 (shift_days ++ [midnight a]) ltac:(lia)) as (rest & -> & Hrest).
    exists (today ++ rest). rewrite (range_first a (b + 1)) by lia.
    cbn [map]. rewrite <- !app_assoc. split; [reflexivity |].
    rewrite length_app, Nat2Z.inj_add, Hrest, Hlen.
    change (xp_Sum (shifts_on a :: map shifts_on (range (a + 1) (b + 1))))
      with (shifts_on a + xp_Sum (map shifts_on (range (a + 1) (b + 1)))).
    unfold shifts_on at 2. destruct (weekday (midnight a) <? 5); reflexivity.
Qed.

#[local] Opaque calendar.

Lemma in_range_ab (a b k : Z) : In k (range a b) <-> a <= k < b.
Proof.
  unfold range. rewrite in_map_iff. split.
  - intros (i & <- & Hi). apply in_seq in Hi. lia.
  - intros Hk. exists (Z.to_nat (k - a)). split; [lia |]. apply in_seq. lia.
Qed.

Lemma days_added (t : datetime) (j : Z) :
  In t shift_days -> 0 <= j < day_limit + 1 ->
  (exists t', datetime_add t (timedelta_days j) = Some t' /\ date t' = date t + j)
  /\ date_add (date t) (timedelta_days j) = Some (date t + j).
Proof.
  intros Ht Hj.
  pose proof calendar_days_can_be_added as H. unfold days_can_be_added in H.
  rewrite forallb_forall in H. specialize (H t Ht).
  rewrite forallb_forall in H. specialize (H j (proj2 (in_range_ab _ _ _) Hj)).
  destruct (datetime_add t (timedelta_days j)) as [t' |]; [| discriminate].
  destruct (date_add (date t) (timedelta_days j)) as [on |]; [| discriminate].
  apply andb_prop in H as [H1 H2].
  apply Z.eqb_eq in H1, H2. split; [exists t'; split; [reflexivity | exact H1] |].
  rewrite H2. reflexivity.
Qed.

Lemma Some_true_inv (b : bool) : Some b = Some true -> b = true.
Proof. congruence. Qed.

(** *** Sums *)

Lemma sched_Sum_app (l1 l2 : list Z) : xp_Sum (l1 ++ l2) = xp_Sum l1 + xp_Sum l2.
Proof. induction l1 as [|a l1 IH]; simpl; [reflexivity | rewrite IH; lia]. Qed.

Lemma sched_Sum_plus {A : Type} (f g : A -> Z) (l : list A) :
  xp_Sum (map (fun a => f a + g a) l) = xp_Sum (map f l) + xp_Sum (map g l).
Proof. induction l as [|a l IH]; simpl; lia. Qed.

Lemma sched_Sum_nonneg (l : list Z) : (forall v, In v l -> 0 <= v) -> 0 <= xp_Sum l.
Proof.
  induction l as [|a l IH]; intros H; simpl; [lia |].
  assert (0 <= a) by (apply H; left; reflexivity).
  assert (0 <= xp_Sum l) by (apply IH; intros v Hv; apply H; right; exact Hv). lia.
Qed.

Lemma sched_Sum_bounds (f : Z -> Z) (lo hi : Z) (K : list Z) :
  (forall k, In k K -> lo <= f k <= hi) ->
  lo * Z.of_nat (List.length K) <= xp_Sum (map f K) <= hi * Z.of_nat (List.length K).
Proof.
  induction K as [|k K IH]; intros H; [simpl; lia |].
  assert (lo <= f k <= hi) by (apply H; left; reflexivity).
  assert (IH' := IH ltac:(intros k' Hk'; apply H; right; exact Hk')).
  change (List.length (k :: K)) with (S (List.length K)).
  change (xp_Sum (map f (k :: K))) with (f k + xp_Sum (map f K)). lia.
Qed.

Lemma sched_Sum_lower (f : Z -> Z) (lo : Z) (K : list Z) :
  (forall k, In k K -> lo <= f k) ->
  lo * Z.of_nat (List.length K) <= xp_Sum (map f K).
Proof.
  induction K as [|k K IH]; intros H; [simpl; lia |].
  assert (lo <= f k) by (apply H; left; reflexivity).
  assert (IH' := IH ltac:(intros k' Hk'; apply H; right; exact Hk')).
  change (List.length (k :: K)) with (S (List.length K)).
  change (xp_Sum (map f (k :: K))) with (f k + xp_Sum (map f K)). lia.
Qed.

Lemma sched_Sum_ge_member {A : Type} (x : A -> Z) (l : list A) (a : A) :
  (forall b, In b l -> 0 <= x b) -> In a l -> x a <= xp_Sum (map x l).
Proof.
  induction l as [|b l IH]; intros Hpos Hin; [contradiction |].
  simpl. destruct Hin as [-> | Hin].
  - assert (0 <= xp_Sum (map x l)); [| lia].
    apply sched_Sum_nonneg. intros v Hv. apply in_map_iff in Hv as (c & <- & Hc).
    apply Hpos. right. exact Hc.
  - assert (0 <= x b) by (apply Hpos; left; reflexivity).
    assert (x a <= xp_Sum (map x l)); [| lia].
    apply IH; [intros c Hc; apply Hpos; right; exact Hc | exact Hin].
Qed.

Lemma sched_Sum_ge_two {A : Type} (x : A -> Z) (l : list A) (a b : A) :
  (forall c, In c l -> 0 <= x c) -> In a l -> In b l -> a <> b ->
  x a + x b <= xp_Sum (map x l).
Proof.
  induction l as [|c l IH]; intros Hpos Ha Hb Hne; [contradiction |].
  assert (Hpos' : forall c', In c' l -> 0 <= x c') by (intros c' Hc'; apply Hpos; right; exact Hc').
  simpl. destruct Ha as [-> | Ha], Hb as [-> | Hb].
  - contradiction.
  - pose proof (sched_Sum_ge_member x l b Hpos' Hb). lia.
  - pose proof (sched_Sum_ge_member x l a Hpos' Ha). lia.
  - assert (0 <= x c) by (apply Hpos; left; reflexivity).
    pose proof (IH Hpos' Ha Hb Hne). lia.
Qed.

Lemma sched_Sum_one {A : Type} (x : A -> Z) (l : list A) :
  (forall a, In a l -> x a = 0 \/ x a = 1) -> xp_Sum (map x l) = 1 ->
  exists a, In a l /\ x a = 1.
Proof.
  induction l as [|b l IH]; intros Hbin Hs; [discriminate |].
  simpl in Hs. destruct (Hbin b ltac:(left; reflexivity)) as [H0 | H1].
  - destruct IH as (a & Ha & Hxa); [intros a Ha; apply Hbin; right; exact Ha | lia |].
    exists a. split; [right; exact Ha | exact Hxa].
  - exists b. split; [left; reflexivity | exact H1].
Qed.

Lemma xp_Sum_if_total {A : Type} (x : A -> Z) (cond : A -> option bool)
    (c : A -> bool) (l : list A) :
  (forall a, In a l -> cond a = Some (c a)) ->
  xp_Sum_if x cond l = Some (xp_Sum (map x (List.filter c l))).
Proof.
  induction l as [|a l IH]; intros H; [reflexivity |].
  cbn [xp_Sum_if List.filter]. rewrite (H a) by (left; reflexivity).
  rewrite IH by (intros b Hb; apply H; right; exact Hb).
  destruct (c a); simpl; [reflexivity |]. reflexivity.
Qed.

(** A sum over [for p in P for k in K if c(p, k)] is the sum over [k]
    of the sums over the [p] with [c(p, k)]. *)
Lemma xp_Sum_exchange {A : Type} (x : A -> Z) (c : A * Z -> bool)
    (P : list A) (K : list Z) :
  xp_Sum (map (fun pk => x (fst pk)) (List.filter c (list_prod P K)))
  = xp_Sum (map (fun k => xp_Sum (map x (List.filter (fun p => c (p, k)) P))) K).
Proof.
  induction P as [|p P IH].
  - simpl. induction K as [|k K IHK]; [reflexivity |]. simpl. rewrite <- IHK. reflexivity.
  - cbn [list_prod]. rewrite List.filter_app, map_app, sched_Sum_app, IH.
    rewrite (map_ext (fun k => xp_Sum (map x (List.filter (fun p0 => c (p0, k)) (p :: P))))
                     (fun k => (if c (p, k) then x p else 0)
                               + xp_Sum (map x (List.filter (fun p0 => c (p0, k)) P)))).
    + rewrite sched_Sum_plus. f_equal.
      clear IH. induction K as [|k K IHK]; [reflexivity |].
      cbn [map List.filter]. destruct (c (p, k)); simpl; rewrite IHK; reflexivity.
    + intros k. cbn [List.filter]. destruct (c (p, k)); reflexivity.
Qed.

Lemma filter_none {A : Type} (c : A -> bool) (l : list A) :
  (forall a, In a l -> c a = false) -> List.filter c l = [].
Proof.
  induction l as [|a l IH]; intros H; [reflexivity |].
  cbn [List.filter]. rewrite (H a) by (left; reflexivity).
  apply IH. intros b Hb. apply H. right. exact Hb.
Qed.

(** *** Instances and placements *)

Lemma in_instances {A : Type} (l : list A) (k : nat) (i : nat) (v : A) :
  In (i, v) (combine (seq k (List.length l)) l) -> nth_error l (i - k) = Some v /\ (k <= i)%nat.
Proof.
  revert k. induction l as [|a l IH]; intros k H; [contradiction |].
  simpl in H. destruct H as [H | H].
  - injection H as <- <-. rewrite Nat.sub_diag. split; [reflexivity | lia].
  - apply IH in H as [H1 H2].
    replace (i - k)%nat with (S (i - S k)) by lia. split; [exact H1 | lia].
Qed.

(** Two instances of one list with the same identity are the same object. *)
Lemma same_instance {A : Type} (l : list A) (a b : instance A) :
  In a (instances l) -> In b (instances l) -> same a b = true -> a = b.
Proof.
  destruct a as [i v], b as [j w]. unfold instances, same. simpl.
  intros Ha Hb Hs. apply Nat.eqb_eq in Hs. subst j.
  apply in_instances in Ha as [Ha _]. apply in_instances in Hb as [Hb _].
  congruence.
Qed.

Lemma same_refl {A : Type} (a : instance A) : same a a = true.
Proof. apply Nat.eqb_refl. Qed.

Lemma in_product (D : list (instance Doctor)) (S : list (instance Shift))
    (H : list string) (p : Placement) :
  In p (flat_map (fun doctor =>
          flat_map (fun shift =>
            map (fun hospital => {| doctor := doctor; shift := shift; hospital := hospital |})
                H) S) D)
  <-> In (doctor p) D /\ In (shift p) S /\ In (hospital p) H.
Proof.
  rewrite in_flat_map. split.
  - intros (d & Hd & Hp). rewrite in_flat_map in Hp. destruct Hp as (s & Hs & Hp).
    rewrite in_map_iff in Hp. destruct Hp as (h & <- & Hh). simpl. auto.
  - intros (Hd & Hs & Hh). exists (doctor p). split; [exact Hd |].
    rewrite in_flat_map. exists (shift p). split; [exact Hs |].
    rewrite in_map_iff. exists (hospital p). split; [destruct p; reflexivity | exact Hh].
Qed.

Lemma in_nights (D : list (instance Doctor)) (T : list datetime) (n : Nightshift) :
  In n (flat_map (fun doctor =>
          map (fun shift_day => {| night_doctor := doctor; day := shift_day |}) T) D) ->
  In (night_doctor n) D /\ In (day n) T.
Proof.
  rewrite in_flat_map. intros (d & Hd & Hn).
  rewrite in_map_iff in Hn. destruct Hn as (t & <- & Ht). simpl. auto.
Qed.

Section Model.

Variable Doctors_sheet : list Doctor.
Variable hospitals : list string.
Variable x : Placement -> Z.

Let doctors := doctors Doctors_sheet.
Let placements := placements Doctors_sheet hospitals.

Lemma in_placements (p : Placement) :
  In p placements <-> In (doctor p) doctors /\ In (shift p) shifts /\ In (hospital p) hospitals.
Proof. exact (in_product doctors shifts hospitals p). Qed.

Lemma in_nightshifts (n : Nightshift) :
  In n (nightshifts Doctors_sheet) -> In (night_doctor n) doctors /\ In (day n) shift_days.
Proof. exact (in_nights doctors shift_days n). Qed.

(** The sums of the constraints over several days, evaluated: the date
    arithmetic succeeds on every shift day, and the sum over
    placements and days is the sum over the days of the shifts worked
    on each. *)
Lemma nights_value (n : Nightshift) (a b : Z) :
  In n (nightshifts Doctors_sheet) -> 0 <= a -> b <= day_limit + 1 ->
  nights Doctors_sheet hospitals x n a b
  = Some (xp_Sum (map (fun k => worked Doctors_sheet hospitals x (night_doctor n)
                                       (date (day n) + k)) (range a b))).
Proof.
  intros Hn Ha Hb. apply in_nightshifts in Hn as [_ Ht].
  unfold nights.
  rewrite (xp_Sum_if_total _ _
             (fun pk => same (doctor (fst pk)) (night_doctor n)
                        && (shift_date (fst pk) =? date (day n) + snd pk))).
  - rewrite xp_Sum_exchange. reflexivity.
  - intros [p k] Hpk. apply in_prod_iff in Hpk as [_ Hk].
    apply in_range_ab in Hk. cbn [fst snd].
    destruct (days_added (day n) k Ht ltac:(lia)) as [_ ->].
    destruct (same (doctor p) (night_doctor n)); reflexivity.
Qed.

Lemma max_time_working_value (d : instance Doctor) (t : datetime) :
  In t shift_days ->
  max_time_working_at Doctors_sheet hospitals x d t
  = Some (xp_Sum (map (fun j => worked Doctors_sheet hospitals x d (date t + j))
                      (range 0 (day_limit + 1))) <=? day_limit).
Proof.
  intros Ht. unfold max_time_working_at.
  rewrite (xp_Sum_if_total _ _
             (fun pj => same (doctor (fst pj)) d
                        && (shift_date (fst pj) =? date t + snd pj))).
  - rewrite xp_Sum_exchange. reflexivity.
  - intros [p j] Hpj. apply in_prod_iff in Hpj as [_ Hj].
    apply in_range_ab in Hj. cbn [fst snd].
    destruct (days_added t j Ht ltac:(lia)) as [(t' & -> & Hdate) _].
    rewrite Hdate. destruct (same (doctor p) d); reflexivity.
Qed.

(** The dates the constraints compute stay within the calendar of
    Python's [datetime]: building the constraints raises no
    [OverflowError]. *)
Theorem schedule_constraints_never_raise
    (y : Nightshift -> Z) (d : instance Doctor) (t : datetime) (n : Nightshift) :
  In t shift_days -> In n (nightshifts Doctors_sheet) ->
  max_time_working_at Doctors_sheet hospitals x d t <> None
  /\ force_nightshift_work_at Doctors_sheet hospitals x y n <> None
  /\ force_rest_at Doctors_sheet hospitals x y n <> None.
Proof.
  intros Ht Hn. unfold force_nightshift_work_at, force_rest_at.
  rewrite (max_time_working_value d t Ht).
  rewrite !nights_value by (try exact Hn; unfold day_limit; lia).
  repeat split; discriminate.
Qed.

Hypothesis Hbinary : binary Doctors_sheet hospitals x = true.

Lemma binary_spec (p : Placement) : In p placements -> x p = 0 \/ x p = 1.
Proof.
  intros Hp. unfold binary in Hbinary. rewrite forallb_forall in Hbinary.
  specialize (Hbinary p Hp). apply orb_prop in Hbinary as [H | H];
    apply Z.eqb_eq in H; auto.
Qed.

Lemma filter_nonneg (c : Placement -> bool) (p : Placement) :
  In p (List.filter c placements) -> 0 <= x p.
Proof.
  intros Hp. apply filter_In in Hp as [Hp _].
  destruct (binary_spec p Hp); lia.
Qed.

(** A sum of placements that is zero leaves no placement in it. *)
Lemma zero_sum_excludes (c : Placement -> bool) (p : Placement) :
  xp_Sum (map x (List.filter c placements)) = 0 ->
  In p placements -> c p = true -> x p = 0.
Proof.
  intros Hs Hp Hc.
  assert (Hin : In p (List.filter c placements)) by (apply filter_In; auto).
  pose proof (sched_Sum_ge_member x _ p (filter_nonneg c) Hin).
  destruct (binary_spec p Hp); lia.
Qed.

Lemma worked_nonneg (d : instance Doctor) (on : Z) :
  0 <= worked Doctors_sheet hospitals x d on.
Proof.
  unfold worked. apply sched_Sum_nonneg. intros v Hv.
  apply in_map_iff in Hv as (p & <- & Hp). eapply filter_nonneg, Hp.
Qed.

Lemma worked_at_most_once (d : instance Doctor) (on : Z) :
  one_shift_limit Doctors_sheet hospitals x = true ->
  In d doctors -> worked Doctors_sheet hospitals x d on <= 1.
Proof.
  intros Hlim Hd.
  destruct (existsb (fun t => date t =? on) shift_days) eqn:E.
  - rewrite existsb_exists in E. destruct E as (t & Ht & Heq).
    apply Z.eqb_eq in Heq. subst on.
    unfold one_shift_limit in Hlim. rewrite forallb_forall in Hlim.
    specialize (Hlim d Hd). rewrite forallb_forall in Hlim.
    specialize (Hlim t Ht). apply Z.leb_le, Hlim.
  - assert (Hnone : List.filter (fun p => same (doctor p) d && (shift_date p =? on))
                                placements = []).
    { apply filter_none. intros p Hp.
      destruct (same (doctor p) d && (shift_date p =? on)) eqn:Hc; [| reflexivity].
      apply andb_prop in Hc as [_ Hc]. apply Z.eqb_eq in Hc.
      apply in_placements in Hp as (_ & Hs & _).
      pose proof calendar_shifts_start_on_shift_days as Hcal.
      unfold shifts_start_on_shift_days in Hcal. rewrite forallb_forall in Hcal.
      specialize (Hcal _ Hs). rewrite existsb_exists in Hcal.
      destruct Hcal as (t & Ht & Heq). apply Z.eqb_eq in Heq.
      assert (Hex : existsb (fun t => date t =? on) shift_days = true).
      { rewrite existsb_exists. exists t. split; [exact Ht |].
        apply Z.eqb_eq. unfold shift_date in Hc. congruence. }
      congruence. }
    unfold worked. fold placements. rewrite Hnone. cbn [map xp_Sum fold_right]. lia.
Qed.

(** A pregnant doctor is placed only on shifts that start on a
    weekday at 06:00 or at 14:00 and last eight hours: never at
    night and never at a weekend. *)
Theorem pregnant_doctors_work_weekday_day_shifts (p : Placement) :
  pregnancy_limit Doctors_sheet hospitals x = true ->
  In p placements -> is_pregnant (attributes (doctor p)) = true -> x p = 1 ->
  weekday (start_time (attributes (shift p))) < 5
  /\ (hour (clock (start_time (attributes (shift p)))) = 6
      \/ hour (clock (start_time (attributes (shift p)))) = 14)
  /\ (duration_in_hours (attributes (shift p)) == 8)%Q.
Proof.
  intros Hlim Hp Hpreg Hx.
  destruct (proj1 (in_placements p) Hp) as (Hd & Hs & _).
  unfold pregnancy_limit in Hlim. rewrite forallb_forall in Hlim.
  specialize (Hlim (doctor p)
                ltac:(apply filter_In; split; [exact Hd | exact Hpreg])).
  apply Z.eqb_eq in Hlim.
  destruct (can_work_pregnant (attributes (shift p))) eqn:Hopen.
  - pose proof calendar_open_shifts as Hcal.
    unfold open_shifts_are_weekday_day_shifts in Hcal.
    rewrite forallb_forall in Hcal. specialize (Hcal _ Hs).
    rewrite Hopen in Hcal. cbn [implb] in Hcal.
    apply andb_prop in Hcal as [Hcal Hdur]. apply andb_prop in Hcal as [Hwd Hhour].
    apply Z.ltb_lt in Hwd. apply Qeq_bool_iff in Hdur.
    split; [exact Hwd | split; [| exact Hdur]].
    apply orb_prop in Hhour as [H | H]; apply Z.eqb_eq in H; auto.
  - pose proof (zero_sum_excludes _ p Hlim Hp) as H0.
    cbn beta in H0. rewrite same_refl, Hopen in H0.
    specialize (H0 eq_refl). lia.
Qed.

(** A doctor is placed only in hospitals of their work locations. *)
Theorem doctors_work_at_their_locations (p : Placement) :
  hospital_limit Doctors_sheet hospitals x = true ->
  In p placements -> x p = 1 ->
  In (hospital p) (work_locations (attributes (doctor p))).
Proof.
  intros Hlim Hp Hx.
  destruct (proj1 (in_placements p) Hp) as (Hd & _ & _).
  unfold hospital_limit in Hlim. rewrite forallb_forall in Hlim.
  specialize (Hlim (doctor p) Hd). apply Z.eqb_eq in Hlim.
  destruct (existsb (String.eqb (hospital p))
                    (work_locations (attributes (doctor p)))) eqn:Hex.
  - rewrite existsb_exists in Hex. destruct Hex as (h & Hh & Heq).
    apply String.eqb_eq in Heq. rewrite Heq. exact Hh.
  - pose proof (zero_sum_excludes _ p Hlim Hp) as H0.
    cbn beta in H0. rewrite same_refl, Hex in H0.
    specialize (H0 eq_refl). lia.
Qed.

(** Every shift of every hospital is worked by exactly one doctor. *)
Theorem every_shift_has_one_doctor (s : instance Shift) (h : string) :
  force_shift_fulfillment Doctors_sheet hospitals x = true ->
  In s shifts -> In h hospitals ->
  exists d, In d doctors
            /\ x {| doctor := d; shift := s; hospital := h |} = 1
            /\ forall d', In d' doctors -> d' <> d ->
                          x {| doctor := d'; shift := s; hospital := h |} = 0.
Proof.
  intros Hful Hs Hh.
  unfold force_shift_fulfillment in Hful. rewrite forallb_forall in Hful.
  specialize (Hful s Hs). rewrite forallb_forall in Hful.
  specialize (Hful h Hh). apply Z.eqb_eq in Hful.
  set (c := fun p => same (shift p) s && String.eqb (hospital p) h) in Hful.
  fold placements in Hful.
  destruct (sched_Sum_one x (List.filter c placements)) as (p & Hp & Hx);
    [intros a Ha; apply filter_In in Ha as [Ha _]; apply binary_spec, Ha
    | exact Hful |].
  destruct (proj1 (filter_In _ _ _) Hp) as [Hp' Hc].
  apply andb_prop in Hc as [Hsame Hhosp]. apply String.eqb_eq in Hhosp.
  destruct (proj1 (in_placements p) Hp') as (Hd & Hs' & _).
  pose proof (same_instance (fst calendar) (shift p) s Hs' Hs Hsame) as Hshift.
  assert (Ep : p = {| doctor := doctor p; shift := s; hospital := h |}).
  { destruct p; cbn in *; congruence. }
  exists (doctor p). split; [exact Hd | split; [rewrite <- Ep; exact Hx |]].
  intros d' Hd' Hne.
  set (q := {| doctor := d'; shift := s; hospital := h |}).
  assert (Hq' : In q placements) by (apply in_placements; cbn; auto).
  assert (Hq : In q (List.filter c placements)).
  { apply filter_In. split; [exact Hq' |]. unfold c. cbn [shift hospital q].
    rewrite same_refl, String.eqb_refl. reflexivity. }
  assert (Hpq : p <> q).
  { intros E. apply Hne. rewrite E. reflexivity. }
  pose proof (sched_Sum_ge_two x _ p q (filter_nonneg c) Hp Hq Hpq) as Hsum.
  destruct (binary_spec q Hq'); lia.
Qed.

(** The two night shift constraints hold with [y = 0] for every
    placement that respects the one-shift-a-day limit: as [y] is tied
    to nothing else, they never rule out a schedule. *)
Theorem night_shift_constraints_never_bind (n : Nightshift) :
  one_shift_limit Doctors_sheet hospitals x = true ->
  In n (nightshifts Doctors_sheet) ->
  force_nightshift_work_at Doctors_sheet hospitals x (fun _ => 0) n = Some true
  /\ force_rest_at Doctors_sheet hospitals x (fun _ => 0) n = Some true.
Proof.
  intros Hlim Hn.
  destruct (in_nightshifts n Hn) as [Hd _].
  unfold force_nightshift_work_at, force_rest_at.
  rewrite !nights_value by (try exact Hn; unfold day_limit; lia).
  assert (Hb : forall a b,
             0 * Z.of_nat (List.length (range a b))
             <= xp_Sum (map (fun k => worked Doctors_sheet hospitals x (night_doctor n)
                                             (date (day n) + k)) (range a b))
             <= 1 * Z.of_nat (List.length (range a b))).
  { intros a b. apply sched_Sum_bounds. intros k _. split.
    - apply worked_nonneg.
    - apply worked_at_most_once; assumption. }
  pose proof (Hb 0 3) as H03. pose proof (Hb 3 6) as H36.
  change (List.length (range 0 3)) with 3%nat in H03.
  change (List.length (range 3 6)) with 3%nat in H36.
  split; f_equal.
  - apply Z.geb_le. lia.
  - apply Z.leb_le. lia.
Qed.

(** Whoever the doctor and whatever the day, one of the thirteen days
    from that day on is a day without a shift. *)
Theorem a_day_off_in_every_thirteen (d : instance Doctor) (t : datetime) :
  max_time_working_at Doctors_sheet hospitals x d t = Some true ->
  In t shift_days ->
  exists j, 0 <= j <= day_limit
            /\ worked Doctors_sheet hospitals x d (date t + j) = 0.
Proof.
  intros Hmax Ht. rewrite (max_time_working_value d t Ht) in Hmax.
  apply Some_true_inv in Hmax. apply Z.leb_le in Hmax.
  destruct (existsb (fun j => worked Doctors_sheet hospitals x d (date t + j) =? 0)
                    (range 0 (day_limit + 1))) eqn:E.
  - rewrite existsb_exists in E. destruct E as (j & Hj & H0).
    apply in_range_ab in Hj. apply Z.eqb_eq in H0.
    exists j. split; [lia | exact H0].
  - exfalso.
    assert (Hall : forall k, In k (range 0 (day_limit + 1)) ->
              1 <= worked Doctors_sheet hospitals x d (date t + k)).
    { intros k Hk.
      assert (Hne : (worked Doctors_sheet hospitals x d (date t + k) =? 0) = false).
      { destruct (worked Doctors_sheet hospitals x d (date t + k) =? 0) eqn:Hz;
          [| reflexivity].
        assert (existsb (fun j => worked Doctors_sheet hospitals x d (date t + j) =? 0)
                        (range 0 (day_limit + 1)) = true); [| congruence].
        rewrite existsb_exists. exists k. auto. }
      apply Z.eqb_neq in Hne. pose proof (worked_nonneg d (date t + k)). lia. }
    pose proof (sched_Sum_lower
                  (fun j => worked Doctors_sheet hospitals x d (date t + j))
                  1 (range 0 (day_limit + 1)) Hall) as Hlow.
    change (List.length (range 0 (day_limit + 1))) with 13%nat in Hlow.
    unfold day_limit in *. lia.
Qed.

End Model.

End SchedulingFacts.

(** ** Nurse scheduling: days worked, overtime and the objective *)

Section NurseCostsFacts.

Import Nurse NurseCosts.
Local Open Scope Z_scope.

(** The constraints of a feasible assignment, one by one. *)
Lemma feasible_constraints (x : assignment) :
  feasible x = true ->
  (forall d s n, In d DRange -> In s SRange -> In n NRange -> binary_var (x d s n) = true)
  /\ (forall d n, In d DRange -> In n NRange -> assign_day_nurse x d n = true)
  /\ (forall d s, In d DRange -> In s SRange -> assign_day_shift x d s = true)
  /\ (forall n, In n NRange -> LB_day_off x n = true /\ UB_day_off x n = true).
Proof.
  unfold feasible. intros H.
  apply andb_prop in H as [H _]. apply andb_prop in H as [H _].
  apply andb_prop in H as [H HUB]. apply andb_prop in H as [H HLB].
  apply andb_prop in H as [H Hshift]. apply andb_prop in H as [Hbin Hnurse].
  rewrite forallb_forall in Hbin, Hnurse, Hshift, HLB, HUB.
  repeat split.
  - intros d s n Hd Hs Hn. specialize (Hbin d Hd).
    rewrite forallb_forall in Hbin. specialize (Hbin s Hs).
    rewrite forallb_forall in Hbin. exact (Hbin n Hn).
  - intros d n Hd Hn. specialize (Hnurse d Hd).
    rewrite forallb_forall in Hnurse. exact (Hnurse n Hn).
  - intros d s Hd Hs. specialize (Hshift d Hd).
    rewrite forallb_forall in Hshift. exact (Hshift s Hs).
  - apply HLB. assumption.
  - apply HUB. assumption.
Qed.

Ltac in_range := cbv [DRange SRange NRange nDays nShifts nNurses seq In]; tauto.

Lemma binary_var_spec (v : Z) : binary_var v = true -> 0 <= v <= 1.
Proof.
  unfold binary_var. intros H. apply orb_prop in H as [H | H];
    apply Z.eqb_eq in H; lia.
Qed.

Lemma day_off_sums (x : assignment) :
  feasible x = true ->
  forall n, In n NRange ->
  1 <= mdl_sum (map (fun d => x d 0%nat n) DRange) <= 2
  /\ mdl_sum (map (fun d => x d 0%nat n) DRange) + Z.of_nat (days_worked x n) = 7.
Proof.
  intros H n Hn.
  destruct (feasible_constraints x H) as (Hbin & Hnurse & _ & Hoff).
  destruct (Hoff n Hn) as [HLB HUB].
  unfold LB_day_off in HLB. unfold UB_day_off in HUB.
  apply Z.geb_le in HLB. apply Z.leb_le in HUB.
  split; [lia |].
  apply (days_off_plus_days_worked x n DRange).
  - intros d s Hd Hs. apply Hbin; assumption.
  - intros d Hd. apply Hnurse; assumption.
Qed.

Lemma one_nurse_off_each_day (x : assignment) :
  feasible x = true ->
  mdl_sum (map (fun d => x d 0%nat 0%nat) DRange)
  + mdl_sum (map (fun d => x d 0%nat 1%nat) DRange)
  + mdl_sum (map (fun d => x d 0%nat 2%nat) DRange)
  + mdl_sum (map (fun d => x d 0%nat 3%nat) DRange) = 7.
Proof.
  intros H.
  destruct (feasible_constraints x H) as (_ & _ & Hshift & _).
  assert (Hd : forall d, In d DRange ->
                 x d 0%nat 0%nat + (x d 0%nat 1%nat + (x d 0%nat 2%nat + (x d 0%nat 3%nat + 0))) = 1).
  { intros d Hd. specialize (Hshift d 0%nat Hd ltac:(in_range)).
    apply Z.eqb_eq in Hshift. exact Hshift. }
  pose proof (Hd 0%nat ltac:(in_range)). pose proof (Hd 1%nat ltac:(in_range)).
  pose proof (Hd 2%nat ltac:(in_range)). pose proof (Hd 3%nat ltac:(in_range)).
  pose proof (Hd 4%nat ltac:(in_range)). pose proof (Hd 5%nat ltac:(in_range)).
  pose proof (Hd 6%nat ltac:(in_range)).
  cbv [DRange nDays seq map mdl_sum fold_right]. lia.
Qed.

(** One nurse is off on each of the seven days and every nurse is off
    once or twice, so exactly one of the four nurses works six days
    and the other three work five. *)
Theorem one_nurse_works_six_days (x : assignment) :
  feasible x = true ->
  List.length (List.filter (fun n => Nat.eqb (days_worked x n) 6) NRange) = 1%nat
  /\ List.length (List.filter (fun n => Nat.eqb (days_worked x n) 5) NRange) = 3%nat.
Proof.
  intros H.
  pose proof (one_nurse_off_each_day x H) as Htotal.
  destruct (day_off_sums x H 0%nat ltac:(in_range)) as [B0 W0].
  destruct (day_off_sums x H 1%nat ltac:(in_range)) as [B1 W1].
  destruct (day_off_sums x H 2%nat ltac:(in_range)) as [B2 W2].
  destruct (day_off_sums x H 3%nat ltac:(in_range)) as [B3 W3].
  change NRange with [0; 1; 2; 3]%nat. cbn [List.filter].
  destruct (Nat.eqb_spec (days_worked x 0) 6), (Nat.eqb_spec (days_worked x 1) 6),
           (Nat.eqb_spec (days_worked x 2) 6), (Nat.eqb_spec (days_worked x 3) 6),
           (Nat.eqb_spec (days_worked x 0) 5), (Nat.eqb_spec (days_worked x 1) 5),
           (Nat.eqb_spec (days_worked x 2) 5), (Nat.eqb_spec (days_worked x 3) 5);
    cbn [List.length]; lia.
Qed.

Lemma worked_shifts_value (x : assignment) (n : nat) :
  feasible x = true -> In n NRange ->
  worked_shifts x n = Z.of_nat (days_worked x n).
Proof.
  intros H Hn.
  destruct (day_off_sums x H n Hn) as [_ W].
  destruct (feasible_constraints x H) as (_ & Hnurse & _ & _).
  assert (Hd : forall d, In d DRange ->
                 x d 0%nat n + (x d 1%nat n + (x d 2%nat n + (x d 3%nat n + 0))) = 1).
  { intros d Hd. specialize (Hnurse d n Hd Hn). apply Z.eqb_eq in Hnurse. exact Hnurse. }
  pose proof (Hd 0%nat ltac:(in_range)). pose proof (Hd 1%nat ltac:(in_range)).
  pose proof (Hd 2%nat ltac:(in_range)). pose proof (Hd 3%nat ltac:(in_range)).
  pose proof (Hd 4%nat ltac:(in_range)). pose proof (Hd 5%nat ltac:(in_range)).
  pose proof (Hd 6%nat ltac:(in_range)).
  revert W.
  cbv [worked_shifts DRange SRange nDays nShifts seq map flat_map app Nat.ltb Nat.leb
       mdl_sum fold_right]. lia.
Qed.

(** Anne has four regular shifts and works five or six days: she
    always works overtime, one or two shifts of it. *)
Theorem Anne_always_works_overtime (x : assignment) (y : nat -> Z) :
  feasible x = true -> OvertimeDefinition x y 0%nat = true ->
  y 0%nat = Z.of_nat (days_worked x 0%nat) - 4 /\ 1 <= y 0%nat <= 2.
Proof.
  intros H Hy.
  pose proof (worked_shifts_value x 0%nat H ltac:(in_range)) as Hw.
  destruct (day_off_sums x H 0%nat ltac:(in_range)) as [B W].
  unfold OvertimeDefinition in Hy. rewrite Hw in Hy.
  change (Nurses_2 0%nat) with 4 in Hy.
  destruct (Z.geb_spec (Z.of_nat (days_worked x 0%nat)) 4) as [Hge | Hlt]; [| lia].
  cbn [implb] in Hy. apply Z.eqb_eq in Hy. lia.
Qed.

(** The objective reads [s], not the [S] its comprehension binds: for
    every nurse it counts the days on shift 3 four times over and no
    other shift.  Over a feasible schedule it so counts 28 shifts,
    where 21 are worked. *)
Theorem objective_counts_shift_3_only (x : assignment) :
  feasible x = true ->
  (forall n, regular_shifts x n = 4 * mdl_sum (map (fun d => x d 3%nat n) DRange))
  /\ mdl_sum (map (regular_shifts x) NRange) = 28
  /\ mdl_sum (map (worked_shifts x) NRange) = 21.
Proof.
  intros H.
  assert (Hreg : forall n, regular_shifts x n
                           = 4 * mdl_sum (map (fun d => x d 3%nat n) DRange)).
  { intros n.
    cbv [regular_shifts s List.last DRange SRange nDays nShifts seq map flat_map app
         Nat.ltb Nat.leb mdl_sum fold_right]. lia. }
  split; [exact Hreg | split].
  - destruct (feasible_constraints x H) as (_ & _ & Hshift & _).
    assert (Hd : forall d, In d DRange ->
                   x d 3%nat 0%nat + (x d 3%nat 1%nat + (x d 3%nat 2%nat + (x d 3%nat 3%nat + 0))) = 1).
    { intros d Hd. specialize (Hshift d 3%nat Hd ltac:(in_range)).
      apply Z.eqb_eq in Hshift. exact Hshift. }
    pose proof (Hd 0%nat ltac:(in_range)). pose proof (Hd 1%nat ltac:(in_range)).
    pose proof (Hd 2%nat ltac:(in_range)). pose proof (Hd 3%nat ltac:(in_range)).
    pose proof (Hd 4%nat ltac:(in_range)). pose proof (Hd 5%nat ltac:(in_range)).
    pose proof (Hd 6%nat ltac:(in_range)).
    change NRange with [0; 1; 2; 3]%nat. cbn [map]. rewrite !Hreg.
    cbv [DRange nDays seq map mdl_sum fold_right]. lia.
  - pose proof (one_nurse_off_each_day x H) as Htotal.
    destruct (day_off_sums x H 0%nat ltac:(in_range)) as [_ W0].
    destruct (day_off_sums x H 1%nat ltac:(in_range)) as [_ W1].
    destruct (day_off_sums x H 2%nat ltac:(in_range)) as [_ W2].
    destruct (day_off_sums x H 3%nat ltac:(in_range)) as [_ W3].
    change NRange with [0; 1; 2; 3]%nat. cbn [map].
    rewrite !worked_shifts_value by (try exact H; in_range).
    cbn [mdl_sum fold_right]. lia.
Qed.

End NurseCostsFacts.

(** ** Facility location *)

Section FacilityLocationFacts.

Import FacilityLocation.

Lemma for_each {A : Type} (P : A -> Prop) (l : list A) :
  (forall a, In a l -> P a) -> fold_right (fun a acc => P a /\ acc) True l.
Proof.
  induction l as [|a l IH]; intros H; simpl; [exact I |].
  split; [apply H; left; reflexivity | apply IH; intros b Hb; apply H; right; exact Hb].
Qed.

Lemma binary_IZR (v : Z) : v = 0%Z \/ v = 1%Z -> (IZR v = 0 \/ IZR v = 1)%R.
Proof. intros [-> | ->]; auto. Qed.

Lemma shipped_le (a b s : R) :
  (s = 0 \/ s = 1)%R -> (a + (b + 0) <= 3)%R -> (a <= 3 * s)%R -> (b <= 3 * s)%R ->
  (a + b <= 3 * s)%R.
Proof. intros [-> | ->] H1 H2 H3; lra. Qed.

(** The two clients ask for seven units and a facility ships at most
    three: whatever [n_factories] is set to, the demand cannot be met
    from fewer than three facilities. *)
Theorem three_facilities_are_needed (f : Connection -> R) (x : Facility -> Z) :
  binary x -> maximum_capacity f -> flows_zero_if_not_selected f x ->
  demand_satisfaction f ->
  (3 <= fold_right Z.add 0 (map x facilities))%Z.
Proof.
  intros Hbin Hcap Hflow Hdem.
  apply for_each in Hbin, Hcap, Hflow, Hdem.
  unfold max_transport_from_facility in *.
  let l := eval vm_compute in facilities in
    (change facilities with l in Hbin, Hcap; change facilities with l).
  let l := eval vm_compute in connections in change connections with l in Hflow.
  let l := eval vm_compute in clients in change clients with l in Hdem.
  cbn [fold_right] in Hbin, Hcap, Hflow, Hdem.
  repeat match type of Hcap with
         | context [List.filter ?c connections] =>
             let l := eval vm_compute in (List.filter c connections) in
             change (List.filter c connections) with l in Hcap
         end.
  repeat match type of Hdem with
         | context [List.filter ?c connections] =>
             let l := eval vm_compute in (List.filter c connections) in
             change (List.filter c connections) with l in Hdem
         end.
  cbn [map xp_Sum fold_right origin demand] in Hcap, Hflow, Hdem |- *.
  decompose [and] Hbin. decompose [and] Hcap. decompose [and] Hflow.
  decompose [and] Hdem. clear Hbin Hcap Hflow Hdem.
  repeat match goal with
         | H : _ = 0%Z \/ _ = 1%Z |- _ => apply binary_IZR in H
         end.
  repeat match goal with
         | Hs : (IZR ?v = 0 \/ IZR ?v = 1)%R,
           Hc : (?a + (?b + 0) <= 3)%R,
           Ha : (?a <= 3 * IZR ?v)%R,
           Hb : (?b <= 3 * IZR ?v)%R |- _ =>
             pose proof (shipped_le a b (IZR v) Hs Hc Ha Hb); clear Hs
         end.
  apply Z.lt_pred_le. apply lt_IZR. rewrite !plus_IZR.
  change (Z.pred 3) with 2%Z. lra.
Qed.

End FacilityLocationFacts.

(** ** Basin hopping: constraints and accept tests *)

Section BasinConstraintsFacts.

Import BasinHopping BasinConstraints.

Lemma Qle_bool_minus (a b : Q) : Qle_bool 0 (a - b) = Qle_bool b a.
Proof.
  apply eq_true_iff_eq. rewrite !Qle_bool_iff. unfold Qminus.
  symmetry. apply Qle_minus_iff.
Qed.

Lemma Qle_bool_neg_plus (a b : Q) : Qle_bool 0 (- a + b) = Qle_bool a b.
Proof.
  apply eq_true_iff_eq. rewrite !Qle_bool_iff.
  rewrite (Qle_minus_iff a b), (Qplus_comm b (- a)). reflexivity.
Qed.

Lemma accept_kwargs_x_new (f_new : Q) (x_new : list Q) (f_old : Q) (x_old : list Q) :
  accept_kwargs f_new x_new f_old x_old !! "x_new" = Some x_new.
Proof.
  unfold accept_kwargs.
  rewrite lookup_insert_ne by discriminate. apply lookup_insert_eq.
Qed.

(** The dictionary [cons] and the accept test [MyBounds2] describe
    the same box: a point with two coordinates satisfies the four
    inequality constraints exactly when [mybounds2] accepts it. *)
Theorem cons_is_the_box_of_MyBounds2 (x0 x1 f_new f_old : Q) (x_old : list Q) :
  all_hold cons [x0; x1]
  = MyBounds__call__ mybounds2 (accept_kwargs f_new [x0; x1] f_old x_old).
Proof.
  unfold MyBounds__call__. rewrite accept_kwargs_x_new.
  cbn. rewrite !Qle_bool_minus, !Qle_bool_neg_plus.
  destruct (Qle_bool (5 # 10) x0), (Qle_bool x0 (11 # 10)),
           (Qle_bool (5 # 10) x1), (Qle_bool x1 (11 # 10)); reflexivity.
Qed.

Lemma np_compare_raises (f : Q -> Q -> bool) (a b : list Q) :
  np_compare f a b = None <-> broadcastable a b = false.
Proof.
  unfold np_compare, broadcastable.
  destruct (Nat.eqb (List.length a) (List.length b)) eqn:E.
  - cbn [orb]. split; discriminate.
  - cbn [orb]. destruct a as [|x [|x' a]], b as [|y [|y' b]]; cbn;
      split; first [discriminate | reflexivity].
Qed.

(** The accept test raises in two cases only: [x_new] is not among
    the keyword arguments, or it can be compared with neither bound
    because the lengths differ and none is one. *)
Theorem accept_test_raises (self : MyBounds) (kwargs : gmap string (list Q)) :
  MyBounds__call__ self kwargs = None
  <-> match kwargs !! "x_new" with
      | None => True
      | Some x => broadcastable x (BasinHopping.xmax self)
                  && broadcastable x (BasinHopping.xmin self) = false
      end.
Proof.
  unfold MyBounds__call__.
  destruct (kwargs !! "x_new") as [x |]; [| tauto].
  pose proof (np_compare_raises Qle_bool x (BasinHopping.xmax self)) as Hmax.
  pose proof (np_compare_raises (fun x y => Qle_bool y x) x (BasinHopping.xmin self)) as Hmin.
  unfold np_le, np_ge.
  destruct (np_compare Qle_bool x (BasinHopping.xmax self)) as [r1 |].
  - destruct (broadcastable x (BasinHopping.xmax self));
      [| (assert (Some r1 = None) by (apply Hmax; reflexivity)); discriminate].
    cbn [andb].
    destruct (np_compare (fun x y => Qle_bool y x) x (BasinHopping.xmin self)) as [r2 |].
    + destruct (broadcastable x (BasinHopping.xmin self));
        [split; discriminate
        | (assert (Some r2 = None) by (apply Hmin; reflexivity)); discriminate].
    + rewrite (proj1 Hmin eq_refl). tauto.
  - rewrite (proj1 Hmax eq_refl). cbn [andb]. tauto.
Qed.

End BasinConstraintsFacts.

(** ** Portfolio optimization: the bounds of [x_all] *)

Section PortfolioBudgetFacts.

Import Portfolio PortfolioBudget.
Local Open Scope R_scope.

Lemma fold_left_Rmin_le (l : list R) (a m : R) :
  m = a \/ In m l -> fold_left Rmin l a <= m.
Proof.
  revert a m. induction l as [|b l IH]; intros a m [H | H]; simpl.
  - subst. lra.
  - contradiction.
  - subst. apply Rle_trans with (Rmin a b); [| apply Rmin_l].
    apply IH. left. reflexivity.
  - destruct H as [-> | H].
    + apply Rle_trans with (Rmin a m); [| apply Rmin_r].
      apply IH. left. reflexivity.
    + apply IH. right. exact H.
Qed.

Lemma fold_left_Rmax_ge (l : list R) (a m : R) :
  m = a \/ In m l -> m <= fold_left Rmax l a.
Proof.
  revert a m. induction l as [|b l IH]; intros a m [H | H]; simpl.
  - subst. lra.
  - contradiction.
  - subst. apply Rle_trans with (Rmax a b); [apply Rmax_l |].
    apply IH. left. reflexivity.
  - destruct H as [-> | H].
    + apply Rle_trans with (Rmax a m); [apply Rmax_r |].
      apply IH. left. reflexivity.
    + apply IH. right. exact H.
Qed.

Lemma weighted_sum_bounds (investments : list Investment) (x : Investment -> R)
    (lo hi : R) :
  (forall inv, In inv investments -> lo <= mean inv <= hi /\ 0 <= x inv) ->
  lo * xp_Sum x investments
  <= xp_Sum (fun inv => mean inv * x inv) investments
  <= hi * xp_Sum x investments.
Proof.
  induction investments as [|inv l IH]; intros H; unfold xp_Sum in *;
    cbn [fold_right]; [lra |].
  destruct (H inv (or_introl eq_refl)) as [[Hlo Hhi] Hx].
  specialize (IH (fun i Hi => H i (or_intror Hi))).
  pose proof (Rmult_le_compat_r (x inv) lo (mean inv) Hx Hlo).
  pose proof (Rmult_le_compat_r (x inv) (mean inv) hi Hx Hhi).
  lra.
Qed.

(** The bounds declared for [x_all], the smallest and the largest
    mean, follow from the other constraints: the expected return of a
    portfolio that spends the whole budget lies between them. *)
Theorem x_all_bounds_are_implied (investments : list Investment)
    (x : Investment -> R) (x_all : R) :
  investments <> [] ->
  x_bounds investments x ->
  enforcing_investment_amount investments x ->
  link_x_all investments x x_all ->
  x_all_bounds investments x_all.
Proof.
  intros Hne Hx Hsum Hlink.
  destruct investments as [|inv0 rest]; [contradiction |].
  unfold x_all_bounds, min_mean, max_mean.
  set (lo := fold_left Rmin (map mean rest) (mean inv0)).
  set (hi := fold_left Rmax (map mean rest) (mean inv0)).
  assert (Hb : forall inv, In inv (inv0 :: rest) ->
                 lo <= mean inv <= hi /\ 0 <= x inv).
  { intros inv Hin.
    assert (Hm : mean inv = mean inv0 \/ In (mean inv) (map mean rest)).
    { destruct Hin as [<- | Hin]; [left; reflexivity | right; apply in_map, Hin]. }
    split; [split |].
    - apply fold_left_Rmin_le, Hm.
    - apply fold_left_Rmax_ge, Hm.
    - unfold x_bounds in Hx. rewrite List.Forall_forall in Hx.
      apply (Hx inv Hin). }
  pose proof (weighted_sum_bounds (inv0 :: rest) x lo hi Hb) as Hw.
  unfold enforcing_investment_amount in Hsum. unfold link_x_all in Hlink.
  rewrite Hsum in Hw. rewrite Hlink. lra.
Qed.

End PortfolioBudgetFacts.

(** ** The introductory notebooks *)

Section IntroductionFacts.

Import Introduction.

Lemma find_Berta_snoc (l : list string) (d : string) :
  find_Berta (l ++ [d])
  = (fst (find_Berta l) + 1,
     if String.eqb d "Berta" then fst (find_Berta l) else snd (find_Berta l)).
Proof.
  unfold find_Berta. rewrite fold_left_app. cbn [fold_left].
  destruct (fold_left _ l (0, 0)) as [current index]. reflexivity.
Qed.

(** After the loop [current] is the number of names, and [index] is
    the place of the last "Berta" in the list; when the name is not
    in the list [index] is still 0, as if it were the first. *)
Theorem find_Berta_finds_the_last (doctor_name : list string) :
  fst (find_Berta doctor_name) = List.length doctor_name
  /\ (In "Berta" doctor_name ->
      nth_error doctor_name (snd (find_Berta doctor_name)) = Some "Berta"
      /\ forall j, snd (find_Berta doctor_name) < j ->
                   nth_error doctor_name j <> Some "Berta")
  /\ (~ In "Berta" doctor_name -> snd (find_Berta doctor_name) = 0).
Proof.
  induction doctor_name as [|d l IH] using rev_ind.
  - cbn. repeat split; [contradiction | contradiction].
  - rewrite find_Berta_snoc. cbn [fst snd].
    destruct IH as (Hc & Hin & Hnot). rewrite Hc.
    split; [rewrite length_app; reflexivity |].
    destruct (String.eqb_spec d "Berta") as [-> | Hne].
    + split.
      * intros _. split.
        -- rewrite nth_error_app2 by lia. rewrite Nat.sub_diag. reflexivity.
        -- intros j Hj. rewrite (proj2 (nth_error_None _ _)); [discriminate |].
           rewrite length_app. cbn [List.length]. lia.
      * intros H. exfalso. apply H. apply in_or_app. right. left. reflexivity.
    + split.
      * intros H. apply in_app_or in H as [H | [H | []]]; [| congruence].
        destruct (Hin H) as [Hat Hlast].
        assert (Hlt : snd (find_Berta l) < List.length l).
        { apply nth_error_Some. rewrite Hat. discriminate. }
        split; [rewrite nth_error_app1 by exact Hlt; exact Hat |].
        intros j Hj. destruct (Nat.lt_ge_cases j (List.length l)) as [Hjl | Hjl].
        -- rewrite nth_error_app1 by exact Hjl. apply Hlast, Hj.
        -- rewrite nth_error_app2 by exact Hjl.
           destruct (j - List.length l) as [|k] eqn:E; cbn.
           ++ congruence.
           ++ destruct k; discriminate.
      * intros H. apply Hnot. intros H'. apply H. apply in_or_app. left. exact H'.
Qed.

Lemma dict_comprehension_app (people : list string) (height : list Z)
    (is1 is2 : list nat) (d : gmap string Z) :
  dict_comprehension people height (is1 ++ is2) d
  = match dict_comprehension people height is1 d with
    | Some d' => dict_comprehension people height is2 d'
    | None => None
    end.
Proof.
  revert d. induction is1 as [|i is1 IH]; intros d; cbn; [reflexivity |].
  destruct (nth_error people i), (nth_error height i); try reflexivity. apply IH.
Qed.

(** The comprehension over the first [n] indices. *)
Lemma dict_comprehension_prefix (people : list string) (height : list Z) (n : nat) :
  n <= List.length people ->
  match dict_comprehension people height (seq 0 n) ∅ with
  | Some d =>
      n <= List.length height
      /\ (List.NoDup people ->
          forall i name, i < n -> nth_error people i = Some name ->
                         d !! name = nth_error height i)
      /\ (forall name, d !! name <> None ->
                       exists i, i < n /\ nth_error people i = Some name)
  | None => List.length height < n
  end.
Proof.
  induction n as [|n IH]; intros Hn.
  - cbn. split; [lia |]. split; [intros _ i name Hi; lia |].
    intros name H. rewrite lookup_empty in H. contradiction.
  - rewrite seq_S, dict_comprehension_app. cbn [Nat.add].
    specialize (IH ltac:(lia)).
    destruct (dict_comprehension people height (seq 0 n) ∅) as [d |]; [| lia].
    destruct IH as (Hh & Hlook & Hdom). cbn [dict_comprehension].
    destruct (nth_error people n) as [k |] eqn:Ek;
      [| apply nth_error_None in Ek; lia].
    destruct (nth_error height n) as [v |] eqn:Ev;
      [| apply nth_error_None in Ev; lia].
    assert (Hhn : n < List.length height) by (apply nth_error_Some; congruence).
    split; [lia |]. split.
    + intros Hnd i name Hi Hname.
      destruct (Nat.eq_dec i n) as [-> | Hne].
      * assert (name = k) by congruence. subst name.
        rewrite lookup_insert_eq. symmetry. exact Ev.
      * assert (Hkn : k <> name).
        { intros <-. apply Hne.
          apply (proj1 (List.NoDup_nth_error people) Hnd i n);
            [apply nth_error_Some; congruence | congruence]. }
        rewrite lookup_insert_ne by exact Hkn. apply Hlook; [exact Hnd | lia | exact Hname].
    + intros name H. destruct (String.eqb_spec k name) as [<- | Hkn].
      * exists n. split; [lia | exact Ek].
      * rewrite lookup_insert_ne in H by exact Hkn.
        destruct (Hdom name H) as (i & Hi & Hname). exists i. split; [lia | exact Hname].
Qed.

(** The dictionary comprehension raises exactly when [height] has
    fewer items than [people].  Otherwise, with no name twice in
    [people], it maps every name to the height at the same place, and
    it has no other key. *)
Theorem heights_of_people (people : list string) (height : list Z) :
  match heights people height with
  | Some d =>
      List.length people <= List.length height
      /\ (List.NoDup people ->
          forall i name, nth_error people i = Some name ->
                         d !! name = nth_error height i)
      /\ (forall name, d !! name <> None -> In name people)
  | None => List.length height < List.length people
  end.
Proof.
  unfold heights.
  pose proof (dict_comprehension_prefix people height (List.length people) (le_n _)) as H.
  destruct (dict_comprehension people height (seq 0 (List.length people)) ∅) as [d |];
    [| exact H].
  destruct H as (Hh & Hlook & Hdom). split; [exact Hh |]. split.
  - intros Hnd i name Hname. apply Hlook; [exact Hnd | | exact Hname].
    apply nth_error_Some. congruence.
  - intros name H. destruct (Hdom name H) as (i & _ & Hname).
    eapply nth_error_In, Hname.
Qed.

End IntroductionFacts.

(** ** Urban zone fares *)

Section FaresFacts.

Import Py Records Fares.
Local Open Scope R_scope.

Lemma connections_ridership_data : ridership_falls_with_the_fare = true.
Proof. vm_compute. reflexivity. Qed.

Lemma connection_attributes (c : gmap string pyval) :
  In c connections ->
  exists p e, attribute c "base_ridership" = Some p
              /\ attribute c "elasticity" = Some e /\ 0 < p /\ e < 0.
Proof.
  intros Hc. pose proof connections_ridership_data as H.
  unfold ridership_falls_with_the_fare in H. rewrite forallb_forall in H.
  specialize (H c Hc). unfold ridership_data in H. unfold attribute.
  destruct (c !! "base_ridership") as [vp |]; [| discriminate].
  destruct (c !! "elasticity") as [ve |]; [| discriminate].
  destruct (as_number vp) as [p |]; [| discriminate].
  destruct (as_number ve) as [e |]; [| discriminate].
  apply andb_prop in H as [Hp He].
  exists (Q2R p), (Q2R e). split; [reflexivity |]. split; [reflexivity |].
  rewrite <- RMicromega.Q2R_0. split; apply Qreals.Qlt_Rlt, Qnot_le_lt; intros Hle.
  - apply Qle_bool_iff in Hle. rewrite Hle in Hp. discriminate.
  - apply Qle_bool_iff in Hle. rewrite Hle in He. discriminate.
Qed.

(** Ridership falls as the fare rises and may not become negative:
    the ridership relation caps the fare of a connection with
    elasticity [e] at [f0 * (1 - 1/e)], which for an elasticity of
    -0.9 or below is under the declared upper bound of 40. *)
Theorem ridership_caps_the_fare (f P : gmap string pyval -> R) (c : gmap string pyval) :
  rideship_relation f P -> In c connections -> 0 <= P c ->
  exists e, attribute c "elasticity" = Some e
            /\ e < 0
            /\ - e * f c <= f0 * (1 - e)
            /\ (e <= - (9 / 10) -> f c <= 95 / 3 < fmax).
Proof.
  intros Hrel Hc HP.
  destruct (connection_attributes c Hc) as (p & e & Hp & He & Hpos & Hneg).
  specialize (Hrel c Hc). rewrite Hp, He in Hrel.
  exists e. split; [exact He |]. split; [exact Hneg |].
  unfold f0, fmax in *.
  assert (Ht : 0 <= 1 + e * ((f c - 15) / 15)).
  { apply (Rmult_le_reg_l p); [exact Hpos |]. rewrite Rmult_0_r, <- Hrel. exact HP. }
  assert (Hcap : - e * f c <= 15 * (1 - e)) by lra.
  split; [exact Hcap |].
  intros Hle. split; [| lra].
  destruct (Rle_or_lt (f c) (95 / 3)) as [Hok | Hbad]; [exact Hok |].
  exfalso.
  assert (0 < (f c - 95 / 3) * (- e)) by (apply Rmult_lt_0_compat; lra).
  lra.
Qed.

End FaresFacts.

(** ** More instances

    The statements of the second part that have hypotheses, each taken
    at a concrete input. *)

Section MoreInstances.

(** The board the N-queens notebook prints, and its queens in the
    first two rows. *)
Lemma feasible_queens_do_not_attack_on_printed_board :
  let p := {| NQueens.row := 0; NQueens.column := 1 |} in
  let q := {| NQueens.row := 1; NQueens.column := 4 |} in
  NQueens.feasible NQueens.n NQueens.xVal = Some true
  /\ In p (NQueens.positions NQueens.n) /\ In q (NQueens.positions NQueens.n)
  /\ NQueens.xVal p = 1%Z /\ NQueens.xVal q = 1%Z /\ p <> q
  /\ ~ NQueens.attacks p q.
Proof.
  intros p q.
  assert (Hf : NQueens.feasible NQueens.n NQueens.xVal = Some true)
    by (vm_compute; reflexivity).
  assert (Hp : In p (NQueens.positions NQueens.n)) by (vm_compute; tauto).
  assert (Hq : In q (NQueens.positions NQueens.n)) by (vm_compute; tauto).
  assert (Hxp : NQueens.xVal p = 1%Z) by reflexivity.
  assert (Hxq : NQueens.xVal q = 1%Z) by reflexivity.
  assert (Hpq : p <> q) by discriminate.
  repeat (split; [assumption |]).
  exact (feasible_queens_do_not_attack NQueens.n NQueens.xVal p q Hf Hp Hq Hxp Hxq Hpq).
Defined.

(** The first row and the first column of the printed board. *)
Lemma feasible_fills_rows_and_columns_on_printed_board :
  NQueens.feasible NQueens.n NQueens.xVal = Some true
  /\ (0 <= 0 < NQueens.n)%Z
  /\ NQueens.xp_Sum (map NQueens.xVal
                         (List.filter (fun pos => (NQueens.row pos =? 0)%Z)
                                      (NQueens.positions NQueens.n))) = 1%Z
  /\ NQueens.xp_Sum (map NQueens.xVal
                         (List.filter (fun pos => (NQueens.column pos =? 0)%Z)
                                      (NQueens.positions NQueens.n))) = 1%Z.
Proof.
  assert (Hf : NQueens.feasible NQueens.n NQueens.xVal = Some true)
    by (vm_compute; reflexivity).
  assert (Hi : (0 <= 0 < NQueens.n)%Z) by (unfold NQueens.n; lia).
  split; [exact Hf |]. split; [exact Hi |].
  exact (feasible_fills_rows_and_columns NQueens.n NQueens.xVal 0%Z Hf Hi).
Defined.

(** The tank filled at the full rate, at its first step. *)
Lemma tank_level_bounded_by_time_when_filling :
  Tank.feasible Tank.x_fill Tank.u_fill
  /\ (0 < Tank.N)%nat
  /\ (Tank.x_fill 0 <= Tank.x_fill (0 + 1) <= Tank.x_fill 0 + 1)%R
  /\ (Tank.x_fill (0 + 1) <= INR (0 + 1))%R.
Proof.
  assert (Hk : (0 < Tank.N)%nat) by (unfold Tank.N; lia).
  split; [exact fill_feasible |]. split; [exact Hk |].
  exact (tank_level_bounded_by_time Tank.x_fill Tank.u_fill 0%nat fill_feasible Hk).
Defined.

Lemma tank_optimal_cost_when_filling :
  Tank.feasible Tank.x_fill Tank.u_fill
  /\ (Tank.cost Tank.x_fill <= Tank.cost Tank.x_fill)%R
  /\ Tank.cost Tank.x_fill = 55%R
  /\ Tank.feasible Tank.x_fill Tank.u_fill.
Proof.
  split; [exact fill_feasible |].
  exact (tank_optimal_cost Tank.x_fill Tank.u_fill fill_feasible).
Defined.

(** One unit a step flows into tank A and, from step 1 on, from A into
    B: after five steps A holds 1 and B holds 4, the five units that
    came in. *)
Lemma two_tanks_mass_balance_in_steady_flow :
  TwoTanks.dynamics_tank_A TwoTanks.xA_flow TwoTanks.uA_flow TwoTanks.uB_flow
  /\ TwoTanks.dynamics_tank_B TwoTanks.xB_flow TwoTanks.uB_flow
  /\ (0 <= 5 <= TwoTanks.N)%Z
  /\ (TwoTanks.xA_flow 5 + TwoTanks.xB_flow 5
      = TwoTanks.xA_flow 0 + TwoTanks.xB_flow 0
        + TwoTanks.xp_Sum (map TwoTanks.uA_flow (TwoTanks.range 5)))%R.
Proof.
  assert (Hk : (0 <= 5 <= TwoTanks.N)%Z) by (unfold TwoTanks.N; lia).
  split; [exact flow_dynamics_tank_A |]. split; [exact flow_dynamics_tank_B |].
  split; [exact Hk |].
  exact (two_tanks_mass_balance TwoTanks.xA_flow TwoTanks.xB_flow
           TwoTanks.uA_flow TwoTanks.uB_flow 5%Z
           flow_dynamics_tank_A flow_dynamics_tank_B Hk).
Defined.

(** In the same trajectory tank B takes its first unit in step 1. *)
Lemma tank_B_starts_one_step_late_in_steady_flow :
  TwoTanks.inflow_bounds TwoTanks.uB_flow
  /\ TwoTanks.min_residence_time TwoTanks.xA_flow TwoTanks.uB_flow
  /\ TwoTanks.dynamics_tank_B TwoTanks.xB_flow TwoTanks.uB_flow
  /\ TwoTanks.initial_A TwoTanks.xA_flow /\ TwoTanks.initial_B TwoTanks.xB_flow
  /\ TwoTanks.uB_flow 0%Z = 0%R /\ TwoTanks.xB_flow 1%Z = 0%R.
Proof.
  assert (HA0 : TwoTanks.initial_A TwoTanks.xA_flow) by reflexivity.
  assert (HB0 : TwoTanks.initial_B TwoTanks.xB_flow) by reflexivity.
  split; [exact flow_inflow_bounds |].
  split; [exact flow_min_residence_time |].
  split; [exact flow_dynamics_tank_B |].
  split; [exact HA0 |]. split; [exact HB0 |].
  exact (tank_B_starts_one_step_late TwoTanks.xA_flow TwoTanks.xB_flow TwoTanks.uB_flow
           flow_inflow_bounds flow_min_residence_time flow_dynamics_tank_B HA0 HB0).
Defined.

(** The plant in steady operation: on day 5 the mixing stage holds the
    three units that came in on days 3, 4 and 5. *)
Lemma mixing_volume_in_steady_operation :
  Batch.mixing_balance Batch.M_steady Batch.m_steady Batch.f_steady
  /\ Batch.fixing_mixing_time Batch.f_steady Batch.m_steady
  /\ Batch.fixing_mixing_time_time0 Batch.f_steady
  /\ In 5%nat Batch.nRange
  /\ Batch.M_steady 5%nat = Batch.window Batch.m_steady 5 Batch.t_m.
Proof.
  assert (Hj : In 5%nat Batch.nRange) by (apply in_nRange; unfold Batch.n; lia).
  split; [exact (steady_balance Batch.m_steady Batch.f_steady) |].
  split; [exact steady_fixing_mixing_time |].
  split; [exact steady_fixing_mixing_time_time0 |].
  split; [exact Hj |].
  exact (mixing_volume_is_last_three_inflows Batch.M_steady Batch.m_steady Batch.f_steady
           5%nat (steady_balance Batch.m_steady Batch.f_steady)
           steady_fixing_mixing_time steady_fixing_mixing_time_time0 Hj).
Defined.

(** In steady operation the first unit reaches purification on day 13,
    blending on day 15 and the warehouse on day 16: on day 12 none of
    the three flows has started. *)
Lemma nothing_reaches_the_warehouse_in_steady_operation :
  Batch.variable Batch.p_steady /\ Batch.variable Batch.b_steady
  /\ Batch.variable Batch.w_steady /\ Batch.variable Batch.B_steady
  /\ Batch.fermentation_balance Batch.F_steady Batch.f_steady Batch.p_steady
  /\ Batch.purification_balance Batch.P_steady Batch.p_steady Batch.b_steady
  /\ Batch.blending_balance Batch.B_steady Batch.b_steady Batch.w_steady
  /\ Batch.fixing_mixing_time_time0 Batch.f_steady
  /\ Batch.minimum_time_fermentation Batch.F_steady Batch.f_steady
  /\ Batch.minimum_time_purification Batch.P_steady Batch.p_steady
  /\ Batch.fix_blending_time Batch.w_steady Batch.b_steady
  /\ (((12 < 13)%nat -> Batch.p_steady 12%nat = 0%R)
      /\ ((12 < 15)%nat -> Batch.b_steady 12%nat = 0%R)
      /\ ((12 < 16)%nat -> Batch.w_steady 12%nat = 0%R)).
Proof.
  split; [exact (steady_variable 13) |]. split; [exact (steady_variable 15) |].
  split; [exact (steady_variable 16) |]. split; [exact steady_B_variable |].
  split; [exact (steady_balance Batch.f_steady Batch.p_steady) |].
  split; [exact (steady_balance Batch.p_steady Batch.b_steady) |].
  split; [exact (steady_balance Batch.b_steady Batch.w_steady) |].
  split; [exact steady_fixing_mixing_time_time0 |].
  split; [exact steady_minimum_time_fermentation |].
  split; [exact steady_minimum_time_purification |].
  split; [exact steady_fix_blending_time |].
  exact (nothing_reaches_the_warehouse_before_day_16
           Batch.f_steady Batch.F_steady Batch.p_steady Batch.P_steady
           Batch.b_steady Batch.B_steady Batch.w_steady 12%nat
           (steady_variable 13) (steady_variable 15) (steady_variable 16)
           steady_B_variable
           (steady_balance Batch.f_steady Batch.p_steady)
           (steady_balance Batch.p_steady Batch.b_steady)
           (steady_balance Batch.b_steady Batch.w_steady)
           steady_fixing_mixing_time_time0
           steady_minimum_time_fermentation steady_minimum_time_purification
           steady_fix_blending_time).
Defined.

(** One pregnant doctor, Anne, and one hospital; the first shift of
    the calendar, Monday 1 July 2019 from 06:00 to 14:00. *)
Lemma schedule_constraints_never_raise_for_one_doctor :
  let Anne := {| Scheduling.name := "Anne"; Scheduling.is_pregnant := true;
                 Scheduling.allocation := 1; Scheduling.work_locations := ["A"] |} in
  let t := Records.start_time in
  let n := {| Scheduling.night_doctor := (0%nat, Anne); Scheduling.day := t |} in
  In t Scheduling.shift_days
  /\ In n (Scheduling.nightshifts [Anne])
  /\ Scheduling.max_time_working_at [Anne] ["A"] (fun _ => 0%Z) (0%nat, Anne) t <> None
  /\ Scheduling.force_nightshift_work_at [Anne] ["A"] (fun _ => 0%Z) (fun _ => 0%Z) n <> None
  /\ Scheduling.force_rest_at [Anne] ["A"] (fun _ => 0%Z) (fun _ => 0%Z) n <> None.
Proof.
  intros Anne t n.
  assert (Ht : In t Scheduling.shift_days) by (vm_compute; left; reflexivity).
  assert (Hn : In n (Scheduling.nightshifts [Anne])) by (vm_compute; left; reflexivity).
  split; [exact Ht |]. split; [exact Hn |].
  exact (schedule_constraints_never_raise [Anne] ["A"] (fun _ => 0%Z) (fun _ => 0%Z)
           (0%nat, Anne) t n Ht Hn).
Defined.

Lemma pregnant_doctors_work_weekday_day_shifts_for_one_doctor :
  let Anne := {| Scheduling.name := "Anne"; Scheduling.is_pregnant := true;
                 Scheduling.allocation := 1; Scheduling.work_locations := ["A"] |} in
  let x := fun p : Scheduling.Placement =>
             if Scheduling.can_work_pregnant (Scheduling.attributes (Scheduling.shift p))
             then 1%Z else 0%Z in
  let s := Scheduling.Shift__init__
             (Datetime.mk_datetime 737241 (Datetime.mk_time 6 0 0 0))
             (Datetime.mk_datetime 737241 (Datetime.mk_time 14 0 0 0)) in
  let p := {| Scheduling.doctor := (0%nat, Anne); Scheduling.shift := (0%nat, s);
              Scheduling.hospital := "A" |} in
  Scheduling.binary [Anne] ["A"] x = true
  /\ Scheduling.pregnancy_limit [Anne] ["A"] x = true
  /\ In p (Scheduling.placements [Anne] ["A"])
  /\ Scheduling.is_pregnant (Scheduling.attributes (Scheduling.doctor p)) = true
  /\ x p = 1%Z
  /\ (Datetime.weekday (Scheduling.start_time (Scheduling.attributes (Scheduling.shift p))) < 5)%Z
  /\ (Datetime.hour (Datetime.clock (Scheduling.start_time
                                        (Scheduling.attributes (Scheduling.shift p)))) = 6%Z
      \/ Datetime.hour (Datetime.clock (Scheduling.start_time
                                          (Scheduling.attributes (Scheduling.shift p)))) = 14%Z)
  /\ (Scheduling.duration_in_hours (Scheduling.attributes (Scheduling.shift p)) == 8)%Q.
Proof.
  intros Anne x s p.
  assert (Hb : Scheduling.binary [Anne] ["A"] x = true) by (vm_compute; reflexivity).
  assert (Hl : Scheduling.pregnancy_limit [Anne] ["A"] x = true) by (vm_compute; reflexivity).
  assert (Hp : In p (Scheduling.placements [Anne] ["A"])) by (vm_compute; left; reflexivity).
  assert (Hpreg : Scheduling.is_pregnant (Scheduling.attributes (Scheduling.doctor p)) = true)
    by reflexivity.
  assert (Hx : x p = 1%Z) by (vm_compute; reflexivity).
  split; [exact Hb |]. split; [exact Hl |]. split; [exact Hp |].
  split; [exact Hpreg |]. split; [exact Hx |].
  exact (pregnant_doctors_work_weekday_day_shifts [Anne] ["A"] x Hb p Hl Hp Hpreg Hx).
Defined.

Lemma doctors_work_at_their_locations_for_one_doctor :
  let Anne := {| Scheduling.name := "Anne"; Scheduling.is_pregnant := true;
                 Scheduling.allocation := 1; Scheduling.work_locations := ["A"] |} in
  let x := fun _ : Scheduling.Placement => 1%Z in
  let s := Scheduling.Shift__init__
             (Datetime.mk_datetime 737241 (Datetime.mk_time 6 0 0 0))
             (Datetime.mk_datetime 737241 (Datetime.mk_time 14 0 0 0)) in
  let p := {| Scheduling.doctor := (0%nat, Anne); Scheduling.shift := (0%nat, s);
              Scheduling.hospital := "A" |} in
  Scheduling.binary [Anne] ["A"] x = true
  /\ Scheduling.hospital_limit [Anne] ["A"] x = true
  /\ In p (Scheduling.placements [Anne] ["A"])
  /\ x p = 1%Z
  /\ In (Scheduling.hospital p)
        (Scheduling.work_locations (Scheduling.attributes (Scheduling.doctor p))).
Proof.
  intros Anne x s p.
  assert (Hb : Scheduling.binary [Anne] ["A"] x = true) by (vm_compute; reflexivity).
  assert (Hl : Scheduling.hospital_limit [Anne] ["A"] x = true) by (vm_compute; reflexivity).
  assert (Hp : In p (Scheduling.placements [Anne] ["A"])) by (vm_compute; left; reflexivity).
  assert (Hx : x p = 1%Z) by reflexivity.
  split; [exact Hb |]. split; [exact Hl |]. split; [exact Hp |]. split; [exact Hx |].
  exact (doctors_work_at_their_locations [Anne] ["A"] x Hb p Hl Hp Hx).
Defined.

(** Three doctors take the shifts of hospital A in turn: the second
    shift of 1 July is Berta's and nobody else's. *)
Lemma every_shift_has_one_doctor_in_turn :
  let doctors := [Scheduling.Anne; Scheduling.Berta; Scheduling.Carla] in
  let s := (1%nat, Scheduling.Shift__init__
                     (Datetime.mk_datetime 737241 (Datetime.mk_time 14 0 0 0))
                     (Datetime.mk_datetime 737241 (Datetime.mk_time 22 0 0 0))) in
  Scheduling.binary doctors ["A"] Scheduling.in_turn = true
  /\ Scheduling.force_shift_fulfillment doctors ["A"] Scheduling.in_turn = true
  /\ In s Scheduling.shifts
  /\ In "A" ["A"]
  /\ exists d, In d (Scheduling.doctors doctors)
               /\ Scheduling.in_turn {| Scheduling.doctor := d; Scheduling.shift := s;
                                        Scheduling.hospital := "A" |} = 1%Z
               /\ forall d', In d' (Scheduling.doctors doctors) -> d' <> d ->
                             Scheduling.in_turn
                               {| Scheduling.doctor := d'; Scheduling.shift := s;
                                  Scheduling.hospital := "A" |} = 0%Z.
Proof.
  intros doctors s.
  assert (Hb : Scheduling.binary doctors ["A"] Scheduling.in_turn = true)
    by (vm_compute; reflexivity).
  assert (Hf : Scheduling.force_shift_fulfillment doctors ["A"] Scheduling.in_turn = true)
    by (vm_compute; reflexivity).
  assert (Hs : In s Scheduling.shifts) by (vm_compute; right; left; reflexivity).
  assert (Hh : In "A" ["A"]) by (left; reflexivity).
  split; [exact Hb |]. split; [exact Hf |]. split; [exact Hs |]. split; [exact Hh |].
  exact (every_shift_has_one_doctor doctors ["A"] Scheduling.in_turn Hb s "A" Hf Hs Hh).
Defined.

(** A doctor who works the 06:00 shift of every day: three shifts in
    the three days from 1 July and three in the three days after, so
    that the second constraint holds with equality. *)
Lemma night_shift_constraints_never_bind_every_morning :
  let n := {| Scheduling.night_doctor := (0%nat, Scheduling.Anne);
              Scheduling.day := Records.start_time |} in
  Scheduling.binary [Scheduling.Anne] ["A"] Scheduling.every_morning = true
  /\ Scheduling.one_shift_limit [Scheduling.Anne] ["A"] Scheduling.every_morning = true
  /\ In n (Scheduling.nightshifts [Scheduling.Anne])
  /\ Scheduling.force_nightshift_work_at [Scheduling.Anne] ["A"] Scheduling.every_morning
       (fun _ => 0%Z) n = Some true
  /\ Scheduling.force_rest_at [Scheduling.Anne] ["A"] Scheduling.every_morning
       (fun _ => 0%Z) n = Some true.
Proof.
  intros n.
  assert (Hb : Scheduling.binary [Scheduling.Anne] ["A"] Scheduling.every_morning = true)
    by (vm_compute; reflexivity).
  assert (Hl : Scheduling.one_shift_limit [Scheduling.Anne] ["A"] Scheduling.every_morning
               = true)
    by (vm_compute; reflexivity).
  assert (Hn : In n (Scheduling.nightshifts [Scheduling.Anne]))
    by (vm_compute; left; reflexivity).
  split; [exact Hb |]. split; [exact Hl |]. split; [exact Hn |].
  exact (night_shift_constraints_never_bind [Scheduling.Anne] ["A"]
           Scheduling.every_morning Hb n Hl Hn).
Defined.

(** A doctor who works the 06:00 shift of every day but Sunday: the
    thirteen days from Monday 1 July hold twelve shifts, and Sunday
    7 July is a day off. *)
Lemma a_day_off_in_every_thirteen_with_Sundays_off :
  let t := Records.start_time in
  Scheduling.binary [Scheduling.Anne] ["A"] Scheduling.every_morning_but_Sunday = true
  /\ Scheduling.max_time_working_at [Scheduling.Anne] ["A"]
       Scheduling.every_morning_but_Sunday (0%nat, Scheduling.Anne) t = Some true
  /\ In t Scheduling.shift_days
  /\ exists j, (0 <= j <= Scheduling.day_limit)%Z
               /\ Scheduling.worked [Scheduling.Anne] ["A"]
                    Scheduling.every_morning_but_Sunday (0%nat, Scheduling.Anne)
                    (Scheduling.date t + j) = 0%Z.
Proof.
  intros t.
  assert (Hb : Scheduling.binary [Scheduling.Anne] ["A"]
                 Scheduling.every_morning_but_Sunday = true)
    by (vm_compute; reflexivity).
  assert (Hm : Scheduling.max_time_working_at [Scheduling.Anne] ["A"]
                 Scheduling.every_morning_but_Sunday (0%nat, Scheduling.Anne) t
               = Some true)
    by (vm_compute; reflexivity).
  assert (Ht : In t Scheduling.shift_days) by (vm_compute; left; reflexivity).
  split; [exact Hb |]. split; [exact Hm |]. split; [exact Ht |].
  exact (a_day_off_in_every_thirteen [Scheduling.Anne] ["A"]
           Scheduling.every_morning_but_Sunday Hb (0%nat, Scheduling.Anne) t Hm Ht).
Defined.

(** The schedule the nurse notebook prints; Anne (nurse 0) works five
    days, one shift of overtime. *)
Lemma one_nurse_works_six_days_in_printed_schedule :
  Nurse.feasible Nurse.xVal = true
  /\ List.length (List.filter (fun n => Nat.eqb (Nurse.days_worked Nurse.xVal n) 6)
                              Nurse.NRange) = 1%nat
  /\ List.length (List.filter (fun n => Nat.eqb (Nurse.days_worked Nurse.xVal n) 5)
                              Nurse.NRange) = 3%nat.
Proof.
  assert (Hf : Nurse.feasible Nurse.xVal = true) by (vm_compute; reflexivity).
  split; [exact Hf |].
  exact (one_nurse_works_six_days Nurse.xVal Hf).
Defined.

Lemma Anne_works_overtime_in_printed_schedule :
  let y := fun _ : nat => 1%Z in
  Nurse.feasible Nurse.xVal = true
  /\ NurseCosts.OvertimeDefinition Nurse.xVal y 0%nat = true
  /\ y 0%nat = (Z.of_nat (Nurse.days_worked Nurse.xVal 0%nat) - 4)%Z
  /\ (1 <= y 0%nat <= 2)%Z.
Proof.
  intros y.
  assert (Hf : Nurse.feasible Nurse.xVal = true) by (vm_compute; reflexivity).
  assert (Hy : NurseCosts.OvertimeDefinition Nurse.xVal y 0%nat = true)
    by (vm_compute; reflexivity).
  split; [exact Hf |]. split; [exact Hy |].
  exact (Anne_always_works_overtime Nurse.xVal y Hf Hy).
Defined.

Lemma objective_counts_shift_3_only_in_printed_schedule :
  Nurse.feasible Nurse.xVal = true
  /\ (forall n, NurseCosts.regular_shifts Nurse.xVal n
                = (4 * Nurse.mdl_sum (map (fun d => Nurse.xVal d 3%nat n) Nurse.DRange))%Z)
  /\ Nurse.mdl_sum (map (NurseCosts.regular_shifts Nurse.xVal) Nurse.NRange) = 28%Z
  /\ Nurse.mdl_sum (map (NurseCosts.worked_shifts Nurse.xVal) Nurse.NRange) = 21%Z.
Proof.
  assert (Hf : Nurse.feasible Nurse.xVal = true) by (vm_compute; reflexivity).
  split; [exact Hf |].
  exact (objective_counts_shift_3_only Nurse.xVal Hf).
Defined.

(** One investment with mean 1, held in full. *)
Lemma x_all_bounds_are_implied_for_one_investment :
  let inv := {| Portfolio.name := "A"; Portfolio.mean := 1%R; Portfolio.sigma := 1%R |} in
  [inv] <> []
  /\ Portfolio.x_bounds [inv] (fun _ => 1%R)
  /\ PortfolioBudget.enforcing_investment_amount [inv] (fun _ => 1%R)
  /\ Portfolio.link_x_all [inv] (fun _ => 1%R) 1%R
  /\ Portfolio.x_all_bounds [inv] 1%R.
Proof.
  intros inv.
  assert (Hne : [inv] <> []) by discriminate.
  assert (Hx : Portfolio.x_bounds [inv] (fun _ => 1%R))
    by (repeat constructor; lra).
  assert (Hs : PortfolioBudget.enforcing_investment_amount [inv] (fun _ => 1%R))
    by (unfold PortfolioBudget.enforcing_investment_amount, Portfolio.xp_Sum; simpl; lra).
  assert (Hl : Portfolio.link_x_all [inv] (fun _ => 1%R) 1%R)
    by (unfold Portfolio.link_x_all, Portfolio.xp_Sum; simpl; lra).
  split; [exact Hne |]. split; [exact Hx |]. split; [exact Hs |]. split; [exact Hl |].
  exact (x_all_bounds_are_implied [inv] (fun _ => 1%R) 1%R Hne Hx Hs Hl).
Defined.

Lemma x_all_nonnegative_for_one_investment :
  let inv := {| Portfolio.name := "A"; Portfolio.mean := 1%R; Portfolio.sigma := 1%R |} in
  Forall (fun i => (0 <= Portfolio.mean i)%R) [inv]
  /\ Portfolio.x_all_bounds [inv] 1%R
  /\ (0 <= 1)%R.
Proof.
  intros inv.
  assert (Hm : Forall (fun i => (0 <= Portfolio.mean i)%R) [inv])
    by (repeat constructor; simpl; lra).
  assert (Hb : Portfolio.x_all_bounds [inv] 1%R)
    by (unfold Portfolio.x_all_bounds; simpl; lra).
  split; [exact Hm |]. split; [exact Hb |].
  exact (x_all_nonnegative_when_means_are [inv] 1%R Hm Hb).
Defined.

(** Three facilities in the first row: the first serves client A, the
    other two serve client B. *)
Lemma three_facilities_are_needed_for_the_first_row :
  let g := fun c : FacilityLocation.Connection =>
             let o := FacilityLocation.name
                        (FacilityLocation.Facility_Unit (FacilityLocation.origin c)) in
             let d := FacilityLocation.name
                        (FacilityLocation.Client_Unit (FacilityLocation.destination c)) in
             if String.eqb o "Facility (0,0)" && String.eqb d "Client A" then 3%Z
             else if String.eqb o "Facility (0,1)" && String.eqb d "Client B" then 3%Z
             else if String.eqb o "Facility (0,2)" && String.eqb d "Client B" then 1%Z
             else 0%Z in
  let f := fun c => IZR (g c) in
  let x := fun fac : FacilityLocation.Facility =>
             if String.prefix "Facility (0,"
                  (FacilityLocation.name (FacilityLocation.Facility_Unit fac))
             then 1%Z else 0%Z in
  FacilityLocation.binary x
  /\ FacilityLocation.maximum_capacity f
  /\ FacilityLocation.flows_zero_if_not_selected f x
  /\ FacilityLocation.demand_satisfaction f
  /\ (3 <= fold_right Z.add 0 (map x FacilityLocation.facilities))%Z.
Proof.
  intros g f x.
  assert (Hbin : FacilityLocation.binary x).
  { intros fac Hin. vm_compute in Hin.
    repeat (destruct Hin as [<- | Hin]; [vm_compute; auto |]). contradiction. }
  assert (Hcap : FacilityLocation.maximum_capacity f).
  { intros fac Hin. vm_compute in Hin.
    unfold FacilityLocation.max_transport_from_facility.
    repeat (destruct Hin as [<- | Hin];
            [match goal with
             | |- context [List.filter ?c FacilityLocation.connections] =>
                 let l := eval vm_compute in (List.filter c FacilityLocation.connections) in
                 change (List.filter c FacilityLocation.connections) with l
             end;
             cbn [map FacilityLocation.xp_Sum fold_right]; unfold f;
             repeat match goal with
                    | |- context [g ?c] =>
                        let v := eval vm_compute in (g c) in change (g c) with v
                    end; lra |]).
    contradiction. }
  assert (Hflow : FacilityLocation.flows_zero_if_not_selected f x).
  { intros c Hin. vm_compute in Hin.
    unfold FacilityLocation.max_transport_from_facility.
    repeat (destruct Hin as [<- | Hin];
            [unfold f;
             match goal with
             | |- context [g ?c] =>
                 let v := eval vm_compute in (g c) in change (g c) with v
             end;
             match goal with
             | |- context [x ?a] =>
                 let v := eval vm_compute in (x a) in change (x a) with v
             end; lra |]).
    contradiction. }
  assert (Hdem : FacilityLocation.demand_satisfaction f).
  { intros client Hin. vm_compute in Hin.
    repeat (destruct Hin as [<- | Hin];
            [match goal with
             | |- context [List.filter ?c FacilityLocation.connections] =>
                 let l := eval vm_compute in (List.filter c FacilityLocation.connections) in
                 change (List.filter c FacilityLocation.connections) with l
             end;
             cbn [map FacilityLocation.xp_Sum fold_right FacilityLocation.demand]; unfold f;
             repeat match goal with
                    | |- context [g ?c] =>
                        let v := eval vm_compute in (g c) in change (g c) with v
                    end; lra |]).
    contradiction. }
  split; [exact Hbin |]. split; [exact Hcap |]. split; [exact Hflow |].
  split; [exact Hdem |].
  exact (three_facilities_are_needed f x Hbin Hcap Hflow Hdem).
Defined.

(** The fares of today: every fare is [f0] and every ridership is the
    base ridership. *)
Lemma ridership_caps_the_fare_at_the_base_fare :
  let f := fun _ : gmap string Py.pyval => 15%R in
  let P := fun c : gmap string Py.pyval =>
             match Fares.attribute c "base_ridership" with
             | Some p => p
             | None => 0%R
             end in
  let c := Records.connection "Norreport" "Kastrup" (79 # 10) (-6 # 10) 50 in
  Fares.rideship_relation f P
  /\ In c Records.connections
  /\ (0 <= P c)%R
  /\ exists e, Fares.attribute c "elasticity" = Some e
               /\ (e < 0)%R
               /\ (- e * f c <= Fares.f0 * (1 - e))%R
               /\ ((e <= - (9 / 10))%R -> (f c <= 95 / 3 < Fares.fmax)%R).
Proof.
  intros f P c.
  assert (Hrel : Fares.rideship_relation f P).
  { intros c' Hc'. unfold P.
    destruct (connection_attributes c' Hc') as (p & e & -> & -> & _ & _).
    unfold f, Fares.f0. lra. }
  assert (Hc : In c Records.connections) by (left; reflexivity).
  assert (HP : (0 <= P c)%R).
  { unfold P. destruct (connection_attributes c Hc) as (p & e & -> & _ & Hp & _). lra. }
  split; [exact Hrel |]. split; [exact Hc |]. split; [exact HP |].
  exact (ridership_caps_the_fare f P c Hrel Hc HP).
Defined.

(** The dates of the notebook, 1 July to 30 August 2019, with the 61
    units of fuel of [calendar]. *)
Lemma shift_loop_ends_for_the_notebook :
  (0 < 737241)%Z
  /\ (737301 < Datetime.MAXORDINAL)%Z
  /\ (Z.to_nat (737301 - 737241 + 1) <= 61)%nat
  /\ exists new,
       Scheduling.shift_loop 61 [] [] (Scheduling.midnight 737241)
                             (Scheduling.midnight 737301)
       = Some ([] ++ new,
               [] ++ map Scheduling.midnight (Scheduling.range 737241 (737301 + 1)))
       /\ Z.of_nat (List.length new)
          = Scheduling.xp_Sum (map Scheduling.shifts_on
                                   (Scheduling.range 737241 (737301 + 1))).
Proof.
  assert (Ha : (0 < 737241)%Z) by lia.
  assert (Hb : (737301 < Datetime.MAXORDINAL)%Z) by (unfold Datetime.MAXORDINAL; lia).
  assert (Hf : (Z.to_nat (737301 - 737241 + 1) <= 61)%nat) by (vm_compute; lia).
  split; [exact Ha |]. split; [exact Hb |]. split; [exact Hf |].
  exact (shift_loop_ends 737241 737301 61 [] [] Ha Hb Hf).
Defined.

(** The night shift from 22:00 on 1 July 2019 to 06:00 the next day. *)
Lemma duration_in_hours_of_whole_hours_at_night_shift :
  let s := Datetime.mk_datetime 737241 (Datetime.mk_time 22 0 0 0) in
  let e := Datetime.mk_datetime 737242 (Datetime.mk_time 6 0 0 0) in
  ((Datetime.ordinal e - Datetime.ordinal s) * 86400 * 1000000
   + Datetime.time_of_day (Datetime.clock e) - Datetime.time_of_day (Datetime.clock s)
   = 8 * (3600 * 1000000))%Z
  /\ (Records.duration_in_hours s e == inject_Z 8)%Q.
Proof.
  intros s e.
  assert (H : ((Datetime.ordinal e - Datetime.ordinal s) * 86400 * 1000000
               + Datetime.time_of_day (Datetime.clock e)
               - Datetime.time_of_day (Datetime.clock s)
               = 8 * (3600 * 1000000))%Z) by reflexivity.
  split; [exact H |].
  exact (duration_in_hours_of_whole_hours s e 8%Z H).
Defined.

End MoreInstances.
